(** * CA-SSN Field Data Manager: the file pipeline and the Box upload

    A shallow embedding of [cassn_field_data_manager.py]: the SD-card
    copy/rename/record loop, the sidecar writer and the background upload
    thread, together with the properties the specification states about
    them.

    Python code with side effects is embedded in a state-and-exception monad
    whose state survives a raised exception, as the interpreter's heap and
    the outside world do.  The operating system, the image library, hashlib
    and the Box SDK are interfaces (type classes); in-memory instances at the
    end of the definitions make every function executable. *)

From Stdlib Require Import ZArith List String Ascii Lia DecimalString.
From Stdlib Require DecimalPos.
From stdpp Require Import base gmap strings list.

Local Open Scope Z_scope.

(** ** Python runtime *)

Module Py.

(** An exception is represented by [str(e)], the only thing the handlers
    of this program look at. *)
Definition exn := string.

Inductive Result (A : Type) : Type :=
| Ok (a : A)
| Raise (e : exn).
Arguments Ok {A} a.
Arguments Raise {A} e.

(** A computation over a world [W]: the world is returned whether the
    computation finished or raised. *)
Definition M (W A : Type) : Type := W -> Result A * W.

Definition ret {W A} (a : A) : M W A := fun w => (Ok a, w).

Definition bind {W A B} (m : M W A) (k : A -> M W B) : M W B :=
  fun w =>
    match m w with
    | (Ok a, w') => k a w'
    | (Raise e, w') => (Raise e, w')
    end.

Definition raise {W A} (e : exn) : M W A := fun w => (Raise e, w).

(** [try: body / except Exception as e: handler e] *)
Definition try_except {W A} (body : M W A) (handler : exn -> M W A) : M W A :=
  fun w =>
    match body w with
    | (Ok a, w') => (Ok a, w')
    | (Raise e, w') => handler e w'
    end.

Definition gets {W A} (f : W -> A) : M W A := fun w => (Ok (f w), w).
Definition modify {W} (f : W -> W) : M W unit := fun w => (Ok tt, f w).

(** [for x in l: acc = body x acc], the loop-carried locals in [acc]. *)
Fixpoint for_each {W A Acc} (l : list A) (body : A -> Acc -> M W Acc)
    (acc : Acc) : M W Acc :=
  match l with
  | [] => ret acc
  | x :: l' => bind (body x acc) (for_each l' body)
  end.

(** Run a computation of a component [C] of the world. *)
Definition zoom {W C A} (get : W -> C) (set : C -> W -> W) (m : M C A) : M W A :=
  fun w => let '(r, c) := m (get w) in (r, set c w).

End Py.
Export Py.

Notation "'do' x <- m ; k" := (bind m (fun x => k))
  (at level 10, x pattern, m at level 100, k at level 200).

(** Python values that end up in dictionaries of mixed type. *)
Inductive pyval : Type :=
| PyNone
| PyStr (s : string)
| PyInt (z : Z).

(** ** str and int formatting *)

(** [str(n)] for an int. *)
Definition str_of_int (n : Z) : string := NilZero.string_of_int (Z.to_int n).

Definition zeros (k : nat) : string := string_of_list_ascii (replicate k "0"%char).

(** [f"{n:05d}"]: sign-aware zero padding to a minimum width of five. *)
Definition format_05d (n : Z) : string :=
  let digits := str_of_int (Z.abs n) in
  let sign := if n <? 0 then "-" else "" in
  sign +:+ zeros (5 - String.length sign - String.length digits) +:+ digits.

(** [f"{n:02d}"] and [f"{n:04d}"] for the date fields, which are not negative. *)
Definition format_0wd (width : nat) (n : Z) : string :=
  let digits := str_of_int n in
  zeros (width - String.length digits) +:+ digits.

Definition is_upper (c : ascii) : bool :=
  let n := nat_of_ascii c in (Nat.leb 65 n && Nat.leb n 90)%bool.

Definition lower_char (c : ascii) : ascii :=
  if is_upper c then ascii_of_nat (nat_of_ascii c + 32) else c.

(** [s.lower()], on the ASCII letters. *)
Fixpoint lower (s : string) : string :=
  match s with
  | EmptyString => EmptyString
  | String c s' => String (lower_char c) (lower s')
  end.

(** [s.startswith(p)] *)
Definition startswith (s p : string) : bool := String.prefix p s.

(** [s.rfind(c)], [None] for -1. *)
Fixpoint rfind (c : ascii) (s : string) : option nat :=
  match s with
  | EmptyString => None
  | String a s' =>
      match rfind c s' with
      | Some i => Some (S i)
      | None => if Ascii.eqb a c then Some 0%nat else None
      end
  end.

(** [s.replace(c, "")] for a single character [c]. *)
Fixpoint remove_char (c : ascii) (s : string) : string :=
  match s with
  | EmptyString => EmptyString
  | String a s' => if Ascii.eqb a c then remove_char c s' else String a (remove_char c s')
  end.

(** ** pathlib *)

(** A path is the list of its parts. *)
Definition Path := list string.

(** [p / name] for a single component [name]. *)
Definition joinpath (p : Path) (name : string) : Path := p ++ [name].
Infix "/:" := joinpath (at level 40, left associativity).

(** [p.name] *)
Definition path_name (p : Path) : string := default "" (last p).

(** [PurePath.suffix] of a final component:
    [i = name.rfind('.'); name[i:] if 0 < i < len(name) - 1 else ''] *)
Definition name_suffix (name : string) : string :=
  match rfind "."%char name with
  | Some i =>
      if (Nat.ltb 0 i && Nat.ltb i (String.length name - 1))%bool
      then substring i (String.length name - i) name
      else ""
  | None => ""
  end.

(** [p.suffix] *)
Definition path_suffix (p : Path) : string := name_suffix (path_name p).

(** [Path(filename)] for a directory entry, which is one component. *)
Definition Path_of_entry (filename : string) : Path := [filename].

(** [p.relative_to(base)], raising ValueError when [base] is not a prefix. *)
Fixpoint relative_to (p base : Path) : Result Path :=
  match base, p with
  | [], _ => Ok p
  | b :: base', x :: p' =>
      if String.eqb b x then relative_to p' base'
      else Raise "path is not in the subpath of the base"
  | _ :: _, [] => Raise "path is not in the subpath of the base"
  end.

(** [str(p)], POSIX flavour for a relative path. *)
Fixpoint str_of_path (p : Path) : string :=
  match p with
  | [] => "."
  | [x] => x
  | x :: p' => x +:+ "/" +:+ str_of_path p'
  end.

(** ** Module constants and [classify_file] *)

Definition VERSION : string := "2.1".

Definition IMAGE_EXTENSIONS : gset string :=
  {[ ".jpg"; ".jpeg"; ".png"; ".tif"; ".tiff"; ".bmp"; ".gif"; ".cr2"; ".nef";
     ".arw"; ".dng" ]}.

Definition AUDIO_EXTENSIONS : gset string :=
  {[ ".wav"; ".mp3"; ".flac"; ".m4a"; ".aac"; ".wma"; ".ogg" ]}.

Definition DEVICE_TYPES (dev_code : string) : option string :=
  if String.eqb dev_code "ML" then Some "Medium-Large Animal Camera"
  else if String.eqb dev_code "SA" then Some "Small Animal Camera"
  else if String.eqb dev_code "BD" then Some "Acoustic Recorder Birds"
  else if String.eqb dev_code "BT" then Some "Acoustic Recorder Bats"
  else None.

Definition classify_file (filename : string) : string :=
  let ext := lower (path_suffix (Path_of_entry filename)) in
  if bool_decide (ext ∈ IMAGE_EXTENSIONS) then "image"
  else if bool_decide (ext ∈ AUDIO_EXTENSIONS) then "audio"
  else "other".

(** ** [datetime.strptime(s, "%Y-%m-%d")] and [strftime("%Y%m")] *)

Definition is_digit (c : ascii) : bool :=
  let n := nat_of_ascii c in (Nat.leb 48 n && Nat.leb n 57)%bool.

Fixpoint int_of_digits (s : string) (acc : Z) : option Z :=
  match s with
  | EmptyString => Some acc
  | String c s' =>
      if is_digit c
      then int_of_digits s' (10 * acc + Z.of_nat (nat_of_ascii c - 48))
      else None
  end.

Fixpoint split_on (c : ascii) (s : string) : list string :=
  match s with
  | EmptyString => [EmptyString]
  | String a s' =>
      if Ascii.eqb a c then EmptyString :: split_on c s'
      else match split_on c s' with
           | [] => [String a EmptyString]
           | x :: xs => String a x :: xs
           end
  end.

Definition is_leap (y : Z) : bool :=
  ((y mod 4 =? 0) && (negb (y mod 100 =? 0) || (y mod 400 =? 0)))%bool.

Definition days_in_month (y m : Z) : Z :=
  if m =? 2 then (if is_leap y then 29 else 28)
  else if (m =? 4) || (m =? 6) || (m =? 9) || (m =? 11) then 30
  else 31.

Record date := { year : Z; month : Z; day : Z }.

(** The directive [%Y] takes four digits, [%m] and [%d] one or two; the
    [datetime] constructor then rejects a month or day out of range. *)
Definition strptime_Ymd (s : string) : Result date :=
  match split_on "-"%char s with
  | [ys; ms; ds] =>
      match int_of_digits ys 0, int_of_digits ms 0, int_of_digits ds 0 with
      | Some y, Some m, Some d =>
          if (Nat.eqb (String.length ys) 4
              && Nat.leb 1 (String.length ms) && Nat.leb (String.length ms) 2
              && Nat.leb 1 (String.length ds) && Nat.leb (String.length ds) 2
              && (1 <=? y) && (1 <=? m) && (m <=? 12)
              && (1 <=? d) && (d <=? days_in_month y m))%bool
          then Ok {| year := y; month := m; day := d |}
          else Raise ("time data '" +:+ s +:+ "' does not match format '%Y-%m-%d'")
      | _, _, _ => Raise ("time data '" +:+ s +:+ "' does not match format '%Y-%m-%d'")
      end
  | _ => Raise ("time data '" +:+ s +:+ "' does not match format '%Y-%m-%d'")
  end.

(** [d.strftime("%Y%m")] *)
Definition strftime_Ym (d : date) : string :=
  format_0wd 4 (year d) +:+ format_0wd 2 (month d).

(** ** The interfaces of the outside world *)

(** [os.stat_result], the two fields the program reads. *)
Record stat_result := { st_size : Z; st_mtime : Z }.

(** JSON values handed to [json.dump]. *)
#[warnings="-register-all"]
Inductive json : Type :=
| JNull
| JStr (s : string)
| JInt (z : Z)
| JList (l : list json)
| JDict (d : list (string * json)).

(** What is written to a sidecar file: the rows given to the [csv] writer,
    or the value given to [json.dump]. *)
Inductive Document : Type :=
| CsvDocument (rows : list (list string))
| JsonDocument (j : json).

(** The host: [os], [shutil], [pathlib], [open] and the clock.  Every
    operation may raise; one that writes may change the file system even
    when it does, one that reads leaves it as it is. *)
Class FileSystem (FS : Type) := {
  (** [shutil.copy2(src, dst)] *)
  shutil_copy2 : Path -> Path -> M FS unit;
  (** [open(p, "rb")]: the bytes the handle will deliver *)
  open_rb : Path -> FS -> Result (list Byte.byte);
  (** [p.stat()] *)
  path_stat : Path -> FS -> Result stat_result;
  (** [p.mkdir(parents=True, exist_ok=True)] *)
  path_mkdir : Path -> M FS unit;
  (** [with open(p, "w") as f: ...] writing one document *)
  write_document : Path -> Document -> M FS unit;
  (** [p.rglob("*")], which swallows the errors of the traversal *)
  rglob : Path -> FS -> list Path;
  (** [p.is_file()] *)
  is_file : Path -> FS -> bool;
  (** [datetime.fromtimestamp(t).isoformat()] *)
  fromtimestamp_isoformat : Z -> string;
  (** [datetime.now().isoformat()] *)
  now_isoformat : FS -> string;
  (** [Image.open(p)._getexif()] with the tag ids already named through
      [TAGS]; [None] when the image has no EXIF block.  Numeric keys of
      unknown tags are left out: the program never looks them up. *)
  Image_getexif : Path -> FS -> Result (option (gmap string pyval))
}.

(** [hashlib.sha256()] objects; [SHA256_hex] is the digest as a function of
    the message, in lowercase hexadecimal. *)
Class Hashlib (H : Type) := {
  sha256_new : H;
  sha256_update : H -> list Byte.byte -> H;
  sha256_hexdigest : H -> string;
  SHA256_hex : list Byte.byte -> string
}.

Definition is_lower_hex (c : ascii) : bool :=
  let n := nat_of_ascii c in
  ((Nat.leb 48 n && Nat.leb n 57) || (Nat.leb 97 n && Nat.leb n 102))%bool.

(** The contract of hashlib: the digest of an object is that of the
    concatenation of the data fed to it so far, and it is written as 64
    lowercase hexadecimal digits. *)
Class HashlibContract (H : Type) {HH : Hashlib H} : Prop := {
  hexdigest_of_updates : forall blocks : list (list Byte.byte),
    sha256_hexdigest (fold_left sha256_update blocks sha256_new)
    = SHA256_hex (concat blocks);
  SHA256_hex_format : forall data : list Byte.byte,
    String.length (SHA256_hex data) = 64%nat
    /\ forallb is_lower_hex (list_ascii_of_string (SHA256_hex data)) = true
}.

(** An entry of a Box folder listing. *)
Record Item := { item_type : string; item_id : string; item_name : string }.

(** The Box SDK client, over the state [BX] of the remote store. *)
Class BoxClient (BX : Type) := {
  (** [client.folders.get_folder_items(parent_id).entries] *)
  get_folder_items : string -> BX -> Result (list Item);
  (** [client.folders.create_folder(name, CreateFolderParent(id=parent_id))] *)
  create_folder : string -> string -> M BX Item;
  (** [client.uploads.upload_file(attributes={'name': name,
       'parent': {'id': parent_id}}, file=stream)] *)
  upload_file : string -> string -> list Byte.byte -> M BX unit
}.

(** ** Small dictionary and list helpers *)

(** [d[k]], raising KeyError. *)
Definition getitem {V} (d : gmap string V) (k : string) : Result V :=
  match d !! k with
  | Some v => Ok v
  | None => Raise ("'" +:+ k +:+ "'")
  end.

(** [l[i]] for an index that is not negative, raising IndexError. *)
Definition list_getitem {A} (l : list A) (i : nat) : Result A :=
  match l !! i with
  | Some x => Ok x
  | None => Raise "list index out of range"
  end.

(** Lift a pure result that may be an exception. *)
Definition of_result {W A} (r : Result A) : M W A :=
  match r with
  | Ok a => ret a
  | Raise e => raise e
  end.

(** [str(v)] as an f-string renders it. *)
Definition py_str (v : pyval) : string :=
  match v with
  | PyNone => "None"
  | PyStr s => s
  | PyInt z => str_of_int z
  end.

(** The text the [csv] writer produces for a cell: nothing for [None]. *)
Definition csv_cell (v : pyval) : string :=
  match v with
  | PyNone => ""
  | _ => py_str v
  end.

Definition json_of_pyval (v : pyval) : json :=
  match v with
  | PyNone => JNull
  | PyStr s => JStr s
  | PyInt z => JInt z
  end.

(** [j[k]] for a JSON object. *)
Definition json_get (k : string) (j : json) : option json :=
  match j with
  | JDict d => snd <$> List.find (fun kv => String.eqb (fst kv) k) d
  | _ => None
  end.

(** ** [compute_file_hash] *)

Section Hashing.
Context {FS : Type} {HFS : FileSystem FS} {H : Type} {HH : Hashlib H}.

(** [f.read(n)] on a handle with [rest] still to deliver. *)
Definition file_read (n : nat) (rest : list Byte.byte)
  : list Byte.byte * list Byte.byte := (take n rest, drop n rest).

(** [for byte_block in iter(lambda: f.read(4096), b""): h.update(byte_block)].
    [fuel] bounds the number of reads; [None] when it runs out before the
    sentinel [b""] is read. *)
Fixpoint read_blocks (fuel : nat) (h : H) (rest : list Byte.byte) : option H :=
  match fuel with
  | O => None
  | S fuel' =>
      let '(byte_block, rest') := file_read 4096 rest in
      match byte_block with
      | [] => Some h
      | _ :: _ => read_blocks fuel' (sha256_update h byte_block) rest'
      end
  end.

Definition compute_file_hash (filepath : Path) (fs : FS) : Result string :=
  match open_rb filepath fs with
  | Ok data =>
      match read_blocks (S (length data)) sha256_new data with
      | Some h => Ok (sha256_hexdigest h)
      | None => Raise "read loop did not reach the end of the file"
      end
  | Raise e => Raise e
  end.

(** The words of the specification: the digest of the whole contents. *)
Definition sha256_of_file_contents (data : list Byte.byte) : string :=
  SHA256_hex data.

End Hashing.

(** ** The wizard: [FieldDataWizard] *)

(** A record of [file_inventory]: the dict built in [process_sd_card_files]. *)
Abbreviation FileInfo := (gmap string pyval).

(** An element of [self.devices]. *)
Record Device := {
  plot_num : Z;
  plot_label : pyval;
  dev_code : string;
  device_label : string
}.

(** A row of [device_tree]; [text2] is the status and [text3] the count. *)
Record TreeItem := { text0 : string; text1 : string; text2 : string; text3 : string }.

(** What the wizard does to the outside, in program order.  [EvCopy] and
    [EvWrite] are recorded when the operation has returned, [EvRecord] when
    the record has been appended to [file_inventory]. *)
Inductive Event : Type :=
| EvLog (message : string)
| EvMessageBox (kind title text : string)
| EvFileDialog (title : string)
| EvMkdir (p : Path)
| EvCopy (src dst : Path)
| EvRecord (file_info : FileInfo)
| EvWrite (p : Path) (doc : Document)
| EvUi (widget action : string).

Record Wizard (FS : Type) := {
  fs : FS;
  metadata : gmap string string;
  devices : list Device;
  file_inventory : list FileInfo;
  current_deployment_folder : option Path;
  device_tree : list TreeItem;
  events : list Event
}.
Arguments fs {FS} _.
Arguments metadata {FS} _.
Arguments devices {FS} _.
Arguments file_inventory {FS} _.
Arguments current_deployment_folder {FS} _.
Arguments device_tree {FS} _.
Arguments events {FS} _.

Definition set_fs {FS} (x : FS) (w : Wizard FS) : Wizard FS :=
  {| fs := x; metadata := metadata w; devices := devices w;
     file_inventory := file_inventory w;
     current_deployment_folder := current_deployment_folder w;
     device_tree := device_tree w; events := events w |}.

Definition set_file_inventory {FS} (x : list FileInfo) (w : Wizard FS) : Wizard FS :=
  {| fs := fs w; metadata := metadata w; devices := devices w;
     file_inventory := x;
     current_deployment_folder := current_deployment_folder w;
     device_tree := device_tree w; events := events w |}.

Definition set_device_tree {FS} (x : list TreeItem) (w : Wizard FS) : Wizard FS :=
  {| fs := fs w; metadata := metadata w; devices := devices w;
     file_inventory := file_inventory w;
     current_deployment_folder := current_deployment_folder w;
     device_tree := x; events := events w |}.

Definition set_events {FS} (x : list Event) (w : Wizard FS) : Wizard FS :=
  {| fs := fs w; metadata := metadata w; devices := devices w;
     file_inventory := file_inventory w;
     current_deployment_folder := current_deployment_folder w;
     device_tree := device_tree w; events := x |}.

(** [item.setText(2, status)] and [item.setText(3, count)] *)
Definition set_text2 (s : string) (it : TreeItem) : TreeItem :=
  {| text0 := text0 it; text1 := text1 it; text2 := s; text3 := text3 it |}.
Definition set_text3 (s : string) (it : TreeItem) : TreeItem :=
  {| text0 := text0 it; text1 := text1 it; text2 := text2 it; text3 := s |}.

(** The fields of [file_metadata.csv]. *)
Definition csv_fields : list string :=
  [ "new_filename"; "original_filename"; "plot_number"; "plot_label";
    "device_type"; "device_label"; "file_type"; "file_size_bytes";
    "file_hash_sha256"; "timestamp"; "latitude"; "longitude";
    "exif_datetime"; "exif_make"; "exif_model"; "source_path" ].

(** [csv.DictWriter._dict_to_list] with the defaults [restval=""] and
    [extrasaction="raise"]. *)
Definition dict_to_list (fieldnames : list string) (rowdict : FileInfo)
  : Result (list string) :=
  if bool_decide (dom rowdict ⊆ list_to_set fieldnames)
  then Ok (map (fun key => default "" (csv_cell <$> rowdict !! key)) fieldnames)
  else Raise "dict contains fields not in fieldnames".

(** [writer.writerows(rowdicts)]: the rows that reach the file, and the
    exception that stopped the writer, if any. *)
Fixpoint writerows (fieldnames : list string) (rowdicts : list FileInfo)
  : list (list string) * option exn :=
  match rowdicts with
  | [] => ([], None)
  | d :: rest =>
      match dict_to_list fieldnames d with
      | Ok row => let '(rows, err) := writerows fieldnames rest in (row :: rows, err)
      | Raise e => ([], Some e)
      end
  end.

(** What the user answers to the dialogs of [copy_sd_card_data], and what
    [os.walk] yields for the chosen directory while the files are processed. *)
Record CopyDialog := {
  current_item : option nat;
  copy_again : bool;
  sd_path : string;
  sd_walk : list (Path * list string * list string)
}.

Section FieldDataWizard.
Context {FS : Type} {HFS : FileSystem FS} {H : Type} {HH : Hashlib H}.

(** The module flag set by the import of PIL and piexif. *)
Variable EXIF_AVAILABLE : bool.

Definition emit (e : Event) : M (Wizard FS) unit :=
  modify (fun w => set_events (events w ++ [e]) w).

(** A host operation that writes. *)
Definition fs_write {A} (m : M FS A) : M (Wizard FS) A := zoom fs set_fs m.

(** A host operation that reads. *)
Definition fs_read {A} (f : FS -> Result A) : M (Wizard FS) A :=
  fun w => (f (fs w), w).

(** [self.log(message)]; the clock prefix is left to the widget. *)
Definition log (message : string) : M (Wizard FS) unit := emit (EvLog message).

Definition message_box (kind title text : string) : M (Wizard FS) unit :=
  emit (EvMessageBox kind title text).

(** [extract_exif_data(image_path)] *)
Definition extract_exif_data (image_path : Path) : M (Wizard FS) (gmap string pyval) :=
  if negb EXIF_AVAILABLE then ret ∅
  else
    try_except
      (do exif <- fs_read (Image_getexif image_path);
       ret (default ∅ exif))
      (fun e => ret {[ "error" := PyStr e ]}).

(** [self.file_inventory.append(file_info)] *)
Definition inventory_append (file_info : FileInfo) : M (Wizard FS) unit :=
  do _ <- modify (fun w => set_file_inventory (file_inventory w ++ [file_info]) w);
  emit (EvRecord file_info).

Definition new_filename_of (org site : string) (plot_num : Z)
    (dev_code date_str : string) (file_sequence : Z) (file_ext : string) : string :=
  org +:+ "_" +:+ site +:+ "_plot" +:+ str_of_int plot_num +:+ "_" +:+ dev_code
      +:+ "_" +:+ date_str +:+ "_" +:+ format_05d file_sequence +:+ file_ext.

Definition file_info_of (filename new_filename : string) (plot_num : Z)
    (plot_label : pyval) (dev_code device_label : string) (file_size : Z)
    (file_hash : string) (source_path : Path) (timestamp : string)
    (exif_data : gmap string pyval) : FileInfo :=
  <[ "original_filename" := PyStr filename ]>
  (<[ "new_filename" := PyStr new_filename ]>
  (<[ "plot_number" := PyInt plot_num ]>
  (<[ "plot_label" := plot_label ]>
  (<[ "device_type" := PyStr dev_code ]>
  (<[ "device_label" := PyStr device_label ]>
  (<[ "file_type" := PyStr (classify_file filename) ]>
  (<[ "file_size_bytes" := PyInt file_size ]>
  (<[ "file_hash_sha256" := PyStr file_hash ]>
  (<[ "source_path" := PyStr (str_of_path source_path) ]>
  (<[ "timestamp" := PyStr timestamp ]>
  (<[ "exif_datetime" := default PyNone (exif_data !! "DateTime") ]>
  (<[ "exif_make" := default PyNone (exif_data !! "Make") ]>
  (<[ "exif_model" := default PyNone (exif_data !! "Model") ]> ∅))))))))))))).

(** The body of the inner loop of [process_sd_card_files], for the entry
    [filename] of the directory [root]; the loop-carried locals are
    [(files_copied, file_sequence)]. *)
Definition process_file (dest_dir : Path) (plot_num : Z) (plot_label : pyval)
    (dev_code device_label org site date_str : string)
    (root : Path) (filename : string) (acc : Z * Z) : M (Wizard FS) (Z * Z) :=
  let '(files_copied, file_sequence) := acc in
  if (startswith filename "." || startswith filename "_")%bool then ret acc
  else
    let source_path := root /: filename in
    let file_ext := lower (path_suffix source_path) in
    if String.eqb (classify_file filename) "other" then ret acc
    else
      let new_filename :=
        new_filename_of org site plot_num dev_code date_str file_sequence file_ext in
      let dest_path := dest_dir /: new_filename in
      do _ <- fs_write (shutil_copy2 source_path dest_path);
      do _ <- emit (EvCopy source_path dest_path);
      do exif_data <-
        (if (String.eqb (classify_file filename) "image" && EXIF_AVAILABLE)%bool
         then extract_exif_data dest_path else ret ∅);
      do file_hash <- fs_read (compute_file_hash dest_path);
      do st <- fs_read (path_stat dest_path);
      do st' <- fs_read (path_stat dest_path);
      let file_info :=
        file_info_of filename new_filename plot_num plot_label dev_code device_label
          (st_size st) file_hash source_path
          (fromtimestamp_isoformat (st_mtime st')) exif_data in
      do _ <- inventory_append file_info;
      let files_copied := files_copied + 1 in
      let file_sequence := file_sequence + 1 in
      do _ <- (if files_copied mod 50 =? 0
               then log ("  ..." +:+ str_of_int files_copied +:+ " files processed")
               else ret tt);
      ret (files_copied, file_sequence).

(** [process_sd_card_files]; [walk] is what [os.walk(source_dir)] yields. *)
Definition process_sd_card_files (walk : list (Path * list string * list string))
    (dest_dir : Path) (plot_num : Z) (plot_label : pyval)
    (dev_code device_label : string) : M (Wizard FS) Z :=
  let files_copied := 0 in
  let file_sequence := 1 in
  do deployment_end <- (fun w => (getitem (metadata w) "deployment_end", w));
  do deploy_date <- of_result (strptime_Ymd deployment_end);
  let date_str := strftime_Ym deploy_date in
  do org <- (fun w => (getitem (metadata w) "organization", w));
  do site <- (fun w => (getitem (metadata w) "site", w));
  do acc <- for_each walk
    (fun '(root, dirs, files) acc =>
       for_each files
         (process_file dest_dir plot_num plot_label dev_code device_label
            org site date_str root) acc)
    (files_copied, file_sequence);
  ret (fst acc).

(** [self.devices[index]] *)
Definition device_at (index : nat) : M (Wizard FS) Device :=
  fun w => (list_getitem (devices w) index, w).

(** [DEVICE_TYPES[dev_code]] *)
Definition device_type_name (dev_code : string) : Result string :=
  match DEVICE_TYPES dev_code with
  | Some name => Ok name
  | None => Raise ("'" +:+ dev_code +:+ "'")
  end.

(** [selected.setText(2, status); selected.setText(3, count)] for the
    row [index] of the tree. *)
Definition set_status (index : nat) (status count : string) : M (Wizard FS) unit :=
  modify (fun w =>
    set_device_tree
      (alter (fun it => set_text3 count (set_text2 status it)) index (device_tree w)) w).

(** [self.current_deployment_folder / name] *)
Definition deployment_path (name : string) : M (Wizard FS) Path :=
  fun w =>
    match current_deployment_folder w with
    | Some p => (Ok (p /: name), w)
    | None => (Raise "unsupported operand type(s) for /: 'NoneType' and 'str'", w)
    end.

(** The [try] statement of [copy_sd_card_data]. *)
Definition copy_and_report (index : nat) (dev : Device) (device_folder : Path)
    (walk : list (Path * list string * list string)) : M (Wizard FS) unit :=
  try_except
    (do files_copied <-
       process_sd_card_files walk device_folder (plot_num dev)
         (plot_label dev) (dev_code dev) (device_label dev);
     do _ <- set_status index "Complete" (str_of_int files_copied);
     log ("✓ Completed! " +:+ str_of_int files_copied
           +:+ " files copied and renamed." +:+ "
"))
    (fun e =>
       do _ <- log ("✗ Error: " +:+ e +:+ "
");
       message_box "critical" "Copy Error" ("Error copying files: " +:+ e)).

Definition copy_sd_card_data (ui : CopyDialog) : M (Wizard FS) unit :=
  do tree <- gets device_tree;
  match current_item ui, current_item ui ≫= (fun i => tree !! i) with
  | Some index, Some selected =>
      do dev <- device_at index;
      let go : M (Wizard FS) unit :=
        do type_name <- of_result (device_type_name (dev_code dev));
        do _ <- emit (EvFileDialog ("Select SD Card for Plot " +:+ str_of_int (plot_num dev)
                                     +:+ " - " +:+ type_name));
        if String.eqb (sd_path ui) "" then ret tt
        else
          do _ <- log ("Starting copy for Plot " +:+ str_of_int (plot_num dev) +:+ " ("
                        +:+ py_str (plot_label dev) +:+ ") - " +:+ type_name +:+ "...");
          do _ <- log ("Source: " +:+ sd_path ui);
          do raw_data <- deployment_path "raw_data";
          let device_folder := raw_data /: device_label dev in
          do _ <- fs_write (path_mkdir device_folder);
          do _ <- emit (EvMkdir device_folder);
          copy_and_report index dev device_folder (sd_walk ui)
      in
      if String.eqb (text2 selected) "Complete"
      then
        do _ <- message_box "question" "Already Complete"
                  "This device is already complete. Copy again?";
        if copy_again ui then go else ret tt
      else go
  | _, _ =>
      message_box "information" "No Selection" "Please select a device from the list."
  end.

(** [skip_device], for the row the user has selected. *)
Definition skip_device (current : option nat) : M (Wizard FS) unit :=
  do tree <- gets device_tree;
  match current, current ≫= (fun i => tree !! i) with
  | Some index, Some selected =>
      do dev <- device_at index;
      do _ <- set_status index "Skipped" "0";
      do type_name <- of_result (device_type_name (dev_code dev));
      log ("Skipped Plot " +:+ str_of_int (plot_num dev) +:+ " - " +:+ type_name +:+ "
")
  | _, _ =>
      message_box "information" "No Selection" "Please select a device from the list."
  end.

Definition manifest_device (d : Device) : json :=
  JDict [ ("plot_number", JInt (plot_num d));
          ("plot_label", json_of_pyval (plot_label d));
          ("device_type", JStr (dev_code d));
          ("device_label", JStr (device_label d)) ].

Definition generate_metadata_files : M (Wizard FS) unit :=
  do csv_path <- deployment_path "file_metadata.csv";
  do inventory <- gets file_inventory;
  let '(rows, err) := writerows csv_fields inventory in
  let csv_doc := CsvDocument (csv_fields :: rows) in
  do _ <- fs_write (write_document csv_path csv_doc);
  do _ <- emit (EvWrite csv_path csv_doc);
  do _ <- match err with Some e => raise e | None => ret tt end;
  do _ <- log ("Generated: file_metadata.csv ("
                +:+ str_of_int (Z.of_nat (length inventory)) +:+ " files)");
  do deployment_info <- gets metadata;
  do devs <- gets devices;
  do generated <- gets (fun w => now_isoformat (fs w));
  let manifest :=
    JDict [ ("deployment_info",
             JDict (map (fun kv => (fst kv, JStr (snd kv))) (map_to_list deployment_info)));
            ("devices", JList (map manifest_device devs));
            ("file_count", JInt (Z.of_nat (length inventory)));
            ("generated", JStr generated);
            ("version", JStr VERSION) ] in
  do manifest_path <- deployment_path "manifest.json";
  do _ <- fs_write (write_document manifest_path (JsonDocument manifest));
  do _ <- emit (EvWrite manifest_path (JsonDocument manifest));
  log "Generated: manifest.json".

(** [on_upload_finished(success, message)], the slot of the thread's
    [finished] signal. *)
Definition on_upload_finished (success : bool) (message : string) : M (Wizard FS) unit :=
  do _ <- emit (EvUi "open_btn" "setEnabled(True)");
  do _ <- emit (EvUi "upload_now_btn" "setEnabled(True)");
  do _ <- emit (EvUi "new_btn" "setEnabled(True)");
  if success then
    do _ <- emit (EvUi "upload_progress_bar" "setValue(100)");
    do _ <- emit (EvUi "upload_status_label" ("✓ " +:+ message));
    message_box "information" "Upload Complete" message
  else
    do _ <- emit (EvUi "upload_status_label" ("✗ " +:+ message));
    message_box "warning" "Upload Failed" message.

(** [start_new_deployment]; [yes] is the user's answer. *)
Definition start_new_deployment (yes : bool) : M (Wizard FS) unit :=
  do _ <- message_box "question" "Start New Deployment"
            "This will reset the wizard. Are you sure?";
  if yes then
    do _ <- modify (fun w =>
      {| fs := fs w; metadata := ∅; devices := []; file_inventory := [];
         current_deployment_folder := None; device_tree := []; events := events w |});
    emit (EvUi "wizard" "reset")
  else ret tt.

End FieldDataWizard.

(** The operations of the wizard that are modelled, as the user or the
    upload thread triggers them. *)
Inductive WizardOp : Type :=
| OpCopy (ui : CopyDialog)
| OpSkip (current : option nat)
| OpGenerate
| OpLog (message : string)
| OpUploadFinished (success : bool) (message : string)
| OpStartNew (yes : bool).

Definition run_op {FS : Type} {HFS : FileSystem FS} {H : Type} {HH : Hashlib H}
    (EXIF_AVAILABLE : bool) (op : WizardOp) : M (Wizard FS) unit :=
  match op with
  | OpCopy ui => copy_sd_card_data (H:=H) EXIF_AVAILABLE ui
  | OpSkip current => skip_device current
  | OpGenerate => generate_metadata_files
  | OpLog message => log message
  | OpUploadFinished success message => on_upload_finished success message
  | OpStartNew yes => start_new_deployment yes
  end.

(** ** The upload thread: [BoxUploadThread] *)

(** The signals of the thread. *)
Inductive Signal : Type :=
| progress (current total : Z) (message : string)
| finished (success : bool) (message : string).

(** A call of the Box SDK, recorded when it is made. *)
Inductive BoxCall : Type :=
| GetFolderItems (parent_id : string)
| CreateFolder (name parent_id : string)
| UploadFile (name parent_id : string) (content : list Byte.byte).

Inductive UploadEvent : Type :=
| UvCall (c : BoxCall)
| UvOpen (local_path : Path)
| UvSignal (s : Signal).

(** The world of the thread: the local files, what [get_box_client()]
    returns ([None], or a client on a remote store), and what it has done. *)
Record Uploader (FS BX : Type) := {
  up_fs : FS;
  box_client : option BX;
  up_events : list UploadEvent
}.
Arguments up_fs {FS BX} _.
Arguments box_client {FS BX} _.
Arguments up_events {FS BX} _.

Section BoxUploadThread.
Context {FS : Type} {HFS : FileSystem FS} {BX : Type} {HBX : BoxClient BX}.

(** [BOX_TARGET_FOLDER_ID], read from config.json. *)
Variable BOX_TARGET_FOLDER_ID : string.

Definition up_emit (e : UploadEvent) : M (Uploader FS BX) unit :=
  modify (fun w =>
    {| up_fs := up_fs w; box_client := box_client w;
       up_events := up_events w ++ [e] |}).

(** A method of [self.client]; on [None] the attribute access raises. *)
Definition on_client {A} (m : M BX A) : M (Uploader FS BX) A :=
  fun w =>
    match box_client w with
    | Some bx =>
        let '(r, bx') := m bx in
        (r, {| up_fs := up_fs w; box_client := Some bx'; up_events := up_events w |})
    | None => (Raise "'NoneType' object has no attribute 'folders'", w)
    end.

Definition call_get_folder_items (parent_id : string) : M (Uploader FS BX) (list Item) :=
  do _ <- up_emit (UvCall (GetFolderItems parent_id));
  on_client (fun bx => (get_folder_items parent_id bx, bx)).

Definition call_create_folder (name parent_id : string) : M (Uploader FS BX) Item :=
  do _ <- up_emit (UvCall (CreateFolder name parent_id));
  on_client (create_folder name parent_id).

Definition call_upload_file (name parent_id : string) (content : list Byte.byte)
  : M (Uploader FS BX) unit :=
  do _ <- up_emit (UvCall (UploadFile name parent_id content));
  on_client (upload_file name parent_id content).

(** [item.type == 'folder' and item.name == folder_name] *)
Definition is_folder_named (folder_name : string) (item : Item) : bool :=
  (String.eqb (item_type item) "folder" && String.eqb (item_name item) folder_name)%bool.

Definition find_or_create_folder (parent_id folder_name : string)
  : M (Uploader FS BX) Item :=
  try_except
    (do items <- call_get_folder_items parent_id;
     match List.find (is_folder_named folder_name) items with
     | Some item => ret item
     | None => call_create_folder folder_name parent_id
     end)
    (fun e => raise ("Error creating folder '" +:+ folder_name +:+ "': " +:+ e)).

Definition upload_file_with_path (local_path : Path) (parent_folder_id : string)
    (relative_path : Path) : M (Uploader FS BX) unit :=
  do current_folder_id <-
    (if Nat.ltb 1 (length relative_path)
     then for_each (removelast relative_path)
            (fun folder_name current_folder_id =>
               do folder <- find_or_create_folder current_folder_id folder_name;
               ret (item_id folder))
            parent_folder_id
     else ret parent_folder_id);
  let file_name := path_name relative_path in
  do _ <- up_emit (UvOpen local_path);
  do file_stream <- (fun w => (open_rb local_path (up_fs w), w));
  call_upload_file file_name current_folder_id file_stream.

(** The body of the loop of [run], for the path [file_path] that [rglob]
    yields; the loop-carried local is [uploaded]. *)
Definition upload_one (deployment_folder : Path) (deploy_folder_id : string)
    (total_files : Z) (file_path : Path) (uploaded : Z) : M (Uploader FS BX) Z :=
  do regular <- gets (fun w => is_file file_path (up_fs w));
  if regular then
    do rel_path <- of_result (relative_to file_path deployment_folder);
    do _ <- upload_file_with_path file_path deploy_folder_id rel_path;
    let uploaded := uploaded + 1 in
    do _ <- up_emit (UvSignal (progress uploaded total_files (path_name file_path)));
    ret uploaded
  else ret uploaded.

(** The body of the [try] of [run]. *)
Definition run_body (deployment_folder : Path) : M (Uploader FS BX) unit :=
  do client <- gets box_client;
  match client with
  | None => up_emit (UvSignal (finished false "Could not authenticate with Box"))
  | Some _ =>
      let deploy_name := path_name deployment_folder in
      do deploy_folder <- find_or_create_folder BOX_TARGET_FOLDER_ID deploy_name;
      do total_files <-
        gets (fun w => Z.of_nat (length (List.filter (fun p => is_file p (up_fs w))
                                           (rglob deployment_folder (up_fs w)))));
      do paths <- gets (fun w => rglob deployment_folder (up_fs w));
      do uploaded <- for_each paths
        (upload_one deployment_folder (item_id deploy_folder) total_files) 0;
      up_emit (UvSignal (finished true
        ("Successfully uploaded " +:+ str_of_int uploaded +:+ " files to Box")))
  end.

(** [run]: whatever the body raises ends in a [finished(False, ...)]. *)
Definition run (deployment_folder : Path) : M (Uploader FS BX) unit :=
  try_except (run_body deployment_folder)
    (fun e => up_emit (UvSignal (finished false ("Upload error: " +:+ e)))).

(** The folder named [name] that a lookup in [parent_id] finds. *)
Definition lookup_folder (bx : BX) (parent_id name : string) : option Item :=
  match get_folder_items parent_id bx with
  | Ok items => List.find (is_folder_named name) items
  | Raise _ => None
  end.

(** Walking down from [parent_id] along the directory names [dirs]. *)
Fixpoint resolve (bx : BX) (parent_id : string) (dirs : list string) : option string :=
  match dirs with
  | [] => Some parent_id
  | d :: dirs' =>
      match lookup_folder bx parent_id d with
      | Some item => resolve bx (item_id item) dirs'
      | None => None
      end
  end.

(** The folder [parent_id] lists a file called [name]. *)
Definition has_file (bx : BX) (parent_id name : string) : Prop :=
  exists items item,
    get_folder_items parent_id bx = Ok items /\ In item items
    /\ item_type item = "file" /\ item_name item = name.

End BoxUploadThread.

(** ** Module start-up: the site and plot tables *)

(** [c.isspace()] for an ASCII character: the controls 9 to 13 and 28 to
    31, and the space. *)
Definition is_space (c : ascii) : bool :=
  let n := nat_of_ascii c in
  ((Nat.leb 9 n && Nat.leb n 13) || (Nat.leb 28 n && Nat.leb n 31) || Nat.eqb n 32)%bool.

(** [s.lstrip()], [s.rstrip()] and [s.strip()], on ASCII text. *)
Fixpoint lstrip (s : string) : string :=
  match s with
  | EmptyString => EmptyString
  | String c s' => if is_space c then lstrip s' else s
  end.

Fixpoint rstrip (s : string) : string :=
  match s with
  | EmptyString => EmptyString
  | String c s' =>
      match rstrip s' with
      | EmptyString => if is_space c then EmptyString else String c EmptyString
      | t => String c t
      end
  end.

Definition strip (s : string) : string := rstrip (lstrip s).

(** A row that [csv.DictReader] yields: the cell under each name of the
    header, [None] where the line was too short. *)
Abbreviation CsvRow := (gmap string (option string)).

(** What reading a CSV file gives once it is open: the rows the reader
    yields, and the exception that ends the iteration early, if any. *)
Record CsvFile := {
  csv_rows : list CsvRow;
  csv_error : option exn
}.

(** [print(line)], on the lines printed so far. *)
Definition py_print (line : string) : M (list string) unit :=
  modify (fun out => out ++ [line]).

(** [row[key].strip()] *)
Definition row_strip (row : CsvRow) (key : string) : Result string :=
  match row !! key with
  | Some (Some cell) => Ok (strip cell)
  | Some None => Raise "'NoneType' object has no attribute 'strip'"
  | None => Raise ("'" +:+ key +:+ "'")
  end.

(** The end of [for row in reader], when the reader itself raises. *)
Definition reader_end {W} (f : CsvFile) : M W unit :=
  match csv_error f with
  | Some e => raise e
  | None => ret tt
  end.

(** [load_reserves_from_csv]; [sites_csv] is what opening data/sites.csv
    gives. *)
Definition load_reserves_from_csv (sites_csv : Result CsvFile)
  : M (list string) (list (string * string)) :=
  let reserves := [] in
  try_except
    (do f <- of_result sites_csv;
     do reserves <- for_each (csv_rows f)
       (fun row reserves =>
          do site_code <- of_result (row_strip row "site_code");
          do site_name <- of_result (row_strip row "site_name");
          if (negb (String.eqb site_code "") && negb (String.eqb site_name ""))%bool
          then ret (reserves ++ [(site_code, site_name)])
          else ret reserves)
       reserves;
     do _ <- reader_end f;
     ret reserves)
    (fun e =>
       do _ <- py_print ("Warning: Could not load sites.csv: " +:+ e);
       ret [ ("Bodega", "Bodega Marine Reserve");
             ("QuailRidge", "Quail Ridge Reserve") ]).

Section PlotNames.

(** [int(s)] for a string. *)
Variable int : string -> Result Z.

(** [int(row['plot_number'])] *)
Definition row_int (row : CsvRow) (key : string) : Result Z :=
  match row !! key with
  | Some (Some cell) => int cell
  | Some None =>
      Raise "int() argument must be a string, a bytes-like object or a real number, not 'NoneType'"
  | None => Raise ("'" +:+ key +:+ "'")
  end.

(** [plot_names[site_code][index] = plot_name] *)
Definition set_plot_name (site_code : string) (index : nat) (plot_name : string)
    (plot_names : gmap string (list (option string)))
  : Result (gmap string (list (option string))) :=
  match plot_names !! site_code with
  | Some slots =>
      if Nat.ltb index (length slots)
      then Ok (<[ site_code := <[ index := Some plot_name ]> slots ]> plot_names)
      else Raise "list assignment index out of range"
  | None => Raise ("'" +:+ site_code +:+ "'")
  end.

(** [load_plot_names_from_csv]; [plots_csv] is what opening data/plots.csv
    gives. *)
Definition load_plot_names_from_csv (plots_csv : Result CsvFile)
  : M (list string) (gmap string (list (option string))) :=
  let plot_names := ∅ in
  try_except
    (do f <- of_result plots_csv;
     do plot_names <- for_each (csv_rows f)
       (fun row plot_names =>
          do site_code <- of_result (row_strip row "site_code");
          do plot_number <- of_result (row_int row "plot_number");
          do plot_name <- of_result (row_strip row "plot_name");
          let plot_names :=
            if bool_decide (is_Some (plot_names !! site_code)) then plot_names
            else <[ site_code := [None; None; None; None] ]> plot_names in
          if ((1 <=? plot_number) && (plot_number <=? 4)
              && negb (String.eqb plot_name ""))%bool
          then of_result
                 (set_plot_name site_code (Z.to_nat (plot_number - 1)) plot_name plot_names)
          else ret plot_names)
       plot_names;
     do _ <- reader_end f;
     ret plot_names)
    (fun e =>
       do _ <- py_print ("Warning: Could not load plots.csv: " +:+ e);
       ret ∅).

End PlotNames.

(** ** The metadata tab *)

(** [DEVICE_TYPES.keys()], in the order of the dict literal. *)
Definition DEVICE_TYPES_keys : list string := ["ML"; "SA"; "BD"; "BT"].

(** [range(start, stop)] *)
Fixpoint range_from (fuel : nat) (start : Z) : list Z :=
  match fuel with
  | O => []
  | S fuel' => start :: range_from fuel' (start + 1)
  end.

Definition range (start stop : Z) : list Z := range_from (Z.to_nat (stop - start)) start.

(** [QDate.toString("yyyy-MM-dd")], for a date a [QDateEdit] holds. *)
Definition QDate_toString (d : date) : string :=
  format_0wd 4 (year d) +:+ "-" +:+ format_0wd 2 (month d) +:+ "-" +:+ format_0wd 2 (day d).

(** The widgets of the metadata tab: what the combo boxes, line edits,
    date edits and check boxes hold, and the texts of the plot labels. *)
Record MetadataTab := {
  org_combo : string;
  reserve_combo : string;
  site_code_edit : string;
  deploy_start_date : date;
  deploy_end_date : date;
  observer_combo : string;
  observer_other_edit : string;
  plot_labels : gmap Z string;
  device_checkboxes : Z -> string -> bool;
  set_default_cb : bool
}.

Definition set_site_code_edit (x : string) (tab : MetadataTab) : MetadataTab :=
  {| org_combo := org_combo tab; reserve_combo := reserve_combo tab;
     site_code_edit := x;
     deploy_start_date := deploy_start_date tab; deploy_end_date := deploy_end_date tab;
     observer_combo := observer_combo tab; observer_other_edit := observer_other_edit tab;
     plot_labels := plot_labels tab; device_checkboxes := device_checkboxes tab;
     set_default_cb := set_default_cb tab |}.

Definition set_plot_labels (x : gmap Z string) (tab : MetadataTab) : MetadataTab :=
  {| org_combo := org_combo tab; reserve_combo := reserve_combo tab;
     site_code_edit := site_code_edit tab;
     deploy_start_date := deploy_start_date tab; deploy_end_date := deploy_end_date tab;
     observer_combo := observer_combo tab; observer_other_edit := observer_other_edit tab;
     plot_labels := x; device_checkboxes := device_checkboxes tab;
     set_default_cb := set_default_cb tab |}.

Definition set_device_checkboxes (x : Z -> string -> bool) (tab : MetadataTab)
  : MetadataTab :=
  {| org_combo := org_combo tab; reserve_combo := reserve_combo tab;
     site_code_edit := site_code_edit tab;
     deploy_start_date := deploy_start_date tab; deploy_end_date := deploy_end_date tab;
     observer_combo := observer_combo tab; observer_other_edit := observer_other_edit tab;
     plot_labels := plot_labels tab; device_checkboxes := x;
     set_default_cb := set_default_cb tab |}.

(** [self.device_checkboxes[plot_num][dev_code].setChecked(checked)] *)
Definition setChecked (plot_num : Z) (dev_code : string) (checked : bool)
  : M MetadataTab unit :=
  modify (fun tab =>
    set_device_checkboxes
      (fun p c =>
         if ((p =? plot_num) && String.eqb c dev_code)%bool then checked
         else device_checkboxes tab p c) tab).

Definition set_all_devices (checked : bool) : M MetadataTab unit :=
  for_each (range 1 5)
    (fun plot_num _ =>
       for_each DEVICE_TYPES_keys (fun dev_code _ => setChecked plot_num dev_code checked) tt)
    tt.

Definition select_all_devices : M MetadataTab unit := set_all_devices true.
Definition clear_all_devices : M MetadataTab unit := set_all_devices false.

Definition set_metadata {FS} (x : gmap string string) (w : Wizard FS) : Wizard FS :=
  {| fs := fs w; metadata := x; devices := devices w;
     file_inventory := file_inventory w;
     current_deployment_folder := current_deployment_folder w;
     device_tree := device_tree w; events := events w |}.

Definition set_devices {FS} (x : list Device) (w : Wizard FS) : Wizard FS :=
  {| fs := fs w; metadata := metadata w; devices := x;
     file_inventory := file_inventory w;
     current_deployment_folder := current_deployment_folder w;
     device_tree := device_tree w; events := events w |}.

Definition set_current_deployment_folder {FS} (x : option Path) (w : Wizard FS)
  : Wizard FS :=
  {| fs := fs w; metadata := metadata w; devices := devices w;
     file_inventory := file_inventory w;
     current_deployment_folder := x;
     device_tree := device_tree w; events := events w |}.

(** [p.mkdir(exist_ok=True)]: unlike with [parents=True], the parent has to
    be there. *)
Class Mkdir (FS : Type) := {
  path_mkdir_exist_ok : Path -> M FS unit
}.

(** [p.parent] *)
Definition path_parent (p : Path) : Path := removelast p.

Section MetadataTab.
Context {FS : Type} {HFS : FileSystem FS} {HMK : Mkdir FS}.

(** The module tables [RESERVES] and [PLOT_NAMES], and the attribute
    [self.config_file]. *)
Variable RESERVES : list (string * string).
Variable PLOT_NAMES : gmap string (list (option string)).
Variable config_file : Path.

(** [plot_names[plot_num - 1] if plot_names and len(plot_names) >= plot_num
    else None], [None] standing for the other branch. *)
Definition named_plot (plot_names : option (list (option string))) (plot_num : Z)
  : Result (option (option string)) :=
  match plot_names with
  | Some ((_ :: _) as slots) =>
      if plot_num <=? Z.of_nat (length slots)
      then match list_getitem slots (Z.to_nat (plot_num - 1)) with
           | Ok slot => Ok (Some slot)
           | Raise e => Raise e
           end
      else Ok None
  | _ => Ok None
  end.

(** A plot name of the table as a Python value. *)
Definition pyval_of_slot (slot : option string) : pyval :=
  match slot with
  | Some name => PyStr name
  | None => PyNone
  end.

(** [update_plot_labels(reserve_code)] *)
Definition update_plot_labels (reserve_code : string) : M MetadataTab unit :=
  let plot_names := PLOT_NAMES !! reserve_code in
  for_each (range 1 5)
    (fun plot_num _ =>
       do named <- of_result (named_plot plot_names plot_num);
       let text :=
         match named with
         | Some slot =>
             "Plot " +:+ str_of_int plot_num +:+ ": " +:+ py_str (pyval_of_slot slot)
         | None => "Plot " +:+ str_of_int plot_num
         end in
       modify (fun tab => set_plot_labels (<[ plot_num := text ]> (plot_labels tab)) tab))
    tt.

(** The loop of [on_reserve_changed] over the reserves still to look at,
    and the statement after it. *)
Fixpoint on_reserve_changed_from (reserves : list (string * string)) (text : string)
  : M MetadataTab unit :=
  match reserves with
  | [] => modify (set_site_code_edit "")
  | (code, name) :: reserves' =>
      if String.eqb name text
      then
        do _ <- modify (set_site_code_edit code);
        update_plot_labels code
      else on_reserve_changed_from reserves' text
  end.

(** [on_reserve_changed(text)] *)
Definition on_reserve_changed (text : string) : M MetadataTab unit :=
  on_reserve_changed_from RESERVES text.

(** [self.metadata[key]] *)
Definition metadata_item (key : string) : M (Wizard FS) string :=
  fun w => (getitem (metadata w) key, w).

(** [json.dump(self.metadata, f)] *)
Definition json_of_metadata (deployment_info : gmap string string) : json :=
  JDict (map (fun kv => (fst kv, JStr (snd kv))) (map_to_list deployment_info)).

(** [save_config]: nothing it raises gets out. *)
Definition save_config (staging_root : Path) : M (Wizard FS) unit :=
  try_except
    (let parent := path_parent config_file in
     do _ <- fs_write (path_mkdir parent);
     do _ <- emit (EvMkdir parent);
     let doc := JsonDocument (JDict [ ("staging_root", JStr (str_of_path staging_root)) ]) in
     do _ <- fs_write (write_document config_file doc);
     emit (EvWrite config_file doc))
    (fun _ => ret tt).

(** [create_deployment_folder] *)
Definition create_deployment_folder (staging_root : Path) : M (Wizard FS) unit :=
  do organization <- metadata_item "organization";
  do site <- metadata_item "site";
  do deployment_end <- metadata_item "deployment_end";
  let folder_name :=
    organization +:+ "_" +:+ site +:+ "_" +:+ remove_char "-" deployment_end in
  let folder := staging_root /: folder_name in
  do _ <- modify (set_current_deployment_folder (Some folder));
  do _ <- fs_write (path_mkdir folder);
  do _ <- emit (EvMkdir folder);
  do raw_data <- deployment_path "raw_data";
  do _ <- fs_write (path_mkdir_exist_ok raw_data);
  do _ <- emit (EvMkdir raw_data);
  do metadata_file <- deployment_path "deployment_metadata.json";
  do deployment_info <- gets metadata;
  let doc := JsonDocument (json_of_metadata deployment_info) in
  do _ <- fs_write (write_document metadata_file doc);
  emit (EvWrite metadata_file doc).

(** The row of the device tree for a device that is still to be copied. *)
Definition pending_item (dev : Device) (type_name : string) : TreeItem :=
  {| text0 := "Plot " +:+ str_of_int (plot_num dev) +:+ " ("
                +:+ py_str (plot_label dev) +:+ ")";
     text1 := type_name;
     text2 := "Pending";
     text3 := "0" |}.

(** [populate_collection_list] *)
Definition populate_collection_list : M (Wizard FS) unit :=
  do _ <- modify (set_device_tree []);
  do devs <- gets devices;
  for_each devs
    (fun dev _ =>
       do type_name <- of_result (device_type_name (dev_code dev));
       modify (fun w => set_device_tree (device_tree w ++ [pending_item dev type_name]) w))
    tt.

(** [self.devices.append((plot_num, plot_label, dev_code, device_label))] *)
Definition devices_append (dev : Device) : M (Wizard FS) unit :=
  modify (fun w => set_devices (devices w ++ [dev]) w).

(** The loops of [validate_and_next] that build [self.devices]. *)
Definition build_devices (tab : MetadataTab) (reserve_code : string)
  : M (Wizard FS) unit :=
  let plot_names := PLOT_NAMES !! reserve_code in
  do _ <- modify (set_devices []);
  for_each (range 1 5)
    (fun plot_num _ =>
       do named <- of_result (named_plot plot_names plot_num);
       let plot_label :=
         match named with
         | Some slot => pyval_of_slot slot
         | None => PyStr (str_of_int plot_num)
         end in
       for_each DEVICE_TYPES_keys
         (fun dev_code _ =>
            if device_checkboxes tab plot_num dev_code
            then
              let device_label := "p" +:+ str_of_int plot_num +:+ "_" +:+ dev_code in
              devices_append
                {| plot_num := plot_num; plot_label := plot_label;
                   dev_code := dev_code; device_label := device_label |}
            else ret tt)
         tt)
    tt.

(** The dict that [validate_and_next] stores in [self.metadata]. *)
Definition metadata_of (tab : MetadataTab) : gmap string string :=
  let observer := observer_combo tab in
  <[ "organization" := org_combo tab ]>
  (<[ "reserve_name" := reserve_combo tab ]>
  (<[ "site" := site_code_edit tab ]>
  (<[ "deployment_start" := QDate_toString (deploy_start_date tab) ]>
  (<[ "deployment_end" := QDate_toString (deploy_end_date tab) ]>
  (<[ "observer" := if String.eqb observer "Other" then observer_other_edit tab
                    else observer ]> ∅))))).

(** [validate_and_next]; [staging_root] is the attribute of that name. *)
Definition validate_and_next (tab : MetadataTab) (staging_root : Path)
  : M (Wizard FS) unit :=
  if String.eqb (reserve_combo tab) ""
  then message_box "warning" "Missing Information" "Please select a site."
  else if String.eqb (site_code_edit tab) ""
  then message_box "warning" "Missing Information" "Please select a valid site."
  else
    let observer := observer_combo tab in
    if String.eqb observer ""
    then message_box "warning" "Missing Information"
           "Please select who is downloading data."
    else if (String.eqb observer "Other"
             && String.eqb (strip (observer_other_edit tab)) "")%bool
    then message_box "warning" "Missing Information"
           "Please enter a name for 'Other' option."
    else
      let reserve_code := site_code_edit tab in
      do _ <- modify (set_metadata (metadata_of tab));
      do _ <- build_devices tab reserve_code;
      do devs <- gets devices;
      match devs with
      | [] => message_box "warning" "No Devices Selected"
                "Please select at least one device."
      | _ :: _ =>
          do _ <- (if set_default_cb tab then save_config staging_root else ret tt);
          do _ <- create_deployment_folder staging_root;
          do _ <- populate_collection_list;
          emit (EvUi "tabs" "setCurrentIndex(1)")
      end.

End MetadataTab.

(** ** The review tab *)

#[export] Instance pyval_eq_dec : EqDecision pyval.
Proof. solve_decision. Defined.

(** The line feed, and ['\n'.join(lines)]. *)
Definition LF : string := String (ascii_of_nat 10) EmptyString.

Definition join_lines (lines : list string) : string := String.concat LF lines.

(** [c * n] for a one-character string. *)
Definition repeat_char (c : ascii) (n : nat) : string :=
  string_of_list_ascii (replicate n c).

(** [[f for f in inventory if f['device_label'] == device_label]] *)
Fixpoint device_files_of (inventory : list FileInfo) (device_label : string)
  : Result (list FileInfo) :=
  match inventory with
  | [] => Ok []
  | f :: inventory' =>
      match getitem f "device_label" with
      | Ok label =>
          match device_files_of inventory' device_label with
          | Ok files =>
              Ok (if bool_decide (label = PyStr device_label) then f :: files else files)
          | Raise e => Raise e
          end
      | Raise e => Raise e
      end
  end.

(** [sum(f['file_size_bytes'] for f in inventory)], from the running
    total [total]. *)
Fixpoint sum_file_sizes (inventory : list FileInfo) (total : Z) : Result Z :=
  match inventory with
  | [] => Ok total
  | f :: inventory' =>
      match getitem f "file_size_bytes" with
      | Ok (PyInt size) => sum_file_sizes inventory' (total + size)
      | Ok (PyStr _) => Raise "unsupported operand type(s) for +: 'int' and 'str'"
      | Ok PyNone => Raise "unsupported operand type(s) for +: 'int' and 'NoneType'"
      | Raise e => Raise e
      end
  end.

(** [file_types[ftype] = file_types.get(ftype, 0) + 1] on a dict in
    insertion order. *)
Fixpoint count_type (ftype : pyval) (file_types : list (pyval * Z)) : list (pyval * Z) :=
  match file_types with
  | [] => [(ftype, 0 + 1)]
  | (key, count) :: file_types' =>
      if bool_decide (key = ftype) then (key, count + 1) :: file_types'
      else (key, count) :: count_type ftype file_types'
  end.

(** The loop [for f in inventory: ...] that counts the file types. *)
Fixpoint count_file_types (inventory : list FileInfo) (file_types : list (pyval * Z))
  : Result (list (pyval * Z)) :=
  match inventory with
  | [] => Ok file_types
  | f :: inventory' =>
      match getitem f "file_type" with
      | Ok ftype => count_file_types inventory' (count_type ftype file_types)
      | Raise e => Raise e
      end
  end.

(** What the check boxes of the review step hold, what the user answers
    when devices are still pending, and the attribute
    [self.box_authenticated]. *)
Record ReviewDialog := {
  continue_anyway : bool;
  upload_to_box_cb : bool;
  box_authenticated : bool
}.

Section ReviewTab.
Context {FS : Type} {HFS : FileSystem FS}.

(** [f"{total_size / (1024 * 1024):.2f}"]: the division and the rounding
    are those of Python's floats. *)
Variable format_megabytes : Z -> Result string.

(** The lines of the summary for the devices. *)
Definition device_lines : M (Wizard FS) (list string) :=
  do devs <- gets devices;
  do inventory <- gets file_inventory;
  for_each devs
    (fun dev lines =>
       do device_files <- of_result (device_files_of inventory (device_label dev));
       do type_name <- of_result (device_type_name (dev_code dev));
       ret (lines ++
            [ "  Plot " +:+ str_of_int (plot_num dev) +:+ " (" +:+ py_str (plot_label dev)
                +:+ ") - " +:+ type_name +:+ ": "
                +:+ str_of_int (Z.of_nat (length device_files)) +:+ " files" ]))
    [].

(** [str(self.current_deployment_folder)] *)
Definition str_of_folder (folder : option Path) : string :=
  match folder with
  | Some p => str_of_path p
  | None => "None"
  end.

(** [update_review_tab]; [upload_checked] is the state of the check box
    "Upload to Box after processing". *)
Definition update_review_tab (upload_checked : bool) : M (Wizard FS) unit :=
  let rule := repeat_char "=" 60 in
  let dashes := repeat_char "-" 60 in
  do organization <- metadata_item "organization";
  do reserve_name <- metadata_item "reserve_name";
  do site <- metadata_item "site";
  do deployment_start <- metadata_item "deployment_start";
  do deployment_end <- metadata_item "deployment_end";
  do observer <- metadata_item "observer";
  do per_device <- device_lines;
  do inventory <- gets file_inventory;
  let total_files := Z.of_nat (length inventory) in
  do total_size <- of_result (sum_file_sizes inventory 0);
  do total_size_mb <- of_result (format_megabytes total_size);
  do file_types <- of_result (count_file_types inventory []);
  do folder <- gets current_deployment_folder;
  let summary :=
    [ rule; "DEPLOYMENT SUMMARY"; rule; "";
      "DEPLOYMENT INFORMATION"; dashes;
      "Organization: " +:+ organization;
      "Reserve: " +:+ reserve_name;
      "Site: " +:+ site;
      "Deployment Period: " +:+ deployment_start +:+ " to " +:+ deployment_end;
      "Observer: " +:+ observer;
      "";
      "DEVICES COLLECTED"; dashes ]
    ++ per_device ++
    [ "";
      "FILES PROCESSED"; dashes;
      "Total Files: " +:+ str_of_int total_files;
      "Total Size: " +:+ total_size_mb +:+ " MB";
      "";
      "File Types:" ]
    ++ map (fun tc => "  " +:+ py_str (fst tc) +:+ ": " +:+ str_of_int (snd tc)) file_types
    ++
    [ "";
      "OUTPUT LOCATION"; dashes;
      "Local Staging: " +:+ str_of_folder folder;
      "";
      "Files generated:";
      "  - deployment_metadata.json";
      "  - manifest.json";
      "  - file_metadata.csv";
      "  - raw_data/ (" +:+ str_of_int total_files +:+ " files in device subfolders)";
      "" ]
    ++ (if upload_checked then ["Box Upload: In progress or will be uploaded..."] else [])
    ++
    [ "";
      rule; "NEXT STEPS"; rule;
      "1. Review the files in the staging folder";
      "2. Verify Box upload completed successfully";
      "3. Keep a backup of the original SD cards until transfer is verified" ] in
  emit (EvUi "summary_text" (join_lines summary)).

(** [upload_to_box]; the thread it starts is [BoxUploadThread] on
    [self.current_deployment_folder]. *)
Definition upload_to_box (authenticated : bool) : M (Wizard FS) unit :=
  if negb authenticated
  then message_box "warning" "Box Not Connected" "Please authenticate with Box first."
  else
    do _ <- emit (EvUi "upload_group" "show()");
    do _ <- emit (EvUi "upload_status_label" "Starting upload to Box...");
    do _ <- emit (EvUi "upload_progress_bar" "setValue(0)");
    do _ <- emit (EvUi "open_btn" "setEnabled(False)");
    do _ <- emit (EvUi "upload_now_btn" "setEnabled(False)");
    do _ <- emit (EvUi "new_btn" "setEnabled(False)");
    emit (EvUi "upload_thread" "start()").

(** [upload_to_box_manual] *)
Definition upload_to_box_manual (authenticated : bool) : M (Wizard FS) unit :=
  do folder <- gets current_deployment_folder;
  match folder with
  | None => message_box "information" "No Data" "No deployment data to upload."
  | Some _ => upload_to_box authenticated
  end.

(** [validate_and_next_collection] *)
Definition validate_and_next_collection (ui : ReviewDialog) : M (Wizard FS) unit :=
  do tree <- gets device_tree;
  let pending := existsb (fun item => String.eqb (text2 item) "Pending") tree in
  let finalize : M (Wizard FS) unit :=
    do _ <- generate_metadata_files;
    do _ <- update_review_tab (upload_to_box_cb ui);
    do _ <- emit (EvUi "tabs" "setCurrentIndex(2)");
    if (upload_to_box_cb ui && box_authenticated ui)%bool
    then upload_to_box (box_authenticated ui)
    else ret tt
  in
  if pending
  then
    do _ <- message_box "question" "Incomplete Collection"
              "Some devices are still pending. Continue anyway?";
    if continue_anyway ui then finalize else ret tt
  else finalize.

End ReviewTab.

(** ** In-memory instances of the interfaces *)

(** SHA-256 (FIPS 180-4) on 32-bit words held in [Z]. *)
Module SHA256.

(** Reduction modulo 2^32, on the bits. *)
Definition wrap (x : Z) : Z := Z.land x 4294967295.
Definition rotr (n x : Z) : Z := Z.lor (Z.shiftr x n) (wrap (Z.shiftl x (32 - n))).
Definition xor3 (a b c : Z) : Z := Z.lxor a (Z.lxor b c).
Definition Ch (x y z : Z) : Z := Z.lxor (Z.land x y) (Z.land (Z.lxor x 4294967295) z).
Definition Maj (x y z : Z) : Z := xor3 (Z.land x y) (Z.land x z) (Z.land y z).
Definition Sigma0 (x : Z) : Z := xor3 (rotr 2 x) (rotr 13 x) (rotr 22 x).
Definition Sigma1 (x : Z) : Z := xor3 (rotr 6 x) (rotr 11 x) (rotr 25 x).
Definition sigma0 (x : Z) : Z := xor3 (rotr 7 x) (rotr 18 x) (Z.shiftr x 3).
Definition sigma1 (x : Z) : Z := xor3 (rotr 17 x) (rotr 19 x) (Z.shiftr x 10).

Definition is_prime (n : Z) : bool :=
  forallb (fun d => negb (n mod Z.of_nat d =? 0)) (seq 2 (Z.to_nat (Z.sqrt n) - 1)).

Definition primes : list Z :=
  take 64 (List.filter is_prime (map Z.of_nat (seq 2 400))).

(** The integer cube root, by bisection on [lo, lo + 2^bits). *)
Fixpoint cbrt_bits (bits : nat) (lo n : Z) : Z :=
  match bits with
  | O => lo
  | S b =>
      let mid := lo + 2 ^ Z.of_nat b in
      if mid * mid * mid <=? n then cbrt_bits b mid n else cbrt_bits b lo n
  end.

(** The first 32 bits of the fractional parts of the square roots of the
    first 8 primes, and of the cube roots of the first 64. *)
Definition H0 : list Z :=
  Eval vm_compute in map (fun p => wrap (Z.sqrt (p * 2 ^ 64))) (take 8 primes).
Definition K : list Z :=
  Eval vm_compute in map (fun p => wrap (cbrt_bits 36 0 (p * 2 ^ 96))) primes.

Definition byte_val (b : Byte.byte) : Z := Z.of_N (Byte.to_N b).

Fixpoint be_words (bs : list Z) : list Z :=
  match bs with
  | a :: b :: c :: d :: rest => (((a * 256 + b) * 256 + c) * 256 + d) :: be_words rest
  | _ => []
  end.

Definition be_bytes (width : nat) (x : Z) : list Z :=
  map (fun i => (x / 256 ^ Z.of_nat i) mod 256) (rev (seq 0 width)).

Definition pad (msg : list Z) : list Z :=
  let len := Z.of_nat (length msg) in
  msg ++ [128] ++ replicate (Z.to_nat ((55 - len) mod 64)) 0 ++ be_bytes 8 (8 * len).

(** The message schedule, most recent word first. *)
Fixpoint schedule (n : nat) (rev_w : list Z) : list Z :=
  match n with
  | O => rev_w
  | S n' =>
      let at_ i := nth i rev_w 0 in
      schedule n' (wrap (sigma1 (at_ 1%nat) + at_ 6%nat + sigma0 (at_ 14%nat) + at_ 15%nat)
                   :: rev_w)
  end.

Definition round (s : list Z) (kw : Z * Z) : list Z :=
  match s with
  | [a; b; c; d; e; f; g; h] =>
      let t1 := h + Sigma1 e + Ch e f g + fst kw + snd kw in
      let t2 := Sigma0 a + Maj a b c in
      [wrap (t1 + t2); a; b; c; wrap (d + t1); e; f; g]
  | _ => s
  end.

Definition compress (h : list Z) (block : list Z) : list Z :=
  let w := rev (schedule 48 (rev block)) in
  let s := fold_left round (combine K w) h in
  map (fun p => wrap (fst p + snd p)) (combine h s).

Fixpoint blocks (n : nat) (ws : list Z) : list (list Z) :=
  match n with
  | O => []
  | S n' => take 16 ws :: blocks n' (drop 16 ws)
  end.

Definition digest (msg : list Byte.byte) : list Z :=
  let ws := be_words (pad (map byte_val msg)) in
  fold_left compress (blocks (length ws / 16) ws) H0.

Definition hex_digit (d : Z) : ascii :=
  ascii_of_nat (Z.to_nat (if d <? 10 then 48 + d else 87 + d)).

Definition hex_word (x : Z) : string :=
  string_of_list_ascii
    (map (fun i => hex_digit ((x / 16 ^ Z.of_nat i) mod 16)) (rev (seq 0 8))).

Definition hexdigest (msg : list Byte.byte) : string :=
  String.concat "" (map hex_word (digest msg)).

End SHA256.

(** A hash object that remembers what it was fed. *)
#[export] Instance MemHashlib : Hashlib (list Byte.byte) := {|
  sha256_new := [];
  sha256_update := fun h block => h ++ block;
  sha256_hexdigest := SHA256.hexdigest;
  SHA256_hex := SHA256.hexdigest
|}.

(** A file of the in-memory file system. *)
Record MemFile := {
  mem_content : list Byte.byte;
  mem_mtime : Z;
  mem_exif : option (gmap string pyval)
}.

(** Regular files, directories, the sidecar documents written, the clock. *)
Record MemFS := {
  mem_files : gmap Path MemFile;
  mem_dirs : list Path;
  mem_documents : gmap Path Document;
  mem_now : string
}.

Definition no_such_file {A} (p : Path) : Result A :=
  Raise ("[Errno 2] No such file or directory: '" +:+ str_of_path p +:+ "'").

Definition is_strict_prefix (base p : Path) : bool :=
  (Nat.ltb (length base) (length p) && bool_decide (take (length base) p = base))%bool.

#[export] Instance MemFileSystem : FileSystem MemFS := {|
  shutil_copy2 := fun src dst m =>
    match mem_files m !! src with
    | Some f =>
        (Ok tt, {| mem_files := <[ dst := f ]> (mem_files m); mem_dirs := mem_dirs m;
                   mem_documents := mem_documents m; mem_now := mem_now m |})
    | None => (no_such_file src, m)
    end;
  open_rb := fun p m =>
    match mem_files m !! p with
    | Some f => Ok (mem_content f)
    | None => no_such_file p
    end;
  path_stat := fun p m =>
    match mem_files m !! p with
    | Some f => Ok {| st_size := Z.of_nat (length (mem_content f)); st_mtime := mem_mtime f |}
    | None => no_such_file p
    end;
  path_mkdir := fun p m =>
    (Ok tt, {| mem_files := mem_files m; mem_dirs := mem_dirs m ++ [p];
               mem_documents := mem_documents m; mem_now := mem_now m |});
  write_document := fun p doc m =>
    (Ok tt, {| mem_files := mem_files m; mem_dirs := mem_dirs m;
               mem_documents := <[ p := doc ]> (mem_documents m); mem_now := mem_now m |});
  rglob := fun base m =>
    List.filter (is_strict_prefix base) (mem_dirs m ++ map fst (map_to_list (mem_files m)));
  is_file := fun p m => bool_decide (is_Some (mem_files m !! p));
  fromtimestamp_isoformat := fun t => "epoch+" +:+ str_of_int t;
  now_isoformat := mem_now;
  Image_getexif := fun p m =>
    match mem_files m !! p with
    | Some f => Ok (mem_exif f)
    | None => no_such_file p
    end
|}.

(** A remote store: the entries with the id of their parent, oldest first,
    and the number the next id is made of.  As Box does, it refuses a name
    that is taken in the folder. *)
Record MemBox := {
  box_entries : list (string * Item);
  box_next : Z
}.

Definition box_listing (parent_id : string) (bx : MemBox) : list Item :=
  map snd (List.filter (fun e => String.eqb (fst e) parent_id) (box_entries bx)).

Definition box_add (kind name parent_id : string) (bx : MemBox) : Result Item * MemBox :=
  if existsb (fun it => String.eqb (item_name it) name) (box_listing parent_id bx)
  then (Raise "409 Conflict: item_name_in_use", bx)
  else
    let item := {| item_type := kind; item_id := str_of_int (box_next bx);
                   item_name := name |} in
    (Ok item, {| box_entries := box_entries bx ++ [(parent_id, item)];
                 box_next := box_next bx + 1 |}).

#[export] Instance MemBoxClient : BoxClient MemBox := {|
  get_folder_items := fun parent_id bx => Ok (box_listing parent_id bx);
  create_folder := fun name parent_id bx => box_add "folder" name parent_id bx;
  upload_file := fun name parent_id content bx =>
    match box_add "file" name parent_id bx with
    | (Ok _, bx') => (Ok tt, bx')
    | (Raise e, bx') => (Raise e, bx')
    end
|}.

(** [mkdir] without [parents=True] on the in-memory file system: the parent
    has to be a directory that is there, and the path no regular file. *)
#[export] Instance MemMkdir : Mkdir MemFS := {|
  path_mkdir_exist_ok := fun p m =>
    if bool_decide (is_Some (mem_files m !! p))
    then (Raise ("[Errno 17] File exists: '" +:+ str_of_path p +:+ "'"), m)
    else if bool_decide (path_parent p ∈ mem_dirs m)
    then (Ok tt, {| mem_files := mem_files m; mem_dirs := mem_dirs m ++ [p];
                    mem_documents := mem_documents m; mem_now := mem_now m |})
    else (no_such_file p, m)
|}.

(** ** Vocabulary of the properties *)

(** The entries that the loop of [process_sd_card_files] visits, in order,
    each with the directory it is in. *)
Definition sd_files (walk : list (Path * list string * list string))
  : list (Path * string) :=
  concat (map (fun '(root, _, files) => map (pair root) files) walk).

(** An entry that is neither hidden nor of another kind than image or audio. *)
Definition eligible (filename : string) : bool :=
  (negb (startswith filename "." || startswith filename "_")
   && negb (String.eqb (classify_file filename) "other"))%bool.

Definition copied_files (walk : list (Path * list string * list string))
  : list (Path * string) :=
  List.filter (fun rf => eligible (snd rf)) (sd_files walk).

(** The name the specification gives to the [file_sequence]-th copied file:
    the six fields joined by underscores, then the lowercased extension. *)
Definition spec_filename (org site : string) (plot_num : Z) (dev_code : string)
    (deployment_end : date) (file_sequence : Z) (extension : string) : string :=
  String.concat "_"
    [ org; site; "plot" +:+ str_of_int plot_num; dev_code;
      strftime_Ym deployment_end; format_05d file_sequence ]
  +:+ lower extension.

Definition copy_of (e : Event) : option (Path * Path) :=
  match e with EvCopy src dst => Some (src, dst) | _ => None end.

Definition record_of (e : Event) : option FileInfo :=
  match e with EvRecord info => Some info | _ => None end.

Definition is_log (e : Event) : Prop :=
  match e with EvLog _ => True | _ => False end.

(** [f] holds on the [fuel] integers from [n] on. *)
Fixpoint all_from (fuel : nat) (n : Z) (f : Z -> bool) : bool :=
  match fuel with
  | O => true
  | S fuel' => (f n && all_from fuel' (n + 1) f)%bool
  end.

(** The copies made and the records appended, in order. *)
Definition copies_of (evs : list Event) : list (Path * Path) := omap copy_of evs.
Definition records_of (evs : list Event) : list FileInfo := omap record_of evs.

(** The rows of a CSV document after the header. *)
Definition data_rows (doc : Document) : list (list string) :=
  match doc with
  | CsvDocument (_ :: rows) => rows
  | _ => []
  end.

Definition json_length (j : json) : nat :=
  match j with
  | JList l => length l
  | _ => O
  end.

(** A computation of the wizard that leaves [file_inventory] as it is,
    whether it returns or raises. *)
Definition keeps {FS A : Type} (m : M (Wizard FS) A) : Prop :=
  forall w r w', m w = (r, w') -> file_inventory w' = file_inventory w.

Section Vocabulary.
Context {FS : Type} {HFS : FileSystem FS}.

(** [fs'] is reached from [fs] by calls of [shutil.copy2] and nothing else. *)
Inductive copy2_steps : FS -> FS -> Prop :=
| copy2_steps_refl fs : copy2_steps fs fs
| copy2_steps_step fs src dst r fs1 fs2 :
    shutil_copy2 src dst fs = (r, fs1) -> copy2_steps fs1 fs2 -> copy2_steps fs fs2.

(** The shape of what one run of the loop leaves behind, from the sequence
    number [seq] on and for the eligible files [files]: for each file a copy,
    then its record, then log lines; [complete] is false when the run stopped
    at a file, before its copy or between its copy and its record. *)
Inductive processed (dest_dir : Path) (name_of : Z -> string -> string)
  : Z -> list (Path * string) -> list Event -> list FileInfo -> bool -> Prop :=
| processed_done seq :
    processed dest_dir name_of seq [] [] [] true
| processed_stop_before seq file files :
    processed dest_dir name_of seq (file :: files) [] [] false
| processed_stop_after seq root filename files :
    processed dest_dir name_of seq ((root, filename) :: files)
      [EvCopy (root /: filename) (dest_dir /: name_of seq filename)] [] false
| processed_file seq root filename files info logs evs infos complete :
    info !! "new_filename" = Some (PyStr (name_of seq filename)) ->
    info !! "original_filename" = Some (PyStr filename) ->
    info !! "source_path" = Some (PyStr (str_of_path (root /: filename))) ->
    dom info ⊆ list_to_set csv_fields ->
    Forall is_log logs ->
    processed dest_dir name_of (seq + 1) files evs infos complete ->
    processed dest_dir name_of seq ((root, filename) :: files)
      (EvCopy (root /: filename) (dest_dir /: name_of seq filename)
         :: EvRecord info :: logs ++ evs)
      (info :: infos) complete.

End Vocabulary.

Section BoxVocabulary.
Context {BX : Type} {HBX : BoxClient BX}.

(** What the program relies on from the remote store: a folder just created
    is found under its name, an uploaded file is listed in its folder, and
    no call makes a folder that was found, or a file that was listed,
    disappear or change. *)
Class BoxLaws : Prop := {
  create_folder_found : forall name pid bx item bx',
    create_folder name pid bx = (Ok item, bx') ->
    lookup_folder bx pid name = None ->
    lookup_folder bx' pid name = Some item;
  create_folder_keeps : forall name pid bx r bx' p n f,
    create_folder name pid bx = (r, bx') ->
    lookup_folder bx p n = Some f -> lookup_folder bx' p n = Some f;
  create_folder_keeps_files : forall name pid bx r bx' p n,
    create_folder name pid bx = (r, bx') ->
    has_file bx p n -> has_file bx' p n;
  upload_file_listed : forall name pid content bx bx',
    upload_file name pid content bx = (Ok tt, bx') ->
    has_file bx' pid name;
  upload_file_keeps : forall name pid content bx r bx' p n f,
    upload_file name pid content bx = (r, bx') ->
    lookup_folder bx p n = Some f -> lookup_folder bx' p n = Some f;
  upload_file_keeps_files : forall name pid content bx r bx' p n,
    upload_file name pid content bx = (r, bx') ->
    has_file bx p n -> has_file bx' p n
}.

(** Every folder found and every file listed in [bx] is so in [bx']. *)
Definition box_le (bx bx' : BX) : Prop :=
  (forall p n f, lookup_folder bx p n = Some f -> lookup_folder bx' p n = Some f)
  /\ (forall p n, has_file bx p n -> has_file bx' p n).

(** The calls that find or create the folders [dirs] one inside the other,
    starting in the folder [parent_id]: a listing of the current folder,
    then, when the name was not found, its creation there. *)
Inductive mirror_calls : string -> list string -> list BoxCall -> Prop :=
| mirror_done parent_id : mirror_calls parent_id [] []
| mirror_found parent_id d dirs folder_id calls :
    mirror_calls folder_id dirs calls ->
    mirror_calls parent_id (d :: dirs) (GetFolderItems parent_id :: calls)
| mirror_created parent_id d dirs folder_id calls :
    mirror_calls folder_id dirs calls ->
    mirror_calls parent_id (d :: dirs)
      (GetFolderItems parent_id :: CreateFolder d parent_id :: calls).

(** The walk down the folders [dirs] from the folder [parent_id] in the
    store [bx], as the store decides it: the folder reached is listed; a
    folder of the name that the listing holds is entered and nothing is
    created, and only when the listing holds none is one created there and
    entered.  [calls] are the calls this makes, in order; [bx'] is the store
    and [folder_id] the folder reached at the end. *)
Inductive mirrored : BX -> string -> list string -> list BoxCall -> BX -> string -> Prop :=
| mirrored_done bx parent_id : mirrored bx parent_id [] [] bx parent_id
| mirrored_found bx parent_id d dirs items item calls bx' folder_id :
    get_folder_items parent_id bx = Ok items ->
    List.find (is_folder_named d) items = Some item ->
    mirrored bx (item_id item) dirs calls bx' folder_id ->
    mirrored bx parent_id (d :: dirs) (GetFolderItems parent_id :: calls) bx' folder_id
| mirrored_created bx parent_id d dirs items item bx1 calls bx' folder_id :
    get_folder_items parent_id bx = Ok items ->
    List.find (is_folder_named d) items = None ->
    create_folder d parent_id bx = (Ok item, bx1) ->
    mirrored bx1 (item_id item) dirs calls bx' folder_id ->
    mirrored bx parent_id (d :: dirs)
      (GetFolderItems parent_id :: CreateFolder d parent_id :: calls) bx' folder_id.

(** The walk stops at the name [d] in the folder [folder_id] with the
    exception [e]: the listing of the folder raises, or no folder of the
    name is listed and its creation raises. *)
Definition mirror_stops (bx : BX) (folder_id d : string) (e : exn) : Prop :=
  (exists e0,
     get_folder_items folder_id bx = Raise e0
     /\ e = "Error creating folder '" +:+ d +:+ "': " +:+ e0)
  \/ (exists items e0 bx',
        get_folder_items folder_id bx = Ok items
        /\ List.find (is_folder_named d) items = None
        /\ create_folder d folder_id bx = (Raise e0, bx')
        /\ e = "Error creating folder '" +:+ d +:+ "': " +:+ e0).

End BoxVocabulary.
Arguments BoxLaws BX {HBX}.

Definition call_of (e : UploadEvent) : option BoxCall :=
  match e with UvCall c => Some c | _ => None end.

Definition signal_of (e : UploadEvent) : option Signal :=
  match e with UvSignal s => Some s | _ => None end.

Definition opened_of (e : UploadEvent) : option Path :=
  match e with UvOpen p => Some p | _ => None end.

Definition upload_of (e : UploadEvent) : option (string * string) :=
  match e with UvCall (UploadFile name parent_id _) => Some (name, parent_id) | _ => None end.

(** A computation of the thread that emits no signal, leaves the local
    files alone and, the store obeying its laws, loses nothing there,
    whether it returns or raises. *)
Definition quiet {FS BX : Type} {HBX : BoxClient BX} {A : Type}
    (m : M (Uploader FS BX) A) : Prop :=
  forall w r w' bx,
    box_client w = Some bx -> m w = (r, w') ->
    up_fs w' = up_fs w
    /\ exists bx' evs,
         box_client w' = Some bx'
         /\ up_events w' = up_events w ++ evs
         /\ omap signal_of evs = []
         /\ (BoxLaws BX -> box_le bx bx').

Definition is_create (c : BoxCall) : bool :=
  match c with CreateFolder _ _ => true | _ => false end.

(** The number of [create_folder] calls among the events. *)
Definition creations (evs : list UploadEvent) : nat :=
  length (List.filter is_create (omap call_of evs)).

(** [progress(1, total, n1); ...; progress(k, total, nk)] for the names
    [n1 ... nk], numbered from [first]. *)
Fixpoint progress_signals (first total : Z) (names : list string) : list Signal :=
  match names with
  | [] => []
  | n :: names' => progress first total n :: progress_signals (first + 1) total names'
  end.

(** ** Vocabulary of the set-up *)

(** A calendar day of the years 1752 to 9999; the dates that a [QDateEdit]
    holds, from 1752-09-14 to 9999-12-31, are such days. *)
Definition QDateEdit_date (d : date) : Prop :=
  1752 <= year d <= 9999
  /\ 1 <= month d <= 12
  /\ 1 <= day d <= days_in_month (year d) (month d).

(** The four checks of the form that come before anything is stored. *)
Definition form_filled (tab : MetadataTab) : bool :=
  (negb (String.eqb (reserve_combo tab) "")
   && negb (String.eqb (site_code_edit tab) "")
   && negb (String.eqb (observer_combo tab) "")
   && negb (String.eqb (observer_combo tab) "Other"
            && String.eqb (strip (observer_other_edit tab)) ""))%bool.

(** The character [c] does not occur in [s]. *)
Definition without_char (c : ascii) (s : string) : bool :=
  forallb (fun a => negb (Ascii.eqb a c)) (list_ascii_of_string s).

(** The label [validate_and_next] gives to a plot: its name in the table of
    the site, and the plot number when the table has nothing for it. *)
Definition plot_label_for (plot_names : option (list (option string))) (plot_num : Z)
  : pyval :=
  match named_plot plot_names plot_num with
  | Ok (Some slot) => pyval_of_slot slot
  | _ => PyStr (str_of_int plot_num)
  end.

(** The device of a plot and a device type. *)
Definition device_of (plot_names : option (list (option string))) (plot_num : Z)
    (dev_code : string) : Device :=
  {| plot_num := plot_num;
     plot_label := plot_label_for plot_names plot_num;
     dev_code := dev_code;
     device_label := "p" +:+ str_of_int plot_num +:+ "_" +:+ dev_code |}.

(** The devices whose box is checked: plot by plot, and for each plot in
    the order of [DEVICE_TYPES]. *)
Definition selected_devices (PLOT_NAMES : gmap string (list (option string)))
    (tab : MetadataTab) : list Device :=
  flat_map
    (fun plot_num =>
       map (device_of (PLOT_NAMES !! site_code_edit tab) plot_num)
         (List.filter (device_checkboxes tab plot_num) DEVICE_TYPES_keys))
    (range 1 5).

(** The row of the device tree for a device of a known type. *)
Definition pending_row (dev : Device) : TreeItem :=
  pending_item dev (default "" (DEVICE_TYPES (dev_code dev))).

(** The name of the deployment folder. *)
Definition deployment_folder_name (tab : MetadataTab) : string :=
  org_combo tab +:+ "_" +:+ site_code_edit tab +:+ "_"
    +:+ strftime_Ym (deploy_end_date tab) +:+ format_0wd 2 (day (deploy_end_date tab)).

(** An event about the path [p]: a directory made or a document written there. *)
Definition event_at (p : Path) (e : Event) : Prop :=
  match e with
  | EvMkdir q => q = path_parent p
  | EvWrite q _ => q = p
  | _ => False
  end.

(** A computation of the wizard that leaves the part [proj] of its state
    as it is, whether it returns or raises. *)
Definition preserves {FS A B : Type} (proj : Wizard FS -> B) (m : M (Wizard FS) A) : Prop :=
  forall w r w', m w = (r, w') -> proj w' = proj w.

(** The labels of the sixteen devices a deployment can have. *)
Definition all_device_labels : list string :=
  flat_map
    (fun plot_num => map (fun dev_code => "p" +:+ str_of_int plot_num +:+ "_" +:+ dev_code)
                       DEVICE_TYPES_keys)
    (range 1 5).

(** The line of the log, if the event is one. *)
Definition log_of (e : Event) : option string :=
  match e with EvLog message => Some message | _ => None end.

(** The line that [process_sd_card_files] logs after [files_copied] files. *)
Definition progress_line (files_copied : Z) : string :=
  "  ..." +:+ str_of_int files_copied +:+ " files processed".

(** The keys of a record of [file_inventory]. *)
Definition record_keys : list string :=
  [ "original_filename"; "new_filename"; "plot_number"; "plot_label";
    "device_type"; "device_label"; "file_type"; "file_size_bytes";
    "file_hash_sha256"; "source_path"; "timestamp";
    "exif_datetime"; "exif_make"; "exif_model" ].

Section Recorded.
Context {FS : Type} {HFS : FileSystem FS} {H : Type} {HH : Hashlib H}.

(** The record [info] describes a copy made for the plot and the device of
    the call into [dest_dir]: an eligible file of the card was copied there,
    and its size, time and digest were read from the file system as that
    copy left it. *)
Definition recorded (EXIF_AVAILABLE : bool) (dest_dir : Path) (pn : Z) (pl : pyval)
    (dc dl : string) (info : FileInfo) : Prop :=
  exists (root : Path) (filename new_filename file_hash : string) (st : stat_result)
         (fs0 fs1 : FS) (exif_data : gmap string pyval),
    eligible filename = true
    /\ shutil_copy2 (root /: filename) (dest_dir /: new_filename) fs0 = (Ok tt, fs1)
    /\ compute_file_hash (H:=H) (dest_dir /: new_filename) fs1 = Ok file_hash
    /\ path_stat (dest_dir /: new_filename) fs1 = Ok st
    /\ (EXIF_AVAILABLE = false \/ classify_file filename <> "image" -> exif_data = ∅)
    /\ info = file_info_of filename new_filename pn pl dc dl (st_size st) file_hash
                (root /: filename) (fromtimestamp_isoformat (st_mtime st)) exif_data.

End Recorded.

(** The lines logged while [k] files are counted after the first [fc]. *)
Fixpoint progress_lines (k : nat) (fc : Z) : list string :=
  match k with
  | O => []
  | S k' =>
      (if (fc + 1) mod 50 =? 0 then [progress_line (fc + 1)] else [])
      ++ progress_lines k' (fc + 1)
  end.

(** ** Vocabulary of the review step *)

(** A computation of the wizard whose events, whether it returns or
    raises, all satisfy [P]. *)
Definition emits {FS A : Type} (P : Event -> Prop) (m : M (Wizard FS) A) : Prop :=
  forall w r w', m w = (r, w') ->
    exists evs, events w' = events w ++ evs /\ Forall P evs.

Definition is_message_box (e : Event) : bool :=
  match e with EvMessageBox _ _ _ => true | _ => false end.

(** A document written or a line logged. *)
Definition write_or_log (e : Event) : Prop :=
  match e with EvWrite _ _ | EvLog _ => True | _ => False end.

(** The question of [validate_and_next_collection]. *)
Definition pending_question : Event :=
  EvMessageBox "question" "Incomplete Collection"
    "Some devices are still pending. Continue anyway?".

(** A row of the device tree still has the status "Pending". *)
Definition some_pending (tree : list TreeItem) : Prop :=
  Exists (fun item => text2 item = "Pending") tree.

(** What [upload_to_box] does to the widgets, up to the start of the
    thread. *)
Definition upload_start : list Event :=
  [ EvUi "upload_group" "show()";
    EvUi "upload_status_label" "Starting upload to Box...";
    EvUi "upload_progress_bar" "setValue(0)";
    EvUi "open_btn" "setEnabled(False)";
    EvUi "upload_now_btn" "setEnabled(False)";
    EvUi "new_btn" "setEnabled(False)";
    EvUi "upload_thread" "start()" ].

(** The records of [inventory] whose file type is [ftype]. *)
Definition records_of_type (ftype : pyval) (inventory : list FileInfo) : list FileInfo :=
  List.filter (fun f => bool_decide (f !! "file_type" = Some ftype)) inventory.

(** The file types of [inventory], each once, in the order in which they
    first occur. *)
Fixpoint types_in_order (inventory : list FileInfo) (seen : list pyval) : list pyval :=
  match inventory with
  | [] => []
  | f :: inventory' =>
      match f !! "file_type" with
      | Some ftype =>
          if bool_decide (ftype ∈ seen) then types_in_order inventory' seen
          else ftype :: types_in_order inventory' (ftype :: seen)
      | None => types_in_order inventory' seen
      end
  end.

(** The part of the wizard that the review step only reads. *)
Definition collected {FS} (w : Wizard FS) :=
  (metadata w, devices w, file_inventory w, current_deployment_folder w, device_tree w).

(** [file_types.get(ftype, 0)] *)
Definition count_for (ftype : pyval) (file_types : list (pyval * Z)) : Z :=
  match List.find (fun kv => bool_decide (fst kv = ftype)) file_types with
  | Some kv => snd kv
  | None => 0
  end.

(** The counts of a tally, added up. *)
Definition total_count (file_types : list (pyval * Z)) : Z :=
  fold_right Z.add 0 (map snd file_types).

(** ** Vocabulary of the tables *)

(** The cell of [row] under [key], for a row that has one. *)
Definition cell_of (row : CsvRow) (key : string) : option string :=
  match row !! key with
  | Some (Some cell) => Some cell
  | _ => None
  end.

(** The site a row of sites.csv stands for, when it has both cells. *)
Definition site_of_row (row : CsvRow) : option (string * string) :=
  match cell_of row "site_code", cell_of row "site_name" with
  | Some site_code, Some site_name => Some (strip site_code, strip site_name)
  | _, _ => None
  end.

(** A site with a code and a name. *)
Definition named_site (site : string * string) : bool :=
  (negb (String.eqb (fst site) "") && negb (String.eqb (snd site) ""))%bool.

(** The list that [load_reserves_from_csv] falls back to. *)
Definition fallback_reserves : list (string * string) :=
  [ ("Bodega", "Bodega Marine Reserve"); ("QuailRidge", "Quail Ridge Reserve") ].

(** The plot a row of plots.csv stands for, when it has the three cells
    and [int] reads the number. *)
Definition plot_of_row (int : string -> Result Z) (row : CsvRow)
  : option (string * Z * string) :=
  match cell_of row "site_code", cell_of row "plot_number", cell_of row "plot_name" with
  | Some site_code, Some plot_number, Some plot_name =>
      match int plot_number with
      | Ok n => Some (strip site_code, n, strip plot_name)
      | Raise _ => None
      end
  | _, _, _ => None
  end.

(** The name that the rows [plots] give to plot [n] of the site [code]:
    that of the last row for this plot that has a name. *)
Definition plot_name_in (plots : list (string * Z * string)) (code : string) (n : Z)
  : option string :=
  last (omap (fun p : string * Z * string =>
                if bool_decide (p.1.1 = code /\ p.1.2 = n /\ p.2 <> "")
                then Some p.2 else None) plots).

(** The entry of the site [code] in the table of the rows [plots]. *)
Definition plot_table_of (plots : list (string * Z * string)) (code : string)
  : option (list (option string)) :=
  if bool_decide (code ∈ map (fun p : string * Z * string => p.1.1) plots)
  then Some (map (plot_name_in plots code) [1; 2; 3; 4])
  else None.

(** ** Vocabulary of the metadata tab *)

(** The slot of plot [plot_num] in the entry of a site: absent when the
    site has no entry or its entry is too short. *)
Definition plot_slot (plot_names : option (list (option string))) (plot_num : Z)
  : option (option string) :=
  match plot_names with
  | Some slots => slots !! Z.to_nat (plot_num - 1)
  | None => None
  end.

(** The text of the label of a plot on the metadata tab. *)
Definition plot_label_text (plot_names : option (list (option string))) (plot_num : Z)
  : string :=
  match plot_slot plot_names plot_num with
  | Some (Some name) => "Plot " +:+ str_of_int plot_num +:+ ": " +:+ name
  | Some None => "Plot " +:+ str_of_int plot_num +:+ ": None"
  | None => "Plot " +:+ str_of_int plot_num
  end.

(** The first reserve of the list with the name [text]. *)
Definition reserve_named (RESERVES : list (string * string)) (text : string)
  : option (string * string) :=
  List.find (fun reserve => String.eqb (snd reserve) text) RESERVES.

(** The widgets of the metadata tab other than the site code and the
    labels of the plots. *)
Definition form_entries (tab : MetadataTab) :=
  (org_combo tab, reserve_combo tab, deploy_start_date tab, deploy_end_date tab,
   observer_combo tab, observer_other_edit tab, device_checkboxes tab, set_default_cb tab).

(** ** A deployment, to run the model on *)

Module Scenario.

Definition bytes (s : string) : list Byte.byte := list_byte_of_string s.

Definition photo : MemFile :=
  {| mem_content := bytes "abc"; mem_mtime := 1709273565;
     mem_exif := Some {[ "Make" := PyStr "RECONYX";
                         "DateTime" := PyStr "2024:03:01 06:12:45" ]} |}.

Definition recording : MemFile :=
  {| mem_content := []; mem_mtime := 1709190000; mem_exif := None |}.

Definition staging : Path := ["staging"; "UC_Bodega_20240315"].
Definition device_folder : Path := staging /: "raw_data" /: "p1_ML".

(** An SD card with a recording, a photo, a resource fork and a text file. *)
Definition card : MemFS :=
  {| mem_files :=
       <[ ["sd"; "REC_001.WAV"] := recording ]>
       (<[ ["sd"; "DCIM"; "IMG_0001.JPG"] := photo ]>
       (<[ ["sd"; "DCIM"; "._IMG_0001.JPG"] := recording ]>
       (<[ ["sd"; "DCIM"; "notes.txt"] := recording ]> ∅)));
     mem_dirs := [staging; staging /: "raw_data"];
     mem_documents := ∅;
     mem_now := "2024-03-16T10:00:00" |}.

Definition walk : list (Path * list string * list string) :=
  [ (["sd"], ["DCIM"], ["REC_001.WAV"]);
    (["sd"; "DCIM"], [], ["._IMG_0001.JPG"; "IMG_0001.JPG"; "notes.txt"]) ].

(** The same listing with a photo that is no longer on the card. *)
Definition walk_gone : list (Path * list string * list string) :=
  [ (["sd"], ["DCIM"], ["REC_001.WAV"]);
    (["sd"; "DCIM"], [], ["IMG_0001.JPG"; "IMG_0002.JPG"]) ].

Definition p1_ML : Device :=
  {| plot_num := 1; plot_label := PyStr "Dunes"; dev_code := "ML";
     device_label := "p1_ML" |}.

Definition wizard : Wizard MemFS :=
  {| fs := card;
     metadata := <[ "organization" := "UC" ]>
                 (<[ "site" := "Bodega" ]>
                 (<[ "deployment_end" := "2024-03-15" ]> ∅));
     devices := [p1_ML];
     file_inventory := [];
     current_deployment_folder := Some staging;
     device_tree := [ {| text0 := "Plot 1 (Dunes)"; text1 := "Medium-Large Animal Camera";
                         text2 := "Pending"; text3 := "0" |} ];
     events := [] |}.

Definition dialog : CopyDialog :=
  {| current_item := Some 0%nat; copy_again := true; sd_path := "/media/sd";
     sd_walk := walk |}.

(** [process_sd_card_files] for the device, with PIL available. *)
Definition process (walk : list (Path * list string * list string)) (w : Wizard MemFS)
  : Result Z * Wizard MemFS :=
  process_sd_card_files (H:=list Byte.byte) true walk device_folder 1 (PyStr "Dunes")
    "ML" "p1_ML" w.

(** The staged deployment, as the copy leaves it, and an empty remote store. *)
Definition staged : MemFS :=
  {| mem_files :=
       <[ device_folder /: "UC_Bodega_plot1_ML_202403_00001.wav" := recording ]>
       (<[ device_folder /: "UC_Bodega_plot1_ML_202403_00002.jpg" := photo ]> ∅);
     mem_dirs := [staging /: "raw_data"; device_folder];
     mem_documents := ∅;
     mem_now := "2024-03-16T10:05:00" |}.

Definition remote : MemBox := {| box_entries := []; box_next := 1 |}.

Definition thread : Uploader MemFS MemBox :=
  {| up_fs := staged; box_client := Some remote; up_events := [] |}.

(** The thread when [get_box_client()] returns [None]. *)
Definition thread_unauthenticated : Uploader MemFS MemBox :=
  {| up_fs := staged; box_client := None; up_events := [] |}.

(** A remote store that already holds the photo of the deployment. *)
Definition remote_taken : MemBox :=
  {| box_entries :=
       [ ("0", {| item_type := "folder"; item_id := "1";
                  item_name := "UC_Bodega_20240315" |});
         ("1", {| item_type := "folder"; item_id := "2"; item_name := "raw_data" |});
         ("2", {| item_type := "folder"; item_id := "3"; item_name := "p1_ML" |});
         ("3", {| item_type := "file"; item_id := "4";
                  item_name := "UC_Bodega_plot1_ML_202403_00002.jpg" |}) ];
     box_next := 5 |}.

Definition thread_again : Uploader MemFS MemBox :=
  {| up_fs := staged; box_client := Some remote_taken; up_events := [] |}.

(** A remote store that holds the folder of the deployment and nothing in
    it yet. *)
Definition remote_started : MemBox :=
  {| box_entries :=
       [ ("0", {| item_type := "folder"; item_id := "1";
                  item_name := "UC_Bodega_20240315" |}) ];
     box_next := 2 |}.

Definition thread_started : Uploader MemFS MemBox :=
  {| up_fs := staged; box_client := Some remote_started; up_events := [] |}.

(** A card with the photos 1.jpg ... 100000.jpg in one directory. *)
Fixpoint numbered (fuel : nat) (k : Z) : list string :=
  match fuel with
  | O => []
  | S fuel' => (str_of_int k +:+ ".jpg") :: numbered fuel' (k + 1)
  end.

Definition many_names : list string := numbered (Z.to_nat 100000) 1.

Definition many_walk : list (Path * list string * list string) :=
  [ (["sd"], [], many_names) ].

Definition big_card : MemFS :=
  {| mem_files := list_to_map (map (fun n => (["sd"; n], recording)) many_names);
     mem_dirs := [];
     mem_documents := ∅;
     mem_now := "2024-03-16T10:00:00" |}.

Definition big_wizard : Wizard MemFS :=
  {| fs := big_card;
     metadata := metadata wizard;
     devices := [p1_ML];
     file_inventory := [];
     current_deployment_folder := Some staging;
     device_tree := device_tree wizard;
     events := [] |}.

End Scenario.

(** ** A form, to run the set-up on *)

Module Setup.

(** The plots of the one site that has names, two of them. *)
Definition plot_table : gmap string (list (option string)) :=
  {[ "Bodega" := [Some "Dunes"; None; Some "Grassland"; None] ]}.

Definition config_file : Path := ["home"; ".cassn_wizard"; "config.json"].

Definition staging_root : Path := ["staging"].

(** The form filled in for two devices, by an observer who is not on the list. *)
Definition form : MetadataTab :=
  {| org_combo := "UC";
     reserve_combo := "Bodega Marine Reserve";
     site_code_edit := "Bodega";
     deploy_start_date := {| year := 2024; month := 1; day := 10 |};
     deploy_end_date := {| year := 2024; month := 3; day := 15 |};
     observer_combo := "Other";
     observer_other_edit := "Lovelace, Ada";
     plot_labels := ∅;
     device_checkboxes := fun plot_num dev_code =>
       ((plot_num =? 1) && String.eqb dev_code "ML"
        || (plot_num =? 3) && String.eqb dev_code "BD")%bool;
     set_default_cb := true |}.

(** The same form with blanks for the name of the observer. *)
Definition form_unnamed : MetadataTab :=
  {| org_combo := "UC";
     reserve_combo := "Bodega Marine Reserve";
     site_code_edit := "Bodega";
     deploy_start_date := deploy_start_date form;
     deploy_end_date := deploy_end_date form;
     observer_combo := "Other";
     observer_other_edit := "   ";
     plot_labels := ∅;
     device_checkboxes := device_checkboxes form;
     set_default_cb := true |}.

(** The same form with no box checked. *)
Definition form_without_devices : MetadataTab :=
  set_device_checkboxes (fun _ _ => false) form.

(** The wizard when the program has started. *)
Definition desk : Wizard MemFS :=
  {| fs := Scenario.card;
     metadata := ∅;
     devices := [];
     file_inventory := [];
     current_deployment_folder := None;
     device_tree := [];
     events := [] |}.

(** The wizard with the metadata of the form, ready for the first card. *)
Definition ready : Wizard MemFS :=
  {| fs := Scenario.card;
     metadata := metadata_of form;
     devices := selected_devices plot_table form;
     file_inventory := [];
     current_deployment_folder := Some Scenario.staging;
     device_tree := map pending_row (selected_devices plot_table form);
     events := [] |}.

(** [f"{total_size / (1024 * 1024):.2f}"] for a size from 0 to 2^53 bytes,
    where the quotient is exact as a float: its hundredths, rounded to the
    nearest and to the even one on a tie. *)
Definition format_megabytes (total_size : Z) : Result string :=
  let hundredths := (100 * total_size) / 1048576 in
  let rest := (100 * total_size) mod 1048576 in
  let rounded :=
    if 2 * rest <? 1048576 then hundredths
    else if 1048576 <? 2 * rest then hundredths + 1
    else if Z.even hundredths then hundredths else hundredths + 1 in
  Ok (str_of_int (rounded / 100) +:+ "." +:+ format_0wd 2 (rounded mod 100)).

(** The answers of a user who goes on with devices pending and has the
    upload box checked, connected to Box. *)
Definition review : ReviewDialog :=
  {| continue_anyway := true; upload_to_box_cb := true; box_authenticated := true |}.

(** The same user, who does not go on. *)
Definition review_declined : ReviewDialog :=
  {| continue_anyway := false; upload_to_box_cb := true; box_authenticated := true |}.

(** [int(cell)] for a cell made of ASCII digits, and for one with a letter. *)
Definition int (cell : string) : Result Z :=
  match cell, int_of_digits cell 0 with
  | String _ _, Some n => Ok n
  | _, _ => Raise ("invalid literal for int() with base 10: '" +:+ cell +:+ "'")
  end.

(** A row of a CSV file with the cells [cells] under the names of the header. *)
Definition csv_row (cells : list (string * string)) : CsvRow :=
  list_to_map (map (fun kv => (fst kv, Some (snd kv))) cells).

(** data/sites.csv with two sites and a line without a name. *)
Definition sites_csv : CsvFile :=
  {| csv_rows :=
       [ csv_row [("site_code", "Bodega"); ("site_name", " Bodega Marine Reserve ")];
         csv_row [("site_code", "Angelo"); ("site_name", "")];
         csv_row [("site_code", "QuailRidge"); ("site_name", "Quail Ridge Reserve")] ];
     csv_error := None |}.

(** data/plots.csv: plot 1 of Bodega is named twice, plot 7 does not exist,
    and plot 2 of Angelo has a blank name. *)
Definition plots_csv : CsvFile :=
  {| csv_rows :=
       [ csv_row [("site_code", "Bodega"); ("plot_number", "1"); ("plot_name", "Dune")];
         csv_row [("site_code", "Bodega"); ("plot_number", "3"); ("plot_name", "Grassland")];
         csv_row [("site_code", "Bodega"); ("plot_number", "1"); ("plot_name", "Dunes")];
         csv_row [("site_code", "Bodega"); ("plot_number", "7"); ("plot_name", "Cliff")];
         csv_row [("site_code", "Angelo"); ("plot_number", "2"); ("plot_name", "  ")] ];
     csv_error := None |}.

(** The same file with a number that is none. *)
Definition plots_csv_broken : CsvFile :=
  {| csv_rows :=
       csv_rows plots_csv
       ++ [ csv_row [("site_code", "Angelo"); ("plot_number", "two");
                     ("plot_name", "Meadow")] ];
     csv_error := None |}.

End Setup.

(** * Properties *)

(** ** Strings and paths *)

Lemma path_name_joinpath (p : Path) (name : string) : path_name (p /: name) = name.
Proof. unfold path_name, joinpath. now rewrite last_snoc. Qed.

Lemma path_suffix_joinpath (p : Path) (name : string) :
  path_suffix (p /: name) = name_suffix name.
Proof. unfold path_suffix. now rewrite path_name_joinpath. Qed.

Lemma append_cons (x : ascii) (a b : string) : String x a +:+ b = String x (a +:+ b).
Proof. reflexivity. Qed.

Lemma append_empty_l (b : string) : "" +:+ b = b.
Proof. reflexivity. Qed.

Lemma string_app_assoc (a b c : string) : (a +:+ b) +:+ c = a +:+ (b +:+ c).
Proof.
  induction a as [|x a IH]; [reflexivity|].
  rewrite !append_cons. now rewrite IH.
Qed.

Lemma string_length_app (a b : string) :
  String.length (a +:+ b) = (String.length a + String.length b)%nat.
Proof.
  induction a as [|x a IH]; [reflexivity|].
  rewrite append_cons. cbn [String.length]. now rewrite IH.
Qed.

Lemma zeros_length (k : nat) : String.length (zeros k) = k.
Proof.
  unfold zeros. induction k as [|k IH]; [reflexivity|].
  cbn [replicate string_of_list_ascii String.length]. now rewrite IH.
Qed.

Lemma all_from_spec (f : Z -> bool) (fuel : nat) :
  forall n, all_from fuel n f = true ->
  forall m, n <= m < n + Z.of_nat fuel -> f m = true.
Proof.
  induction fuel as [|fuel IH]; intros n Hall m Hm; [lia|].
  cbn [all_from] in Hall. apply andb_true_iff in Hall as [Hn Hrest].
  destruct (Z.eq_dec m n) as [->|Hne]; [exact Hn|].
  apply (IH (n + 1) Hrest). lia.
Qed.

(** [f"{n:05d}"] is never shorter than five characters. *)
Lemma format_05d_min_width (n : Z) : (5 <= String.length (format_05d n))%nat.
Proof.
  unfold format_05d. rewrite !string_length_app, zeros_length. lia.
Qed.

(** It has exactly five up to 99999, and six at 100000. *)
Lemma format_05d_width (n : Z) :
  0 <= n <= 99999 -> String.length (format_05d n) = 5%nat.
Proof.
  intros Hn.
  assert (Hall : all_from (Z.to_nat 100000) 0
                   (fun k => Nat.eqb (String.length (format_05d k)) 5) = true)
    by (vm_compute; reflexivity).
  apply Nat.eqb_eq. apply (all_from_spec _ _ _ Hall).
  rewrite Z2Nat.id; lia.
Qed.

Lemma int_of_digits_uint_acc (u : Decimal.uint) :
  forall acc : positive,
  int_of_digits (NilEmpty.string_of_uint u) (Z.pos acc)
  = Some (Z.pos (Pos.of_uint_acc u acc)).
Proof.
  induction u; intros acc; cbn [NilEmpty.string_of_uint int_of_digits Pos.of_uint_acc];
    [reflexivity|..];
    change (is_digit _) with true; cbv iota;
    rewrite <- IHu; f_equal;
    match goal with
    | |- context [Z.of_nat ?d] =>
        let k := eval vm_compute in (Z.of_nat d) in change (Z.of_nat d) with k
    end; lia.
Qed.

Lemma int_of_digits_uint (u : Decimal.uint) :
  int_of_digits (NilEmpty.string_of_uint u) 0 = Some (Z.of_N (Pos.of_uint u)).
Proof.
  induction u; cbn [NilEmpty.string_of_uint int_of_digits Pos.of_uint];
    try reflexivity; change (is_digit _) with true; cbv iota.
  - exact IHu.
  - apply (int_of_digits_uint_acc u 1).
  - apply (int_of_digits_uint_acc u 2).
  - apply (int_of_digits_uint_acc u 3).
  - apply (int_of_digits_uint_acc u 4).
  - apply (int_of_digits_uint_acc u 5).
  - apply (int_of_digits_uint_acc u 6).
  - apply (int_of_digits_uint_acc u 7).
  - apply (int_of_digits_uint_acc u 8).
  - apply (int_of_digits_uint_acc u 9).
Qed.

(** [int(str(n)) == n] for an [n] that is not negative. *)
Lemma int_of_digits_str_of_int (n : Z) :
  0 <= n -> int_of_digits (str_of_int n) 0 = Some n.
Proof.
  intros Hn. unfold str_of_int.
  destruct n as [|p|p]; [reflexivity| |lia].
  cbn [Z.to_int NilZero.string_of_int].
  assert (Hs : NilZero.string_of_uint (Pos.to_uint p)
               = NilEmpty.string_of_uint (Pos.to_uint p)).
  { unfold NilZero.string_of_uint.
    destruct (Pos.to_uint p) eqn:Hu; try reflexivity.
    exfalso. exact (Stdlib.Numbers.DecimalPos.Unsigned.to_uint_nonnil p Hu). }
  now rewrite Hs, int_of_digits_uint, Stdlib.Numbers.DecimalPos.Unsigned.of_to.
Qed.

(** A text of digits reads as a number below the power of ten of its
    length. *)
Lemma int_of_digits_bound (s : string) :
  forall acc v,
  0 <= acc -> int_of_digits s acc = Some v ->
  v < (acc + 1) * 10 ^ Z.of_nat (String.length s).
Proof.
  induction s as [|c s IH]; intros acc v Hacc Hv.
  - cbn in Hv. inversion Hv; subst. cbn. lia.
  - cbn [int_of_digits] in Hv.
    destruct (is_digit c) eqn:Hc; [|discriminate].
    unfold is_digit in Hc. apply andb_true_iff in Hc as [_ Hhi].
    apply Nat.leb_le in Hhi.
    apply IH in Hv; [|lia].
    cbn [String.length]. rewrite Nat2Z.inj_succ, Z.pow_succ_r by lia.
    assert (Hpow : 0 < 10 ^ Z.of_nat (String.length s))
      by (apply Z.pow_pos_nonneg; lia).
    nia.
Qed.

(** [str(n)] has six characters or more from 100000 on. *)
Lemma str_of_int_long (n : Z) :
  99999 < n -> (6 <= String.length (str_of_int n))%nat.
Proof.
  intros Hn.
  assert (Hread : int_of_digits (str_of_int n) 0 = Some n)
    by (apply int_of_digits_str_of_int; lia).
  apply int_of_digits_bound in Hread; [|lia].
  destruct (Nat.le_gt_cases 6 (String.length (str_of_int n))) as [Hle|Hgt];
    [exact Hle | exfalso].
  assert (Hpow : 10 ^ Z.of_nat (String.length (str_of_int n)) <= 10 ^ 5)
    by (apply Z.pow_le_mono_r; lia).
  lia.
Qed.

(** [f"{n:05d}"] of an [n] that is not negative: the zeros that [str(n)]
    lacks to five characters, then [str(n)]. *)
Lemma format_05d_padding (n : Z) :
  0 <= n ->
  format_05d n = zeros (5 - String.length (str_of_int n)) +:+ str_of_int n.
Proof.
  intros Hn. unfold format_05d.
  destruct (n <? 0) eqn:Hneg; [apply Z.ltb_lt in Hneg; lia|].
  rewrite Z.abs_eq by lia. cbn [String.length]. rewrite Nat.sub_0_r. reflexivity.
Qed.

(** From 100000 on nothing is padded. *)
Lemma format_05d_unpadded (n : Z) :
  99999 < n -> format_05d n = str_of_int n.
Proof.
  intros Hn. rewrite format_05d_padding by lia.
  pose proof (str_of_int_long n Hn) as Hlen.
  replace (5 - String.length (str_of_int n))%nat with 0%nat by lia.
  reflexivity.
Qed.

(** The f-string of the source builds the name the specification describes. *)
Lemma new_filename_of_spec org site plot_num dev_code d file_sequence ext :
  new_filename_of org site plot_num dev_code (strftime_Ym d) file_sequence (lower ext)
  = spec_filename org site plot_num dev_code d file_sequence ext.
Proof.
  unfold new_filename_of, spec_filename. cbv [String.concat].
  now rewrite !string_app_assoc.
Qed.

Lemma eligible_false_inv filename :
  eligible filename = false ->
  (startswith filename "." || startswith filename "_")%bool = true
  \/ String.eqb (classify_file filename) "other" = true.
Proof.
  unfold eligible. intros Hn.
  destruct (startswith filename "." || startswith filename "_")%bool; [now left|].
  destruct (String.eqb (classify_file filename) "other"); [now right | discriminate].
Qed.

Lemma eligible_true_inv filename :
  eligible filename = true ->
  (startswith filename "." || startswith filename "_")%bool = false
  /\ String.eqb (classify_file filename) "other" = false.
Proof.
  unfold eligible. intros Hn.
  destruct (startswith filename "." || startswith filename "_")%bool; [discriminate|].
  destruct (String.eqb (classify_file filename) "other"); [discriminate | now split].
Qed.

(** ** The monad *)

Lemma for_each_cons {W A Acc} (x : A) (l : list A) (body : A -> Acc -> M W Acc) acc w :
  for_each (x :: l) body acc w = bind (body x acc) (for_each l body) w.
Proof. reflexivity. Qed.

Lemma for_each_app {W A Acc} (l1 l2 : list A) (body : A -> Acc -> M W Acc) acc w :
  for_each (l1 ++ l2) body acc w
  = bind (for_each l1 body acc) (for_each l2 body) w.
Proof.
  revert acc w. induction l1 as [|x l1 IH]; intros acc w; simpl.
  - reflexivity.
  - unfold bind in *. destruct (body x acc w) as [[a|e] w1].
    + apply IH.
    + reflexivity.
Qed.

(** The two nested loops over [os.walk] visit the entries of [sd_files]. *)
Lemma for_each_walk {W Acc} (walk : list (Path * list string * list string))
    (body : Path -> string -> Acc -> M W Acc) acc w :
  for_each walk (fun '(root, dirs, files) acc => for_each files (body root) acc) acc w
  = for_each (sd_files walk) (fun rf => body (fst rf) (snd rf)) acc w.
Proof.
  revert acc w. induction walk as [|[[root dirs] files] walk IH]; intros acc w.
  - reflexivity.
  - unfold sd_files. simpl. fold (sd_files walk).
    rewrite for_each_app. unfold bind.
    assert (Hin : forall a w0, for_each files (body root) a w0
              = for_each (map (pair root) files) (fun rf => body (fst rf) (snd rf)) a w0).
    { clear. induction files as [|f files IHf]; intros a w0; simpl; [reflexivity|].
      unfold bind. destruct (body root f a w0) as [[a'|e] w1]; [apply IHf | reflexivity]. }
    rewrite Hin. destruct (for_each (map (pair root) files) _ acc w) as [[a|e] w1].
    + apply IH.
    + reflexivity.
Qed.

(** ** The body of the copy loop *)

Section ProcessFile.
Context {FS : Type} {HFS : FileSystem FS} {H : Type} {HH : Hashlib H}.
Variable EXIF_AVAILABLE : bool.

Lemma extract_exif_data_total (p : Path) (w : Wizard FS) :
  exists d, extract_exif_data EXIF_AVAILABLE p w = (Ok d, w).
Proof.
  unfold extract_exif_data. destruct EXIF_AVAILABLE; simpl.
  - unfold try_except, bind, fs_read, ret.
    destruct (Image_getexif p (fs w)); eauto.
  - unfold ret. eauto.
Qed.

Lemma file_info_of_fields filename new_filename pn pl dc dl size hash src ts exif :
  let info := file_info_of filename new_filename pn pl dc dl size hash src ts exif in
  info !! "new_filename" = Some (PyStr new_filename)
  /\ info !! "original_filename" = Some (PyStr filename)
  /\ info !! "source_path" = Some (PyStr (str_of_path src))
  /\ info !! "device_label" = Some (PyStr dl)
  /\ dom info ⊆ list_to_set csv_fields.
Proof.
  intros info. subst info. unfold file_info_of.
  split; [|split; [|split; [|split]]].
  - rewrite lookup_insert_ne by discriminate. now rewrite lookup_insert_eq.
  - now rewrite lookup_insert_eq.
  - repeat (rewrite lookup_insert_ne by discriminate). now rewrite lookup_insert_eq.
  - repeat (rewrite lookup_insert_ne by discriminate). now rewrite lookup_insert_eq.
  - apply (bool_decide_unpack _). vm_compute. reflexivity.
Qed.

Lemma process_file_skip dest_dir pn pl dc dl org site date_str root filename acc w :
  eligible filename = false ->
  process_file (H:=H) EXIF_AVAILABLE dest_dir pn pl dc dl org site date_str root filename acc w
  = (Ok acc, w).
Proof.
  intros Hn. unfold process_file. destruct acc as [fc seq].
  destruct (eligible_false_inv _ Hn) as [Hh|Ho].
  - now rewrite Hh.
  - destruct (startswith filename "." || startswith filename "_")%bool; [reflexivity|].
    now rewrite Ho.
Qed.

(** What the body does for an eligible entry: it stops before the copy,
    or after the copy and before the record, or it copies, records and
    counts the file. *)
Lemma process_file_eligible dest_dir pn pl dc dl org site date_str root filename
    fc seq w r w' :
  eligible filename = true ->
  process_file (H:=H) EXIF_AVAILABLE dest_dir pn pl dc dl org site date_str root filename
    (fc, seq) w = (r, w') ->
  let src := root /: filename in
  let dst := dest_dir /:
    new_filename_of org site pn dc date_str seq (lower (name_suffix filename)) in
  copy2_steps (fs w) (fs w')
  /\ metadata w' = metadata w /\ devices w' = devices w
  /\ device_tree w' = device_tree w
  /\ current_deployment_folder w' = current_deployment_folder w
  /\ ((exists e, r = Raise e /\ file_inventory w' = file_inventory w
        /\ (events w' = events w \/ events w' = events w ++ [EvCopy src dst]))
      \/ (exists info logs,
            r = Ok (fc + 1, seq + 1)
            /\ file_inventory w' = file_inventory w ++ [info]
            /\ events w' = events w ++ EvCopy src dst :: EvRecord info :: logs
            /\ Forall is_log logs
            /\ info !! "new_filename" = Some (PyStr
                 (new_filename_of org site pn dc date_str seq (lower (name_suffix filename))))
            /\ info !! "original_filename" = Some (PyStr filename)
            /\ info !! "source_path" = Some (PyStr (str_of_path src))
            /\ info !! "device_label" = Some (PyStr dl)
            /\ dom info ⊆ list_to_set csv_fields)).
Proof.
  intros He Hrun src dst.
  destruct (eligible_true_inv _ He) as [Hh Ho].
  unfold process_file in Hrun. rewrite Hh, Ho, path_suffix_joinpath in Hrun.
  fold src dst in Hrun.
  unfold bind at 1 in Hrun. unfold fs_write at 1, zoom in Hrun.
  destruct (shutil_copy2 src dst (fs w)) as [[[]|e] fs1] eqn:Hcopy.
  2:{ inversion Hrun; subst; simpl.
      repeat split; try reflexivity.
      - eapply copy2_steps_step; [exact Hcopy | constructor].
      - left. eauto. }
  assert (Hsteps : copy2_steps (fs w) fs1)
    by (eapply copy2_steps_step; [exact Hcopy | constructor]).
  unfold bind at 1 in Hrun. unfold emit at 1, modify in Hrun.
  set (w2 := set_events _ (set_fs fs1 w)) in Hrun.
  assert (Hexif : exists d,
    (if (String.eqb (classify_file filename) "image" && EXIF_AVAILABLE)%bool
     then extract_exif_data EXIF_AVAILABLE dst else ret ∅) w2 = (Ok d, w2)).
  { destruct (_ && _)%bool; [apply extract_exif_data_total | eexists; reflexivity]. }
  destruct Hexif as [exif Hexif].
  unfold bind at 1 in Hrun. rewrite Hexif in Hrun.
  unfold bind at 1 in Hrun. unfold fs_read at 1 in Hrun.
  destruct (compute_file_hash dst (fs w2)) as [hash|e].
  2:{ inversion Hrun; subst; simpl. repeat split; try reflexivity; [exact Hsteps|].
      left. eauto. }
  unfold bind at 1 in Hrun. unfold fs_read at 1 in Hrun.
  destruct (path_stat dst (fs w2)) as [st|e] eqn:Hst.
  2:{ inversion Hrun; subst; simpl. repeat split; try reflexivity; [exact Hsteps|].
      left. eauto. }
  unfold bind at 1 in Hrun. unfold fs_read at 1 in Hrun. rewrite Hst in Hrun.
  match type of Hrun with context [file_info_of ?a ?b ?c ?d ?e ?f ?g ?h ?i ?j ?k] =>
    pose proof (file_info_of_fields a b c d e f g h i j k) as Hinfo;
    set (info := file_info_of a b c d e f g h i j k) in *
  end.
  simpl in Hinfo. destruct Hinfo as (Hi1 & Hi2 & Hi3 & Hi4 & Hi5).
  clearbody info.
  unfold inventory_append, bind, modify, emit, modify in Hrun.
  destruct ((fc + 1) mod 50 =? 0).
  - unfold log, emit, modify in Hrun. inversion Hrun; subst; simpl.
    repeat split; try reflexivity; [exact Hsteps|].
    right. exists info, [EvLog ("  ..." +:+ str_of_int (fc + 1) +:+ " files processed")].
    repeat split; try assumption.
    + now rewrite <- !app_assoc.
    + repeat constructor.
  - unfold ret in Hrun. inversion Hrun; subst; simpl.
    repeat split; try reflexivity; [exact Hsteps|].
    right. exists info, []. repeat split; try assumption.
    + now rewrite <- !app_assoc.
    + constructor.
Qed.

End ProcessFile.

(** ** The copy loop *)

Section ProcessLoop.
Context {FS : Type} {HFS : FileSystem FS} {H : Type} {HH : Hashlib H}.
Variable EXIF_AVAILABLE : bool.

Lemma copy2_steps_trans (a b c : FS) :
  copy2_steps a b -> copy2_steps b c -> copy2_steps a c.
Proof.
  induction 1 as [|? ? ? ? ? ? Hstep _ IH]; intros Hbc; [exact Hbc|].
  eapply copy2_steps_step; [exact Hstep | now apply IH].
Qed.

Lemma processed_ext dest_dir (f g : Z -> string -> string) seq files evs infos c :
  (forall s n, f s n = g s n) ->
  processed dest_dir f seq files evs infos c -> processed dest_dir g seq files evs infos c.
Proof.
  intros Hfg. induction 1.
  - constructor.
  - constructor.
  - rewrite Hfg. constructor.
  - rewrite !Hfg in *. now constructor.
Qed.

Lemma processed_complete_length dest_dir f seq files evs infos :
  processed dest_dir f seq files evs infos true -> length infos = length files.
Proof.
  remember true as c eqn:Hc. induction 1; try discriminate; simpl; auto.
Qed.

Lemma processed_length_le dest_dir f seq files evs infos c :
  processed dest_dir f seq files evs infos c -> (length infos <= length files)%nat.
Proof. induction 1; simpl; lia. Qed.

Lemma omap_logs {B} (g : Event -> option B) (logs : list Event) :
  (forall m, g (EvLog m) = None) -> Forall is_log logs -> omap g logs = [].
Proof.
  intros Hg. induction 1 as [|e logs He _ IH]; [reflexivity|].
  destruct e; try contradiction. simpl. now rewrite Hg.
Qed.

(** The records of the trace are the records appended. *)
Lemma processed_records dest_dir f seq files evs infos c :
  processed dest_dir f seq files evs infos c -> records_of evs = infos.
Proof.
  unfold records_of. induction 1; simpl; try reflexivity.
  rewrite omap_app, omap_logs by (auto || reflexivity). simpl. now f_equal.
Qed.

(** The [k]-th copy of the trace is that of the [k]-th eligible file, under
    the name numbered [seq + k]. *)
Lemma processed_copies dest_dir f seq files evs infos c k src dst :
  processed dest_dir f seq files evs infos c ->
  copies_of evs !! k = Some (src, dst) ->
  exists root filename,
    files !! k = Some (root, filename)
    /\ src = root /: filename
    /\ dst = dest_dir /: f (seq + Z.of_nat k) filename.
Proof.
  unfold copies_of. intros Hp. revert k.
  induction Hp as [| | seq root filename files
                   | seq root filename files info logs evs infos c _ _ _ _ Hlogs Hp IH];
    intros k Hk; simpl in Hk.
  - destruct k; discriminate.
  - destruct k; discriminate.
  - destruct k as [|k]; [|destruct k; discriminate].
    inversion Hk; subst. exists root, filename. rewrite Z.add_0_r. auto.
  - rewrite omap_app, omap_logs in Hk by (auto || reflexivity). simpl in Hk.
    destruct k as [|k].
    + inversion Hk; subst. exists root, filename. rewrite Z.add_0_r. auto.
    + simpl in Hk. destruct (IH _ Hk) as (root' & fn' & Hf & Hs & Hd).
      exists root', fn'. simpl. split; [exact Hf|]. split; [exact Hs|].
      rewrite Hd. do 2 f_equal. lia.
Qed.

(** A complete run has copied every eligible file. *)
Lemma processed_complete_copies dest_dir f seq files evs infos :
  processed dest_dir f seq files evs infos true ->
  length (copies_of evs) = length files.
Proof.
  unfold copies_of. remember true as c eqn:Hc.
  induction 1; try discriminate; simpl; auto.
  rewrite omap_app, omap_logs by (auto || reflexivity). simpl. auto.
Qed.

(** Copy then record: a record in the trace comes after the copy of the
    file it describes. *)
Lemma processed_copy_then_record dest_dir f seq files evs infos c pre info post :
  processed dest_dir f seq files evs infos c ->
  evs = pre ++ EvRecord info :: post ->
  exists src name,
    In (EvCopy src (dest_dir /: name)) pre
    /\ info !! "new_filename" = Some (PyStr name)
    /\ info !! "source_path" = Some (PyStr (str_of_path src)).
Proof.
  intros Hp. revert pre.
  induction Hp as [| | seq root filename files
                   | seq root filename files info0 logs evs infos c Hn _ Hs _ Hlogs Hp IH];
    intros pre Heq.
  - destruct pre; discriminate.
  - destruct pre; discriminate.
  - destruct pre as [|? [|? ?]]; discriminate.
  - destruct pre as [|e0 pre]; [discriminate|].
    inversion Heq as [[He0 Hrest]]. subst e0. clear Heq.
    destruct pre as [|e1 pre].
    + simpl in Hrest. inversion Hrest; subst.
      exists (root /: filename), (f seq filename). simpl. auto.
    + simpl in Hrest. inversion Hrest as [[He1 Hrest']]. subst e1.
      (* the record is in the log lines, or later *)
      assert (Hsplit : (exists pre', pre = logs ++ pre' /\ evs = pre' ++ EvRecord info :: post)).
      { clear - Hlogs Hrest'. revert pre Hrest'.
        induction Hlogs as [|l logs Hl _ IHl]; intros pre Hrest'.
        - exists pre. simpl in *. auto.
        - destruct pre as [|e pre]; simpl in Hrest'.
          + inversion Hrest'; subst. destruct Hl.
          + inversion Hrest' as [[Hhd Htl]]. subst.
            destruct (IHl _ Htl) as (pre' & -> & Hevs). exists pre'. auto. }
      destruct Hsplit as (pre' & -> & Hevs).
      destruct (IH _ Hevs) as (src & name & Hin & Hname & Hsrc).
      exists src, name. split; [|auto].
      right. right. apply in_or_app. now right.
Qed.

(** The loop over the entries [l], entered with [files_copied = fc] and
    [file_sequence = seq]. *)
Lemma process_loop dest_dir pn pl dc dl org site date_str l :
  forall fc seq w r w',
  for_each l
    (fun rf => process_file (H:=H) EXIF_AVAILABLE dest_dir pn pl dc dl org site date_str
                 (fst rf) (snd rf))
    (fc, seq) w = (r, w') ->
  exists evs infos complete,
    processed dest_dir
      (fun s n => new_filename_of org site pn dc date_str s (lower (name_suffix n)))
      seq (List.filter (fun rf => eligible (snd rf)) l) evs infos complete
    /\ events w' = events w ++ evs
    /\ file_inventory w' = file_inventory w ++ infos
    /\ Forall (fun info => info !! "device_label" = Some (PyStr dl)) infos
    /\ copy2_steps (fs w) (fs w')
    /\ metadata w' = metadata w /\ devices w' = devices w
    /\ device_tree w' = device_tree w
    /\ current_deployment_folder w' = current_deployment_folder w
    /\ match r with
       | Ok acc => complete = true
                   /\ acc = (fc + Z.of_nat (length infos), seq + Z.of_nat (length infos))
       | Raise _ => complete = false
       end.
Proof.
  induction l as [|[root filename] l IH]; intros fc seq w r w' Hrun.
  - simpl in Hrun. unfold ret in Hrun. inversion Hrun; subst.
    exists [], [], true. rewrite !app_nil_r, !Z.add_0_r.
    repeat split; try constructor.
  - rewrite for_each_cons in Hrun. unfold bind in Hrun.
    cbn [fst snd] in Hrun.
    destruct (eligible filename) eqn:He.
    + cbn [List.filter snd]. rewrite He.
      destruct (process_file EXIF_AVAILABLE dest_dir pn pl dc dl org site date_str
                  root filename (fc, seq) w) as [r1 w1] eqn:Hbody.
      destruct (process_file_eligible _ _ _ _ _ _ _ _ _ _ _ _ _ _ _ _ He Hbody)
        as (Hsteps & Hm & Hd & Ht & Hc & [(e & -> & Hinv & Hev)
                                         | (info & logs & -> & Hinv & Hev & Hlogs
                                            & Hi1 & Hi2 & Hi3 & Hi4 & Hi5)]).
      * inversion Hrun; subst. destruct Hev as [Hev|Hev].
        -- exists [], [], false. rewrite Hev, Hinv, !app_nil_r.
           repeat split; try assumption; constructor.
        -- exists [EvCopy (root /: filename)
                     (dest_dir /: new_filename_of org site pn dc date_str seq
                                    (lower (name_suffix filename)))], [], false.
           rewrite Hev, Hinv, !app_nil_r.
           split; [exact (processed_stop_after dest_dir _ seq root filename _)|].
           repeat split; try assumption; constructor.
      * destruct (IH _ _ _ _ _ Hrun)
          as (evs & infos & c & Hp & Hev' & Hinv' & Hdl & Hsteps' & Hm' & Hd' & Ht'
              & Hc' & Hr).
        exists (EvCopy (root /: filename)
                  (dest_dir /: new_filename_of org site pn dc date_str seq
                                 (lower (name_suffix filename)))
                  :: EvRecord info :: logs ++ evs), (info :: infos), c.
        split; [exact (processed_file dest_dir _ seq root filename _ info logs evs infos c
                         Hi1 Hi2 Hi3 Hi5 Hlogs Hp)|].
        split; [rewrite Hev', Hev, <- app_assoc; reflexivity|].
        split; [rewrite Hinv', Hinv, <- app_assoc; reflexivity|].
        split; [now constructor|].
        split; [eapply copy2_steps_trans; eassumption|].
        split; [congruence|]. split; [congruence|]. split; [congruence|].
        split; [congruence|].
        destruct r as [acc|e]; [|exact Hr].
        destruct Hr as [-> ->]. split; [reflexivity|].
        simpl length. f_equal; lia.
    + cbn [List.filter snd]. rewrite He.
      rewrite process_file_skip in Hrun by exact He.
      apply IH. exact Hrun.
Qed.

(** [process_sd_card_files] as a whole: it stops before the loop without
    having done anything, or runs the loop over the eligible entries of the
    walk from the sequence number 1. *)
Lemma process_sd_card_files_run walk dest_dir pn pl dc dl w r w' :
  process_sd_card_files (H:=H) EXIF_AVAILABLE walk dest_dir pn pl dc dl w = (r, w') ->
  (exists e, r = Raise e /\ w' = w)
  \/ exists deployment_end d org site evs infos complete,
       metadata w !! "deployment_end" = Some deployment_end
       /\ strptime_Ymd deployment_end = Ok d
       /\ metadata w !! "organization" = Some org
       /\ metadata w !! "site" = Some site
       /\ processed dest_dir
            (fun s n => spec_filename org site pn dc d s (name_suffix n))
            1 (copied_files walk) evs infos complete
       /\ events w' = events w ++ evs
       /\ file_inventory w' = file_inventory w ++ infos
       /\ Forall (fun info => info !! "device_label" = Some (PyStr dl)) infos
       /\ copy2_steps (fs w) (fs w')
       /\ metadata w' = metadata w /\ devices w' = devices w
       /\ device_tree w' = device_tree w
       /\ current_deployment_folder w' = current_deployment_folder w
       /\ match r with
          | Ok n => complete = true /\ n = Z.of_nat (length infos)
          | Raise _ => complete = false
          end.
Proof.
  unfold process_sd_card_files. intros Hrun.
  unfold bind at 1 in Hrun. unfold getitem at 1 in Hrun.
  destruct (metadata w !! "deployment_end") as [deployment_end|] eqn:Hde;
    [|left; inversion Hrun; eauto].
  unfold bind at 1 in Hrun.
  destruct (strptime_Ymd deployment_end) as [d|e] eqn:Hd;
    [|left; inversion Hrun; eauto].
  simpl of_result in Hrun. unfold ret at 1 in Hrun.
  unfold bind at 1 in Hrun. unfold getitem at 1 in Hrun.
  destruct (metadata w !! "organization") as [org|] eqn:Horg;
    [|left; inversion Hrun; eauto].
  unfold bind at 1 in Hrun. unfold getitem at 1 in Hrun.
  destruct (metadata w !! "site") as [site|] eqn:Hsite;
    [|left; inversion Hrun; eauto].
  unfold bind at 1 in Hrun. rewrite for_each_walk in Hrun.
  destruct (for_each (sd_files walk) _ (0, 1) w) as [r1 w1] eqn:Hloop.
  apply process_loop in Hloop.
  destruct Hloop as (evs & infos & c & Hp & Hev & Hinv & Hdl & Hsteps & Hm & Hdv & Ht
                     & Hc & Hr).
  right. exists deployment_end, d, org, site, evs, infos, c.
  assert (Hw : w1 = w' /\ match r with
                          | Ok n => c = true /\ n = Z.of_nat (length infos)
                          | Raise _ => c = false
                          end).
  { destruct r1 as [[fc seq]|e]; unfold ret in Hrun; inversion Hrun; subst.
    - destruct Hr as [-> Hacc]. inversion Hacc; subst. simpl. auto.
    - auto. }
  destruct Hw as [<- Hr'].
  repeat (split; [first [assumption | reflexivity]|]).
  split.
  { eapply processed_ext; [|exact Hp]. intros s n. apply new_filename_of_spec. }
  repeat (split; [assumption|]). exact Hr'.
Qed.

End ProcessLoop.

(** ** Hashing a file *)

Section HashingProperties.
Context {FS : Type} {HFS : FileSystem FS} {H : Type} {HH : Hashlib H}.

(** With more fuel than bytes the loop reads the sentinel: it has fed the
    hash object blocks of at most 4096 bytes that make up the data. *)
Lemma read_blocks_feeds_all (fuel : nat) :
  forall (h : H) (data : list Byte.byte),
  (length data < fuel)%nat ->
  exists blocks,
    read_blocks fuel h data = Some (fold_left sha256_update blocks h)
    /\ concat blocks = data
    /\ Forall (fun b => (0 < length b <= 4096)%nat) blocks.
Proof.
  induction fuel as [|fuel IH]; intros h data Hlen; [lia|].
  cbn [read_blocks file_read].
  destruct data as [|x data].
  - exists []. rewrite take_nil. repeat split; constructor.
  - destruct (take 4096 (x :: data)) as [|y block] eqn:Htake; [discriminate|].
    destruct (IH (sha256_update h (y :: block)) (drop 4096 (x :: data)))
      as (blocks & Hrun & Hcat & Hall).
    { rewrite length_drop. cbn [length] in *. lia. }
    exists ((y :: block) :: blocks). split; [exact Hrun|]. split.
    + cbn [concat]. rewrite Hcat, <- Htake. apply take_drop.
    + constructor; [|exact Hall].
      rewrite <- Htake, length_take. cbn [length]. lia.
Qed.

Lemma compute_file_hash_digest (filepath : Path) (fs0 : FS) (data : list Byte.byte) :
  HashlibContract H ->
  open_rb filepath fs0 = Ok data ->
  compute_file_hash (H:=H) filepath fs0 = Ok (SHA256_hex data).
Proof.
  intros HC Hopen. unfold compute_file_hash. rewrite Hopen.
  destruct (read_blocks_feeds_all (S (length data)) sha256_new data)
    as (blocks & -> & Hcat & _); [lia|].
  now rewrite hexdigest_of_updates, Hcat.
Qed.

(** C7. [compute_file_hash] returns the SHA-256 digest of the entire
    contents of the file, in lowercase hexadecimal, whatever the size of the
    file: the blocks of at most 4096 bytes that its loop feeds to the hash
    object make up the contents, so that the incremental digest is that of
    the whole. *)
Theorem compute_file_hash_is_sha256 (filepath : Path) (fs0 : FS)
    (data : list Byte.byte) :
  HashlibContract H ->
  open_rb filepath fs0 = Ok data ->
  compute_file_hash (H:=H) filepath fs0 = Ok (sha256_of_file_contents (H:=H) data)
  /\ (exists blocks,
        concat blocks = data
        /\ Forall (fun b => (0 < length b <= 4096)%nat) blocks
        /\ read_blocks (S (length data)) sha256_new data
           = Some (fold_left sha256_update blocks sha256_new)
        /\ sha256_hexdigest (fold_left sha256_update blocks sha256_new)
           = sha256_of_file_contents (H:=H) data)
  /\ String.length (sha256_of_file_contents (H:=H) data) = 64%nat
  /\ forallb is_lower_hex (list_ascii_of_string (sha256_of_file_contents (H:=H) data))
     = true.
Proof.
  intros HC Hopen. unfold sha256_of_file_contents.
  split; [now apply compute_file_hash_digest|]. split.
  - destruct (read_blocks_feeds_all (S (length data)) sha256_new data)
      as (blocks & Hrun & Hcat & Hall); [lia|].
    exists blocks. repeat split; auto. now rewrite hexdigest_of_updates, Hcat.
  - apply SHA256_hex_format.
Qed.

End HashingProperties.

(** ** The wizard *)

Section WizardProperties.
Context {FS : Type} {HFS : FileSystem FS} {H : Type} {HH : Hashlib H}.
Variable EXIF_AVAILABLE : bool.

Lemma classify_file_other (filename : string) :
  lower (name_suffix filename) ∉ IMAGE_EXTENSIONS ->
  lower (name_suffix filename) ∉ AUDIO_EXTENSIONS ->
  classify_file filename = "other".
Proof.
  intros Hi Ha. unfold classify_file, path_suffix, Path_of_entry, path_name.
  cbn [last default].
  rewrite bool_decide_eq_false_2 by exact Hi.
  now rewrite bool_decide_eq_false_2 by exact Ha.
Qed.

(** The loop does for a list of entries what it does for the eligible ones. *)
Lemma loop_skips dest_dir pn pl dc dl org site date_str l :
  forall acc w,
  for_each l
    (fun rf => process_file (H:=H) EXIF_AVAILABLE dest_dir pn pl dc dl org site date_str
                 (fst rf) (snd rf)) acc w
  = for_each (List.filter (fun rf => eligible (snd rf)) l)
      (fun rf => process_file (H:=H) EXIF_AVAILABLE dest_dir pn pl dc dl org site date_str
                   (fst rf) (snd rf)) acc w.
Proof.
  induction l as [|[root filename] l IH]; intros acc w; [reflexivity|].
  cbn [List.filter snd]. destruct (eligible filename) eqn:He.
  - rewrite !for_each_cons. unfold bind.
    destruct (process_file _ _ _ _ _ _ _ _ _ _ _ _ w) as [[acc'|e] w1];
      [apply IH | reflexivity].
  - rewrite for_each_cons. unfold bind. cbn [fst snd].
    rewrite process_file_skip by exact He. apply IH.
Qed.

Lemma process_sd_card_files_eligible walk dest_dir pn pl dc dl w :
  process_sd_card_files (H:=H) EXIF_AVAILABLE walk dest_dir pn pl dc dl w
  = (do deployment_end <- (fun w => (getitem (metadata w) "deployment_end", w));
     do deploy_date <- of_result (strptime_Ymd deployment_end);
     do org <- (fun w => (getitem (metadata w) "organization", w));
     do site <- (fun w => (getitem (metadata w) "site", w));
     do acc <- for_each (copied_files walk)
       (fun rf => process_file (H:=H) EXIF_AVAILABLE dest_dir pn pl dc dl org site
                    (strftime_Ym deploy_date) (fst rf) (snd rf)) (0, 1);
     ret (fst acc)) w.
Proof.
  unfold process_sd_card_files, bind.
  destruct (getitem (metadata w) "deployment_end") as [de|]; [|reflexivity].
  destruct (of_result (strptime_Ymd de) w) as [[d|] w1]; [|reflexivity].
  destruct (getitem (metadata w1) "organization") as [org|]; [|reflexivity].
  destruct (getitem (metadata w1) "site") as [site|]; [|reflexivity].
  rewrite for_each_walk, loop_skips. reflexivity.
Qed.

Lemma copied_files_without before root dirs files1 filename files2 after :
  eligible filename = false ->
  copied_files (before ++ (root, dirs, files1 ++ filename :: files2) :: after)
  = copied_files (before ++ (root, dirs, files1 ++ files2) :: after).
Proof.
  intros He. unfold copied_files, sd_files.
  rewrite !map_app, !concat_app, !List.filter_app. cbn [map concat].
  rewrite !List.filter_app, !map_app, !List.filter_app. cbn [map List.filter snd].
  now rewrite He.
Qed.

(** C9. An entry whose name starts with a dot or an underscore, or whose
    lowercased extension is in neither extension set, is skipped entirely:
    [process_sd_card_files] returns the same count and leaves the same
    world (copies, records, sequence numbers of the other files) as on the
    card without that entry. *)
Theorem skipped_file_leaves_no_trace (filename : string) :
  startswith filename "." = true \/ startswith filename "_" = true
  \/ ((lower (name_suffix filename) ∉ IMAGE_EXTENSIONS)
      /\ (lower (name_suffix filename) ∉ AUDIO_EXTENSIONS)) ->
  forall before root dirs files1 files2 after dest_dir pn pl dc dl (w : Wizard FS),
    process_sd_card_files (H:=H) EXIF_AVAILABLE
      (before ++ (root, dirs, files1 ++ filename :: files2) :: after)
      dest_dir pn pl dc dl w
    = process_sd_card_files (H:=H) EXIF_AVAILABLE
        (before ++ (root, dirs, files1 ++ files2) :: after)
        dest_dir pn pl dc dl w.
Proof.
  intros Hskip before root dirs files1 files2 after dest_dir pn pl dc dl w.
  assert (He : eligible filename = false).
  { unfold eligible. destruct Hskip as [Hd|[Hu|[Hi Ha]]].
    - now rewrite Hd.
    - rewrite Hu. now rewrite orb_true_r.
    - rewrite (classify_file_other _ Hi Ha). cbn [String.eqb]. 
      now rewrite andb_false_r. }
  rewrite !process_sd_card_files_eligible.
  now rewrite (copied_files_without _ _ _ _ _ _ _ He).
Qed.

Lemma writerows_length fieldnames inventory rows :
  writerows fieldnames inventory = (rows, None) -> length rows = length inventory.
Proof.
  revert rows. induction inventory as [|d inventory IH]; intros rows Hw; simpl in Hw.
  - now inversion Hw.
  - destruct (dict_to_list fieldnames d); [|discriminate].
    destruct (writerows fieldnames inventory) as [rows' err].
    inversion Hw; subst. simpl. f_equal. now apply IH.
Qed.

Lemma writerows_app fieldnames inv1 inv2 rows :
  writerows fieldnames (inv1 ++ inv2) = (rows, None) ->
  exists rows1 rows2,
    rows = rows1 ++ rows2
    /\ writerows fieldnames inv1 = (rows1, None)
    /\ writerows fieldnames inv2 = (rows2, None).
Proof.
  revert rows. induction inv1 as [|d inv1 IH]; intros rows Hw; simpl in Hw.
  - exists [], rows. auto.
  - simpl. destruct (dict_to_list fieldnames d); [|discriminate].
    destruct (writerows fieldnames (inv1 ++ inv2)) as [rows' err] eqn:Hrest.
    inversion Hw; subst.
    destruct (IH _ eq_refl) as (rows1 & rows2 & -> & -> & ->).
    exists (a :: rows1), rows2. auto.
Qed.

(** What [generate_metadata_files] has written when it returns. *)
Lemma generate_metadata_files_ok (w w' : Wizard FS) :
  generate_metadata_files w = (Ok tt, w') ->
  exists folder rows generated,
    current_deployment_folder w = Some folder
    /\ writerows csv_fields (file_inventory w) = (rows, None)
    /\ file_inventory w' = file_inventory w
    /\ devices w' = devices w
    /\ events w' = events w ++
        [ EvWrite (folder /: "file_metadata.csv") (CsvDocument (csv_fields :: rows));
          EvLog ("Generated: file_metadata.csv ("
                   +:+ str_of_int (Z.of_nat (length (file_inventory w))) +:+ " files)");
          EvWrite (folder /: "manifest.json")
            (JsonDocument
               (JDict
                  [ ("deployment_info",
                     JDict (map (fun kv => (fst kv, JStr (snd kv)))
                              (map_to_list (metadata w))));
                    ("devices", JList (map manifest_device (devices w)));
                    ("file_count", JInt (Z.of_nat (length (file_inventory w))));
                    ("generated", JStr generated);
                    ("version", JStr VERSION) ]));
          EvLog "Generated: manifest.json" ].
Proof.
  unfold generate_metadata_files. intros Hrun.
  unfold bind at 1 in Hrun. unfold deployment_path at 1 in Hrun.
  destruct (current_deployment_folder w) as [folder|] eqn:Hcdf; [|discriminate].
  unfold bind at 1 in Hrun. unfold gets at 1 in Hrun.
  destruct (writerows csv_fields (file_inventory w)) as [rows err] eqn:Hrows.
  unfold bind at 1 in Hrun. unfold fs_write at 1, zoom in Hrun.
  destruct (write_document _ _ (fs w)) as [[[]|e] fs1]; [|discriminate].
  unfold bind at 1 in Hrun. unfold emit at 1, modify in Hrun.
  unfold bind at 1 in Hrun.
  destruct err as [e|]; [discriminate|]. unfold ret at 1 in Hrun.
  unfold bind at 1 in Hrun. unfold log at 1, emit at 1, modify in Hrun.
  unfold bind at 1 in Hrun. unfold gets at 1 in Hrun.
  unfold bind at 1 in Hrun. unfold gets at 1 in Hrun.
  unfold bind at 1 in Hrun. unfold gets at 1 in Hrun.
  unfold bind at 1 in Hrun. unfold deployment_path at 1 in Hrun.
  cbn [current_deployment_folder set_events set_fs] in Hrun. rewrite Hcdf in Hrun.
  unfold bind at 1 in Hrun. unfold fs_write at 1, zoom in Hrun.
  cbn [fs set_events set_fs] in Hrun.
  destruct (write_document _ _ fs1) as [[[]|e] fs2]; [|discriminate].
  unfold bind at 1 in Hrun. unfold emit at 1, modify in Hrun.
  unfold log, emit, modify in Hrun. inversion Hrun; subst; clear Hrun.
  exists folder, rows, (now_isoformat fs1). cbn.
  repeat split; try reflexivity.
  rewrite <- !app_assoc. reflexivity.
Qed.

(** The [try] statement of [copy_sd_card_data], by the outcome of
    [process_sd_card_files]. *)
Lemma copy_and_report_cases index dev folder walk (w1 : Wizard FS) r1 w2 :
  process_sd_card_files (H:=H) EXIF_AVAILABLE walk folder (plot_num dev) (plot_label dev)
    (dev_code dev) (device_label dev) w1 = (r1, w2) ->
  copy_and_report (H:=H) EXIF_AVAILABLE index dev folder walk w1 =
  match r1 with
  | Ok files_copied =>
      (Ok tt,
       set_events
         (events w2 ++ [EvLog ("✓ Completed! " +:+ str_of_int files_copied
                                 +:+ " files copied and renamed." +:+ "
")])
         (set_device_tree
            (alter (fun it => set_text3 (str_of_int files_copied) (set_text2 "Complete" it))
               index (device_tree w2)) w2))
  | Raise e =>
      (Ok tt,
       set_events
         (events w2 ++ [EvLog ("✗ Error: " +:+ e +:+ "
");
                        EvMessageBox "critical" "Copy Error" ("Error copying files: " +:+ e)])
         w2)
  end.
Proof.
  intros Hp. unfold copy_and_report, try_except.
  unfold bind at 1. rewrite Hp. destruct r1 as [n|e].
  - unfold bind, set_status, log, emit, modify. reflexivity.
  - unfold bind, log, message_box, emit, modify. cbn.
    now rewrite <- app_assoc.
Qed.

(** [copy_sd_card_data] either does not reach [process_sd_card_files], and
    leaves the inventory as it is, or ends with its [try] statement. *)
Lemma copy_sd_card_data_cases ui (w : Wizard FS) r w' :
  copy_sd_card_data (H:=H) EXIF_AVAILABLE ui w = (r, w') ->
  file_inventory w' = file_inventory w
  \/ exists index dev folder w1,
       current_item ui = Some index
       /\ devices w !! index = Some dev
       /\ file_inventory w1 = file_inventory w
       /\ metadata w1 = metadata w
       /\ copy_and_report (H:=H) EXIF_AVAILABLE index dev folder (sd_walk ui) w1 = (r, w').
Proof.
  unfold copy_sd_card_data. intros Hrun.
  unfold bind at 1 in Hrun. unfold gets at 1 in Hrun.
  destruct (current_item ui) as [index|] eqn:Hcur;
    [|inversion Hrun; subst; now left].
  cbn [mbind option_bind] in Hrun.
  destruct (device_tree w !! index) as [selected|] eqn:Hsel;
    [|inversion Hrun; subst; now left].
  unfold bind at 1 in Hrun. unfold device_at at 1, list_getitem in Hrun.
  destruct (devices w !! index) as [dev|] eqn:Hdev;
    [|inversion Hrun; subst; now left].
  assert (Hgo : forall w0 : Wizard FS,
    file_inventory w0 = file_inventory w -> metadata w0 = metadata w ->
    (do type_name <- of_result (device_type_name (dev_code dev));
     do _ <- emit (EvFileDialog ("Select SD Card for Plot " +:+ str_of_int (plot_num dev)
                                  +:+ " - " +:+ type_name));
     if String.eqb (sd_path ui) "" then ret tt
     else
       do _ <- log ("Starting copy for Plot " +:+ str_of_int (plot_num dev) +:+ " ("
                     +:+ py_str (plot_label dev) +:+ ") - " +:+ type_name +:+ "...");
       do _ <- log ("Source: " +:+ sd_path ui);
       do raw_data <- deployment_path "raw_data";
       let device_folder := raw_data /: device_label dev in
       do _ <- fs_write (path_mkdir device_folder);
       do _ <- emit (EvMkdir device_folder);
       copy_and_report (H:=H) EXIF_AVAILABLE index dev device_folder (sd_walk ui)) w0
    = (r, w') ->
    file_inventory w' = file_inventory w
    \/ exists index0 dev0 folder w1,
         Some index = Some index0 /\ Some dev = Some dev0
         /\ file_inventory w1 = file_inventory w
         /\ metadata w1 = metadata w
         /\ copy_and_report (H:=H) EXIF_AVAILABLE index0 dev0 folder (sd_walk ui) w1 = (r, w')).
  { intros w0 Hinv0 Hmeta0 Hgo.
    unfold bind at 1 in Hgo.
    destruct (device_type_name (dev_code dev)) as [type_name|e];
      [|inversion Hgo; subst; now left].
    cbn [of_result] in Hgo. unfold ret at 1 in Hgo.
    unfold bind at 1 in Hgo. unfold emit at 1, modify in Hgo.
    destruct (String.eqb (sd_path ui) "");
      [inversion Hgo; subst; now left|].
    unfold bind at 1 in Hgo. unfold log at 1, emit at 1, modify in Hgo.
    unfold bind at 1 in Hgo. unfold log at 1, emit at 1, modify in Hgo.
    unfold bind at 1 in Hgo. unfold deployment_path at 1 in Hgo.
    cbn [current_deployment_folder set_events] in Hgo.
    destruct (current_deployment_folder w0) as [cdf|];
      [|inversion Hgo; subst; now left].
    unfold bind at 1 in Hgo. unfold fs_write at 1, zoom in Hgo.
    cbn [fs set_events] in Hgo.
    destruct (path_mkdir _ (fs w0)) as [[[]|e] fs1];
      [|inversion Hgo; subst; now left].
    unfold bind at 1 in Hgo. unfold emit at 1, modify in Hgo.
    right. eexists index, dev, _, _.
    split; [reflexivity|]. split; [reflexivity|].
    split; [|split; [|exact Hgo]]; cbn; assumption. }
  cbn [of_result] in Hrun.
  destruct (String.eqb (text2 selected) "Complete").
  - unfold bind at 1 in Hrun. unfold message_box at 1, emit at 1, modify in Hrun.
    destruct (copy_again ui); [|inversion Hrun; subst; now left].
    apply Hgo in Hrun; [|reflexivity|reflexivity].
    destruct Hrun as [Hl|(i & d & f & w1 & Hi & Hd & Hrest)]; [now left|].
    inversion Hi; inversion Hd; subst. right. eauto 10.
  - apply Hgo in Hrun; [|reflexivity|reflexivity].
    destruct Hrun as [Hl|(i & d & f & w1 & Hi & Hd & Hrest)]; [now left|].
    inversion Hi; inversion Hd; subst. right. eauto 10.
Qed.

Lemma processed_counts dest_dir f seq files evs infos c :
  processed dest_dir f seq files evs infos c ->
  (length infos <= length (copies_of evs))%nat.
Proof.
  unfold copies_of. induction 1; simpl; try lia.
  rewrite omap_app, omap_logs by (auto || reflexivity). simpl. lia.
Qed.

(** The names of the records of a complete run, from the sequence number
    and the files alone. *)
Lemma processed_names dest_dir f seq files evs infos c :
  processed dest_dir f seq files evs infos c -> c = true ->
  map (fun info : FileInfo => info !! "new_filename") infos
  = imap (fun k rf => Some (PyStr (f (seq + Z.of_nat k) (snd rf)))) files.
Proof.
  induction 1 as [| | | seq root filename files info logs evs infos c Hn _ _ _ _ Hp IH];
    intros Hc; try discriminate; [reflexivity|].
  cbn [map]. rewrite imap_cons. cbn [snd]. rewrite Hn, Z.add_0_r. f_equal.
  rewrite (IH Hc). apply imap_ext. intros k rf _. cbn. do 3 f_equal. lia.
Qed.


(** C2, amended. The [k]-th file copied by one call of
    [process_sd_card_files] (counting from 0) is the [k]-th eligible entry of
    the walk, and its destination name is organization, site, "plot" and the
    plot number, device code, deployment end date as YYYYMM and the sequence
    number [k + 1], joined by underscores, then the lowercased extension of
    the entry.  The sequence number is written as its decimal digits with
    zeros before them up to a width of five: it has exactly five characters
    up to 99999, and from 100000 on it is the decimal digits alone, six
    characters or more.  A call that returns has copied every eligible entry
    and returns their number. *)
Theorem copied_file_names walk dest_dir pn pl dc dl (w : Wizard FS) r w' :
  process_sd_card_files (H:=H) EXIF_AVAILABLE walk dest_dir pn pl dc dl w = (r, w') ->
  exists evs,
    events w' = events w ++ evs
    /\ (forall k src dst,
          copies_of evs !! k = Some (src, dst) ->
          exists root filename deployment_end d org site,
            copied_files walk !! k = Some (root, filename)
            /\ src = root /: filename
            /\ metadata w !! "deployment_end" = Some deployment_end
            /\ strptime_Ymd deployment_end = Ok d
            /\ metadata w !! "organization" = Some org
            /\ metadata w !! "site" = Some site
            /\ dst = dest_dir /:
                 spec_filename org site pn dc d (1 + Z.of_nat k) (name_suffix filename)
            /\ (5 <= String.length (format_05d (1 + Z.of_nat k)))%nat
            /\ (1 + Z.of_nat k <= 99999 ->
                String.length (format_05d (1 + Z.of_nat k)) = 5%nat)
            /\ format_05d (1 + Z.of_nat k)
               = zeros (5 - String.length (str_of_int (1 + Z.of_nat k)))
                 +:+ str_of_int (1 + Z.of_nat k)
            /\ (99999 < 1 + Z.of_nat k ->
                format_05d (1 + Z.of_nat k) = str_of_int (1 + Z.of_nat k)
                /\ (6 <= String.length (format_05d (1 + Z.of_nat k)))%nat))
    /\ (forall n, r = Ok n ->
          length (copies_of evs) = length (copied_files walk)
          /\ n = Z.of_nat (length (copied_files walk))).
Proof.
  intros Hrun.
  destruct (process_sd_card_files_run _ _ _ _ _ _ _ _ _ _ Hrun)
    as [(e & -> & ->)
       | (de & d & org & site & evs & infos & c & Hde & Hd & Horg & Hsite & Hp & Hev
          & _ & _ & _ & _ & _ & _ & _ & Hr)].
  - exists []. rewrite app_nil_r. split; [reflexivity|]. split.
    + intros k src dst Hk. destruct k; discriminate.
    + intros n Hn. discriminate.
  - exists evs. split; [exact Hev|]. split.
    + intros k src dst Hk.
      destruct (processed_copies _ _ _ _ _ _ _ _ _ _ Hp Hk) as (root & fn & Hf & Hs & Hdst).
      exists root, fn, de, d, org, site.
      repeat (split; [assumption|]).
      split; [apply format_05d_min_width|].
      split; [intros Hlt; apply format_05d_width; lia|].
      split; [apply format_05d_padding; lia|].
      intros Hbig. split; [apply format_05d_unpadded; exact Hbig|].
      rewrite format_05d_unpadded by exact Hbig. apply str_of_int_long, Hbig.
    + intros n ->. destruct Hr as [-> ->].
      rewrite (processed_complete_copies _ _ _ _ _ _ Hp).
      now rewrite (processed_complete_length _ _ _ _ _ _ Hp).
Qed.


(** *** Operations that leave [file_inventory] alone *)

Lemma keeps_ret {A} (a : A) : keeps (FS:=FS) (ret a).
Proof. intros w r w' Hm. now inversion Hm. Qed.

Lemma keeps_raise {A} (e : exn) : keeps (FS:=FS) (@raise _ A e).
Proof. intros w r w' Hm. now inversion Hm. Qed.

Lemma keeps_bind {A B} (m : M (Wizard FS) A) (k : A -> M (Wizard FS) B) :
  keeps m -> (forall a, keeps (k a)) -> keeps (bind m k).
Proof.
  intros Hm Hk w r w' Hrun. unfold bind in Hrun.
  destruct (m w) as [[a|e] w1] eqn:Hmw.
  - rewrite (Hk a _ _ _ Hrun). exact (Hm _ _ _ Hmw).
  - inversion Hrun; subst. exact (Hm _ _ _ Hmw).
Qed.

Lemma keeps_emit (e : Event) : keeps (FS:=FS) (emit e).
Proof. intros w r w' Hm. now inversion Hm. Qed.

Lemma keeps_gets {A} (f : Wizard FS -> A) : keeps (FS:=FS) (gets f).
Proof. intros w r w' Hm. now inversion Hm. Qed.

Lemma keeps_fs_write {A} (m : M FS A) : keeps (FS:=FS) (fs_write m).
Proof.
  intros w r w' Hm. unfold fs_write, zoom in Hm.
  destruct (m (fs w)). now inversion Hm.
Qed.

Lemma keeps_of_result {A} (x : Result A) : keeps (FS:=FS) (of_result x).
Proof. destruct x; [apply keeps_ret | apply keeps_raise]. Qed.

Lemma keeps_deployment_path (name : string) : keeps (FS:=FS) (deployment_path name).
Proof.
  intros w r w' Hm. unfold deployment_path in Hm.
  destruct (current_deployment_folder w); now inversion Hm.
Qed.

Lemma keeps_device_at (index : nat) : keeps (FS:=FS) (device_at index).
Proof. intros w r w' Hm. now inversion Hm. Qed.

Lemma keeps_set_status index status count : keeps (FS:=FS) (set_status index status count).
Proof. intros w r w' Hm. now inversion Hm. Qed.

Create HintDb keeps discriminated.
#[local] Hint Resolve keeps_ret keeps_raise keeps_emit keeps_gets keeps_fs_write
  keeps_of_result keeps_deployment_path keeps_device_at keeps_set_status : keeps.

#[local] Ltac keeps_step :=
  match goal with
  | |- keeps (bind _ _) => apply keeps_bind; [|intros ?]
  | |- keeps (log _) => apply keeps_emit
  | |- keeps (message_box _ _ _) => apply keeps_emit
  | |- keeps (match ?x with _ => _ end) => destruct x
  | |- keeps (let '(_, _) := ?x in _) => destruct x
  | |- keeps _ => solve [auto with keeps]
  end.

Lemma keeps_skip_device current : keeps (FS:=FS) (skip_device current).
Proof. unfold skip_device. repeat keeps_step. Qed.

Lemma keeps_generate_metadata_files : keeps (FS:=FS) generate_metadata_files.
Proof. unfold generate_metadata_files. repeat keeps_step. Qed.

Lemma keeps_on_upload_finished success message :
  keeps (FS:=FS) (on_upload_finished success message).
Proof. unfold on_upload_finished. repeat keeps_step. Qed.

(** *** [file_inventory] only grows *)

Lemma process_sd_card_files_appends walk dest_dir pn pl dc dl (w : Wizard FS) r w' :
  process_sd_card_files (H:=H) EXIF_AVAILABLE walk dest_dir pn pl dc dl w = (r, w') ->
  exists infos,
    file_inventory w' = file_inventory w ++ infos
    /\ Forall (fun info : FileInfo => info !! "device_label" = Some (PyStr dl)) infos
    /\ forall n, r = Ok n ->
         n = Z.of_nat (length infos) /\ length infos = length (copied_files walk).
Proof.
  intros Hrun.
  destruct (process_sd_card_files_run _ _ _ _ _ _ _ _ _ _ Hrun)
    as [(e & -> & ->)
       | (de & d & org & site & evs & infos & c & _ & _ & _ & _ & Hp & _ & Hinv & Hdl
          & _ & _ & _ & _ & _ & Hr)].
  - exists []. rewrite app_nil_r. repeat split; [constructor|discriminate|discriminate].
  - exists infos. split; [exact Hinv|]. split; [exact Hdl|].
    intros n ->. destruct Hr as [-> ->].
    split; [reflexivity|]. exact (processed_complete_length _ _ _ _ _ _ Hp).
Qed.

Lemma copy_sd_card_data_appends ui (w : Wizard FS) r w' :
  copy_sd_card_data (H:=H) EXIF_AVAILABLE ui w = (r, w') ->
  file_inventory w `prefix_of` file_inventory w'.
Proof.
  intros Hrun.
  destruct (copy_sd_card_data_cases _ _ _ _ Hrun)
    as [->|(index & dev & folder & w1 & _ & _ & Hinv1 & _ & Hreport)]; [reflexivity|].
  destruct (process_sd_card_files (H:=H) EXIF_AVAILABLE (sd_walk ui) folder (plot_num dev)
              (plot_label dev) (dev_code dev) (device_label dev) w1) as [r1 w2] eqn:Hp.
  rewrite (copy_and_report_cases _ _ _ _ _ _ _ Hp) in Hreport.
  destruct (process_sd_card_files_appends _ _ _ _ _ _ _ _ _ Hp) as (infos & Hinv2 & _).
  assert (Hw' : file_inventory w' = file_inventory w2)
    by (destruct r1; inversion Hreport; reflexivity).
  rewrite Hw', Hinv2, Hinv1. now apply prefix_app_r.
Qed.


(** The wizard's half of C4: when [process_sd_card_files] raises, the [try]
    statement of [copy_sd_card_data] returns normally, having added the
    error to the log and shown a message box and nothing else: the file
    system is as the failed call left it, reached by [shutil.copy2] calls
    alone, the inventory is the old one followed by the records already
    appended, the copies already recorded stay recorded and none is made
    again, and the row of the device is not marked. *)
Lemma copy_error_is_reported index dev folder walk (w1 : Wizard FS) e w2 :
  process_sd_card_files (H:=H) EXIF_AVAILABLE walk folder (plot_num dev) (plot_label dev)
    (dev_code dev) (device_label dev) w1 = (Raise e, w2) ->
  exists w3 evs,
    copy_and_report (H:=H) EXIF_AVAILABLE index dev folder walk w1 = (Ok tt, w3)
    /\ events w3 = events w1 ++ evs ++
         [ EvLog ("✗ Error: " +:+ e +:+ "
");
           EvMessageBox "critical" "Copy Error" ("Error copying files: " +:+ e) ]
    /\ events w2 = events w1 ++ evs
    /\ fs w3 = fs w2
    /\ copy2_steps (fs w1) (fs w3)
    /\ file_inventory w3 = file_inventory w2
    /\ file_inventory w3 = file_inventory w1 ++ records_of evs
    /\ device_tree w3 = device_tree w1.
Proof.
  intros Hp. rewrite (copy_and_report_cases _ _ _ _ _ _ _ Hp).
  eexists _. 
  destruct (process_sd_card_files_run _ _ _ _ _ _ _ _ _ _ Hp)
    as [(e' & _ & ->)
       | (de & d & org & site & evs & infos & c & _ & _ & _ & _ & Hpr & Hev & Hinv & _
          & Hsteps & _ & _ & Ht & _)].
  - exists []. cbn. rewrite !app_nil_r.
    repeat split; try reflexivity. constructor.
  - exists evs. cbn. rewrite (processed_records _ _ _ _ _ _ _ Hpr), Hev, <- app_assoc.
    repeat split; try assumption; reflexivity.
Qed.

End WizardProperties.

(** ** The upload thread *)

Section UploadProperties.
Context {FS : Type} {HFS : FileSystem FS} {BX : Type} {HBX : BoxClient BX}.
Variable BOX_TARGET_FOLDER_ID : string.

Lemma box_le_refl (bx : BX) : box_le bx bx.
Proof. split; auto. Qed.

Lemma box_le_trans (a b c : BX) : box_le a b -> box_le b c -> box_le a c.
Proof. intros [Hab Hab'] [Hbc Hbc']. split; auto. Qed.

Lemma resolve_mono (bx bx' : BX) parent_id dirs folder_id :
  box_le bx bx' ->
  resolve bx parent_id dirs = Some folder_id ->
  resolve bx' parent_id dirs = Some folder_id.
Proof.
  intros [Hle _]. revert parent_id.
  induction dirs as [|d dirs IH]; intros parent_id Hr; [exact Hr|].
  cbn [resolve] in *.
  destruct (lookup_folder bx parent_id d) as [item|] eqn:Hl; [|discriminate].
  rewrite (Hle _ _ _ Hl). now apply IH.
Qed.

(** The three ways [find_or_create_folder] can go: the listing fails, the
    folder is found, or its creation is attempted. *)
Lemma find_or_create_folder_cases parent_id name (w : Uploader FS BX) bx r w' :
  box_client w = Some bx ->
  find_or_create_folder parent_id name w = (r, w') ->
  up_fs w' = up_fs w
  /\ ((exists e,
         get_folder_items parent_id bx = Raise e
         /\ r = Raise ("Error creating folder '" +:+ name +:+ "': " +:+ e)
         /\ box_client w' = Some bx
         /\ up_events w' = up_events w ++ [UvCall (GetFolderItems parent_id)])
      \/ (exists item,
            lookup_folder bx parent_id name = Some item
            /\ r = Ok item
            /\ box_client w' = Some bx
            /\ up_events w' = up_events w ++ [UvCall (GetFolderItems parent_id)])
      \/ (exists rc bx',
            lookup_folder bx parent_id name = None
            /\ create_folder name parent_id bx = (rc, bx')
            /\ r = match rc with
                   | Ok item => Ok item
                   | Raise e => Raise ("Error creating folder '" +:+ name +:+ "': " +:+ e)
                   end
            /\ box_client w' = Some bx'
            /\ up_events w' = up_events w
                 ++ [UvCall (GetFolderItems parent_id); UvCall (CreateFolder name parent_id)])).
Proof.
  intros Hbx Hrun.
  unfold find_or_create_folder, try_except in Hrun.
  unfold bind at 1 in Hrun. unfold call_get_folder_items in Hrun.
  unfold bind at 1 in Hrun. unfold up_emit at 1, modify in Hrun.
  unfold on_client at 1 in Hrun. cbn [box_client up_fs up_events] in Hrun.
  rewrite Hbx in Hrun. unfold lookup_folder.
  destruct (get_folder_items parent_id bx) as [items|e] eqn:Hitems.
  2:{ unfold raise in Hrun. inversion Hrun; subst. cbn. split; [reflexivity|].
      left. exists e. auto. }
  destruct (List.find (is_folder_named name) items) as [item|] eqn:Hfind.
  - unfold ret in Hrun. inversion Hrun; subst. cbn. split; [reflexivity|].
    right. left. exists item. auto.
  - unfold call_create_folder in Hrun.
    unfold bind at 1 in Hrun. unfold up_emit at 1, modify in Hrun.
    unfold on_client at 1 in Hrun. cbn [box_client up_fs up_events] in Hrun.
    destruct (create_folder name parent_id bx) as [rc bx'] eqn:Hcreate.
    destruct rc as [item|e]; unfold raise in Hrun; inversion Hrun; subst; cbn;
      (split; [reflexivity|]); right; right.
    + exists (Ok item), bx'. rewrite <- app_assoc. auto.
    + exists (Raise e), bx'. rewrite <- app_assoc. auto.
Qed.

(** A successful call, with what the laws of the store add. *)
Lemma find_or_create_folder_ok parent_id name (w : Uploader FS BX) bx item w' :
  box_client w = Some bx ->
  find_or_create_folder parent_id name w = (Ok item, w') ->
  exists bx' calls,
    box_client w' = Some bx'
    /\ up_fs w' = up_fs w
    /\ up_events w' = up_events w ++ map UvCall calls
    /\ (calls = [GetFolderItems parent_id]
        \/ calls = [GetFolderItems parent_id; CreateFolder name parent_id])
    /\ (BoxLaws BX -> box_le bx bx' /\ lookup_folder bx' parent_id name = Some item).
Proof.
  intros Hbx Hrun.
  destruct (find_or_create_folder_cases _ _ _ _ _ _ Hbx Hrun)
    as (Hfs & [(e & _ & Hr & _) | [(it & Hl & Hr & Hbx' & Hev)
                                  | (rc & bx' & Hl & Hc & Hr & Hbx' & Hev)]]).
  - discriminate.
  - inversion Hr; subst it. exists bx, [GetFolderItems parent_id].
    repeat split; auto.
  - destruct rc as [it|e]; [|discriminate]. inversion Hr; subst it.
    exists bx', [GetFolderItems parent_id; CreateFolder name parent_id].
    repeat split; auto.
    + intros p n f Hf. eapply create_folder_keeps; eassumption.
    + intros p n Hf. eapply create_folder_keeps_files; eassumption.
    + eapply create_folder_found; eassumption.
Qed.

(** The loop of [upload_file_with_path] over the directory names. *)
Lemma folder_chain_ok dirs :
  forall parent_id (w : Uploader FS BX) bx folder_id w',
  box_client w = Some bx ->
  for_each dirs
    (fun folder_name current_folder_id =>
       do folder <- find_or_create_folder current_folder_id folder_name;
       ret (item_id folder))
    parent_id w = (Ok folder_id, w') ->
  exists bx' calls,
    box_client w' = Some bx'
    /\ up_fs w' = up_fs w
    /\ up_events w' = up_events w ++ map UvCall calls
    /\ mirror_calls parent_id dirs calls
    /\ (dirs = [] -> calls = [] /\ folder_id = parent_id)
    /\ (BoxLaws BX -> box_le bx bx' /\ resolve bx' parent_id dirs = Some folder_id).
Proof.
  induction dirs as [|d dirs IH]; intros parent_id w bx folder_id w' Hbx Hrun.
  - cbn [for_each] in Hrun. unfold ret in Hrun. inversion Hrun; subst.
    exists bx, []. cbn. rewrite app_nil_r.
    repeat split; auto; try constructor.
  - rewrite for_each_cons in Hrun. unfold bind at 1 in Hrun. unfold bind at 1 in Hrun.
    destruct (find_or_create_folder parent_id d w) as [[item|e] w1] eqn:Hfoc;
      [|discriminate].
    unfold ret at 1 in Hrun.
    destruct (find_or_create_folder_ok _ _ _ _ _ _ Hbx Hfoc)
      as (bx1 & calls1 & Hbx1 & Hfs1 & Hev1 & Hcalls1 & Hlaws1).
    destruct (IH _ _ _ _ _ Hbx1 Hrun)
      as (bx' & calls & Hbx' & Hfs' & Hev' & Hmirror & _ & Hlaws).
    exists bx', (calls1 ++ calls).
    split; [exact Hbx'|]. split; [congruence|].
    split; [rewrite Hev', Hev1, map_app, <- app_assoc; reflexivity|].
    split; [destruct Hcalls1 as [->| ->]; cbn [app]; econstructor; exact Hmirror|].
    split; [discriminate|].
    intros HL. destruct (Hlaws1 HL) as [Hle1 Hlook]. destruct (Hlaws HL) as [Hle Hres].
    split; [eapply box_le_trans; eassumption|].
    cbn [resolve]. now rewrite (proj1 Hle _ _ _ Hlook).
Qed.

Lemma mirror_calls_no_upload parent_id dirs calls :
  mirror_calls parent_id dirs calls ->
  omap upload_of (map UvCall calls) = []
  /\ omap signal_of (map UvCall calls) = []
  /\ omap opened_of (map UvCall calls) = [].
Proof. induction 1; cbn; auto. Qed.

(** A successful [upload_file_with_path]. *)
Lemma upload_file_with_path_ok local_path parent_id relative_path
    (w : Uploader FS BX) bx w' :
  box_client w = Some bx ->
  upload_file_with_path local_path parent_id relative_path w = (Ok tt, w') ->
  exists bx' folder_id content calls,
    box_client w' = Some bx'
    /\ up_fs w' = up_fs w
    /\ open_rb local_path (up_fs w) = Ok content
    /\ up_events w' = up_events w ++ map UvCall calls
         ++ [UvOpen local_path;
             UvCall (UploadFile (path_name relative_path) folder_id content)]
    /\ (exists dirs, mirror_calls parent_id dirs calls
          /\ ((1 < length relative_path)%nat -> dirs = removelast relative_path))
    /\ (BoxLaws BX ->
          box_le bx bx'
          /\ ((1 < length relative_path)%nat ->
              resolve bx' parent_id (removelast relative_path) = Some folder_id)
          /\ has_file bx' folder_id (path_name relative_path)).
Proof.
  intros Hbx Hrun. unfold upload_file_with_path in Hrun.
  unfold bind at 1 in Hrun.
  match type of Hrun with
  | context [(if ?c then ?a else ?b) w] =>
      destruct ((if c then a else b) w) as [[folder_id|e] w1] eqn:Hchain; [|discriminate]
  end.
  assert (Hc : exists bx1 calls dirs,
    box_client w1 = Some bx1 /\ up_fs w1 = up_fs w
    /\ up_events w1 = up_events w ++ map UvCall calls
    /\ mirror_calls parent_id dirs calls
    /\ ((1 < length relative_path)%nat -> dirs = removelast relative_path)
    /\ (BoxLaws BX -> box_le bx bx1
          /\ ((1 < length relative_path)%nat ->
              resolve bx1 parent_id (removelast relative_path) = Some folder_id))).
  { destruct (Nat.ltb 1 (length relative_path)) eqn:Hdepth.
    - destruct (folder_chain_ok _ _ _ _ _ _ Hbx Hchain)
        as (bx1 & calls & Hbx1 & Hfs1 & Hev1 & Hm & _ & Hlaws).
      exists bx1, calls, (removelast relative_path).
      split; [exact Hbx1|]. split; [exact Hfs1|]. split; [exact Hev1|].
      split; [exact Hm|]. split; [reflexivity|].
      intros HL. destruct (Hlaws HL) as [Hle Hres]. split; [exact Hle|].
      intros _. exact Hres.
    - unfold ret in Hchain. inversion Hchain; subst.
      apply Nat.ltb_ge in Hdepth.
      exists bx, [], []. cbn. rewrite app_nil_r.
      repeat split; auto; try lia. constructor. }
  destruct Hc as (bx1 & calls & dirs & Hbx1 & Hfs1 & Hev1 & Hm & Hdirs & Hlaws).
  unfold bind at 1 in Hrun. unfold up_emit at 1, modify in Hrun.
  unfold bind at 1 in Hrun. cbn [up_fs] in Hrun.
  destruct (open_rb local_path (up_fs w1)) as [content|e] eqn:Hopen; [|discriminate].
  unfold call_upload_file, bind, up_emit, modify, on_client in Hrun.
  cbn [box_client up_fs up_events] in Hrun. rewrite Hbx1 in Hrun.
  destruct (upload_file (path_name relative_path) folder_id content bx1)
    as [[[]|e] bx'] eqn:Hup; [|discriminate].
  inversion Hrun; subst; clear Hrun. cbn.
  exists bx', folder_id, content, calls.
  split; [reflexivity|]. split; [exact Hfs1|]. split; [now rewrite <- Hfs1|].
  split; [rewrite Hev1, <- !app_assoc; reflexivity|].
  split; [exists dirs; auto|].
  intros HL. destruct (Hlaws HL) as [Hle Hres].
  assert (Hle' : box_le bx1 bx').
  { split.
    - intros p n f Hf. eapply upload_file_keeps; eassumption.
    - intros p n Hf. eapply upload_file_keeps_files; eassumption. }
  split; [eapply box_le_trans; eassumption|].
  split; [intros Hd; eapply resolve_mono; [exact Hle' | now apply Hres]|].
  eapply upload_file_listed; eassumption.
Qed.

(** *** Computations that emit no signal and lose nothing *)

Lemma quiet_ret {A} (a : A) : quiet (FS:=FS) (BX:=BX) (ret a).
Proof.
  intros w r w' bx Hbx Hm. inversion Hm; subst. split; [reflexivity|].
  exists bx, []. rewrite app_nil_r. repeat split; auto.
Qed.

Lemma quiet_raise {A} (e : exn) : quiet (FS:=FS) (BX:=BX) (@raise _ A e).
Proof.
  intros w r w' bx Hbx Hm. inversion Hm; subst. split; [reflexivity|].
  exists bx, []. rewrite app_nil_r. repeat split; auto.
Qed.

Lemma quiet_bind {A B} (m : M (Uploader FS BX) A) (k : A -> M (Uploader FS BX) B) :
  quiet m -> (forall a, quiet (k a)) -> quiet (bind m k).
Proof.
  intros Hm Hk w r w' bx Hbx Hrun. unfold bind in Hrun.
  destruct (m w) as [[a|e] w1] eqn:Hmw.
  - destruct (Hm _ _ _ _ Hbx Hmw) as (Hfs1 & bx1 & evs1 & Hbx1 & Hev1 & Hs1 & Hle1).
    destruct (Hk a _ _ _ _ Hbx1 Hrun) as (Hfs2 & bx2 & evs2 & Hbx2 & Hev2 & Hs2 & Hle2).
    split; [congruence|]. exists bx2, (evs1 ++ evs2).
    split; [exact Hbx2|]. split; [rewrite Hev2, Hev1, <- app_assoc; reflexivity|].
    split; [rewrite omap_app, Hs1, Hs2; reflexivity|].
    intros HL. eapply box_le_trans; eauto.
  - inversion Hrun; subst. exact (Hm _ _ _ _ Hbx Hmw).
Qed.

Lemma quiet_for_each {A Acc} (l : list A) (body : A -> Acc -> M (Uploader FS BX) Acc) :
  (forall x acc, quiet (body x acc)) -> forall acc, quiet (for_each l body acc).
Proof.
  intros Hbody. induction l as [|x l IH]; intros acc; cbn [for_each].
  - apply quiet_ret.
  - apply quiet_bind; [apply Hbody | exact IH].
Qed.

Lemma quiet_find_or_create_folder parent_id name :
  quiet (FS:=FS) (find_or_create_folder parent_id name).
Proof.
  intros w r w' bx Hbx Hrun.
  destruct (find_or_create_folder_cases _ _ _ _ _ _ Hbx Hrun)
    as (Hfs & [(e & _ & _ & Hbx' & Hev) | [(it & _ & _ & Hbx' & Hev)
                                          | (rc & bx' & _ & Hc & _ & Hbx' & Hev)]]);
    (split; [exact Hfs|]).
  - exists bx. eexists. repeat split; eauto.
  - exists bx. eexists. repeat split; eauto.
  - exists bx'. eexists. split; [exact Hbx'|]. split; [exact Hev|]. split; [reflexivity|].
    intros HL. split.
    + intros p n f Hf. eapply create_folder_keeps; eassumption.
    + intros p n Hf. eapply create_folder_keeps_files; eassumption.
Qed.

Lemma quiet_upload_file_with_path local_path parent_id relative_path :
  quiet (FS:=FS) (upload_file_with_path local_path parent_id relative_path).
Proof.
  unfold upload_file_with_path. apply quiet_bind.
  { destruct (Nat.ltb 1 (length relative_path)); [|apply quiet_ret].
    apply quiet_for_each. intros name cur. apply quiet_bind.
    - apply quiet_find_or_create_folder.
    - intros f. apply quiet_ret. }
  intros folder_id. apply quiet_bind.
  { intros w r w' bx Hbx Hm. inversion Hm; subst. split; [reflexivity|].
    exists bx. eexists. repeat split; eauto. }
  intros _. apply quiet_bind.
  { intros w r w' bx Hbx Hm. destruct (open_rb local_path (up_fs w)); inversion Hm; subst;
      (split; [reflexivity|]); exists bx, []; rewrite app_nil_r; repeat split; auto. }
  intros content w r w' bx Hbx Hm.
  unfold call_upload_file, bind, up_emit, modify, on_client in Hm.
  cbn [box_client up_fs up_events] in Hm. rewrite Hbx in Hm.
  destruct (upload_file (path_name relative_path) folder_id content bx) as [ru bx'] eqn:Hup.
  inversion Hm; subst. cbn. split; [reflexivity|].
  exists bx'. eexists. split; [reflexivity|]. split; [reflexivity|]. split; [reflexivity|].
  intros HL. split.
  - intros p n f Hf. eapply upload_file_keeps; eassumption.
  - intros p n Hf. eapply upload_file_keeps_files; eassumption.
Qed.

(** *** The loop of [run] *)

Lemma upload_one_cases folder deploy_id total file_path uploaded
    (w : Uploader FS BX) bx r w' :
  box_client w = Some bx ->
  upload_one folder deploy_id total file_path uploaded w = (r, w') ->
  up_fs w' = up_fs w
  /\ exists bx' evs,
       box_client w' = Some bx'
       /\ up_events w' = up_events w ++ evs
       /\ (BoxLaws BX -> box_le bx bx')
       /\ ((is_file file_path (up_fs w) = false /\ r = Ok uploaded /\ evs = [])
           \/ (is_file file_path (up_fs w) = true /\ (exists e, r = Raise e)
               /\ omap signal_of evs = [])
           \/ (is_file file_path (up_fs w) = true /\ r = Ok (uploaded + 1)
               /\ omap opened_of evs = [file_path]
               /\ length (omap upload_of evs) = 1%nat
               /\ omap signal_of evs = [progress (uploaded + 1) total (path_name file_path)]
               /\ (BoxLaws BX ->
                   exists rel pid,
                     relative_to file_path folder = Ok rel
                     /\ has_file bx' pid (path_name rel)))).
Proof.
  intros Hbx Hrun. unfold upload_one in Hrun.
  unfold bind at 1 in Hrun. unfold gets at 1 in Hrun.
  destruct (is_file file_path (up_fs w)) eqn:Hreg.
  2:{ unfold ret in Hrun. inversion Hrun; subst. split; [reflexivity|].
      exists bx, []. rewrite app_nil_r.
      split; [exact Hbx|]. split; [reflexivity|].
      split; [intros _; apply box_le_refl|]. left. auto. }
  unfold bind at 1 in Hrun.
  destruct (relative_to file_path folder) as [rel|e] eqn:Hrel.
  2:{ cbn in Hrun. inversion Hrun; subst. split; [reflexivity|].
      exists bx, []. rewrite app_nil_r.
      split; [exact Hbx|]. split; [reflexivity|].
      split; [intros _; apply box_le_refl|]. right. left. eauto. }
  cbn [of_result] in Hrun. unfold ret at 1 in Hrun.
  unfold bind at 1 in Hrun.
  destruct (upload_file_with_path file_path deploy_id rel w) as [[[]|e] w1] eqn:Hup.
  2:{ inversion Hrun; subst.
      destruct (quiet_upload_file_with_path _ _ _ _ _ _ _ Hbx Hup)
        as (Hfs & bx1 & evs1 & Hbx1 & Hev1 & Hs1 & Hle1).
      split; [exact Hfs|]. exists bx1, evs1.
      split; [exact Hbx1|]. split; [exact Hev1|]. split; [exact Hle1|].
      right. left. eauto. }
  destruct (upload_file_with_path_ok _ _ _ _ _ _ Hbx Hup)
    as (bx1 & fid & content & calls & Hbx1 & Hfs1 & _ & Hev1 & (dirs & Hm & _) & Hlaws).
  destruct (mirror_calls_no_upload _ _ _ Hm) as (Hnu & Hns & Hno).
  unfold bind, up_emit, modify, ret in Hrun. inversion Hrun; subst; clear Hrun. cbn.
  split; [exact Hfs1|].
  eexists bx1, _. split; [exact Hbx1|].
  split; [rewrite Hev1, <- !app_assoc; reflexivity|].
  split; [intros HL; apply (Hlaws HL)|].
  right. right.
  rewrite !omap_app, Hnu, Hns, Hno. cbn.
  split; [reflexivity|]. split; [reflexivity|]. split; [reflexivity|].
  split; [reflexivity|]. split; [reflexivity|].
  intros HL. exists rel, fid. split; [reflexivity|]. apply (Hlaws HL).
Qed.

Lemma upload_loop folder deploy_id total paths :
  forall uploaded (w : Uploader FS BX) bx r w',
  box_client w = Some bx ->
  for_each paths (upload_one folder deploy_id total) uploaded w = (r, w') ->
  up_fs w' = up_fs w
  /\ exists bx' evs,
       box_client w' = Some bx'
       /\ up_events w' = up_events w ++ evs
       /\ (forall s, In s (omap signal_of evs) -> exists k t n, s = progress k t n)
       /\ (BoxLaws BX ->
           box_le bx bx'
           /\ forall k t name,
                In (progress k t name) (omap signal_of evs) ->
                exists file_path rel pid,
                  In file_path paths /\ name = path_name file_path
                  /\ relative_to file_path folder = Ok rel
                  /\ has_file bx' pid (path_name rel))
       /\ (forall n, r = Ok n ->
             let regular := List.filter (fun p => is_file p (up_fs w)) paths in
             omap opened_of evs = regular
             /\ length (omap upload_of evs) = length regular
             /\ omap signal_of evs
                = progress_signals (uploaded + 1) total (map path_name regular)
             /\ n = uploaded + Z.of_nat (length regular)).
Proof.
  induction paths as [|p paths IH]; intros uploaded w bx r w' Hbx Hrun.
  - cbn [for_each] in Hrun. unfold ret in Hrun. inversion Hrun; subst.
    split; [reflexivity|]. exists bx, []. rewrite app_nil_r.
    split; [exact Hbx|]. split; [reflexivity|].
    split; [intros s []|].
    split; [intros HL; split; [apply box_le_refl | intros k t name []]|].
    intros n Hn. inversion Hn; subst. cbn. repeat split; auto. lia.
  - rewrite for_each_cons in Hrun. unfold bind in Hrun.
    destruct (upload_one folder deploy_id total p uploaded w) as [r1 w1] eqn:Hone.
    destruct (upload_one_cases _ _ _ _ _ _ _ _ _ Hbx Hone)
      as (Hfs1 & bx1 & evs1 & Hbx1 & Hev1 & Hle1 & Hcases).
    destruct Hcases as [(Hreg & -> & ->)
                       | [(Hreg & (e & ->) & Hs1)
                         | (Hreg & -> & Ho1 & Hu1 & Hs1 & Hfile)]].
    + (* not a regular file *)
      rewrite app_nil_r in Hev1.
      destruct (IH _ _ _ _ _ Hbx1 Hrun)
        as (Hfs & bx' & evs & Hbx' & Hev & Hsig & Hlaws & Hok).
      split; [congruence|]. exists bx', evs.
      split; [exact Hbx'|]. split; [congruence|]. split; [exact Hsig|].
      split.
      { intros HL. destruct (Hlaws HL) as [Hle Hfiles].
        split; [eapply box_le_trans; eauto|].
        intros k t name Hin. destruct (Hfiles k t name Hin) as (fp & rel & pid & Hfp & Hrest).
        exists fp, rel, pid. split; [now right | exact Hrest]. }
      intros n Hn. cbn [List.filter]. rewrite Hreg.
      rewrite <- Hfs1. exact (Hok n Hn).
    + (* the upload raised *)
      inversion Hrun; subst.
      split; [exact Hfs1|]. exists bx1, evs1.
      split; [exact Hbx1|]. split; [exact Hev1|].
      rewrite Hs1. split; [intros s []|].
      split; [intros HL; split; [auto | intros k t name []]|].
      intros n Hn. discriminate.
    + (* uploaded and reported *)
      destruct (IH _ _ _ _ _ Hbx1 Hrun)
        as (Hfs & bx' & evs & Hbx' & Hev & Hsig & Hlaws & Hok).
      split; [congruence|]. exists bx', (evs1 ++ evs).
      split; [exact Hbx'|].
      split; [rewrite Hev, Hev1, <- app_assoc; reflexivity|].
      rewrite !omap_app, Hs1, Ho1, length_app, Hu1.
      split.
      { intros s [<-|Hin]; [eauto | now apply Hsig]. }
      split.
      { intros HL. destruct (Hlaws HL) as [Hle Hfiles].
        split; [eapply box_le_trans; eauto|].
        intros k t name [Heq|Hin].
        - inversion Heq; subst. destruct (Hfile HL) as (rel & pid & Hrel & Hhas).
          exists p, rel, pid. split; [now left|]. split; [reflexivity|].
          split; [exact Hrel|]. now apply (proj2 Hle).
        - destruct (Hfiles k t name Hin) as (fp & rel & pid & Hfp & Hrest).
          exists fp, rel, pid. split; [now right | exact Hrest]. }
      intros n Hn. cbn [List.filter]. rewrite Hreg.
      destruct (Hok n Hn) as (Ho & Hu & Hs & Hnn). rewrite Hfs1 in *.
      cbn [map progress_signals length app].
      rewrite Ho, Hu, Hs. repeat split; auto. lia.
Qed.

(** *** [run] *)

(** [run_body] with a client, whatever its outcome. *)
Lemma run_body_cases folder (w : Uploader FS BX) bx r w' :
  box_client w = Some bx ->
  run_body BOX_TARGET_FOLDER_ID folder w = (r, w') ->
  up_fs w' = up_fs w
  /\ exists bx' evs,
       box_client w' = Some bx'
       /\ up_events w' = up_events w ++ evs
       /\ (BoxLaws BX ->
           box_le bx bx'
           /\ forall k t name,
                In (progress k t name) (omap signal_of evs) ->
                exists file_path rel pid,
                  In file_path (rglob folder (up_fs w)) /\ name = path_name file_path
                  /\ relative_to file_path folder = Ok rel
                  /\ has_file bx' pid (path_name rel))
       /\ match r with
          | Raise _ => forall s, In s (omap signal_of evs) -> exists k t n, s = progress k t n
          | Ok _ =>
              let regular :=
                List.filter (fun p => is_file p (up_fs w)) (rglob folder (up_fs w)) in
              let total := Z.of_nat (length regular) in
              omap opened_of evs = regular
              /\ length (omap upload_of evs) = length regular
              /\ omap signal_of evs
                 = progress_signals 1 total (map path_name regular)
                   ++ [finished true ("Successfully uploaded " +:+ str_of_int total
                                        +:+ " files to Box")]
          end.
Proof.
  intros Hbx Hrun. unfold run_body in Hrun.
  unfold bind at 1 in Hrun. unfold gets at 1 in Hrun. rewrite Hbx in Hrun.
  unfold bind at 1 in Hrun.
  destruct (find_or_create_folder BOX_TARGET_FOLDER_ID (path_name folder) w)
    as [[deploy|e] w1] eqn:Hfoc.
  2:{ inversion Hrun; subst.
      destruct (quiet_find_or_create_folder _ _ _ _ _ _ Hbx Hfoc)
        as (Hfs & bx1 & evs1 & Hbx1 & Hev1 & Hs1 & Hle1).
      split; [exact Hfs|]. exists bx1, evs1.
      split; [exact Hbx1|]. split; [exact Hev1|]. rewrite Hs1.
      split; [intros HL; split; [auto | intros k t name []]|].
      intros s []. }
  destruct (find_or_create_folder_ok _ _ _ _ _ _ Hbx Hfoc)
    as (bx1 & calls & Hbx1 & Hfs1 & Hev1 & Hcalls & Hlaws1).
  assert (Hquiet1 : omap signal_of (map UvCall calls) = []
                    /\ omap opened_of (map UvCall calls) = []
                    /\ omap upload_of (map UvCall calls) = [])
    by (destruct Hcalls as [->| ->]; cbn; auto).
  destruct Hquiet1 as (Hs1 & Ho1 & Hu1).
  unfold bind at 1 in Hrun. unfold gets at 1 in Hrun.
  unfold bind at 1 in Hrun. unfold gets at 1 in Hrun.
  unfold bind at 1 in Hrun. rewrite Hfs1 in Hrun.
  destruct (for_each (rglob folder (up_fs w)) _ 0 w1) as [[n|e] w2] eqn:Hloop.
  - destruct (upload_loop _ _ _ _ _ _ _ _ _ Hbx1 Hloop)
      as (Hfs2 & bx2 & evs2 & Hbx2 & Hev2 & Hsig2 & Hlaws2 & Hok2).
    destruct (Hok2 n eq_refl) as (Ho2 & Hu2 & Hs2 & Hn). rewrite Hfs1 in *.
    unfold up_emit, modify in Hrun. inversion Hrun; subst r w'; clear Hrun. cbn.
    split; [congruence|]. eexists bx2, _.
    split; [exact Hbx2|].
    split; [rewrite Hev2, Hev1, <- !app_assoc; reflexivity|].
    rewrite !omap_app, Hs1, Ho1, Hu1, Ho2, Hs2. cbn [app].
    rewrite length_app, Hu2.
    cbn [omap list_omap signal_of opened_of upload_of length].
    split.
    { intros HL. destruct (Hlaws1 HL) as [Hle1 _]. destruct (Hlaws2 HL) as [Hle2 Hfiles].
      split; [eapply box_le_trans; eauto|].
      intros k t name Hin. apply in_app_or in Hin as [Hin|[Heq|[]]]; [|discriminate].
      apply (Hfiles k t). rewrite Hs2. exact Hin. }
    rewrite Hn, Z.add_0_l, !app_nil_r, Nat.add_0_r. cbn. auto.
  - destruct (upload_loop _ _ _ _ _ _ _ _ _ Hbx1 Hloop)
      as (Hfs2 & bx2 & evs2 & Hbx2 & Hev2 & Hsig2 & Hlaws2 & _).
    inversion Hrun; subst r w'; clear Hrun.
    split; [congruence|]. exists bx2, (map UvCall calls ++ evs2).
    split; [exact Hbx2|].
    split; [rewrite Hev2, Hev1, <- !app_assoc; reflexivity|].
    rewrite !omap_app, Hs1. cbn [app].
    split; [|exact Hsig2].
    intros HL. destruct (Hlaws1 HL) as [Hle1 _]. destruct (Hlaws2 HL) as [Hle2 Hfiles].
    split; [eapply box_le_trans; eauto|]. exact Hfiles.
Qed.

(** One call of [find_or_create_folder], with the listing it read: the
    listing raises, or it holds a folder of the name, which is returned
    without a create call, or it holds none and the creation is called. *)
Lemma find_or_create_folder_steps parent_id name (w : Uploader FS BX) bx r w' :
  box_client w = Some bx ->
  find_or_create_folder parent_id name w = (r, w') ->
  up_fs w' = up_fs w
  /\ ((exists e,
         get_folder_items parent_id bx = Raise e
         /\ r = Raise ("Error creating folder '" +:+ name +:+ "': " +:+ e)
         /\ box_client w' = Some bx
         /\ up_events w' = up_events w ++ [UvCall (GetFolderItems parent_id)])
      \/ (exists items item,
            get_folder_items parent_id bx = Ok items
            /\ List.find (is_folder_named name) items = Some item
            /\ r = Ok item
            /\ box_client w' = Some bx
            /\ up_events w' = up_events w ++ [UvCall (GetFolderItems parent_id)])
      \/ (exists items rc bx',
            get_folder_items parent_id bx = Ok items
            /\ List.find (is_folder_named name) items = None
            /\ create_folder name parent_id bx = (rc, bx')
            /\ r = match rc with
                   | Ok item => Ok item
                   | Raise e => Raise ("Error creating folder '" +:+ name +:+ "': " +:+ e)
                   end
            /\ box_client w' = Some bx'
            /\ up_events w' = up_events w
                 ++ [UvCall (GetFolderItems parent_id); UvCall (CreateFolder name parent_id)])).
Proof.
  intros Hbx Hrun.
  unfold find_or_create_folder, try_except in Hrun.
  unfold bind at 1 in Hrun. unfold call_get_folder_items in Hrun.
  unfold bind at 1 in Hrun. unfold up_emit at 1, modify in Hrun.
  unfold on_client at 1 in Hrun. cbn [box_client up_fs up_events] in Hrun.
  rewrite Hbx in Hrun.
  destruct (get_folder_items parent_id bx) as [items|e] eqn:Hitems.
  2:{ unfold raise in Hrun. inversion Hrun; subst. cbn. split; [reflexivity|].
      left. exists e. auto. }
  destruct (List.find (is_folder_named name) items) as [item|] eqn:Hfind.
  - unfold ret in Hrun. inversion Hrun; subst. cbn. split; [reflexivity|].
    right. left. exists items, item. auto.
  - unfold call_create_folder in Hrun.
    unfold bind at 1 in Hrun. unfold up_emit at 1, modify in Hrun.
    unfold on_client at 1 in Hrun. cbn [box_client up_fs up_events] in Hrun.
    destruct (create_folder name parent_id bx) as [rc bx'] eqn:Hcreate.
    destruct rc as [item|e]; unfold raise in Hrun; inversion Hrun; subst; cbn;
      (split; [reflexivity|]); right; right.
    + exists items, (Ok item), bx'. rewrite <- app_assoc. auto 10.
    + exists items, (Raise e), bx'. rewrite <- app_assoc. auto 10.
Qed.

(** In a store that obeys its laws the walk loses nothing, and the names
    lead from the parent folder to the folder it reached. *)
Lemma mirrored_resolve bx parent_id dirs calls bx' folder_id :
  BoxLaws BX ->
  mirrored bx parent_id dirs calls bx' folder_id ->
  box_le bx bx' /\ resolve bx' parent_id dirs = Some folder_id.
Proof.
  intros HL.
  induction 1 as [bx parent_id
                 | bx parent_id d dirs items item calls bx' folder_id Hitems Hfind _ IH
                 | bx parent_id d dirs items item bx1 calls bx' folder_id
                     Hitems Hfind Hcreate _ IH].
  - split; [apply box_le_refl | reflexivity].
  - destruct IH as [Hle Hres]. split; [exact Hle|].
    assert (Hlook : lookup_folder bx parent_id d = Some item)
      by (unfold lookup_folder; now rewrite Hitems).
    cbn [resolve]. now rewrite (proj1 Hle _ _ _ Hlook).
  - destruct IH as [Hle Hres].
    assert (Hnone : lookup_folder bx parent_id d = None)
      by (unfold lookup_folder; now rewrite Hitems).
    pose proof (create_folder_found _ _ _ _ _ Hcreate Hnone) as Hlook.
    assert (Hle1 : box_le bx bx1).
    { split.
      - intros p n f Hf. eapply create_folder_keeps; eassumption.
      - intros p n Hf. eapply create_folder_keeps_files; eassumption. }
    split; [eapply box_le_trans; eassumption|].
    cbn [resolve]. now rewrite (proj1 Hle _ _ _ Hlook).
Qed.

(** The calls of a walk are calls that find or create the directories in
    order. *)
Lemma mirrored_mirror_calls bx parent_id dirs calls bx' folder_id :
  mirrored bx parent_id dirs calls bx' folder_id ->
  mirror_calls parent_id dirs calls.
Proof. induction 1; econstructor; eassumption. Qed.

(** The loop of [upload_file_with_path] over the directory names, whatever
    its outcome: it walks down all of them, or stops at one of them. *)
Lemma folder_chain_cases dirs :
  forall parent_id (w : Uploader FS BX) bx r w',
  box_client w = Some bx ->
  for_each dirs
    (fun folder_name current_folder_id =>
       do folder <- find_or_create_folder current_folder_id folder_name;
       ret (item_id folder))
    parent_id w = (r, w') ->
  up_fs w' = up_fs w
  /\ ((exists folder_id bx1 calls,
         r = Ok folder_id
         /\ box_client w' = Some bx1
         /\ up_events w' = up_events w ++ map UvCall calls
         /\ mirrored bx parent_id dirs calls bx1 folder_id)
      \/ (exists e k calls bx1 folder_id d,
            r = Raise e
            /\ dirs !! k = Some d
            /\ mirrored bx parent_id (take k dirs) calls bx1 folder_id
            /\ mirror_stops bx1 folder_id d e)).
Proof.
  induction dirs as [|d dirs IH]; intros parent_id w bx r w' Hbx Hrun.
  - cbn [for_each] in Hrun. unfold ret in Hrun. inversion Hrun; subst.
    split; [reflexivity|]. left. exists parent_id, bx, []. cbn. rewrite app_nil_r.
    repeat split; auto. constructor.
  - rewrite for_each_cons in Hrun. unfold bind at 1 in Hrun. unfold bind at 1 in Hrun.
    destruct (find_or_create_folder parent_id d w) as [r1 w1] eqn:Hfoc.
    destruct (find_or_create_folder_steps _ _ _ _ _ _ Hbx Hfoc)
      as (Hfs1 & [(e & Hitems & -> & Hbx1 & Hev1)
                 | [(items & item & Hitems & Hfind & -> & Hbx1 & Hev1)
                   | (items & rc & bx1 & Hitems & Hfind & Hcreate & -> & Hbx1 & Hev1)]]).
    + inversion Hrun; subst. split; [exact Hfs1|]. right.
      exists ("Error creating folder '" +:+ d +:+ "': " +:+ e), O, [], bx, parent_id, d.
      split; [reflexivity|]. split; [reflexivity|]. split; [constructor|].
      left. exists e. auto.
    + unfold ret at 1 in Hrun.
      destruct (IH _ _ _ _ _ Hbx1 Hrun)
        as (Hfs & [(fid & bx2 & calls & -> & Hbx2 & Hev & Hm)
                  | (e & k & calls & bx2 & fid & d' & -> & Hk & Hm & Hstop)]).
      * split; [congruence|]. left. exists fid, bx2, (GetFolderItems parent_id :: calls).
        split; [reflexivity|]. split; [exact Hbx2|].
        split; [rewrite Hev, Hev1, <- app_assoc; reflexivity|].
        econstructor; eassumption.
      * split; [congruence|]. right.
        exists e, (S k), (GetFolderItems parent_id :: calls), bx2, fid, d'.
        split; [reflexivity|]. split; [exact Hk|].
        split; [cbn [take]; econstructor; eassumption | exact Hstop].
    + destruct rc as [item|e].
      * unfold ret at 1 in Hrun.
        destruct (IH _ _ _ _ _ Hbx1 Hrun)
          as (Hfs & [(fid & bx2 & calls & -> & Hbx2 & Hev & Hm)
                    | (e & k & calls & bx2 & fid & d' & -> & Hk & Hm & Hstop)]).
        -- split; [congruence|]. left.
           exists fid, bx2, (GetFolderItems parent_id :: CreateFolder d parent_id :: calls).
           split; [reflexivity|]. split; [exact Hbx2|].
           split; [rewrite Hev, Hev1, <- app_assoc; reflexivity|].
           econstructor; eassumption.
        -- split; [congruence|]. right.
           exists e, (S k), (GetFolderItems parent_id :: CreateFolder d parent_id :: calls),
             bx2, fid, d'.
           split; [reflexivity|]. split; [exact Hk|].
           split; [cbn [take]; econstructor; eassumption | exact Hstop].
      * inversion Hrun; subst. split; [exact Hfs1|]. right.
        exists ("Error creating folder '" +:+ d +:+ "': " +:+ e), O, [], bx, parent_id, d.
        split; [reflexivity|]. split; [reflexivity|]. split; [constructor|].
        right. exists items, e, bx1. auto 10.
Qed.

(** C1. A file uploaded by [upload_file_with_path] under a relative path of
    more than one part.  When the call returns, it has walked down the
    directories of the path, all parts but the last, one inside the other
    from the parent folder: each folder reached was listed, a folder of the
    name found in the listing was entered with no create call, and a folder
    that the listing did not hold was created there and entered; then the
    file was opened and uploaded under its name into the folder reached.
    In a store that obeys its laws that folder is the one the directory
    names lead to from the parent folder, and it lists the file.  When the
    call raises, it has walked down some of the directories in this way and
    a call of the store or the opening of the file has raised: the listing
    of the folder reached, the creation of a folder that is not listed, the
    [open], or the upload into the folder reached; a folder that is missing
    never makes it raise by itself. *)
Theorem upload_mirrors_path local_path parent_id relative_path
    (w : Uploader FS BX) bx r w' :
  BoxLaws BX ->
  (1 < length relative_path)%nat ->
  box_client w = Some bx ->
  upload_file_with_path local_path parent_id relative_path w = (r, w') ->
  let dirs := removelast relative_path in
  (r = Ok tt ->
   exists bx1 bx' folder_id content calls,
     mirrored bx parent_id dirs calls bx1 folder_id
     /\ open_rb local_path (up_fs w) = Ok content
     /\ upload_file (path_name relative_path) folder_id content bx1 = (Ok tt, bx')
     /\ box_client w' = Some bx'
     /\ up_events w' = up_events w ++ map UvCall calls
          ++ [UvOpen local_path;
              UvCall (UploadFile (path_name relative_path) folder_id content)]
     /\ resolve bx' parent_id dirs = Some folder_id
     /\ has_file bx' folder_id (path_name relative_path))
  /\ (forall e, r = Raise e ->
      exists k calls bx1 folder_id,
        mirrored bx parent_id (take k dirs) calls bx1 folder_id
        /\ ((exists d, dirs !! k = Some d /\ mirror_stops bx1 folder_id d e)
            \/ (k = length dirs /\ open_rb local_path (up_fs w) = Raise e)
            \/ (k = length dirs
                /\ exists content bx2,
                     open_rb local_path (up_fs w) = Ok content
                     /\ upload_file (path_name relative_path) folder_id content bx1
                        = (Raise e, bx2)))).
Proof.
  intros HL Hdepth Hbx Hrun dirs. subst dirs.
  unfold upload_file_with_path in Hrun.
  rewrite (proj2 (Nat.ltb_lt _ _) Hdepth) in Hrun.
  unfold bind at 1 in Hrun.
  match type of Hrun with
  | context [for_each ?l ?body ?a w] =>
      destruct (for_each l body a w) as [rc w1] eqn:Hchain
  end.
  destruct (folder_chain_cases _ _ _ _ _ _ Hbx Hchain)
    as (Hfs1 & [(fid & bx1 & calls & -> & Hbx1 & Hev1 & Hm)
               | (e & k & calls & bx1 & fid & d & -> & Hk & Hm & Hstop)]).
  2:{ inversion Hrun; subst. split; [discriminate|].
      intros e' He'. inversion He'; subst e'.
      exists k, calls, bx1, fid. split; [exact Hm|]. left. eauto. }
  unfold bind at 1 in Hrun. unfold up_emit at 1, modify in Hrun.
  unfold bind at 1 in Hrun. cbn [up_fs] in Hrun. rewrite Hfs1 in Hrun.
  assert (Hall : take (length (removelast relative_path)) (removelast relative_path)
                 = removelast relative_path) by apply firstn_all.
  destruct (open_rb local_path (up_fs w)) as [content|e] eqn:Hopen.
  2:{ inversion Hrun; subst. split; [discriminate|].
      intros e' He'. inversion He'; subst e'.
      exists (length (removelast relative_path)), calls, bx1, fid.
      rewrite Hall. split; [exact Hm|]. right. left. auto. }
  unfold call_upload_file, bind, up_emit, modify, on_client in Hrun.
  cbn [box_client up_fs up_events] in Hrun. rewrite Hbx1 in Hrun.
  destruct (upload_file (path_name relative_path) fid content bx1)
    as [[[]|e] bx'] eqn:Hup.
  - inversion Hrun; subst; clear Hrun. split; [|discriminate].
    intros _. exists bx1, bx', fid, content, calls.
    split; [exact Hm|]. split; [reflexivity|]. split; [exact Hup|].
    split; [reflexivity|].
    split; [cbn [up_events]; rewrite Hev1, <- !app_assoc; reflexivity|].
    destruct (mirrored_resolve _ _ _ _ _ _ HL Hm) as [_ Hres].
    assert (Hle' : box_le bx1 bx').
    { split.
      - intros p n f Hf. eapply upload_file_keeps; eassumption.
      - intros p n Hf. eapply upload_file_keeps_files; eassumption. }
    split; [eapply resolve_mono; eassumption|].
    eapply upload_file_listed; eassumption.
  - inversion Hrun; subst; clear Hrun. split; [discriminate|].
    intros e' He'. inversion He'; subst e'.
    exists (length (removelast relative_path)), calls, bx1, fid.
    rewrite Hall. split; [exact Hm|]. right. right.
    split; [reflexivity|]. exists content, bx'. auto.
Qed.

(** C6. [find_or_create_folder] is idempotent: when the parent's items hold
    a folder of the name, it returns the first such folder after one listing
    and no create call, and the store is as before; and after any call that
    returned a folder, a second call with the same parent and name returns
    the same folder without a create call and without changing the store,
    so that the two calls make at most one create call. *)
Theorem find_or_create_folder_idempotent parent_id name (w : Uploader FS BX) bx :
  BoxLaws BX ->
  box_client w = Some bx ->
  (forall item,
     lookup_folder bx parent_id name = Some item ->
     exists w1,
       find_or_create_folder parent_id name w = (Ok item, w1)
       /\ box_client w1 = Some bx
       /\ up_events w1 = up_events w ++ [UvCall (GetFolderItems parent_id)])
  /\ (forall folder w1,
        find_or_create_folder parent_id name w = (Ok folder, w1) ->
        exists w2 evs1,
          find_or_create_folder parent_id name w1 = (Ok folder, w2)
          /\ up_events w1 = up_events w ++ evs1
          /\ up_events w2 = up_events w1 ++ [UvCall (GetFolderItems parent_id)]
          /\ box_client w2 = box_client w1
          /\ (creations (evs1 ++ [UvCall (GetFolderItems parent_id)]) <= 1)%nat).
Proof.
  intros HL Hbx.
  assert (Hfound : forall (w0 : Uploader FS BX) bx0 item,
    box_client w0 = Some bx0 ->
    lookup_folder bx0 parent_id name = Some item ->
    exists w1,
      find_or_create_folder parent_id name w0 = (Ok item, w1)
      /\ box_client w1 = Some bx0
      /\ up_events w1 = up_events w0 ++ [UvCall (GetFolderItems parent_id)]).
  { intros w0 bx0 item Hbx0 Hl.
    destruct (find_or_create_folder parent_id name w0) as [r w1] eqn:Hrun.
    destruct (find_or_create_folder_cases _ _ _ _ _ _ Hbx0 Hrun)
      as (_ & [(e & Hg & _) | [(it & Hl' & -> & Hbx1 & Hev)
                               | (rc & bx' & Hl' & _)]]).
    - unfold lookup_folder in Hl. rewrite Hg in Hl. discriminate.
    - rewrite Hl in Hl'. inversion Hl'; subst it. exists w1. auto.
    - rewrite Hl in Hl'. discriminate. }
  split.
  - intros item Hl. exact (Hfound _ _ _ Hbx Hl).
  - intros folder w1 Hrun.
    destruct (find_or_create_folder_ok _ _ _ _ _ _ Hbx Hrun)
      as (bx1 & calls & Hbx1 & _ & Hev1 & Hcalls & Hlaws).
    destruct (Hlaws HL) as [_ Hl1].
    destruct (Hfound _ _ _ Hbx1 Hl1) as (w2 & Hrun2 & Hbx2 & Hev2).
    exists w2, (map UvCall calls).
    split; [exact Hrun2|]. split; [exact Hev1|]. split; [exact Hev2|].
    split; [congruence|].
    destruct Hcalls as [->| ->]; cbn; lia.
Qed.


(** The thread's half of C4: when the body of [run] raises, [run] returns
    normally with [finished(False, "Upload error: ...")] as its last signal
    and has done nothing else after the exception; the signals before it
    are progress signals; and in a store that obeys its laws every folder
    found and every file listed before the run is so after it, and every
    file reported by a progress signal is listed on the remote side. *)
Lemma upload_error_is_reported folder (w : Uploader FS BX) e w2 :
  run_body BOX_TARGET_FOLDER_ID folder w = (Raise e, w2) ->
  exists w3 bx bx2 evs,
    run BOX_TARGET_FOLDER_ID folder w = (Ok tt, w3)
    /\ box_client w = Some bx
    /\ up_events w2 = up_events w ++ evs
    /\ up_events w3 = up_events w ++ evs
         ++ [UvSignal (finished false ("Upload error: " +:+ e))]
    /\ box_client w2 = Some bx2 /\ box_client w3 = Some bx2
    /\ up_fs w3 = up_fs w
    /\ (forall s, In s (omap signal_of evs) -> exists k t n, s = progress k t n)
    /\ (BoxLaws BX ->
        box_le bx bx2
        /\ forall k t name,
             In (progress k t name) (omap signal_of evs) ->
             exists file_path rel pid,
               In file_path (rglob folder (up_fs w)) /\ name = path_name file_path
               /\ relative_to file_path folder = Ok rel
               /\ has_file bx2 pid (path_name rel)).
Proof.
  intros Hrun.
  destruct (box_client w) as [bx|] eqn:Hbx.
  2:{ unfold run_body, bind, gets in Hrun. rewrite Hbx in Hrun. discriminate. }
  destruct (run_body_cases _ _ _ _ _ Hbx Hrun)
    as (Hfs & bx2 & evs & Hbx2 & Hev & Hlaws & Hsig).
  eexists _, bx, bx2, evs.
  split; [unfold run, try_except; rewrite Hrun; reflexivity|].
  cbn. rewrite Hev, <- app_assoc.
  repeat (split; [first [assumption | reflexivity]|]). exact Hlaws.
Qed.

End UploadProperties.

(** ** The in-memory store obeys the laws *)

Lemma find_app_l {A} (f : A -> bool) (l1 l2 : list A) x :
  List.find f l1 = Some x -> List.find f (l1 ++ l2) = Some x.
Proof.
  induction l1 as [|a l1 IH]; [discriminate|]. cbn.
  destruct (f a); [auto | exact IH].
Qed.

Lemma find_app_r {A} (f : A -> bool) (l1 l2 : list A) :
  List.find f l1 = None -> List.find f (l1 ++ l2) = List.find f l2.
Proof.
  induction l1 as [|a l1 IH]; [reflexivity|]. cbn.
  destruct (f a); [discriminate | exact IH].
Qed.

Lemma box_add_listing kind name parent_id bx r bx' p :
  box_add kind name parent_id bx = (r, bx') ->
  exists extra, box_listing p bx' = box_listing p bx ++ extra
    /\ forall item, r = Ok item ->
         item_type item = kind /\ item_name item = name
         /\ box_listing parent_id bx' = box_listing parent_id bx ++ [item].
Proof.
  unfold box_add. intros Hadd.
  destruct (existsb _ _).
  - inversion Hadd; subst. exists []. rewrite app_nil_r. split; [reflexivity|].
    intros item Hr. discriminate.
  - inversion Hadd; subst. unfold box_listing. cbn [box_entries].
    rewrite !List.filter_app, !map_app. cbn [List.filter fst].
    eexists. split; [reflexivity|].
    intros item Hr. inversion Hr; subst. cbn.
    rewrite String.eqb_refl. auto.
Qed.

Lemma MemBox_lookup_keeps kind name parent_id bx r bx' p n f :
  box_add kind name parent_id bx = (r, bx') ->
  lookup_folder bx p n = Some f -> lookup_folder bx' p n = Some f.
Proof.
  intros Hadd. unfold lookup_folder. cbn [get_folder_items MemBoxClient].
  destruct (box_add_listing _ _ _ _ _ _ p Hadd) as (extra & -> & _).
  apply find_app_l.
Qed.

Lemma MemBox_files_keep kind name parent_id bx r bx' p n :
  box_add kind name parent_id bx = (r, bx') ->
  has_file bx p n -> has_file bx' p n.
Proof.
  intros Hadd (items & item & Hitems & Hin & Ht & Hn).
  cbn [get_folder_items MemBoxClient] in Hitems. inversion Hitems; subst items.
  destruct (box_add_listing _ _ _ _ _ _ p Hadd) as (extra & Hl & _).
  exists (box_listing p bx'), item. split; [reflexivity|].
  split; [rewrite Hl; apply in_or_app; now left | auto].
Qed.

#[export] Instance MemBoxLaws : BoxLaws MemBox.
Proof.
  split.
  - intros name pid bx item bx' Hc Hl.
    cbn [create_folder MemBoxClient] in Hc.
    destruct (box_add_listing _ _ _ _ _ _ pid Hc) as (_ & _ & Hitem).
    destruct (Hitem item eq_refl) as (Ht & Hn & Hlist).
    unfold lookup_folder in *. cbn [get_folder_items MemBoxClient] in *.
    rewrite Hlist, find_app_r by exact Hl. cbn.
    unfold is_folder_named. now rewrite Ht, Hn, !String.eqb_refl.
  - intros name pid bx r bx' p n f Hc. exact (MemBox_lookup_keeps _ _ _ _ _ _ _ _ _ Hc).
  - intros name pid bx r bx' p n Hc. exact (MemBox_files_keep _ _ _ _ _ _ _ _ Hc).
  - intros name pid content bx bx' Hu.
    cbn [upload_file MemBoxClient] in Hu.
    destruct (box_add "file" name pid bx) as [[item|e] bx1] eqn:Hadd; inversion Hu; subst.
    destruct (box_add_listing _ _ _ _ _ _ pid Hadd) as (_ & _ & Hitem).
    destruct (Hitem item eq_refl) as (Ht & Hn & Hlist).
    exists (box_listing pid bx'), item. split; [reflexivity|].
    split; [rewrite Hlist; apply in_or_app; right; now left | auto].
  - intros name pid content bx r bx' p n f Hu.
    cbn [upload_file MemBoxClient] in Hu.
    destruct (box_add "file" name pid bx) as [[item|e] bx1] eqn:Hadd; inversion Hu; subst;
      exact (MemBox_lookup_keeps _ _ _ _ _ _ _ _ _ Hadd).
  - intros name pid content bx r bx' p n Hu.
    cbn [upload_file MemBoxClient] in Hu.
    destruct (box_add "file" name pid bx) as [[item|e] bx1] eqn:Hadd; inversion Hu; subst;
      exact (MemBox_files_keep _ _ _ _ _ _ _ _ Hadd).
Qed.

(** ** The in-memory hashlib keeps the contract *)

Lemma round_length (s : list Z) (kw : Z * Z) :
  length s = 8%nat -> length (SHA256.round s kw) = 8%nat.
Proof.
  intros Hs. do 9 (destruct s as [|? s]; try discriminate). reflexivity.
Qed.

Lemma compress_length (h block : list Z) :
  length h = 8%nat -> length (SHA256.compress h block) = 8%nat.
Proof.
  intros Hh. unfold SHA256.compress.
  rewrite length_map, length_combine.
  assert (Hfold : forall l s, length s = 8%nat ->
                    length (fold_left SHA256.round l s) = 8%nat).
  { induction l as [|kw l IH]; intros s Hs; [exact Hs|].
    cbn [fold_left]. apply IH, round_length, Hs. }
  rewrite Hfold by exact Hh. rewrite Hh. reflexivity.
Qed.

Lemma digest_length (msg : list Byte.byte) : length (SHA256.digest msg) = 8%nat.
Proof.
  unfold SHA256.digest.
  generalize (SHA256.blocks
                (length (SHA256.be_words (SHA256.pad (map SHA256.byte_val msg))) / 16)
                (SHA256.be_words (SHA256.pad (map SHA256.byte_val msg)))).
  assert (H0 : length SHA256.H0 = 8%nat) by reflexivity.
  revert H0. generalize SHA256.H0.
  intros h Hh l. revert h Hh.
  induction l as [|b l IH]; intros h Hh; [exact Hh|].
  cbn [fold_left]. apply IH, compress_length, Hh.
Qed.

Lemma hex_digit_lower (d : Z) :
  0 <= d < 16 -> is_lower_hex (SHA256.hex_digit d) = true.
Proof.
  intros Hd.
  assert (Hall : all_from 16 0 (fun k => is_lower_hex (SHA256.hex_digit k)) = true)
    by reflexivity.
  apply (all_from_spec _ _ _ Hall). cbn. lia.
Qed.

Lemma list_ascii_of_string_app (a b : string) :
  list_ascii_of_string (a +:+ b) = list_ascii_of_string a ++ list_ascii_of_string b.
Proof.
  induction a as [|x a IH]; [reflexivity|].
  rewrite append_cons. cbn [list_ascii_of_string app]. now rewrite IH.
Qed.

Lemma hex_word_format (x : Z) :
  String.length (SHA256.hex_word x) = 8%nat
  /\ forallb is_lower_hex (list_ascii_of_string (SHA256.hex_word x)) = true.
Proof.
  unfold SHA256.hex_word. split.
  - reflexivity.
  - rewrite list_ascii_of_string_of_list_ascii. apply forallb_forall.
    intros c Hc. apply in_map_iff in Hc as (i & <- & _).
    apply hex_digit_lower. apply Z.mod_pos_bound. lia.
Qed.

Lemma hex_words_format (ws : list Z) :
  String.length (String.concat "" (map SHA256.hex_word ws)) = (8 * length ws)%nat
  /\ forallb is_lower_hex
       (list_ascii_of_string (String.concat "" (map SHA256.hex_word ws))) = true.
Proof.
  assert (Hcons : forall x l, String.concat "" (x :: l) = x +:+ String.concat "" l).
  { intros x [|y l]; cbn [String.concat].
    - induction x as [|c x IH]; [reflexivity|]. rewrite append_cons. now f_equal.
    - reflexivity. }
  induction ws as [|w ws [IHl IHf]]; [split; reflexivity|].
  cbn [map]. rewrite Hcons, string_length_app, list_ascii_of_string_app, forallb_app.
  destruct (hex_word_format w) as [Hl Hf]. rewrite Hl, Hf, IHl, IHf.
  split; [cbn [length]; lia | reflexivity].
Qed.

#[export] Instance MemHashlibContract : HashlibContract (list Byte.byte).
Proof.
  split.
  - intros blocks. cbn. f_equal.
    change (concat blocks) with ([] ++ concat blocks).
    generalize (@nil Byte.byte) as acc.
    induction blocks as [|b blocks IH]; intros acc; cbn [fold_left concat].
    + now rewrite app_nil_r.
    + rewrite IH. now rewrite <- app_assoc.
  - intros data. cbn [SHA256_hex MemHashlib]. unfold SHA256.hexdigest.
    destruct (hex_words_format (SHA256.digest data)) as [Hl Hf].
    rewrite Hl, Hf, digest_length. split; reflexivity.
Qed.

(** ** The in-memory file system never fails on files that are there *)

Lemma MemFS_process_file_ok EXIF_AVAILABLE dest_dir pn pl dc dl org site date_str
    root filename acc (w : Wizard MemFS) :
  is_Some (mem_files (fs w) !! (root /: filename)) ->
  exists acc' w',
    process_file (H:=list Byte.byte) EXIF_AVAILABLE dest_dir pn pl dc dl org site date_str
      root filename acc w = (Ok acc', w')
    /\ forall p, is_Some (mem_files (fs w) !! p) -> is_Some (mem_files (fs w') !! p).
Proof.
  intros [f Hf]. destruct (eligible filename) eqn:He.
  2:{ rewrite process_file_skip by exact He. eauto. }
  destruct acc as [fc seq].
  destruct (eligible_true_inv _ He) as [Hh Ho].
  unfold process_file. rewrite Hh, Ho.
  set (src := root /: filename) in *.
  set (dst := dest_dir /: _).
  unfold bind at 1. unfold fs_write at 1, zoom.
  cbn [shutil_copy2 MemFileSystem]. rewrite Hf.
  unfold bind at 1. unfold emit at 1, modify.
  set (w2 := set_events _ (set_fs _ w)).
  assert (Hdst : mem_files (fs w2) !! dst = Some f)
    by (cbn; apply lookup_insert_eq).
  destruct (extract_exif_data_total EXIF_AVAILABLE dst w2) as [d Hd].
  assert (Hexif : exists d,
    (if (String.eqb (classify_file filename) "image" && EXIF_AVAILABLE)%bool
     then extract_exif_data EXIF_AVAILABLE dst else ret ∅) w2 = (Ok d, w2)).
  { destruct (_ && _)%bool; [eauto | eexists; reflexivity]. }
  destruct Hexif as [exif Hexif].
  unfold bind at 1. rewrite Hexif.
  unfold bind at 1. unfold fs_read at 1.
  rewrite (compute_file_hash_digest dst (fs w2) (mem_content f) MemHashlibContract)
    by (cbn [open_rb MemFileSystem]; now rewrite Hdst).
  unfold bind at 1. unfold fs_read at 1.
  cbn [path_stat MemFileSystem]. rewrite Hdst.
  unfold bind at 1. unfold fs_read at 1.
  cbn [path_stat MemFileSystem]. rewrite Hdst.
  unfold inventory_append, bind, modify, emit, modify.
  destruct ((fc + 1) mod 50 =? 0); unfold log, emit, modify, ret;
    eexists _, _; (split; [reflexivity|]);
    intros p Hp; cbn; apply lookup_insert_is_Some';
    right; exact Hp.
Qed.

Lemma MemFS_loop_ok EXIF_AVAILABLE dest_dir pn pl dc dl org site date_str files :
  forall acc (w : Wizard MemFS),
  (forall rf, In rf files -> is_Some (mem_files (fs w) !! (fst rf /: snd rf))) ->
  exists acc' w',
    for_each files
      (fun rf => process_file (H:=list Byte.byte) EXIF_AVAILABLE dest_dir pn pl dc dl
                   org site date_str (fst rf) (snd rf)) acc w = (Ok acc', w').
Proof.
  induction files as [|[root filename] files IH]; intros acc w Hfiles.
  - eexists _, _. reflexivity.
  - rewrite for_each_cons. unfold bind. cbn [fst snd].
    destruct (MemFS_process_file_ok EXIF_AVAILABLE dest_dir pn pl dc dl org site date_str
                root filename acc w) as (acc1 & w1 & -> & Hkeep).
    { apply (Hfiles (root, filename)). now left. }
    apply IH. intros rf Hin. apply Hkeep, Hfiles. now right.
Qed.

(** On the in-memory file system, with the three metadata entries present
    and every entry of the walk a file that is there,
    [process_sd_card_files] returns. *)
Lemma MemFS_process_sd_card_files_ok EXIF_AVAILABLE walk dest_dir pn pl dc dl
    (w : Wizard MemFS) deployment_end d org site :
  metadata w !! "deployment_end" = Some deployment_end ->
  strptime_Ymd deployment_end = Ok d ->
  metadata w !! "organization" = Some org ->
  metadata w !! "site" = Some site ->
  (forall rf, In rf (sd_files walk) -> is_Some (mem_files (fs w) !! (fst rf /: snd rf))) ->
  exists n w',
    process_sd_card_files (H:=list Byte.byte) EXIF_AVAILABLE walk dest_dir pn pl dc dl w
    = (Ok n, w').
Proof.
  intros Hde Hd Horg Hsite Hfiles.
  unfold process_sd_card_files, bind, getitem.
  rewrite Hde, Hd. cbn [of_result]. unfold ret at 1. rewrite Horg, Hsite.
  rewrite for_each_walk.
  destruct (MemFS_loop_ok EXIF_AVAILABLE dest_dir pn pl dc dl org site (strftime_Ym d)
              (sd_files walk) (0, 1) w Hfiles) as (acc & w' & ->).
  unfold ret. eauto.
Qed.

(** ** Errors *)


(** ** The model at work *)

Import Scenario.

(** A computation ran to a result that has been evaluated. *)
Lemma ran_to {A W} (x : Result A * W) (r : Result A) : fst x = r -> x = (r, snd x).
Proof. intros <-. apply surjective_pairing. Qed.

Example classify_jpg : classify_file "IMG_0001.JPG" = "image".
Proof. vm_compute. reflexivity. Qed.

Example classify_wav : classify_file "rec.2024.wav" = "audio".
Proof. vm_compute. reflexivity. Qed.

Example classify_dotfile : classify_file ".jpg" = "other".
Proof. vm_compute. reflexivity. Qed.

Example format_05d_7 : format_05d 7 = "00007".
Proof. vm_compute. reflexivity. Qed.

Example format_05d_100000 : format_05d 100000 = "100000".
Proof. vm_compute. reflexivity. Qed.

Example format_05d_1000000 : format_05d 1000000 = "1000000".
Proof. vm_compute. reflexivity. Qed.

Example strptime_strftime :
  strftime_Ym <$> (match strptime_Ymd "2024-03-15" with Ok d => Some d | Raise _ => None end)
  = Some "202403".
Proof. vm_compute. reflexivity. Qed.

Example strptime_no_such_day :
  strptime_Ymd "2023-02-29"
  = Raise "time data '2023-02-29' does not match format '%Y-%m-%d'".
Proof. vm_compute. reflexivity. Qed.

Example sha256_abc :
  SHA256.hexdigest (bytes "abc")
  = "ba7816bf8f01cfea414140de5dae2223b00361a396177a9cb410ff61f20015ad".
Proof. vm_compute. reflexivity. Qed.

Example sha256_empty :
  SHA256.hexdigest []
  = "e3b0c44298fc1c149afbf4c8996fb92427ae41e4649b934ca495991b7852b855".
Proof. vm_compute. reflexivity. Qed.

Example copy_names :
  map snd (copies_of (events (snd (process walk wizard))))
  = [ device_folder /: "UC_Bodega_plot1_ML_202403_00001.wav";
      device_folder /: "UC_Bodega_plot1_ML_202403_00002.jpg" ].
Proof. vm_compute. reflexivity. Qed.

Example copy_marks_complete :
  device_tree (snd (copy_sd_card_data (H:=list Byte.byte) true dialog wizard))
  = [ {| text0 := "Plot 1 (Dunes)"; text1 := "Medium-Large Animal Camera";
         text2 := "Complete"; text3 := "2" |} ].
Proof. vm_compute. reflexivity. Qed.

Example upload_signals :
  omap signal_of (up_events (snd (run "0" staging thread)))
  = [ progress 1 2 "UC_Bodega_plot1_ML_202403_00001.wav";
      progress 2 2 "UC_Bodega_plot1_ML_202403_00002.jpg";
      finished true "Successfully uploaded 2 files to Box" ].
Proof. vm_compute. reflexivity. Qed.

(** In the store that holds only the folder of the deployment, the walk
    down raw_data/p1_ML creates both folders. *)
Lemma mirrored_from_started calls bx1 folder_id :
  mirrored remote_started "1" ["raw_data"; "p1_ML"] calls bx1 folder_id ->
  calls = [ GetFolderItems "1"; CreateFolder "raw_data" "1";
            GetFolderItems "2"; CreateFolder "p1_ML" "2" ]
  /\ folder_id = "3".
Proof.
  intros Hm.
  inversion Hm as [| ? ? ? ? items item ? ? ? Hitems Hfind Hrest
                   | ? ? ? ? items item bx2 calls2 ? ? Hitems Hfind Hcreate Hrest]; subst.
  { vm_compute in Hitems. inversion Hitems; subst items. discriminate Hfind. }
  vm_compute in Hcreate. inversion Hcreate; subst item bx2. cbn [item_id] in Hrest.
  inversion Hrest as [| ? ? ? ? items3 item3 ? ? ? Hitems3 Hfind3 Hrest3
                      | ? ? ? ? items3 item3 bx3 calls3 ? ? Hitems3 Hfind3 Hcreate3 Hrest3];
    subst.
  { vm_compute in Hitems3. inversion Hitems3; subst items3. discriminate Hfind3. }
  vm_compute in Hcreate3. inversion Hcreate3; subst item3 bx3. cbn [item_id] in Hrest3.
  inversion Hrest3; subst. split; reflexivity.
Qed.

Lemma upload_mirrors_path_witness :
  let local_path := device_folder /: "UC_Bodega_plot1_ML_202403_00001.wav" in
  let relative_path := ["raw_data"; "p1_ML"; "UC_Bodega_plot1_ML_202403_00001.wav"] in
  let run := upload_file_with_path local_path "1" relative_path thread_started in
  fst run = Ok tt
  /\ exists bx1 bx' folder_id content calls,
       mirrored remote_started "1" ["raw_data"; "p1_ML"] calls bx1 folder_id
       /\ calls = [ GetFolderItems "1"; CreateFolder "raw_data" "1";
                    GetFolderItems "2"; CreateFolder "p1_ML" "2" ]
       /\ folder_id = "3"
       /\ open_rb local_path (up_fs thread_started) = Ok content
       /\ box_client (snd run) = Some bx'
       /\ up_events (snd run) = up_events thread_started ++ map UvCall calls
            ++ [UvOpen local_path;
                UvCall (UploadFile (path_name relative_path) folder_id content)]
       /\ resolve bx' "1" ["raw_data"; "p1_ML"] = Some folder_id
       /\ has_file bx' folder_id (path_name relative_path).
Proof.
  cbv zeta.
  assert (Hok : fst (upload_file_with_path
                       (device_folder /: "UC_Bodega_plot1_ML_202403_00001.wav") "1"
                       ["raw_data"; "p1_ML"; "UC_Bodega_plot1_ML_202403_00001.wav"]
                       thread_started) = Ok tt)
    by (vm_compute; reflexivity).
  split; [exact Hok|].
  destruct (upload_mirrors_path
              (device_folder /: "UC_Bodega_plot1_ML_202403_00001.wav") "1"
              ["raw_data"; "p1_ML"; "UC_Bodega_plot1_ML_202403_00001.wav"]
              thread_started remote_started _ _ MemBoxLaws
              ltac:(cbn; lia) eq_refl (surjective_pairing _))
    as [Hreturned _].
  destruct (Hreturned Hok)
    as (bx1 & bx' & folder_id & content & calls & Hm & Hopen & _ & Hbx' & Hev & Hres & Hfile).
  destruct (mirrored_from_started _ _ _ Hm) as [Hcalls Hfid].
  exists bx1, bx', folder_id, content, calls.
  repeat (split; [assumption|]). exact Hfile.
Defined.

Lemma copied_file_names_witness :
  let r := fst (process walk wizard) in
  let w' := snd (process walk wizard) in
  r = Ok 2
  /\ exists evs,
    events w' = events wizard ++ evs
    /\ (forall k src dst,
          copies_of evs !! k = Some (src, dst) ->
          exists root filename deployment_end d org site,
            copied_files walk !! k = Some (root, filename)
            /\ src = root /: filename
            /\ metadata wizard !! "deployment_end" = Some deployment_end
            /\ strptime_Ymd deployment_end = Ok d
            /\ metadata wizard !! "organization" = Some org
            /\ metadata wizard !! "site" = Some site
            /\ dst = device_folder /:
                 spec_filename org site 1 "ML" d (1 + Z.of_nat k) (name_suffix filename)
            /\ (5 <= String.length (format_05d (1 + Z.of_nat k)))%nat
            /\ (1 + Z.of_nat k <= 99999 ->
                String.length (format_05d (1 + Z.of_nat k)) = 5%nat)
            /\ format_05d (1 + Z.of_nat k)
               = zeros (5 - String.length (str_of_int (1 + Z.of_nat k)))
                 +:+ str_of_int (1 + Z.of_nat k)
            /\ (99999 < 1 + Z.of_nat k ->
                format_05d (1 + Z.of_nat k) = str_of_int (1 + Z.of_nat k)
                /\ (6 <= String.length (format_05d (1 + Z.of_nat k)))%nat))
    /\ (forall n, r = Ok n ->
          length (copies_of evs) = length (copied_files walk)
          /\ n = Z.of_nat (length (copied_files walk))).
Proof.
  cbv zeta. split; [vm_compute; reflexivity|].
  apply (copied_file_names (H:=list Byte.byte) true walk device_folder 1 (PyStr "Dunes")
           "ML" "p1_ML" wizard).
  apply surjective_pairing.
Defined.




Lemma find_or_create_folder_idempotent_witness :
  let folder := {| item_type := "folder"; item_id := "1";
                   item_name := "UC_Bodega_20240315" |} in
  let w1 := snd (find_or_create_folder "0" "UC_Bodega_20240315" thread) in
  exists w2 evs1,
    find_or_create_folder "0" "UC_Bodega_20240315" w1 = (Ok folder, w2)
    /\ up_events w1 = up_events thread ++ evs1
    /\ up_events w2 = up_events w1 ++ [UvCall (GetFolderItems "0")]
    /\ box_client w2 = box_client w1
    /\ (creations (evs1 ++ [UvCall (GetFolderItems "0")]) <= 1)%nat.
Proof.
  cbv zeta.
  apply (proj2 (find_or_create_folder_idempotent "0" "UC_Bodega_20240315" thread remote
                  MemBoxLaws eq_refl)).
  apply ran_to. vm_compute. reflexivity.
Defined.

Lemma compute_file_hash_is_sha256_witness :
  let filepath := ["sd"; "DCIM"; "IMG_0001.JPG"] in
  let data := bytes "abc" in
  compute_file_hash (H:=list Byte.byte) filepath card
  = Ok (sha256_of_file_contents (H:=list Byte.byte) data)
  /\ (exists blocks,
        concat blocks = data
        /\ Forall (fun b => (0 < length b <= 4096)%nat) blocks
        /\ read_blocks (S (length data)) sha256_new data
           = Some (fold_left sha256_update blocks sha256_new)
        /\ sha256_hexdigest (fold_left sha256_update blocks sha256_new)
           = sha256_of_file_contents (H:=list Byte.byte) data)
  /\ String.length (sha256_of_file_contents (H:=list Byte.byte) data) = 64%nat
  /\ forallb is_lower_hex
       (list_ascii_of_string (sha256_of_file_contents (H:=list Byte.byte) data)) = true.
Proof.
  cbv zeta.
  apply (compute_file_hash_is_sha256 (H:=list Byte.byte) ["sd"; "DCIM"; "IMG_0001.JPG"] card
           (bytes "abc") MemHashlibContract).
  vm_compute. reflexivity.
Defined.


Lemma skipped_file_leaves_no_trace_witness :
  process walk wizard
  = process [ (["sd"], ["DCIM"], ["REC_001.WAV"]);
              (["sd"; "DCIM"], [], ["IMG_0001.JPG"; "notes.txt"]) ] wizard.
Proof.
  exact (skipped_file_leaves_no_trace (H:=list Byte.byte) true "._IMG_0001.JPG"
           (or_introl eq_refl)
           [ (["sd"], ["DCIM"], ["REC_001.WAV"]) ] ["sd"; "DCIM"] [] []
           ["IMG_0001.JPG"; "notes.txt"] [] device_folder 1 (PyStr "Dunes") "ML" "p1_ML"
           wizard).
Defined.


(** ** Where the specification says more than the code does *)

Lemma filter_all {A} (f : A -> bool) (l : list A) :
  forallb f l = true -> List.filter f l = l.
Proof.
  induction l as [|x l IH]; [reflexivity|]. cbn.
  intros Hall. apply andb_true_iff in Hall as [-> Hl]. now rewrite IH.
Qed.


(** ** A card with more than 99999 files *)

Lemma string_of_uint_digits (u : Decimal.uint) :
  forallb is_digit (list_ascii_of_string (NilEmpty.string_of_uint u)) = true.
Proof. induction u; cbn; auto. Qed.

(** [str(k)] for a natural number is a digit followed by digits. *)
Lemma str_of_int_digits (k : Z) :
  0 <= k ->
  exists c s,
    str_of_int k = String c s /\ is_digit c = true
    /\ forallb is_digit (list_ascii_of_string s) = true.
Proof.
  intros Hk. unfold str_of_int.
  destruct k as [|p|p]; [exists "0"%char, ""; auto | | lia].
  cbn [Z.to_int NilZero.string_of_int NilZero.string_of_uint].
  pose proof (string_of_uint_digits (Pos.to_uint p)) as Hd.
  destruct (Pos.to_uint p); [exists "0"%char, ""; auto | ..];
    cbn [NilEmpty.string_of_uint] in *; eexists _, _; (split; [reflexivity|]);
    cbn in Hd; auto.
Qed.

Lemma rfind_after_digits (s t : string) (i : nat) :
  forallb is_digit (list_ascii_of_string s) = true ->
  rfind "." t = Some i ->
  rfind "." (s +:+ t) = Some (String.length s + i)%nat.
Proof.
  intros Hs Ht. induction s as [|c s IH]; [exact Ht|].
  cbn [list_ascii_of_string forallb] in Hs. apply andb_true_iff in Hs as [_ Hs].
  rewrite append_cons. cbn [rfind String.length]. now rewrite IH.
Qed.

Lemma substring_after (s t : string) (n : nat) :
  substring (String.length s) n (s +:+ t) = substring 0 n t.
Proof.
  induction s as [|c s IH]; [reflexivity|].
  rewrite append_cons. cbn [String.length substring]. exact IH.
Qed.

(** A name made of digits and the extension .jpg is copied. *)
Lemma digits_jpg_eligible (c : ascii) (s : string) :
  is_digit c = true ->
  forallb is_digit (list_ascii_of_string s) = true ->
  eligible (String c s +:+ ".jpg") = true
  /\ name_suffix (String c s +:+ ".jpg") = ".jpg".
Proof.
  intros Hc Hs.
  assert (Hsuffix : name_suffix (String c s +:+ ".jpg") = ".jpg").
  { unfold name_suffix.
    rewrite (rfind_after_digits (String c s) ".jpg" 0) by
      (cbn [list_ascii_of_string forallb]; rewrite ?Hc, ?Hs; reflexivity).
    rewrite string_length_app, Nat.add_0_r. cbn [String.length].
    replace (S (String.length s) + 4 - S (String.length s))%nat with 4%nat by lia.
    rewrite (proj2 (Nat.ltb_lt _ _)) by lia.
    rewrite (proj2 (Nat.ltb_lt _ _)) by lia.
    cbn [andb].
    change (S (String.length s)) with (String.length (String c s)).
    now rewrite substring_after. }
  split; [|exact Hsuffix].
  unfold eligible, startswith. rewrite append_cons. cbn [String.prefix].
  destruct (ascii_dec "." c) as [<-|_]; [discriminate|].
  destruct (ascii_dec "_" c) as [<-|_]; [discriminate|].
  cbn [orb negb andb].
  unfold classify_file, path_suffix, Path_of_entry, path_name. cbn [last default].
  unfold id. rewrite <- append_cons, Hsuffix. vm_compute. reflexivity.
Qed.

Lemma numbered_length (fuel : nat) : forall k, length (numbered fuel k) = fuel.
Proof. induction fuel as [|fuel IH]; intros k; cbn [numbered length]; auto. Qed.

Lemma numbered_lookup (fuel : nat) :
  forall k i, (i < fuel)%nat ->
  numbered fuel k !! i = Some (str_of_int (k + Z.of_nat i) +:+ ".jpg").
Proof.
  induction fuel as [|fuel IH]; intros k i Hi; [lia|].
  cbn [numbered]. destruct i as [|i].
  - cbn. now rewrite Z.add_0_r.
  - replace (k + Z.of_nat (S i)) with (k + 1 + Z.of_nat i) by lia.
    exact (IH (k + 1) i ltac:(lia)).
Qed.

Lemma numbered_eligible (fuel : nat) :
  forall k, 0 <= k -> forallb eligible (numbered fuel k) = true.
Proof.
  induction fuel as [|fuel IH]; intros k Hk; [reflexivity|].
  cbn [numbered forallb].
  destruct (str_of_int_digits k Hk) as (c & s & -> & Hc & Hs).
  rewrite (proj1 (digits_jpg_eligible c s Hc Hs)). apply IH. lia.
Qed.

Lemma copied_files_many :
  copied_files many_walk = map (pair ["sd"]) many_names.
Proof.
  unfold copied_files, sd_files, many_walk. cbn [map concat]. rewrite app_nil_r.
  apply filter_all. rewrite forallb_forall. intros rf Hin.
  apply in_map_iff in Hin as (name & <- & Hin). cbn [snd].
  pose proof (numbered_eligible (Z.to_nat 100000) 1 ltac:(lia)) as Hall.
  rewrite forallb_forall in Hall. now apply Hall.
Qed.

Lemma big_card_has (name : string) :
  In name many_names -> is_Some (mem_files big_card !! ["sd"; name]).
Proof.
  intros Hin. exists recording. cbn [mem_files big_card].
  apply elem_of_list_to_map_1'.
  - intros y Hy. apply list_elem_of_In, in_map_iff in Hy as (n & Heq & _).
    now inversion Heq.
  - apply list_elem_of_In, in_map_iff. eauto.
Qed.

(** The 100000th file of a card gets a sequence number of six digits. *)
Lemma sequence_number_of_six_digits :
  exists n w' src dst,
    process many_walk big_wizard = (Ok n, w')
    /\ copies_of (events w') !! Z.to_nat 99999 = Some (src, dst)
    /\ src = ["sd"; "100000.jpg"]
    /\ path_name dst = "UC_Bodega_plot1_ML_202403_100000.jpg"
    /\ ~ (exists seq_str,
            String.length seq_str = 5%nat
            /\ path_name dst = "UC_Bodega_plot1_ML_202403_" +:+ seq_str +:+ ".jpg").
Proof.
  assert (Hlen : length (copied_files many_walk) = Z.to_nat 100000)
    by (rewrite copied_files_many, length_map; apply numbered_length).
  assert (Hlast : copied_files many_walk !! Z.to_nat 99999
                  = Some (["sd"], str_of_int 100000 +:+ ".jpg")).
  { rewrite copied_files_many, list_lookup_fmap. unfold many_names.
    rewrite numbered_lookup by lia. rewrite Z2Nat.id by lia. reflexivity. }
  destruct (MemFS_process_sd_card_files_ok true many_walk device_folder 1 (PyStr "Dunes")
              "ML" "p1_ML" big_wizard "2024-03-15"
              {| year := 2024; month := 3; day := 15 |} "UC" "Bodega")
    as (n & w' & Hrun); [reflexivity | reflexivity | reflexivity | reflexivity | |].
  { intros [root name] Hin. unfold sd_files, many_walk in Hin. cbn [map concat] in Hin.
    rewrite app_nil_r in Hin. apply in_map_iff in Hin as (name' & Heq & Hin).
    inversion Heq; subst. apply big_card_has, Hin. }
  destruct (process_sd_card_files_run _ _ _ _ _ _ _ _ _ _ Hrun)
    as [(e & He & _)
       | (de & d & org & site & evs & infos & c & Hde & Hd & Horg & Hsite & Hp & Hev
          & _ & _ & _ & _ & _ & _ & _ & Hr)]; [discriminate|].
  destruct Hr as [-> _].
  assert (de = "2024-03-15") by (vm_compute in Hde; congruence). subst de.
  assert (d = {| year := 2024; month := 3; day := 15 |})
    by (vm_compute in Hd; congruence). subst d.
  assert (org = "UC") by (vm_compute in Horg; congruence). subst org.
  assert (site = "Bodega") by (vm_compute in Hsite; congruence). subst site.
  cbn [events big_wizard app] in Hev.
  pose proof (processed_complete_copies _ _ _ _ _ _ Hp) as Hcopies.
  destruct (lookup_lt_is_Some_2 (copies_of evs) (Z.to_nat 99999)) as [[src dst] Hk];
    [rewrite Hcopies, Hlen; lia|].
  destruct (processed_copies _ _ _ _ _ _ _ _ _ _ Hp Hk) as (root & name & Hf & Hs & Hdst).
  assert (Hrn : Some (root, name) = Some (["sd"], str_of_int 100000 +:+ ".jpg"))
    by (rewrite <- Hf; exact Hlast).
  inversion Hrn; subst root name.
  assert (Hname : path_name dst = "UC_Bodega_plot1_ML_202403_100000.jpg").
  { rewrite Hdst, path_name_joinpath, Z2Nat.id by lia. vm_compute. reflexivity. }
  exists n, w', src, dst. unfold process. rewrite Hev.
  split; [exact Hrun|]. split; [exact Hk|]. split; [exact Hs|]. split; [exact Hname|].
  rewrite Hname. clear. intros (seq_str & Hlen5 & Heq).
  do 6 (destruct seq_str as [|? seq_str]; try discriminate Hlen5).
  discriminate Heq.
Qed.

(** * The rest of the wizard *)

Lemma int_of_digits_zeros (k : nat) (s : string) :
  int_of_digits (zeros k +:+ s) 0 = int_of_digits s 0.
Proof.
  unfold zeros. induction k as [|k IH]; [reflexivity|].
  cbn [replicate string_of_list_ascii]. rewrite append_cons.
  cbn [int_of_digits]. change (is_digit "0") with true. cbv iota. exact IH.
Qed.

Lemma int_of_digits_format_05d (n : Z) :
  0 <= n -> int_of_digits (format_05d n) 0 = Some n.
Proof.
  intros Hn. unfold format_05d.
  destruct (n <? 0) eqn:Hneg; [apply Z.ltb_lt in Hneg; lia|].
  rewrite append_empty_l, int_of_digits_zeros, Z.abs_eq by lia.
  now apply int_of_digits_str_of_int.
Qed.

Lemma int_of_digits_format_0wd (width : nat) (n : Z) :
  0 <= n -> int_of_digits (format_0wd width n) 0 = Some n.
Proof.
  intros Hn. unfold format_0wd. rewrite int_of_digits_zeros.
  now apply int_of_digits_str_of_int.
Qed.

(** ** Text without a given character *)

Lemma without_char_app (c : ascii) (s t : string) :
  without_char c (s +:+ t) = (without_char c s && without_char c t)%bool.
Proof.
  unfold without_char. induction s as [|a s IH]; [reflexivity|].
  rewrite append_cons. cbn [list_ascii_of_string forallb]. now rewrite IH, andb_assoc.
Qed.

Lemma digits_without_char (c : ascii) (s : string) :
  is_digit c = false ->
  forallb is_digit (list_ascii_of_string s) = true -> without_char c s = true.
Proof.
  intros Hc. unfold without_char. induction s as [|a s IH]; [reflexivity|].
  cbn [list_ascii_of_string forallb]. intros Hs.
  apply andb_true_iff in Hs as [Ha Hs]. rewrite (IH Hs), andb_true_r.
  destruct (Ascii.eqb_spec a c) as [->|_]; [congruence | reflexivity].
Qed.

Lemma zeros_digits (k : nat) : forallb is_digit (list_ascii_of_string (zeros k)) = true.
Proof. unfold zeros. induction k as [|k IH]; [reflexivity|]. cbn. exact IH. Qed.

Lemma forallb_string_app (f : ascii -> bool) (s t : string) :
  forallb f (list_ascii_of_string (s +:+ t))
  = (forallb f (list_ascii_of_string s) && forallb f (list_ascii_of_string t))%bool.
Proof.
  induction s as [|a s IH]; [reflexivity|].
  rewrite append_cons. cbn [list_ascii_of_string forallb]. now rewrite IH, andb_assoc.
Qed.

Lemma str_of_int_all_digits (n : Z) :
  0 <= n -> forallb is_digit (list_ascii_of_string (str_of_int n)) = true.
Proof.
  intros Hn. destruct (str_of_int_digits n Hn) as (c & s & -> & Hc & Hs).
  cbn [list_ascii_of_string forallb]. now rewrite Hc, Hs.
Qed.

Lemma format_0wd_digits (width : nat) (n : Z) :
  0 <= n -> forallb is_digit (list_ascii_of_string (format_0wd width n)) = true.
Proof.
  intros Hn. unfold format_0wd.
  now rewrite forallb_string_app, zeros_digits, str_of_int_all_digits.
Qed.

Lemma format_05d_digits (n : Z) :
  0 <= n -> forallb is_digit (list_ascii_of_string (format_05d n)) = true.
Proof.
  intros Hn. unfold format_05d.
  destruct (n <? 0) eqn:Hneg; [apply Z.ltb_lt in Hneg; lia|].
  rewrite append_empty_l, forallb_string_app, zeros_digits, Z.abs_eq by lia.
  now rewrite str_of_int_all_digits.
Qed.

(** [s.split(c)] at the first [c]. *)
Lemma split_on_app (c : ascii) (s t : string) :
  without_char c s = true ->
  split_on c (s +:+ String c t) = s :: split_on c t.
Proof.
  unfold without_char. induction s as [|a s IH]; intros Hs.
  - rewrite append_empty_l. cbn [split_on]. now rewrite Ascii.eqb_refl.
  - cbn [list_ascii_of_string forallb] in Hs. apply andb_true_iff in Hs as [Ha Hs].
    rewrite append_cons. cbn [split_on].
    destruct (Ascii.eqb a c); [discriminate|]. now rewrite (IH Hs).
Qed.

Lemma split_on_without (c : ascii) (s : string) :
  without_char c s = true -> split_on c s = [s].
Proof.
  unfold without_char. induction s as [|a s IH]; intros Hs; [reflexivity|].
  cbn [list_ascii_of_string forallb] in Hs. apply andb_true_iff in Hs as [Ha Hs].
  cbn [split_on]. destruct (Ascii.eqb a c); [discriminate|]. now rewrite (IH Hs).
Qed.

Lemma remove_char_app (c : ascii) (s t : string) :
  without_char c s = true -> remove_char c (s +:+ t) = s +:+ remove_char c t.
Proof.
  unfold without_char. induction s as [|a s IH]; intros Hs; [reflexivity|].
  cbn [list_ascii_of_string forallb] in Hs. apply andb_true_iff in Hs as [Ha Hs].
  rewrite !append_cons. cbn [remove_char].
  destruct (Ascii.eqb a c); [discriminate|]. now rewrite (IH Hs).
Qed.

Lemma remove_char_without (c : ascii) (s : string) :
  without_char c s = true -> remove_char c s = s.
Proof.
  unfold without_char. induction s as [|a s IH]; intros Hs; [reflexivity|].
  cbn [list_ascii_of_string forallb] in Hs. apply andb_true_iff in Hs as [Ha Hs].
  cbn [remove_char]. destruct (Ascii.eqb a c); [discriminate|]. now rewrite (IH Hs).
Qed.

(** ** Dates between the form and the file names *)

Lemma format_0wd_4_length (n : Z) :
  0 <= n <= 9999 -> String.length (format_0wd 4 n) = 4%nat.
Proof.
  intros Hn.
  assert (Hall : all_from (Z.to_nat 10000) 0
                   (fun k => Nat.eqb (String.length (format_0wd 4 k)) 4) = true)
    by (vm_compute; reflexivity).
  apply Nat.eqb_eq. apply (all_from_spec _ _ _ Hall). rewrite Z2Nat.id; lia.
Qed.

Lemma format_0wd_2_length (n : Z) :
  0 <= n <= 99 -> String.length (format_0wd 2 n) = 2%nat.
Proof.
  intros Hn.
  assert (Hall : all_from (Z.to_nat 100) 0
                   (fun k => Nat.eqb (String.length (format_0wd 2 k)) 2) = true)
    by (vm_compute; reflexivity).
  apply Nat.eqb_eq. apply (all_from_spec _ _ _ Hall). rewrite Z2Nat.id; lia.
Qed.

Lemma days_in_month_le (y m : Z) : days_in_month y m <= 31.
Proof.
  unfold days_in_month.
  destruct (m =? 2); [destruct (is_leap y); lia|].
  destruct ((m =? 4) || (m =? 6) || (m =? 9) || (m =? 11))%bool; lia.
Qed.

Lemma one_char_app (c : ascii) (s : string) : String c "" +:+ s = String c s.
Proof. reflexivity. Qed.

(** What [toString] writes, [strptime] reads back. *)
Lemma strptime_QDate_toString (d : date) :
  QDateEdit_date d -> strptime_Ymd (QDate_toString d) = Ok d.
Proof.
  destruct d as [y m dd]. unfold QDateEdit_date. cbn [year month day].
  intros (Hy & Hm & Hd). pose proof (days_in_month_le y m) as Hle.
  unfold strptime_Ymd, QDate_toString. cbn [year month day].
  assert (Hdash : forall w n, 0 <= n -> without_char "-" (format_0wd w n) = true).
  { intros w n Hn. apply digits_without_char; [reflexivity|].
    now apply format_0wd_digits. }
  rewrite !one_char_app.
  rewrite split_on_app by (apply Hdash; lia).
  rewrite split_on_app by (apply Hdash; lia).
  rewrite split_on_without by (apply Hdash; lia).
  rewrite !int_of_digits_format_0wd by lia.
  rewrite format_0wd_4_length, !format_0wd_2_length by lia.
  cbn [Nat.eqb Nat.leb andb].
  replace (1 <=? y) with true by (symmetry; apply Z.leb_le; lia).
  replace (1 <=? m) with true by (symmetry; apply Z.leb_le; lia).
  replace (m <=? 12) with true by (symmetry; apply Z.leb_le; lia).
  replace (1 <=? dd) with true by (symmetry; apply Z.leb_le; lia).
  replace (dd <=? days_in_month y m) with true by (symmetry; apply Z.leb_le; lia).
  reflexivity.
Qed.

(** [deployment_end.replace('-', '')], year and month first. *)
Lemma remove_dashes_QDate_toString (d : date) :
  QDateEdit_date d ->
  remove_char "-" (QDate_toString d) = strftime_Ym d +:+ format_0wd 2 (day d).
Proof.
  destruct d as [y m dd]. unfold QDateEdit_date. cbn [year month day].
  intros (Hy & Hm & Hd).
  unfold QDate_toString, strftime_Ym. cbn [year month day].
  assert (Hdash : forall w n, 0 <= n -> without_char "-" (format_0wd w n) = true).
  { intros w n Hn. apply digits_without_char; [reflexivity|].
    now apply format_0wd_digits. }
  rewrite !one_char_app.
  rewrite remove_char_app by (apply Hdash; lia).
  cbn [remove_char]. rewrite Ascii.eqb_refl.
  rewrite remove_char_app by (apply Hdash; lia).
  cbn [remove_char]. rewrite Ascii.eqb_refl.
  rewrite remove_char_without by (apply Hdash; lia).
  now rewrite string_app_assoc.
Qed.

(** ** The devices of the form *)

Section SetupProperties.
Context {FS : Type} {HFS : FileSystem FS} {HMK : Mkdir FS}.
Variable PLOT_NAMES : gmap string (list (option string)).
Variable config_file : Path.

Lemma range_1_5 : range 1 5 = [1; 2; 3; 4].
Proof. reflexivity. Qed.

(** The index [plot_num - 1] is in range where the source reads it. *)
Lemma named_plot_ok (plot_names : option (list (option string))) (plot_num : Z) :
  1 <= plot_num -> exists named, named_plot plot_names plot_num = Ok named.
Proof.
  intros Hn. unfold named_plot.
  destruct plot_names as [[|slot slots]|]; eauto.
  destruct (plot_num <=? Z.of_nat (length (slot :: slots))) eqn:Hle; eauto.
  apply Z.leb_le in Hle. unfold list_getitem.
  destruct ((slot :: slots) !! Z.to_nat (plot_num - 1)) eqn:Hl; [eexists; reflexivity|].
  apply lookup_ge_None in Hl. lia.
Qed.

Lemma devices_loop (mk : string -> Device) (chk : string -> bool) (keys : list string) :
  forall w : Wizard FS,
  for_each keys
    (fun dev_code _ => if chk dev_code then devices_append (mk dev_code) else ret tt) tt w
  = (Ok tt, set_devices (devices w ++ map mk (List.filter chk keys)) w).
Proof.
  induction keys as [|k keys IH]; intros w.
  - cbn. destruct w; cbn. now rewrite app_nil_r.
  - rewrite for_each_cons. unfold bind. cbn [List.filter].
    destruct (chk k).
    + unfold devices_append, modify. rewrite IH. destruct w; cbn.
      now rewrite <- app_assoc.
    + unfold ret. apply IH.
Qed.

Lemma set_devices_twice (a b : list Device) (w : Wizard FS) :
  set_devices a (set_devices b w) = set_devices a w.
Proof. now destruct w. Qed.

Lemma plots_loop (tab : MetadataTab) (plot_names : option (list (option string)))
    (keys : list string) (plots : list Z) :
  Forall (fun n => 1 <= n) plots ->
  forall w : Wizard FS,
  for_each plots
    (fun plot_num _ =>
       do named <- of_result (named_plot plot_names plot_num);
       let plot_label :=
         match named with
         | Some slot => pyval_of_slot slot
         | None => PyStr (str_of_int plot_num)
         end in
       for_each keys
         (fun dev_code _ =>
            if device_checkboxes tab plot_num dev_code
            then
              let device_label := "p" +:+ str_of_int plot_num +:+ "_" +:+ dev_code in
              devices_append
                {| plot_num := plot_num; plot_label := plot_label;
                   dev_code := dev_code; device_label := device_label |}
            else ret tt)
         tt)
    tt w
  = (Ok tt,
     set_devices
       (devices w ++
        flat_map
          (fun plot_num =>
             map (device_of plot_names plot_num)
               (List.filter (device_checkboxes tab plot_num) keys))
          plots) w).
Proof.
  induction 1 as [|n plots Hn _ IH]; intros w.
  - cbn. destruct w; cbn. now rewrite app_nil_r.
  - rewrite for_each_cons. unfold bind at 1.
    destruct (named_plot_ok plot_names n Hn) as [named Hnamed].
    unfold bind at 1. rewrite Hnamed. cbn [of_result]. unfold ret at 1.
    rewrite (devices_loop
               (fun dev_code =>
                  {| plot_num := n;
                     plot_label := match named with
                                   | Some slot => pyval_of_slot slot
                                   | None => PyStr (str_of_int n)
                                   end;
                     dev_code := dev_code;
                     device_label := "p" +:+ str_of_int n +:+ "_" +:+ dev_code |})
               (device_checkboxes tab n)).
    rewrite IH, set_devices_twice. cbn [flat_map].
    replace (devices (set_devices _ w)) with
      (devices w ++ map (device_of plot_names n) (List.filter (device_checkboxes tab n) keys)).
    + now rewrite <- app_assoc.
    + cbn [devices set_devices]. f_equal.
      apply map_ext. intros c. unfold device_of, plot_label_for. rewrite Hnamed.
      now destruct named.
Qed.

Lemma build_devices_run (tab : MetadataTab) (w : Wizard FS) :
  build_devices PLOT_NAMES tab (site_code_edit tab) w
  = (Ok tt, set_devices (selected_devices PLOT_NAMES tab) w).
Proof.
  unfold build_devices. unfold bind at 1. unfold modify at 1. rewrite plots_loop.
  - now rewrite set_devices_twice.
  - rewrite range_1_5. repeat constructor; lia.
Qed.


(** *** Parts of the state that a computation leaves alone *)

Lemma preserves_ret {A B} (proj : Wizard FS -> B) (a : A) : preserves proj (ret a).
Proof. intros w r w' Hrun. now inversion Hrun. Qed.

Lemma preserves_raise {A B} (proj : Wizard FS -> B) (e : exn) :
  preserves proj (raise (A:=A) e).
Proof. intros w r w' Hrun. now inversion Hrun. Qed.

Lemma preserves_of_result {A B} (proj : Wizard FS -> B) (x : Result A) :
  preserves proj (of_result x).
Proof. destruct x; [apply preserves_ret | apply preserves_raise]. Qed.

Lemma preserves_gets {A B} (proj : Wizard FS -> B) (f : Wizard FS -> A) :
  preserves proj (gets f).
Proof. intros w r w' Hrun. now inversion Hrun. Qed.

Lemma preserves_read {A B} (proj : Wizard FS -> B) (f : Wizard FS -> Result A) :
  preserves proj (fun w => (f w, w)).
Proof. intros w r w' Hrun. now inversion Hrun. Qed.

Lemma preserves_bind {A C B} (proj : Wizard FS -> B) (m : M (Wizard FS) A)
    (k : A -> M (Wizard FS) C) :
  preserves proj m -> (forall a, preserves proj (k a)) -> preserves proj (bind m k).
Proof.
  intros Hm Hk w r w' Hrun. unfold bind in Hrun.
  destruct (m w) as [[a|e] w1] eqn:Hmw.
  - rewrite (Hk a w1 r w' Hrun). exact (Hm _ _ _ Hmw).
  - inversion Hrun; subst. exact (Hm _ _ _ Hmw).
Qed.

Lemma preserves_try_except {A B} (proj : Wizard FS -> B) (body : M (Wizard FS) A)
    (handler : exn -> M (Wizard FS) A) :
  preserves proj body -> (forall e, preserves proj (handler e)) ->
  preserves proj (try_except body handler).
Proof.
  intros Hm Hk w r w' Hrun. unfold try_except in Hrun.
  destruct (body w) as [[a|e] w1] eqn:Hmw.
  - inversion Hrun; subst. exact (Hm _ _ _ Hmw).
  - rewrite (Hk e w1 r w' Hrun). exact (Hm _ _ _ Hmw).
Qed.

Lemma preserves_for_each {A Acc B} (proj : Wizard FS -> B) (l : list A)
    (body : A -> Acc -> M (Wizard FS) Acc) :
  (forall x acc, preserves proj (body x acc)) ->
  forall acc, preserves proj (for_each l body acc).
Proof.
  intros Hbody. induction l as [|x l IH]; intros acc.
  - apply preserves_ret.
  - cbn [for_each]. apply preserves_bind; [apply Hbody | exact IH].
Qed.

Lemma preserves_modify {B} (proj : Wizard FS -> B) (f : Wizard FS -> Wizard FS) :
  (forall w, proj (f w) = proj w) -> preserves proj (modify f).
Proof. intros Hf w r w' Hrun. inversion Hrun; subst. apply Hf. Qed.

Lemma preserves_fs_write {A B} (proj : Wizard FS -> B) (m : M FS A) :
  (forall x w, proj (set_fs x w) = proj w) -> preserves proj (fs_write m).
Proof.
  intros Hf w r w' Hrun. unfold fs_write, zoom in Hrun.
  destruct (m (fs w)) as [r1 fs1]. inversion Hrun; subst. apply Hf.
Qed.

Lemma preserves_fs_read {A B} (proj : Wizard FS -> B) (f : FS -> Result A) :
  preserves proj (fs_read f).
Proof. intros w r w' Hrun. unfold fs_read in Hrun. now inversion Hrun. Qed.

Lemma preserves_emit {B} (proj : Wizard FS -> B) (e : Event) :
  (forall x w, proj (set_events x w) = proj w) -> preserves proj (emit e).
Proof. intros Hf. apply preserves_modify. intros w. apply Hf. Qed.

End SetupProperties.

Ltac preserves_step :=
  first
    [ apply preserves_ret | apply preserves_raise | apply preserves_of_result
    | apply preserves_gets | apply preserves_read | apply preserves_fs_read
    | apply preserves_bind; [|intros ?]
    | apply preserves_try_except; [|intros ?]
    | apply preserves_for_each; intros ? ?
    | apply preserves_fs_write; intros ? []; reflexivity
    | apply preserves_emit; intros ? []; reflexivity
    | apply preserves_modify; intros []; reflexivity
    | match goal with |- preserves _ (if ?b then _ else _) => destruct b end
    | match goal with |- preserves _ (match ?x with _ => _ end) => destruct x end ].

Ltac preserves_tac := repeat preserves_step.

Section SetupRuns.
Context {FS : Type} {HFS : FileSystem FS} {HMK : Mkdir FS}.
Variable PLOT_NAMES : gmap string (list (option string)).
Variable config_file : Path.

Lemma preserves_deployment_path {B} (proj : Wizard FS -> B) (name : string) :
  preserves proj (deployment_path name).
Proof.
  intros w r w' Hrun. unfold deployment_path in Hrun.
  destruct (current_deployment_folder w); now inversion Hrun.
Qed.

Lemma preserves_message_box {B} (proj : Wizard FS -> B) (kind title text : string) :
  (forall x w, proj (set_events x w) = proj w) -> preserves proj (message_box kind title text).
Proof. intros Hf. now apply preserves_emit. Qed.

(** [save_config] returns, whatever happens to the file, and touches
    nothing of the wizard but the file system. *)
Lemma save_config_run (staging_root : Path) (w : Wizard FS) :
  exists w' saved,
    save_config config_file staging_root w = (Ok tt, w')
    /\ events w' = events w ++ saved
    /\ Forall (event_at config_file) saved
    /\ metadata w' = metadata w /\ devices w' = devices w
    /\ file_inventory w' = file_inventory w
    /\ device_tree w' = device_tree w
    /\ current_deployment_folder w' = current_deployment_folder w.
Proof.
  unfold save_config, try_except, bind, fs_write, zoom, emit, modify.
  destruct (path_mkdir (path_parent config_file) (fs w)) as [[[]|e] fs1].
  2:{ eexists _, []. split; [reflexivity|]. cbn. rewrite app_nil_r. repeat split; constructor. }
  cbn [fs set_fs set_events events].
  destruct (write_document config_file _ fs1) as [[[]|e] fs2].
  - eexists _, [_; _]. split; [reflexivity|]. cbn. rewrite <- app_assoc.
    repeat split. repeat constructor.
  - eexists _, [_]. split; [reflexivity|]. cbn.
    repeat split. repeat constructor.
Qed.

(** [create_deployment_folder] when it returns. *)
Lemma create_deployment_folder_ok (staging_root : Path) (w w' : Wizard FS)
    (organization site deployment_end : string) :
  metadata w !! "organization" = Some organization ->
  metadata w !! "site" = Some site ->
  metadata w !! "deployment_end" = Some deployment_end ->
  create_deployment_folder staging_root w = (Ok tt, w') ->
  let folder := staging_root /:
    (organization +:+ "_" +:+ site +:+ "_" +:+ remove_char "-" deployment_end) in
  current_deployment_folder w' = Some folder
  /\ events w' = events w ++
       [ EvMkdir folder; EvMkdir (folder /: "raw_data");
         EvWrite (folder /: "deployment_metadata.json")
           (JsonDocument (json_of_metadata (metadata w))) ]
  /\ metadata w' = metadata w /\ devices w' = devices w
  /\ file_inventory w' = file_inventory w
  /\ device_tree w' = device_tree w.
Proof.
  intros Ho Hs Hd Hrun folder.
  unfold create_deployment_folder in Hrun.
  unfold bind at 1 in Hrun. unfold metadata_item at 1, getitem in Hrun. rewrite Ho in Hrun.
  unfold bind at 1 in Hrun. unfold metadata_item at 1, getitem in Hrun. rewrite Hs in Hrun.
  unfold bind at 1 in Hrun. unfold metadata_item at 1, getitem in Hrun. rewrite Hd in Hrun.
  fold folder in Hrun.
  unfold bind, modify, fs_write, zoom, emit, modify, deployment_path, gets in Hrun.
  cbn [fs set_fs set_events events set_current_deployment_folder
       current_deployment_folder metadata] in Hrun.
  destruct (path_mkdir folder (fs w)) as [[[]|e] fs1]; [|discriminate].
  cbn [fs set_fs set_events events set_current_deployment_folder
       current_deployment_folder metadata] in Hrun.
  destruct (path_mkdir_exist_ok (folder /: "raw_data") fs1) as [[[]|e] fs2]; [|discriminate].
  cbn [fs set_fs set_events events set_current_deployment_folder
       current_deployment_folder metadata] in Hrun.
  destruct (write_document _ _ fs2) as [[[]|e] fs3]; [|discriminate].
  inversion Hrun; subst. cbn. rewrite <- !app_assoc. repeat split.
Qed.

(** The loop of [populate_collection_list] over devices of known types. *)
Lemma populate_loop (devs : list Device) :
  Forall (fun d => is_Some (DEVICE_TYPES (dev_code d))) devs ->
  forall w : Wizard FS,
  for_each devs
    (fun dev _ =>
       do type_name <- of_result (device_type_name (dev_code dev));
       modify (fun w => set_device_tree (device_tree w ++ [pending_item dev type_name]) w))
    tt w
  = (Ok tt, set_device_tree (device_tree w ++ map pending_row devs) w).
Proof.
  induction 1 as [|d devs [name Hd] _ IH]; intros w.
  - cbn. destruct w; cbn. now rewrite app_nil_r.
  - rewrite for_each_cons. unfold bind at 1. unfold bind at 1.
    unfold device_type_name at 1. rewrite Hd. cbn [of_result]. unfold ret at 1.
    unfold modify at 1. rewrite IH. cbn [map]. unfold pending_row at 2. rewrite Hd.
    destruct w; cbn. now rewrite <- app_assoc.
Qed.

Lemma populate_collection_list_run (w : Wizard FS) :
  Forall (fun d => is_Some (DEVICE_TYPES (dev_code d))) (devices w) ->
  populate_collection_list w
  = (Ok tt, set_device_tree (map pending_row (devices w)) w).
Proof.
  intros Hd. unfold populate_collection_list.
  unfold bind at 1. unfold modify at 1. unfold bind at 1. unfold gets at 1.
  cbn [devices set_device_tree]. rewrite populate_loop by exact Hd.
  now destruct w.
Qed.

End SetupRuns.

(** ** [validate_and_next] *)

Lemma filter_sublist {A} (f : A -> bool) (l : list A) : List.filter f l `sublist_of` l.
Proof.
  induction l as [|x l IH]; cbn [List.filter]; [constructor|].
  destruct (f x); now constructor.
Qed.

Lemma all_device_labels_NoDup : NoDup all_device_labels.
Proof. apply (bool_decide_unpack _). vm_compute. reflexivity. Qed.

Lemma metadata_of_items (tab : MetadataTab) :
  metadata_of tab !! "organization" = Some (org_combo tab)
  /\ metadata_of tab !! "site" = Some (site_code_edit tab)
  /\ metadata_of tab !! "deployment_end" = Some (QDate_toString (deploy_end_date tab))
  /\ metadata_of tab !! "deployment_start" = Some (QDate_toString (deploy_start_date tab))
  /\ metadata_of tab !! "reserve_name" = Some (reserve_combo tab).
Proof.
  unfold metadata_of.
  repeat split; repeat (rewrite lookup_insert_ne by discriminate); now rewrite lookup_insert_eq.
Qed.

Section SelectedDevices.
Variable PLOT_NAMES : gmap string (list (option string)).

Lemma selected_devices_In (tab : MetadataTab) (d : Device) :
  In d (selected_devices PLOT_NAMES tab) <->
  exists n c,
    1 <= n <= 4 /\ In c DEVICE_TYPES_keys /\ device_checkboxes tab n c = true
    /\ d = device_of (PLOT_NAMES !! site_code_edit tab) n c.
Proof.
  unfold selected_devices. rewrite in_flat_map. split.
  - intros (n & Hn & Hd). apply in_map_iff in Hd as (c & <- & Hc).
    apply filter_In in Hc as [Hc Hchk]. exists n, c.
    split; [|auto]. rewrite range_1_5 in Hn. cbn in Hn. lia.
  - intros (n & c & Hn & Hc & Hchk & ->). exists n. split.
    + rewrite range_1_5. cbn. lia.
    + apply in_map. apply filter_In. auto.
Qed.

Lemma selected_devices_known (tab : MetadataTab) :
  Forall (fun d => is_Some (DEVICE_TYPES (dev_code d))) (selected_devices PLOT_NAMES tab).
Proof.
  apply List.Forall_forall. intros d Hd.
  apply selected_devices_In in Hd as (n & c & _ & Hc & _ & ->).
  cbn [device_of dev_code]. cbn in Hc.
  destruct Hc as [<-|[<-|[<-|[<-|[]]]]]; eexists; reflexivity.
Qed.

Lemma selected_devices_labels (tab : MetadataTab) :
  map device_label (selected_devices PLOT_NAMES tab) `sublist_of` all_device_labels.
Proof.
  unfold selected_devices, all_device_labels.
  induction (range 1 5) as [|n plots IH]; cbn [flat_map]; [constructor|].
  rewrite map_app. apply sublist_app; [|exact IH].
  rewrite map_map. cbn [device_of device_label].
  apply (fmap_sublist (fun c => "p" +:+ str_of_int n +:+ "_" +:+ c)).
  apply filter_sublist.
Qed.

Lemma selected_devices_NoDup (tab : MetadataTab) :
  NoDup (map device_label (selected_devices PLOT_NAMES tab)).
Proof.
  eapply sublist_NoDup; [apply all_device_labels_NoDup | apply selected_devices_labels].
Qed.

End SelectedDevices.

Section ValidateAndNext.
Context {FS : Type} {HFS : FileSystem FS} {HMK : Mkdir FS}.
Variable PLOT_NAMES : gmap string (list (option string)).
Variable config_file : Path.

(** Past the four checks, with the metadata stored and the devices built. *)
Lemma validate_and_next_filled (tab : MetadataTab) (staging_root : Path) (w : Wizard FS) :
  form_filled tab = true ->
  validate_and_next PLOT_NAMES config_file tab staging_root w
  = match selected_devices PLOT_NAMES tab with
    | [] => message_box "warning" "No Devices Selected" "Please select at least one device."
    | _ :: _ =>
        do _ <- (if set_default_cb tab then save_config config_file staging_root
                 else ret tt);
        do _ <- create_deployment_folder staging_root;
        do _ <- populate_collection_list;
        emit (EvUi "tabs" "setCurrentIndex(1)")
    end (set_devices (selected_devices PLOT_NAMES tab) (set_metadata (metadata_of tab) w)).
Proof.
  unfold form_filled, validate_and_next. intros Hf.
  destruct (String.eqb (reserve_combo tab) ""); [discriminate|].
  destruct (String.eqb (site_code_edit tab) ""); [discriminate|].
  destruct (String.eqb (observer_combo tab) ""); [discriminate|].
  destruct (String.eqb (observer_combo tab) "Other"
            && String.eqb (strip (observer_other_edit tab)) "")%bool; [discriminate|].
  unfold bind at 1. unfold modify at 1.
  unfold bind at 1. rewrite build_devices_run.
  unfold bind at 1. unfold gets at 1. cbn [devices set_devices].
  now destruct (selected_devices PLOT_NAMES tab).
Qed.


(** What comes after the devices are built keeps the metadata, the devices
    and the inventory, whether it returns or raises. *)
Lemma after_devices_preserves {B} (proj : Wizard FS -> B) (tab : MetadataTab)
    (staging_root : Path) :
  (forall x w, proj (set_events x w) = proj w) ->
  (forall x w, proj (set_fs x w) = proj w) ->
  (forall x w, proj (set_device_tree x w) = proj w) ->
  (forall x w, proj (set_current_deployment_folder x w) = proj w) ->
  preserves proj
    (do _ <- (if set_default_cb tab then save_config config_file staging_root
              else ret tt);
     do _ <- create_deployment_folder staging_root;
     do _ <- populate_collection_list;
     emit (EvUi "tabs" "setCurrentIndex(1)")).
Proof.
  intros He Hf Ht Hc.
  assert (Hemit : forall e, preserves proj (emit e))
    by (intros e; now apply preserves_emit).
  assert (Hwrite : forall A (m : M FS A), preserves proj (fs_write m))
    by (intros A m; now apply preserves_fs_write).
  apply preserves_bind; [|intros _].
  { destruct (set_default_cb tab); [|apply preserves_ret].
    unfold save_config. apply preserves_try_except; [|intros _; apply preserves_ret].
    repeat (apply preserves_bind; [|intros ?]); auto. }
  apply preserves_bind; [|intros _].
  { unfold create_deployment_folder, metadata_item.
    repeat (apply preserves_bind; [|intros ?]); auto;
      try apply preserves_read; try apply preserves_gets;
      try apply preserves_deployment_path;
      try (apply preserves_modify; intros w0; apply Hc). }
  apply preserves_bind; [|intros _; auto].
  unfold populate_collection_list.
  apply preserves_bind; [apply preserves_modify; intros w0; apply Ht | intros _].
  apply preserves_bind; [apply preserves_gets | intros devs].
  apply preserves_for_each. intros dev [].
  apply preserves_bind; [apply preserves_of_result | intros name].
  apply preserves_modify. intros w0. apply Ht.
Qed.






(** X5. A card copied for a deployment that [validate_and_next] has set
    up: with the metadata of a form whose end date is a date of the date
    edit, [process_sd_card_files] finds the three entries it reads and
    parses the date back to the one chosen, so that it returns 0 and leaves
    everything as it is when the card has nothing to copy, and names every
    copy after the organization and the site code of the form and the year
    and month of that date. *)
Theorem copy_after_validate_and_next {H : Type} {HH : Hashlib H} (EXIF_AVAILABLE : bool)
    (tab : MetadataTab) walk dest_dir pn pl dc dl (w : Wizard FS) r w' :
  QDateEdit_date (deploy_end_date tab) ->
  metadata w = metadata_of tab ->
  process_sd_card_files (H:=H) EXIF_AVAILABLE walk dest_dir pn pl dc dl w = (r, w') ->
  strptime_Ymd (QDate_toString (deploy_end_date tab)) = Ok (deploy_end_date tab)
  /\ (copied_files walk = [] -> r = Ok 0 /\ w' = w)
  /\ exists evs,
       events w' = events w ++ evs
       /\ forall k src dst,
            copies_of evs !! k = Some (src, dst) ->
            exists root filename,
              copied_files walk !! k = Some (root, filename)
              /\ src = root /: filename
              /\ dst = dest_dir /:
                   spec_filename (org_combo tab) (site_code_edit tab) pn dc
                     (deploy_end_date tab) (1 + Z.of_nat k) (name_suffix filename).
Proof.
  intros Hdate Hmd Hrun.
  destruct (metadata_of_items tab) as (Hio & His & Hie & _).
  pose proof (strptime_QDate_toString _ Hdate) as Hparse.
  split; [exact Hparse|]. split.
  - intros Hnone. unfold process_sd_card_files in Hrun.
    unfold bind at 1 in Hrun. unfold getitem at 1 in Hrun. rewrite Hmd, Hie in Hrun.
    unfold bind at 1 in Hrun. rewrite Hparse in Hrun. cbn [of_result] in Hrun.
    unfold ret at 1 in Hrun.
    unfold bind at 1 in Hrun. unfold getitem at 1 in Hrun. rewrite Hmd, Hio in Hrun.
    unfold bind at 1 in Hrun. unfold getitem at 1 in Hrun. rewrite Hmd, His in Hrun.
    unfold bind at 1 in Hrun. rewrite for_each_walk, loop_skips in Hrun.
    fold (copied_files walk) in Hrun. rewrite Hnone in Hrun.
    cbn in Hrun. inversion Hrun; auto.
  - apply process_sd_card_files_run in Hrun.
    destruct Hrun as [(e & _ & ->)|Hrun].
    { exists []. rewrite app_nil_r. split; [reflexivity|]. intros k src dst Hk.
      unfold copies_of in Hk. cbn [omap list_omap] in Hk. now rewrite lookup_nil in Hk. }
    destruct Hrun as (de & d & org & site & evs & infos & c & Hde & Hd & Ho & Hs & Hp & Hev & _).
    rewrite Hmd in Hde, Ho, Hs.
    assert (de = QDate_toString (deploy_end_date tab)) by congruence. subst de.
    assert (d = deploy_end_date tab) by congruence. subst d.
    assert (org = org_combo tab) by congruence. subst org.
    assert (site = site_code_edit tab) by congruence. subst site.
    exists evs. split; [exact Hev|]. intros k src dst Hk.
    destruct (processed_copies _ _ _ _ _ _ _ _ _ _ Hp Hk) as (root & filename & Hf & -> & ->).
    exists root, filename. auto.
Qed.

End ValidateAndNext.

(** ** The collection step *)

Section CollectionProperties.
Context {FS : Type} {HFS : FileSystem FS} {H : Type} {HH : Hashlib H}.
Variable EXIF_AVAILABLE : bool.

(** The question asked when the row is already complete. *)
Lemma copy_sd_card_data_start ui (w : Wizard FS) index item dev type_name folder :
  current_item ui = Some index ->
  device_tree w !! index = Some item ->
  devices w !! index = Some dev ->
  DEVICE_TYPES (dev_code dev) = Some type_name ->
  (text2 item = "Complete" -> copy_again ui = true) ->
  sd_path ui <> "" ->
  current_deployment_folder w = Some folder ->
  let device_folder := folder /: "raw_data" /: device_label dev in
  let asked :=
    if String.eqb (text2 item) "Complete"
    then [EvMessageBox "question" "Already Complete"
            "This device is already complete. Copy again?"]
    else [] in
  let start :=
    asked ++
    [ EvFileDialog ("Select SD Card for Plot " +:+ str_of_int (plot_num dev)
                      +:+ " - " +:+ type_name);
      EvLog ("Starting copy for Plot " +:+ str_of_int (plot_num dev) +:+ " ("
               +:+ py_str (plot_label dev) +:+ ") - " +:+ type_name +:+ "...");
      EvLog ("Source: " +:+ sd_path ui) ] in
  copy_sd_card_data (H:=H) EXIF_AVAILABLE ui w
  = match path_mkdir device_folder (fs w) with
    | (Ok _, fs1) =>
        copy_and_report (H:=H) EXIF_AVAILABLE index dev device_folder (sd_walk ui)
          (set_events (events w ++ start ++ [EvMkdir device_folder]) (set_fs fs1 w))
    | (Raise e, fs1) => (Raise e, set_events (events w ++ start) (set_fs fs1 w))
    end.
Proof.
  intros Hcur Hitem Hdev Htype Hagain Hpath Hfolder device_folder asked start.
  unfold copy_sd_card_data.
  unfold bind at 1. unfold gets at 1. rewrite Hcur. cbn [mbind option_bind].
  rewrite Hitem.
  unfold bind at 1. unfold device_at at 1, list_getitem. rewrite Hdev.
  unfold device_type_name. rewrite Htype. cbn [of_result].
  destruct (String.eqb_spec (sd_path ui) "") as [Hp|_]; [contradiction|].
  assert (Hgo : forall asked0 : list Event,
    (do type_name0 <- ret type_name;
     do _ <- emit (EvFileDialog ("Select SD Card for Plot " +:+ str_of_int (plot_num dev)
                                  +:+ " - " +:+ type_name0));
     do _ <- log ("Starting copy for Plot " +:+ str_of_int (plot_num dev) +:+ " ("
                   +:+ py_str (plot_label dev) +:+ ") - " +:+ type_name0 +:+ "...");
     do _ <- log ("Source: " +:+ sd_path ui);
     do raw_data <- deployment_path "raw_data";
     let device_folder := raw_data /: device_label dev in
     do _ <- fs_write (path_mkdir device_folder);
     do _ <- emit (EvMkdir device_folder);
     copy_and_report (H:=H) EXIF_AVAILABLE index dev device_folder (sd_walk ui))
      (set_events (events w ++ asked0) w)
    = match path_mkdir device_folder (fs w) with
      | (Ok _, fs1) =>
          copy_and_report (H:=H) EXIF_AVAILABLE index dev device_folder (sd_walk ui)
            (set_events
               (events w ++
                (asked0 ++
                 [ EvFileDialog ("Select SD Card for Plot " +:+ str_of_int (plot_num dev)
                                   +:+ " - " +:+ type_name);
                   EvLog ("Starting copy for Plot " +:+ str_of_int (plot_num dev) +:+ " ("
                            +:+ py_str (plot_label dev) +:+ ") - " +:+ type_name +:+ "...");
                   EvLog ("Source: " +:+ sd_path ui) ]) ++ [EvMkdir device_folder])
               (set_fs fs1 w))
      | (Raise e, fs1) =>
          (Raise e,
           set_events
             (events w ++
              asked0 ++
              [ EvFileDialog ("Select SD Card for Plot " +:+ str_of_int (plot_num dev)
                                +:+ " - " +:+ type_name);
                EvLog ("Starting copy for Plot " +:+ str_of_int (plot_num dev) +:+ " ("
                         +:+ py_str (plot_label dev) +:+ ") - " +:+ type_name +:+ "...");
                EvLog ("Source: " +:+ sd_path ui) ])
             (set_fs fs1 w))
      end).
  { intros asked0.
    unfold bind at 1. unfold ret at 1.
    unfold bind at 1. unfold emit at 1, modify.
    unfold bind at 1. unfold log at 1, emit at 1, modify.
    unfold bind at 1. unfold log at 1, emit at 1, modify.
    unfold bind at 1. unfold deployment_path at 1.
    cbn [current_deployment_folder set_events events]. rewrite Hfolder.
    unfold bind at 1. unfold fs_write at 1, zoom. cbn [fs set_events].
    fold device_folder.
    destruct (path_mkdir device_folder (fs w)) as [[[]|e] fs1].
    - unfold bind at 1. unfold emit at 1, modify.
      f_equal. destruct w; cbn. now rewrite <- !app_assoc.
    - f_equal. destruct w; cbn. now rewrite <- !app_assoc. }
  subst start asked.
  destruct (String.eqb_spec (text2 item) "Complete") as [Hc|Hc].
  - unfold bind at 1. unfold message_box at 1, emit at 1, modify.
    rewrite (Hagain Hc). apply Hgo.
  - specialize (Hgo []). rewrite app_nil_r in Hgo.
    replace (set_events (events w) w) with w in Hgo by (now destruct w).
    exact Hgo.
Qed.


(** X6. The three ways [copy_sd_card_data] ends before anything is copied:
    without a selected row it shows "No Selection"; on a row that is
    "Complete" with the answer No it has asked its question and no more;
    and when the folder dialog is cancelled it has shown the dialog and no
    more.  In each case it returns, and the log, the file system, the
    inventory and the device tree are as before. *)
Theorem copy_sd_card_data_cancelled ui (w : Wizard FS) :
  (current_item ui ≫= (fun i => device_tree w !! i) = None ->
   copy_sd_card_data (H:=H) EXIF_AVAILABLE ui w
   = (Ok tt,
      set_events
        (events w ++ [EvMessageBox "information" "No Selection"
                        "Please select a device from the list."]) w))
  /\ (forall index item dev,
        current_item ui = Some index ->
        device_tree w !! index = Some item ->
        devices w !! index = Some dev ->
        text2 item = "Complete" -> copy_again ui = false ->
        copy_sd_card_data (H:=H) EXIF_AVAILABLE ui w
        = (Ok tt,
           set_events
             (events w ++ [EvMessageBox "question" "Already Complete"
                             "This device is already complete. Copy again?"]) w))
  /\ (forall index item dev type_name,
        current_item ui = Some index ->
        device_tree w !! index = Some item ->
        devices w !! index = Some dev ->
        DEVICE_TYPES (dev_code dev) = Some type_name ->
        text2 item <> "Complete" ->
        sd_path ui = "" ->
        copy_sd_card_data (H:=H) EXIF_AVAILABLE ui w
        = (Ok tt,
           set_events
             (events w ++ [EvFileDialog ("Select SD Card for Plot "
                                           +:+ str_of_int (plot_num dev)
                                           +:+ " - " +:+ type_name)]) w)).
Proof.
  split; [|split].
  - intros Hnone. unfold copy_sd_card_data, bind, gets.
    destruct (current_item ui) as [index|]; [|reflexivity].
    cbn [mbind option_bind] in *. now rewrite Hnone.
  - intros index item dev Hcur Hitem Hdev Hc Hno.
    unfold copy_sd_card_data.
    unfold bind at 1. unfold gets at 1. rewrite Hcur. cbn [mbind option_bind].
    rewrite Hitem.
    unfold bind at 1. unfold device_at at 1, list_getitem. rewrite Hdev.
    rewrite Hc. cbn [String.eqb Ascii.eqb Bool.eqb].
    unfold bind at 1. unfold message_box at 1, emit at 1, modify.
    now rewrite Hno.
  - intros index item dev type_name Hcur Hitem Hdev Htype Hc Hpath.
    unfold copy_sd_card_data.
    unfold bind at 1. unfold gets at 1. rewrite Hcur. cbn [mbind option_bind].
    rewrite Hitem.
    unfold bind at 1. unfold device_at at 1, list_getitem. rewrite Hdev.
    destruct (String.eqb_spec (text2 item) "Complete") as [Hc'|_]; [contradiction|].
    unfold device_type_name. rewrite Htype. cbn [of_result].
    unfold bind at 1. unfold ret at 1.
    unfold bind at 1. unfold emit at 1, modify.
    now rewrite Hpath.
Qed.

(** X7. With a row selected, its device of a known type, a card chosen
    and a deployment folder, [copy_sd_card_data] raises only when making
    the folder raw_data/<device label> of the deployment folder raises,
    before anything is copied.  Otherwise it returns: the records appended
    to the inventory are those of [process_sd_card_files]; when that call
    returned [n], one record for each eligible file of the card, the row
    shows "Complete" and [n] and the log ends with the line "Completed";
    when it raised, the row is as it was.  No other row changes. *)
Theorem copy_sd_card_data_outcome ui (w : Wizard FS) index item dev type_name folder r w' :
  current_item ui = Some index ->
  device_tree w !! index = Some item ->
  devices w !! index = Some dev ->
  DEVICE_TYPES (dev_code dev) = Some type_name ->
  (text2 item = "Complete" -> copy_again ui = true) ->
  sd_path ui <> "" ->
  current_deployment_folder w = Some folder ->
  copy_sd_card_data (H:=H) EXIF_AVAILABLE ui w = (r, w') ->
  let device_folder := folder /: "raw_data" /: device_label dev in
  length (device_tree w') = length (device_tree w)
  /\ (forall j, j <> index -> device_tree w' !! j = device_tree w !! j)
  /\ ((exists e fs1,
         path_mkdir device_folder (fs w) = (Raise e, fs1)
         /\ r = Raise e /\ fs w' = fs1
         /\ device_tree w' = device_tree w
         /\ file_inventory w' = file_inventory w
         /\ ~ In (EvMkdir device_folder) (drop (length (events w)) (events w')))
      \/ (exists fs1 infos,
            path_mkdir device_folder (fs w) = (Ok tt, fs1)
            /\ r = Ok tt
            /\ In (EvMkdir device_folder) (drop (length (events w)) (events w'))
            /\ file_inventory w' = file_inventory w ++ infos
            /\ Forall (fun info : FileInfo =>
                         info !! "device_label" = Some (PyStr (device_label dev))) infos
            /\ ((exists n,
                   n = Z.of_nat (length infos)
                   /\ length infos = length (copied_files (sd_walk ui))
                   /\ device_tree w' !! index
                      = Some (set_text3 (str_of_int n) (set_text2 "Complete" item))
                   /\ last (events w')
                      = Some (EvLog ("✓ Completed! " +:+ str_of_int n
                                       +:+ " files copied and renamed." +:+ "
")))
                \/ (exists e,
                      device_tree w' = device_tree w
                      /\ last (events w')
                         = Some (EvMessageBox "critical" "Copy Error"
                                   ("Error copying files: " +:+ e)))))).
Proof.
  intros Hcur Hitem Hdev Htype Hagain Hpath Hfolder Hrun device_folder.
  rewrite (copy_sd_card_data_start ui w index item dev type_name folder
             Hcur Hitem Hdev Htype Hagain Hpath Hfolder) in Hrun.
  cbv zeta in Hrun. fold device_folder in Hrun.
  set (asked := if String.eqb (text2 item) "Complete" then _ else _) in Hrun.
  set (start := asked ++ _) in Hrun.
  destruct (path_mkdir device_folder (fs w)) as [[[]|e] fs1] eqn:Hmk.
  2:{ inversion Hrun; subst r w'. clear Hrun.
      cbn [device_tree file_inventory fs events set_events set_fs].
      split; [reflexivity|]. split; [reflexivity|]. left. exists e, fs1.
      repeat split. rewrite drop_app_length.
      subst start asked. intros Hin. apply in_app_or in Hin as [Hin|Hin].
      - destruct (String.eqb (text2 item) "Complete"); cbn in Hin;
          [destruct Hin as [Hin|[]]; discriminate | contradiction].
      - cbn in Hin. destruct Hin as [Hin|[Hin|[Hin|[]]]]; discriminate. }
  set (w1 := set_events _ (set_fs fs1 w)) in Hrun.
  destruct (process_sd_card_files (H:=H) EXIF_AVAILABLE (sd_walk ui) device_folder
              (plot_num dev) (plot_label dev) (dev_code dev) (device_label dev) w1)
    as [r1 w2] eqn:Hp.
  rewrite (copy_and_report_cases EXIF_AVAILABLE index dev device_folder (sd_walk ui)
             w1 r1 w2 Hp) in Hrun.
  destruct (process_sd_card_files_appends _ _ _ _ _ _ _ _ _ _ Hp)
    as (infos & Hinv & Hlabels & Hcount).
  assert (Hframe : device_tree w2 = device_tree w
                   /\ exists evs, events w2 = events w1 ++ evs).
  { destruct (process_sd_card_files_run _ _ _ _ _ _ _ _ _ _ Hp)
      as [(e & _ & ->)|(de & d & org & site & evs & infos' & c & _ & _ & _ & _ & _ & Hev
                        & _ & _ & _ & _ & _ & Ht & _)].
    - split; [reflexivity|]. exists []. now rewrite app_nil_r.
    - split; [exact Ht|]. eauto. }
  destruct Hframe as (Ht2 & evs & Hev2).
  assert (Hmkdir : forall tail, In (EvMkdir device_folder)
            (drop (length (events w)) ((events w1 ++ evs) ++ tail))).
  { intros tail. subst w1. cbn [events set_events].
    rewrite <- !app_assoc, drop_app_length.
    apply in_or_app. right. apply in_or_app. left. now left. }
  destruct r1 as [n|e]; inversion Hrun; subst r w'; clear Hrun;
    cbn [device_tree file_inventory fs events set_events set_fs set_device_tree].
  - rewrite Ht2. split; [apply length_alter|].
    split; [intros j Hj; now apply list_lookup_alter_ne|].
    right. exists fs1, infos. split; [reflexivity|]. split; [reflexivity|].
    rewrite Hev2. split; [apply Hmkdir|]. split; [exact Hinv|]. split; [exact Hlabels|].
    left. exists n. destruct (Hcount n eq_refl) as [Hn Hlen].
    split; [exact Hn|]. split; [exact Hlen|]. split.
    + rewrite list_lookup_alter_eq, Hitem. reflexivity.
    + apply last_snoc.
  - rewrite Ht2. split; [reflexivity|]. split; [reflexivity|].
    right. exists fs1, infos. split; [reflexivity|]. split; [reflexivity|].
    rewrite Hev2. split; [apply Hmkdir|]. split; [exact Hinv|]. split; [exact Hlabels|].
    right. exists e. split; [reflexivity|].
    change [EvLog ("✗ Error: " +:+ e +:+ "
"); EvMessageBox "critical" "Copy Error" ("Error copying files: " +:+ e)]
      with ([EvLog ("✗ Error: " +:+ e +:+ "
")] ++ [EvMessageBox "critical" "Copy Error" ("Error copying files: " +:+ e)]).
    rewrite app_assoc. apply last_snoc.
Qed.

(** X8. [skip_device] on a selected row whose device has a known type
    returns with the row showing "Skipped" and "0", the other rows as they
    were and one line added to the log; it touches neither the file system
    nor the inventory, so that the files and records of a device that had
    been copied before stay.  Without a selected row it shows "No
    Selection" and does nothing else. *)
Theorem skip_device_marks_row (current : option nat) (w : Wizard FS) :
  (current ≫= (fun i => device_tree w !! i) = None ->
   skip_device current w
   = (Ok tt,
      set_events
        (events w ++ [EvMessageBox "information" "No Selection"
                        "Please select a device from the list."]) w))
  /\ (forall index item dev type_name,
        current = Some index ->
        device_tree w !! index = Some item ->
        devices w !! index = Some dev ->
        DEVICE_TYPES (dev_code dev) = Some type_name ->
        exists w',
          skip_device current w = (Ok tt, w')
          /\ device_tree w' !! index = Some (set_text3 "0" (set_text2 "Skipped" item))
          /\ (forall j, j <> index -> device_tree w' !! j = device_tree w !! j)
          /\ length (device_tree w') = length (device_tree w)
          /\ events w' = events w
               ++ [EvLog ("Skipped Plot " +:+ str_of_int (plot_num dev) +:+ " - "
                            +:+ type_name +:+ "
")]
          /\ fs w' = fs w
          /\ file_inventory w' = file_inventory w
          /\ devices w' = devices w).
Proof.
  split.
  - intros Hnone. unfold skip_device, bind, gets.
    destruct current as [index|]; [|reflexivity].
    cbn [mbind option_bind] in *. now rewrite Hnone.
  - intros index item dev type_name -> Hitem Hdev Htype.
    unfold skip_device.
    unfold bind at 1. unfold gets at 1. cbn [mbind option_bind]. rewrite Hitem.
    unfold bind at 1. unfold device_at at 1, list_getitem. rewrite Hdev.
    unfold bind at 1. unfold set_status at 1, modify.
    unfold device_type_name. rewrite Htype. cbn [of_result].
    unfold bind at 1. unfold ret at 1. unfold log, emit, modify.
    eexists. split; [reflexivity|].
    cbn [device_tree file_inventory fs events devices set_events set_device_tree].
    split; [rewrite list_lookup_alter_eq, Hitem; reflexivity|].
    split; [intros j Hj; now apply list_lookup_alter_ne|].
    split; [apply length_alter|]. repeat split.
Qed.

End CollectionProperties.

(** ** What [process_sd_card_files] records and logs *)

Section RecordProperties.
Context {FS : Type} {HFS : FileSystem FS} {H : Type} {HH : Hashlib H}.
Variable EXIF_AVAILABLE : bool.

(** The body of the loop for an eligible entry, when it returns. *)
Lemma process_file_returns dest_dir pn pl dc dl org site date_str root filename
    fc seq (w : Wizard FS) acc' w' :
  eligible filename = true ->
  process_file (H:=H) EXIF_AVAILABLE dest_dir pn pl dc dl org site date_str root filename
    (fc, seq) w = (Ok acc', w') ->
  exists info,
    recorded (H:=H) EXIF_AVAILABLE dest_dir pn pl dc dl info
    /\ acc' = (fc + 1, seq + 1)
    /\ file_inventory w' = file_inventory w ++ [info]
    /\ omap log_of (drop (length (events w)) (events w'))
       = if (fc + 1) mod 50 =? 0 then [progress_line (fc + 1)] else [].
Proof.
  intros He Hrun.
  destruct (eligible_true_inv _ He) as [Hh Ho].
  unfold process_file in Hrun. rewrite Hh, Ho, path_suffix_joinpath in Hrun.
  set (src := root /: filename) in *.
  set (new_filename := new_filename_of org site pn dc date_str seq
                         (lower (name_suffix filename))) in *.
  set (dst := dest_dir /: new_filename) in *.
  unfold bind at 1 in Hrun. unfold fs_write at 1, zoom in Hrun.
  destruct (shutil_copy2 src dst (fs w)) as [[[]|e] fs1] eqn:Hcopy; [|discriminate].
  unfold bind at 1 in Hrun. unfold emit at 1, modify in Hrun.
  set (w2 := set_events _ (set_fs fs1 w)) in Hrun.
  assert (Hexif : exists d,
    (if (String.eqb (classify_file filename) "image" && EXIF_AVAILABLE)%bool
     then extract_exif_data EXIF_AVAILABLE dst else ret ∅) w2 = (Ok d, w2)
    /\ (EXIF_AVAILABLE = false \/ classify_file filename <> "image" -> d = ∅)).
  { destruct (String.eqb_spec (classify_file filename) "image") as [Hc|Hc];
      destruct EXIF_AVAILABLE eqn:Hex; cbn [andb].
    - destruct (extract_exif_data_total true dst w2) as [d Hd]. exists d.
      split; [exact Hd|]. intros [?|?]; [discriminate | contradiction].
    - exists ∅. split; [reflexivity | auto].
    - exists ∅. split; [reflexivity | auto].
    - exists ∅. split; [reflexivity | auto]. }
  destruct Hexif as (exif & Hexif & Hempty).
  unfold bind at 1 in Hrun. rewrite Hexif in Hrun.
  unfold bind at 1 in Hrun. unfold fs_read at 1 in Hrun.
  destruct (compute_file_hash dst (fs w2)) as [hash|e] eqn:Hhash; [|discriminate].
  unfold bind at 1 in Hrun. unfold fs_read at 1 in Hrun.
  destruct (path_stat dst (fs w2)) as [st|e] eqn:Hst; [|discriminate].
  unfold bind at 1 in Hrun. unfold fs_read at 1 in Hrun. rewrite Hst in Hrun.
  set (info := file_info_of _ _ _ _ _ _ _ _ _ _ _) in Hrun.
  exists info. split.
  { exists root, filename, new_filename, hash, st, (fs w), fs1, exif.
    repeat split; assumption || reflexivity. }
  unfold inventory_append, bind, modify, emit, modify in Hrun.
  destruct ((fc + 1) mod 50 =? 0).
  - unfold log, emit, modify in Hrun. inversion Hrun; subst. cbn.
    split; [reflexivity|]. split; [reflexivity|].
    rewrite <- !app_assoc, drop_app_length. reflexivity.
  - unfold ret in Hrun. inversion Hrun; subst. cbn.
    split; [reflexivity|]. split; [reflexivity|].
    rewrite <- !app_assoc, drop_app_length. reflexivity.
Qed.

(** The loop, whatever its outcome: the records appended describe copies
    made, and the lines logged are those of every fiftieth file counted. *)
Lemma process_loop_records dest_dir pn pl dc dl org site date_str l :
  forall fc seq (w : Wizard FS) r w',
  for_each l
    (fun rf => process_file (H:=H) EXIF_AVAILABLE dest_dir pn pl dc dl org site date_str
                 (fst rf) (snd rf))
    (fc, seq) w = (r, w') ->
  exists infos evs,
    file_inventory w' = file_inventory w ++ infos
    /\ events w' = events w ++ evs
    /\ Forall (recorded (H:=H) EXIF_AVAILABLE dest_dir pn pl dc dl) infos
    /\ omap log_of evs = progress_lines (length infos) fc.
Proof.
  induction l as [|[root filename] l IH]; intros fc seq w r w' Hrun.
  - cbn in Hrun. inversion Hrun; subst. exists [], []. rewrite !app_nil_r.
    repeat split. constructor.
  - rewrite for_each_cons in Hrun. unfold bind in Hrun. cbn [fst snd] in Hrun.
    destruct (eligible filename) eqn:He.
    + destruct (process_file EXIF_AVAILABLE dest_dir pn pl dc dl org site date_str
                  root filename (fc, seq) w) as [[acc1|e] w1] eqn:Hbody.
      * destruct (process_file_returns _ _ _ _ _ _ _ _ _ _ _ _ _ _ _ He Hbody)
          as (info & Hrec & -> & Hinv & Hlog).
        destruct (IH _ _ _ _ _ Hrun) as (infos & evs & Hinv' & Hev' & Hall & Hlogs).
        destruct (process_file_eligible _ _ _ _ _ _ _ _ _ _ _ _ _ _ _ _ He Hbody)
          as (_ & _ & _ & _ & _ & [(e & He' & _)|(info' & logs & _ & _ & Hev & _)]);
          [discriminate|].
        exists (info :: infos), ((EvCopy (root /: filename)
                   (dest_dir /: new_filename_of org site pn dc date_str seq
                                  (lower (name_suffix filename)))
                   :: EvRecord info' :: logs) ++ evs).
        split; [rewrite Hinv', Hinv, <- app_assoc; reflexivity|].
        split; [rewrite Hev', Hev, <- app_assoc; reflexivity|].
        split; [now constructor|].
        rewrite omap_app, Hlogs. cbn [length progress_lines]. f_equal.
        rewrite Hev, drop_app_length in Hlog. exact Hlog.
      * inversion Hrun; subst.
        destruct (process_file_eligible _ _ _ _ _ _ _ _ _ _ _ _ _ _ _ _ He Hbody)
          as (_ & _ & _ & _ & _ & [(e' & _ & Hinv & Hev)|(info' & logs & Hr & _)]);
          [|discriminate].
        exists []. rewrite Hinv, app_nil_r.
        destruct Hev as [Hev|Hev]; rewrite Hev.
        -- exists []. rewrite app_nil_r. repeat split. constructor.
        -- eexists. split; [reflexivity|]. split; [reflexivity|]. split; [constructor|].
           reflexivity.
    + rewrite process_file_skip in Hrun by exact He. exact (IH _ _ _ _ _ Hrun).
Qed.

(** [process_sd_card_files], whatever its outcome. *)
Lemma process_sd_card_files_records walk dest_dir pn pl dc dl (w : Wizard FS) r w' :
  process_sd_card_files (H:=H) EXIF_AVAILABLE walk dest_dir pn pl dc dl w = (r, w') ->
  exists infos evs,
    file_inventory w' = file_inventory w ++ infos
    /\ events w' = events w ++ evs
    /\ Forall (recorded (H:=H) EXIF_AVAILABLE dest_dir pn pl dc dl) infos
    /\ omap log_of evs = progress_lines (length infos) 0
    /\ forall n, r = Ok n -> n = Z.of_nat (length infos).
Proof.
  intros Hrun.
  destruct (process_sd_card_files_appends _ _ _ _ _ _ _ _ _ _ Hrun)
    as (infos0 & Hinv0 & _ & Hcount).
  unfold process_sd_card_files in Hrun.
  assert (Hstop : forall e, (Raise e, w) = (r, w') ->
            exists infos evs,
              file_inventory w' = file_inventory w ++ infos
              /\ events w' = events w ++ evs
              /\ Forall (recorded (H:=H) EXIF_AVAILABLE dest_dir pn pl dc dl) infos
              /\ omap log_of evs = progress_lines (length infos) 0
              /\ forall n, r = Ok n -> n = Z.of_nat (length infos)).
  { intros e Heq. inversion Heq; subst. exists [], []. rewrite !app_nil_r.
    repeat split; try constructor. discriminate. }
  unfold bind at 1 in Hrun. unfold getitem at 1 in Hrun.
  destruct (metadata w !! "deployment_end") as [deployment_end|]; [|exact (Hstop _ Hrun)].
  unfold bind at 1 in Hrun.
  destruct (strptime_Ymd deployment_end) as [d|e]; [|exact (Hstop _ Hrun)].
  cbn [of_result] in Hrun. unfold ret at 1 in Hrun.
  unfold bind at 1 in Hrun. unfold getitem at 1 in Hrun.
  destruct (metadata w !! "organization") as [org|]; [|exact (Hstop _ Hrun)].
  unfold bind at 1 in Hrun. unfold getitem at 1 in Hrun.
  destruct (metadata w !! "site") as [site|]; [|exact (Hstop _ Hrun)].
  unfold bind at 1 in Hrun. rewrite for_each_walk in Hrun.
  destruct (for_each (sd_files walk) _ (0, 1) w) as [r1 w1] eqn:Hloop.
  apply process_loop_records in Hloop.
  destruct Hloop as (infos & evs & Hinv & Hev & Hall & Hlogs).
  assert (w1 = w') by (destruct r1; unfold ret in Hrun; now inversion Hrun). subst w1.
  exists infos, evs. repeat (split; [assumption|]).
  intros n Hn. destruct (Hcount n Hn) as [-> _].
  rewrite Hinv0 in Hinv. apply app_inv_head in Hinv. now subst.
Qed.

End RecordProperties.

(** *** Every fiftieth file *)

Lemma range_nil (a b : Z) : b <= a -> range a b = [].
Proof. intros Hle. unfold range. now replace (Z.to_nat (b - a)) with O by lia. Qed.

Lemma range_cons (a b : Z) : a < b -> range a b = a :: range (a + 1) b.
Proof.
  intros Hlt. unfold range.
  replace (Z.to_nat (b - a)) with (S (Z.to_nat (b - (a + 1)))) by lia.
  reflexivity.
Qed.

Lemma progress_lines_range (k : nat) :
  forall fc, 0 <= fc ->
  progress_lines k fc
  = map (fun j => progress_line (50 * j)) (range (fc / 50 + 1) ((fc + Z.of_nat k) / 50 + 1)).
Proof.
  induction k as [|k IH]; intros fc Hfc.
  - rewrite Z.add_0_r, range_nil by lia. reflexivity.
  - cbn [progress_lines]. rewrite IH by lia.
    replace (fc + 1 + Z.of_nat k) with (fc + Z.of_nat (S k)) by lia.
    assert (Hmono : (fc + 1) / 50 <= (fc + Z.of_nat (S k)) / 50)
      by (apply Z.div_le_mono; lia).
    pose proof (Z.div_mod fc 50 ltac:(lia)) as Hd0.
    pose proof (Z.mod_pos_bound fc 50 ltac:(lia)) as Hb0.
    pose proof (Z.div_mod (fc + 1) 50 ltac:(lia)) as Hd1.
    pose proof (Z.mod_pos_bound (fc + 1) 50 ltac:(lia)) as Hb1.
    destruct ((fc + 1) mod 50 =? 0) eqn:Hmod.
    + apply Z.eqb_eq in Hmod. rewrite Hmod in Hd1.
      revert Hmono Hd0 Hb0 Hd1.
      generalize (fc mod 50) ((fc + 1) / 50) (fc / 50) ((fc + Z.of_nat (S k)) / 50).
      intros m q1 q0 qk Hmono Hd0 Hb0 Hd1.
      assert (Hq : q1 = q0 + 1) by lia. subst q1.
      rewrite (range_cons (q0 + 1)) by lia.
      cbn [map app]. f_equal. f_equal. lia.
    + apply Z.eqb_neq in Hmod.
      assert (Hq : (fc + 1) / 50 = fc / 50).
      { revert Hmod Hd0 Hb0 Hd1 Hb1.
        generalize (fc mod 50) ((fc + 1) mod 50) ((fc + 1) / 50) (fc / 50). lia. }
      now rewrite Hq.
Qed.

(** *** The fields of a record *)

Lemma classify_file_eligible (filename : string) :
  eligible filename = true ->
  classify_file filename = "image" \/ classify_file filename = "audio".
Proof.
  intros He. destruct (eligible_true_inv _ He) as [_ Ho].
  unfold classify_file in *.
  destruct (bool_decide _); [now left|].
  destruct (bool_decide _); [now right | discriminate].
Qed.

Lemma file_info_of_dom filename new_filename pn pl dc dl size hash src ts exif :
  dom (file_info_of filename new_filename pn pl dc dl size hash src ts exif)
  = list_to_set record_keys.
Proof.
  unfold file_info_of. rewrite !dom_insert_L, dom_empty_L.
  apply (bool_decide_unpack _). vm_compute. reflexivity.
Qed.

Section RecordedFields.
Context {FS : Type} {HFS : FileSystem FS} {H : Type} {HH : Hashlib H}.

Lemma recorded_fields EXIF_AVAILABLE dest_dir pn pl dc dl (info : FileInfo) :
  recorded (FS:=FS) (H:=H) EXIF_AVAILABLE dest_dir pn pl dc dl info ->
  dom info = list_to_set record_keys
  /\ (info !! "file_type" = Some (PyStr "image")
      \/ info !! "file_type" = Some (PyStr "audio"))
  /\ info !! "plot_number" = Some (PyInt pn)
  /\ info !! "plot_label" = Some pl
  /\ info !! "device_type" = Some (PyStr dc)
  /\ info !! "device_label" = Some (PyStr dl)
  /\ (exists size, info !! "file_size_bytes" = Some (PyInt size))
  /\ (exists digest, info !! "file_hash_sha256" = Some (PyStr digest))
  /\ info !! "latitude" = None
  /\ info !! "longitude" = None
  /\ (EXIF_AVAILABLE = false ->
      info !! "exif_datetime" = Some PyNone
      /\ info !! "exif_make" = Some PyNone
      /\ info !! "exif_model" = Some PyNone).
Proof.
  intros (root & filename & new_filename & hash & st & fs0 & fs1 & exif
          & He & _ & _ & _ & Hexif & ->).
  split; [apply file_info_of_dom|].
  unfold file_info_of.
  split.
  { repeat (rewrite lookup_insert_ne by discriminate). rewrite lookup_insert_eq.
    destruct (classify_file_eligible _ He) as [->| ->]; auto. }
  split; [repeat (rewrite lookup_insert_ne by discriminate); now rewrite lookup_insert_eq|].
  split; [repeat (rewrite lookup_insert_ne by discriminate); now rewrite lookup_insert_eq|].
  split; [repeat (rewrite lookup_insert_ne by discriminate); now rewrite lookup_insert_eq|].
  split; [repeat (rewrite lookup_insert_ne by discriminate); now rewrite lookup_insert_eq|].
  split; [eexists; repeat (rewrite lookup_insert_ne by discriminate);
          now rewrite lookup_insert_eq|].
  split; [eexists; repeat (rewrite lookup_insert_ne by discriminate);
          now rewrite lookup_insert_eq|].
  split; [repeat (rewrite lookup_insert_ne by discriminate); apply lookup_empty|].
  split; [repeat (rewrite lookup_insert_ne by discriminate); apply lookup_empty|].
  intros Hno. rewrite (Hexif (or_introl Hno)).
  repeat split; repeat (rewrite lookup_insert_ne by discriminate);
    now rewrite lookup_insert_eq.
Qed.

End RecordedFields.

(** *** Destination names *)

Lemma string_app_inv_head (a x y : string) : a +:+ x = a +:+ y -> x = y.
Proof.
  induction a as [|c a IH]; [auto|].
  rewrite !append_cons. intros Heq. inversion Heq. auto.
Qed.

(** A run of digits that a character other than a digit ends is determined
    by the text it starts. *)
Lemma digits_prefix_unique (d1 : string) :
  forall d2 c1 e1 c2 e2,
  forallb is_digit (list_ascii_of_string d1) = true ->
  forallb is_digit (list_ascii_of_string d2) = true ->
  is_digit c1 = false -> is_digit c2 = false ->
  d1 +:+ String c1 e1 = d2 +:+ String c2 e2 -> d1 = d2.
Proof.
  induction d1 as [|a d1 IH]; intros d2 c1 e1 c2 e2 H1 H2 Hc1 Hc2 Heq.
  - destruct d2 as [|b d2]; [reflexivity|].
    rewrite append_empty_l, append_cons in Heq. inversion Heq; subst.
    cbn in H2. rewrite Hc1 in H2. discriminate.
  - destruct d2 as [|b d2].
    + rewrite append_empty_l, append_cons in Heq. inversion Heq; subst.
      cbn in H1. rewrite Hc2 in H1. discriminate.
    + rewrite !append_cons in Heq. inversion Heq; subst. f_equal.
      cbn in H1, H2. apply andb_true_iff in H1 as [_ H1]. apply andb_true_iff in H2 as [_ H2].
      exact (IH _ _ _ _ _ H1 H2 Hc1 Hc2 H3).
Qed.

(** The extension of an eligible entry starts with a dot. *)
Lemma eligible_extension (filename : string) :
  eligible filename = true ->
  exists e, lower (name_suffix filename) = String "." e.
Proof.
  intros He. destruct (eligible_true_inv _ He) as [_ Ho].
  unfold classify_file in Ho.
  change (path_suffix (Path_of_entry filename)) with (name_suffix filename) in Ho.
  destruct (bool_decide_reflect (lower (name_suffix filename) ∈ IMAGE_EXTENSIONS))
    as [Hi|_].
  { unfold IMAGE_EXTENSIONS in Hi. set_unfold in Hi.
    repeat (destruct Hi as [Hi|Hi]); rewrite Hi; eexists; reflexivity. }
  destruct (bool_decide_reflect (lower (name_suffix filename) ∈ AUDIO_EXTENSIONS))
    as [Ha|_]; [|discriminate].
  unfold AUDIO_EXTENSIONS in Ha. set_unfold in Ha.
  repeat (destruct Ha as [Ha|Ha]); rewrite Ha; eexists; reflexivity.
Qed.

(** Two eligible entries under different sequence numbers get different
    names. *)
Lemma spec_filename_inj org site pn dc d (s1 s2 : Z) (n1 n2 : string) :
  0 <= s1 -> 0 <= s2 ->
  eligible n1 = true -> eligible n2 = true ->
  spec_filename org site pn dc d s1 (name_suffix n1)
  = spec_filename org site pn dc d s2 (name_suffix n2) ->
  s1 = s2.
Proof.
  intros H1 H2 He1 He2 Heq.
  rewrite <- !new_filename_of_spec in Heq. unfold new_filename_of in Heq.
  do 10 apply string_app_inv_head in Heq.
  destruct (eligible_extension _ He1) as [e1 Hx1].
  destruct (eligible_extension _ He2) as [e2 Hx2].
  rewrite Hx1, Hx2 in Heq.
  apply digits_prefix_unique in Heq;
    [|now apply format_05d_digits|now apply format_05d_digits|reflexivity|reflexivity].
  pose proof (int_of_digits_format_05d s1 H1) as Hp1.
  pose proof (int_of_digits_format_05d s2 H2) as Hp2.
  congruence.
Qed.

Lemma joinpath_inj (p : Path) (a b : string) : p /: a = p /: b -> a = b.
Proof. unfold joinpath. intros Heq. apply app_inv_head in Heq. congruence. Qed.

Section NamesAndRecords.
Context {FS : Type} {HFS : FileSystem FS} {H : Type} {HH : Hashlib H}.
Variable EXIF_AVAILABLE : bool.

(** X9. [process_sd_card_files] never gives two copies of one call the
    same destination: the destinations of the copies it makes, in a call
    that returns or raises, are pairwise distinct paths of [dest_dir], so
    that no file is overwritten by a later copy of the same call. *)
Theorem copies_have_distinct_destinations walk dest_dir pn pl dc dl (w : Wizard FS) r w' :
  process_sd_card_files (H:=H) EXIF_AVAILABLE walk dest_dir pn pl dc dl w = (r, w') ->
  exists evs,
    events w' = events w ++ evs
    /\ NoDup (map snd (copies_of evs))
    /\ (forall src dst, In (src, dst) (copies_of evs) -> exists name, dst = dest_dir /: name)
    /\ (forall i j src1 src2 dst,
          copies_of evs !! i = Some (src1, dst) ->
          copies_of evs !! j = Some (src2, dst) -> i = j).
Proof.
  intros Hrun. apply process_sd_card_files_run in Hrun.
  destruct Hrun as [(e & _ & ->)|Hrun].
  { exists []. rewrite app_nil_r. split; [reflexivity|]. cbn.
    split; [constructor|]. split; [intros ? ? []|].
    intros i j ? ? ? Hi. now rewrite lookup_nil in Hi. }
  destruct Hrun as (de & d & org & site & evs & infos & c & _ & _ & _ & _ & Hp & Hev & _).
  exists evs. split; [exact Hev|].
  assert (Hsame : forall i j src1 src2 dst,
            copies_of evs !! i = Some (src1, dst) ->
            copies_of evs !! j = Some (src2, dst) -> i = j).
  { intros i j src1 src2 dst Hi Hj.
    destruct (processed_copies _ _ _ _ _ _ _ _ _ _ Hp Hi) as (r1 & n1 & Hf1 & _ & Hd1).
    destruct (processed_copies _ _ _ _ _ _ _ _ _ _ Hp Hj) as (r2 & n2 & Hf2 & _ & Hd2).
    assert (He1 : eligible n1 = true).
    { apply list_elem_of_lookup_2, list_elem_of_In in Hf1.
      unfold copied_files in Hf1. apply filter_In in Hf1. tauto. }
    assert (He2 : eligible n2 = true).
    { apply list_elem_of_lookup_2, list_elem_of_In in Hf2.
      unfold copied_files in Hf2. apply filter_In in Hf2. tauto. }
    rewrite Hd1 in Hd2. apply joinpath_inj in Hd2.
    apply spec_filename_inj in Hd2; [lia | lia | lia | assumption | assumption]. }
  split; [|split; [|exact Hsame]].
  - apply NoDup_alt. intros i j dst Hi Hj.
    rewrite list_lookup_fmap in Hi, Hj.
    destruct (copies_of evs !! i) as [[s1 d1]|] eqn:Hi'; [|discriminate].
    destruct (copies_of evs !! j) as [[s2 d2]|] eqn:Hj'; [|discriminate].
    cbn in Hi, Hj. inversion Hi; inversion Hj; subst. eapply Hsame; eassumption.
  - intros src dst Hin. apply list_elem_of_In, list_elem_of_lookup_1 in Hin as [k Hk].
    destruct (processed_copies _ _ _ _ _ _ _ _ _ _ Hp Hk) as (r1 & n1 & _ & _ & ->).
    eauto.
Qed.

(** X10. The progress lines of [process_sd_card_files]: in a call that
    returns or raises, the lines it adds to the log are, in this order,
    "  ...50 files processed", "  ...100 files processed" and so on up to
    the last multiple of 50 that is at most the number of records the call
    appended, and no other line; a call that returns [n] has logged the
    lines for the multiples of 50 up to [n], and a call that appends fewer
    than 50 records logs nothing. *)
Theorem progress_is_logged_every_50_files walk dest_dir pn pl dc dl (w : Wizard FS) r w' :
  process_sd_card_files (H:=H) EXIF_AVAILABLE walk dest_dir pn pl dc dl w = (r, w') ->
  exists infos evs,
    file_inventory w' = file_inventory w ++ infos
    /\ events w' = events w ++ evs
    /\ omap log_of evs
       = map (fun j => progress_line (50 * j))
           (range 1 (Z.of_nat (length infos) / 50 + 1))
    /\ (forall n, r = Ok n ->
        omap log_of evs = map (fun j => progress_line (50 * j)) (range 1 (n / 50 + 1)))
    /\ (length infos < 50 -> omap log_of evs = [])%nat.
Proof.
  intros Hrun.
  destruct (process_sd_card_files_records EXIF_AVAILABLE _ _ _ _ _ _ _ _ _ Hrun)
    as (infos & evs & Hinv & Hev & _ & Hlogs & Hn).
  exists infos, evs. split; [exact Hinv|]. split; [exact Hev|].
  rewrite progress_lines_range in Hlogs by lia.
  replace (0 + Z.of_nat (length infos)) with (Z.of_nat (length infos)) in Hlogs by lia.
  change (0 `div` 50 + 1) with 1 in Hlogs.
  split; [exact Hlogs|]. split.
  - intros n Hr. rewrite (Hn n Hr). exact Hlogs.
  - intros Hlt. rewrite Hlogs.
    rewrite Z.div_small by lia. now rewrite range_nil by lia.
Qed.

(** X11. Every record that [process_sd_card_files] appends, in a call
    that returns or raises, describes a copy it made: it has exactly the
    fourteen keys of the dict literal, none of them latitude or longitude;
    its file type is "image" or "audio"; plot number, plot label, device
    type and device label are the arguments of the call; the size is an int
    and the digest a str, read, as the time is, from the file system as the
    copy of that file left it; and without PIL the three EXIF entries are
    None. *)
Theorem inventory_records_describe_copies walk dest_dir pn pl dc dl (w : Wizard FS) r w' :
  process_sd_card_files (H:=H) EXIF_AVAILABLE walk dest_dir pn pl dc dl w = (r, w') ->
  exists infos,
    file_inventory w' = file_inventory w ++ infos
    /\ Forall (fun info : FileInfo =>
         recorded (FS:=FS) (H:=H) EXIF_AVAILABLE dest_dir pn pl dc dl info
         /\ dom info = list_to_set record_keys
         /\ (info !! "file_type" = Some (PyStr "image")
             \/ info !! "file_type" = Some (PyStr "audio"))
         /\ info !! "plot_number" = Some (PyInt pn)
         /\ info !! "plot_label" = Some pl
         /\ info !! "device_type" = Some (PyStr dc)
         /\ info !! "device_label" = Some (PyStr dl)
         /\ (exists size, info !! "file_size_bytes" = Some (PyInt size))
         /\ (exists digest, info !! "file_hash_sha256" = Some (PyStr digest))
         /\ info !! "latitude" = None
         /\ info !! "longitude" = None
         /\ (EXIF_AVAILABLE = false ->
             info !! "exif_datetime" = Some PyNone
             /\ info !! "exif_make" = Some PyNone
             /\ info !! "exif_model" = Some PyNone)) infos.
Proof.
  intros Hrun.
  destruct (process_sd_card_files_records EXIF_AVAILABLE _ _ _ _ _ _ _ _ _ Hrun)
    as (infos & evs & Hinv & _ & Hall & _).
  exists infos. split; [exact Hinv|].
  eapply Forall_impl; [exact Hall|].
  intros info Hrec. split; [exact Hrec|]. now apply recorded_fields in Hrec.
Qed.

End NamesAndRecords.

(** *** The review step *)

Section Emits.
Context {FS : Type} {HFS : FileSystem FS}.
Implicit Types P : Event -> Prop.

Lemma emits_of_preserves {A} P (m : M (Wizard FS) A) :
  preserves events m -> emits P m.
Proof.
  intros Hm w r w' Hrun. exists []. rewrite app_nil_r. split; [|constructor].
  exact (Hm _ _ _ Hrun).
Qed.

Lemma emits_bind {A B} P (m : M (Wizard FS) A) (k : A -> M (Wizard FS) B) :
  emits P m -> (forall a, emits P (k a)) -> emits P (bind m k).
Proof.
  intros Hm Hk w r w' Hrun. unfold bind in Hrun.
  destruct (m w) as [[a|e] w1] eqn:Hmw.
  - destruct (Hm _ _ _ Hmw) as (evs1 & He1 & HP1).
    destruct (Hk a _ _ _ Hrun) as (evs2 & He2 & HP2).
    exists (evs1 ++ evs2). rewrite He2, He1, app_assoc. split; [reflexivity|].
    apply Forall_app; auto.
  - inversion Hrun; subst. exact (Hm _ _ _ Hmw).
Qed.

Lemma emits_emit P (e : Event) : P e -> emits (FS:=FS) P (emit e).
Proof.
  intros HP w r w' Hrun. unfold emit, modify in Hrun. inversion Hrun; subst.
  exists [e]. split; [now destruct w|]. now constructor.
Qed.

Lemma emits_generate_metadata_files :
  emits (FS:=FS) write_or_log generate_metadata_files.
Proof.
  unfold generate_metadata_files.
  repeat first
    [ apply emits_bind; [|intros ?]
    | apply emits_emit; exact I
    | match goal with |- emits _ (let '(_, _) := ?x in _) => destruct x end
    | match goal with |- emits _ (match ?x with _ => _ end) => destruct x end
    | apply emits_of_preserves; solve [apply preserves_deployment_path | preserves_tac] ].
Qed.

End Emits.

Section ReviewProperties.
Context {FS : Type} {HFS : FileSystem FS}.
Variable format_megabytes : Z -> Result string.

(** A step that only reads: what comes after it starts from the same state. *)
Lemma bind_read {A B} (m : M (Wizard FS) A) (k : A -> M (Wizard FS) B) w r w' :
  preserves (fun w => w) m ->
  bind m k w = (r, w') ->
  (exists e, m w = (Raise e, w) /\ r = Raise e /\ w' = w)
  \/ (exists a, m w = (Ok a, w) /\ k a w = (r, w')).
Proof.
  intros Hm Hrun. unfold bind in Hrun.
  destruct (m w) as [[a|e] w1] eqn:Hmw;
    pose proof (Hm _ _ _ Hmw) as Heq; cbv beta in Heq; subst w1.
  - right. eauto.
  - left. inversion Hrun; subst. eauto.
Qed.

Lemma preserves_device_lines {B} (proj : Wizard FS -> B) :
  preserves proj (device_lines (FS:=FS)).
Proof. unfold device_lines. preserves_tac. Qed.

Lemma preserves_metadata_item {B} (proj : Wizard FS -> B) key :
  preserves proj (metadata_item (FS:=FS) key).
Proof. unfold metadata_item. apply preserves_read. Qed.

(** [update_review_tab] sets the text of the summary once, and does
    nothing when it raises. *)
Lemma update_review_tab_run upload_checked (w : Wizard FS) r w' :
  update_review_tab format_megabytes upload_checked w = (r, w') ->
  (exists e, r = Raise e /\ w' = w)
  \/ (exists text, r = Ok tt
        /\ w' = set_events (events w ++ [EvUi "summary_text" text]) w).
Proof.
  unfold update_review_tab. intros Hrun.
  repeat
    (apply bind_read in Hrun as [(e & _ & -> & ->)|(? & _ & Hrun)];
     [left; eauto | |
      first [apply preserves_metadata_item | apply preserves_device_lines
            | apply preserves_gets | apply preserves_of_result]]).
  unfold emit, modify in Hrun. inversion Hrun; subst. right. eauto.
Qed.

Lemma upload_to_box_connected (w : Wizard FS) :
  upload_to_box true w = (Ok tt, set_events (events w ++ upload_start) w).
Proof.
  unfold upload_to_box, upload_start. cbn [negb]. unfold bind, emit, modify.
  f_equal. destruct w; cbn. now rewrite <- !app_assoc.
Qed.

Lemma existsb_pending (tree : list TreeItem) :
  existsb (fun item => String.eqb (text2 item) "Pending") tree = true
  <-> some_pending tree.
Proof.
  unfold some_pending. rewrite existsb_exists, List.Exists_exists.
  split; intros (item & Hin & Heq); exists item; (split; [exact Hin|]);
    now apply String.eqb_eq.
Qed.

Lemma preserves_validate_and_next_collection ui :
  preserves collected (validate_and_next_collection (FS:=FS) format_megabytes ui).
Proof.
  unfold validate_and_next_collection, generate_metadata_files, update_review_tab,
    upload_to_box, device_lines, metadata_item, message_box, log.
  repeat first
    [ apply preserves_deployment_path
    | match goal with |- preserves _ (let '(_, _) := ?x in _) => destruct x end
    | preserves_step ].
Qed.

(** What comes after the question of [validate_and_next_collection]. *)
Lemma finalize_run (ui : ReviewDialog) (w : Wizard FS) r w' :
  (do _ <- generate_metadata_files;
   do _ <- update_review_tab format_megabytes (upload_to_box_cb ui);
   do _ <- emit (EvUi "tabs" "setCurrentIndex(2)");
   if (upload_to_box_cb ui && box_authenticated ui)%bool
   then upload_to_box (box_authenticated ui)
   else ret tt) w = (r, w') ->
  exists evs,
    events w' = events w ++ evs
    /\ match r with
       | Ok _ =>
           exists folder csv line manifest text,
             current_deployment_folder w = Some folder
             /\ evs = [ EvWrite (folder /: "file_metadata.csv") csv;
                        EvLog line;
                        EvWrite (folder /: "manifest.json") manifest;
                        EvLog "Generated: manifest.json";
                        EvUi "summary_text" text;
                        EvUi "tabs" "setCurrentIndex(2)" ]
                      ++ (if (upload_to_box_cb ui && box_authenticated ui)%bool
                          then upload_start else [])
       | Raise _ => Forall write_or_log evs
       end.
Proof.
  intros Hrun. unfold bind at 1 in Hrun.
  destruct (generate_metadata_files w) as [[[]|e] w1] eqn:Hgen.
  2:{ inversion Hrun; subst. exact (emits_generate_metadata_files _ _ _ Hgen). }
  destruct (generate_metadata_files_ok _ _ Hgen)
    as (folder & rows & generated & Hfolder & _ & _ & _ & Hev1).
  unfold bind at 1 in Hrun.
  destruct (update_review_tab format_megabytes (upload_to_box_cb ui) w1)
    as [[[]|e] w2] eqn:Hupd;
    apply update_review_tab_run in Hupd as [(e' & He & ->)|(text & He & ->)];
    try discriminate.
  2:{ inversion Hrun; subst. eexists. split; [exact Hev1|]. repeat constructor. }
  unfold bind at 1 in Hrun. unfold emit at 1, modify in Hrun.
  destruct (upload_to_box_cb ui && box_authenticated ui)%bool eqn:Hup.
  - apply andb_true_iff in Hup as [_ Hauth]. rewrite Hauth in Hrun.
    rewrite upload_to_box_connected in Hrun. inversion Hrun; subst.
    eexists. split.
    + cbn [events set_events]. rewrite Hev1, <- !app_assoc. reflexivity.
    + exists folder. do 4 eexists. split; [exact Hfolder|]. reflexivity.
  - unfold ret in Hrun. inversion Hrun; subst.
    eexists. split.
    + cbn [events set_events]. rewrite Hev1, <- !app_assoc. reflexivity.
    + exists folder. do 4 eexists. split; [exact Hfolder|]. reflexivity.
Qed.

Lemma write_or_log_no_box (evs : list Event) :
  Forall write_or_log evs -> Forall (fun e => is_message_box e = false) evs.
Proof.
  intros Hall. eapply Forall_impl; [exact Hall|].
  intros [] Hw; solve [reflexivity | destruct Hw].
Qed.

Lemma finalize_no_box (ui : ReviewDialog) (w w' : Wizard FS) (r : Result unit) evs :
  match r with
  | Ok _ =>
      exists (folder : Path) csv line manifest text,
        current_deployment_folder w = Some folder
        /\ evs = [ EvWrite (folder /: "file_metadata.csv") csv;
                   EvLog line;
                   EvWrite (folder /: "manifest.json") manifest;
                   EvLog "Generated: manifest.json";
                   EvUi "summary_text" text;
                   EvUi "tabs" "setCurrentIndex(2)" ]
                 ++ (if (upload_to_box_cb ui && box_authenticated ui)%bool
                     then upload_start else [])
  | Raise _ => Forall write_or_log evs
  end ->
  events w' = events w ++ evs ->
  Forall (fun e => is_message_box e = false) evs.
Proof.
  intros Hcase _. destruct r as [[]|e].
  - destruct Hcase as (folder & csv & line & manifest & text & _ & ->).
    destruct (upload_to_box_cb ui && box_authenticated ui)%bool; repeat constructor.
  - now apply write_or_log_no_box.
Qed.

(** X12. [validate_and_next_collection] asks before it goes on with
    devices pending, and only then: when a row of the device tree has the
    status "Pending" the first thing it does is to ask "Some devices are
    still pending. Continue anyway?", and with the answer No it returns
    having done nothing else (no file written, no summary); when no row is
    pending it shows no message box at all.  In every case, also when it
    raises, it shows no other message box (never "Box Not Connected") and
    leaves the metadata, the devices, the inventory, the deployment folder
    and the device tree as they are. *)
Theorem pending_devices_are_confirmed (ui : ReviewDialog) (w : Wizard FS) r w' :
  validate_and_next_collection format_megabytes ui w = (r, w') ->
  exists evs,
    events w' = events w ++ evs
    /\ (some_pending (device_tree w) ->
        exists rest,
          evs = pending_question :: rest
          /\ Forall (fun e => is_message_box e = false) rest
          /\ (continue_anyway ui = false -> rest = [] /\ r = Ok tt /\ fs w' = fs w))
    /\ (~ some_pending (device_tree w) -> Forall (fun e => is_message_box e = false) evs)
    /\ metadata w' = metadata w
    /\ devices w' = devices w
    /\ file_inventory w' = file_inventory w
    /\ current_deployment_folder w' = current_deployment_folder w
    /\ device_tree w' = device_tree w.
Proof.
  intros Hrun.
  pose proof (preserves_validate_and_next_collection ui _ _ _ Hrun) as Hkeep.
  unfold collected in Hkeep. injection Hkeep as Hm Hd Hi Hf Ht.
  unfold validate_and_next_collection in Hrun.
  unfold bind at 1 in Hrun. unfold gets at 1 in Hrun.
  destruct (existsb _ (device_tree w)) eqn:Hpending.
  - apply existsb_pending in Hpending.
    unfold bind at 1 in Hrun. unfold message_box at 1, emit at 1, modify in Hrun.
    destruct (continue_anyway ui) eqn:Hgo.
    + apply finalize_run in Hrun as (evs & Hev & Hcase).
      cbn [events set_events current_deployment_folder] in Hev, Hcase.
      exists (pending_question :: evs). split.
      { rewrite Hev, <- app_assoc. reflexivity. }
      split.
      { intros _. exists evs. split; [reflexivity|].
        split; [|discriminate].
        eapply (finalize_no_box ui (set_events (events w ++ [pending_question]) w));
          [exact Hcase | exact Hev]. }
      split; [tauto|]. auto.
    + unfold ret in Hrun. inversion Hrun; subst.
      exists [pending_question]. split; [reflexivity|].
      split.
      { intros _. exists []. split; [reflexivity|]. split; [constructor|]. auto. }
      split; [tauto|]. auto.
  - assert (Hnone : ~ some_pending (device_tree w)).
    { intros Hp. apply existsb_pending in Hp. congruence. }
    apply finalize_run in Hrun as (evs & Hev & Hcase).
    exists evs. split; [exact Hev|].
    split; [tauto|].
    split.
    { intros _. eapply (finalize_no_box ui w); [exact Hcase | exact Hev]. }
    auto.
Qed.

(** X13. When [validate_and_next_collection] goes on (no row pending, or
    the answer Yes), what it does after the question is, in this order:
    it writes file_metadata.csv and manifest.json into the deployment
    folder, sets the summary, switches to the review tab, and then, only
    if the upload box is checked and Box is connected, prepares the widgets
    and starts the upload thread.  When it raises, it has at most written
    files and logged: the tab is not switched and no upload is started. *)
Theorem review_follows_sidecar_files (ui : ReviewDialog) (w : Wizard FS) r w' :
  validate_and_next_collection format_megabytes ui w = (r, w') ->
  (some_pending (device_tree w) -> continue_anyway ui = true) ->
  exists asked evs,
    events w' = events w ++ asked ++ evs
    /\ (some_pending (device_tree w) -> asked = [pending_question])
    /\ (~ some_pending (device_tree w) -> asked = [])
    /\ match r with
       | Ok _ =>
           exists folder csv line manifest text,
             current_deployment_folder w = Some folder
             /\ evs = [ EvWrite (folder /: "file_metadata.csv") csv;
                        EvLog line;
                        EvWrite (folder /: "manifest.json") manifest;
                        EvLog "Generated: manifest.json";
                        EvUi "summary_text" text;
                        EvUi "tabs" "setCurrentIndex(2)" ]
                      ++ (if (upload_to_box_cb ui && box_authenticated ui)%bool
                          then upload_start else [])
       | Raise _ => Forall write_or_log evs
       end.
Proof.
  intros Hrun Hgo.
  unfold validate_and_next_collection in Hrun.
  unfold bind at 1 in Hrun. unfold gets at 1 in Hrun.
  destruct (existsb _ (device_tree w)) eqn:Hpending.
  - apply existsb_pending in Hpending. rewrite (Hgo Hpending) in Hrun.
    unfold bind at 1 in Hrun. unfold message_box at 1, emit at 1, modify in Hrun.
    apply finalize_run in Hrun as (evs & Hev & Hcase).
    cbn [events set_events current_deployment_folder] in Hev, Hcase.
    exists [pending_question], evs.
    split; [rewrite Hev, <- app_assoc; reflexivity|].
    split; [reflexivity|]. split; [tauto | exact Hcase].
  - assert (Hnone : ~ some_pending (device_tree w)).
    { intros Hp. apply existsb_pending in Hp. congruence. }
    apply finalize_run in Hrun as (evs & Hev & Hcase).
    exists [], evs. split; [exact Hev|].
    split; [tauto|]. split; [reflexivity | exact Hcase].
Qed.

End ReviewProperties.

(** *** The summary *)

Lemma bind_ok {W A B} (m : M W A) (k : A -> M W B) (w w1 : W) (a : A) :
  m w = (Ok a, w1) -> bind m k w = k a w1.
Proof. intros Hm. unfold bind. now rewrite Hm. Qed.

Lemma device_files_of_ok (inventory : list FileInfo) (label : string) :
  Forall (fun f : FileInfo => is_Some (f !! "device_label")) inventory ->
  device_files_of inventory label
  = Ok (List.filter (fun f : FileInfo =>
                       bool_decide (f !! "device_label" = Some (PyStr label))) inventory).
Proof.
  induction 1 as [|f inventory [l Hl] _ IH]; [reflexivity|].
  cbn [device_files_of List.filter]. unfold getitem. rewrite Hl, IH. f_equal.
  destruct (bool_decide_reflect (l = PyStr label)) as [->|Hne].
  - now rewrite bool_decide_eq_true_2.
  - rewrite bool_decide_eq_false_2; [reflexivity|]. congruence.
Qed.

Lemma sum_file_sizes_ok (inventory : list FileInfo) :
  Forall (fun f : FileInfo => exists size, f !! "file_size_bytes" = Some (PyInt size))
    inventory ->
  forall total, exists t, sum_file_sizes inventory total = Ok t.
Proof.
  induction 1 as [|f inventory [size Hsize] _ IH]; intros total; [now exists total|].
  cbn [sum_file_sizes]. unfold getitem. rewrite Hsize. apply IH.
Qed.

(** **** The tally of the file types *)

Lemma count_type_keys (ftype : pyval) (file_types : list (pyval * Z)) :
  map fst (count_type ftype file_types)
  = if bool_decide (ftype ∈ map fst file_types) then map fst file_types
    else map fst file_types ++ [ftype].
Proof.
  induction file_types as [|[key count] file_types IH].
  - cbn. rewrite bool_decide_eq_false_2; [reflexivity|]. apply not_elem_of_nil.
  - cbn [count_type map fst].
    destruct (bool_decide_reflect (key = ftype)) as [->|Hne].
    + rewrite bool_decide_eq_true_2 by apply list_elem_of_here. reflexivity.
    + cbn [map fst]. rewrite IH.
      destruct (bool_decide_reflect (ftype ∈ map fst file_types)) as [Hin|Hout].
      * rewrite bool_decide_eq_true_2 by now apply list_elem_of_further. reflexivity.
      * rewrite bool_decide_eq_false_2; [reflexivity|].
        rewrite elem_of_cons. intros [->|Hin]; [congruence | contradiction].
Qed.

Lemma count_type_count_for (ftype t : pyval) (file_types : list (pyval * Z)) :
  count_for t (count_type ftype file_types)
  = count_for t file_types + (if bool_decide (ftype = t) then 1 else 0).
Proof.
  unfold count_for.
  induction file_types as [|[key count] file_types IH].
  - cbn. destruct (bool_decide_reflect (ftype = t)); reflexivity.
  - cbn [count_type].
    destruct (bool_decide_reflect (key = ftype)) as [->|Hne].
    + cbn [List.find fst snd].
      destruct (bool_decide_reflect (ftype = t)); [reflexivity | lia].
    + cbn [List.find fst snd].
      destruct (bool_decide_reflect (key = t)) as [->|Hkt].
      * rewrite bool_decide_eq_false_2 by congruence. cbn [snd]. lia.
      * exact IH.
Qed.

Lemma count_type_total (ftype : pyval) (file_types : list (pyval * Z)) :
  total_count (count_type ftype file_types) = total_count file_types + 1.
Proof.
  unfold total_count.
  induction file_types as [|[key count] file_types IH]; [reflexivity|].
  cbn [count_type]. destruct (bool_decide (key = ftype)); cbn [map snd fold_right] in *; lia.
Qed.

Lemma count_type_positive (ftype : pyval) (file_types : list (pyval * Z)) :
  Forall (fun kv => 0 < snd kv) file_types ->
  Forall (fun kv => 0 < snd kv) (count_type ftype file_types).
Proof.
  induction 1 as [|[key count] file_types Hpos Hall IH].
  - repeat constructor.
  - cbn [count_type]. cbn [snd] in Hpos.
    destruct (bool_decide (key = ftype)); constructor; cbn [snd]; try lia; assumption.
Qed.

Lemma count_type_NoDup (ftype : pyval) (file_types : list (pyval * Z)) :
  NoDup (map fst file_types) -> NoDup (map fst (count_type ftype file_types)).
Proof.
  intros Hnd. rewrite count_type_keys.
  destruct (bool_decide_reflect (ftype ∈ map fst file_types)) as [Hin|Hout]; [exact Hnd|].
  apply NoDup_app. split; [exact Hnd|]. split; [|apply NoDup_singleton].
  intros x Hx Hx'. apply list_elem_of_singleton in Hx'. congruence.
Qed.

Lemma count_for_In (t : pyval) (c : Z) (file_types : list (pyval * Z)) :
  NoDup (map fst file_types) -> In (t, c) file_types -> count_for t file_types = c.
Proof.
  unfold count_for.
  induction file_types as [|[key count] file_types IH]; intros Hnd Hin; [destruct Hin|].
  cbn [map fst] in Hnd. apply NoDup_cons in Hnd as [Hout Hnd].
  cbn [List.find fst].
  destruct Hin as [Heq|Hin].
  - inversion Heq; subst. now rewrite bool_decide_eq_true_2.
  - rewrite bool_decide_eq_false_2; [now apply IH|].
    intros ->. apply Hout. apply list_elem_of_In in Hin.
    now apply (list_elem_of_fmap_2 fst) in Hin.
Qed.

Lemma types_in_order_seen (inventory : list FileInfo) :
  forall seen1 seen2 : list pyval,
  (forall x, x ∈ seen1 <-> x ∈ seen2) ->
  types_in_order inventory seen1 = types_in_order inventory seen2.
Proof.
  induction inventory as [|f inventory IH]; intros seen1 seen2 Hsame; [reflexivity|].
  cbn [types_in_order]. destruct (f !! "file_type") as [ftype|]; [|now apply IH].
  destruct (bool_decide_reflect (ftype ∈ seen1)) as [Hin|Hout].
  - rewrite bool_decide_eq_true_2 by now apply Hsame. now apply IH.
  - rewrite bool_decide_eq_false_2 by now rewrite <- Hsame. f_equal.
    apply IH. intros x. rewrite !elem_of_cons, Hsame. reflexivity.
Qed.

(** The loop that counts the file types, from the tally [file_types]. *)
Lemma count_file_types_run (inventory : list FileInfo) :
  forall file_types tally,
  count_file_types inventory file_types = Ok tally ->
  map fst tally = map fst file_types ++ types_in_order inventory (map fst file_types)
  /\ (forall t, count_for t tally
                = count_for t file_types
                  + Z.of_nat (length (records_of_type t inventory)))
  /\ total_count tally = total_count file_types + Z.of_nat (length inventory)
  /\ (NoDup (map fst file_types) -> NoDup (map fst tally))
  /\ (Forall (fun kv => 0 < snd kv) file_types -> Forall (fun kv => 0 < snd kv) tally).
Proof.
  induction inventory as [|f inventory IH]; intros file_types tally Hrun.
  - cbn in Hrun. inversion Hrun; subst. cbn. rewrite app_nil_r.
    repeat split; auto; intros; lia.
  - cbn [count_file_types] in Hrun. unfold getitem in Hrun.
    destruct (f !! "file_type") as [ftype|] eqn:Htype; [|discriminate].
    destruct (IH _ _ Hrun) as (Hkeys & Hcount & Htotal & Hnd & Hpos).
    split; [|split; [|split; [|split]]].
    + rewrite Hkeys, count_type_keys. cbn [types_in_order]. rewrite Htype.
      destruct (bool_decide_reflect (ftype ∈ map fst file_types)) as [Hin|Hout];
        [reflexivity|].
      rewrite <- app_assoc. cbn [app]. do 2 f_equal.
      apply types_in_order_seen. intros x.
      rewrite elem_of_app, !elem_of_cons, elem_of_nil. tauto.
    + intros t. rewrite Hcount, count_type_count_for.
      unfold records_of_type. cbn [List.filter]. rewrite Htype.
      destruct (bool_decide_reflect (ftype = t)) as [->|Hne].
      * rewrite bool_decide_eq_true_2 by reflexivity. cbn [length]. lia.
      * rewrite bool_decide_eq_false_2 by congruence. lia.
    + rewrite Htotal, count_type_total. cbn [length]. lia.
    + intros Hnd0. apply Hnd. now apply count_type_NoDup.
    + intros Hpos0. apply Hpos. now apply count_type_positive.
Qed.

Lemma count_file_types_ok (inventory : list FileInfo) :
  Forall (fun f : FileInfo => is_Some (f !! "file_type")) inventory ->
  forall file_types, exists tally, count_file_types inventory file_types = Ok tally.
Proof.
  induction 1 as [|f inventory [ftype Htype] _ IH]; intros file_types;
    [now exists file_types|].
  cbn [count_file_types]. unfold getitem. rewrite Htype. apply IH.
Qed.

(** X14. The tally of the file types in the summary: when the loop of
    [update_review_tab] over the inventory ends, the dict [file_types] has
    one entry per file type of the inventory, in the order in which the
    types first occur; the count of a type is the number of records of that
    type, which is at least 1, and the counts add up to the number of
    records, the "Total Files" of the summary. *)
Theorem file_types_are_tallied (inventory : list FileInfo) (tally : list (pyval * Z)) :
  count_file_types inventory [] = Ok tally ->
  map fst tally = types_in_order inventory []
  /\ NoDup (map fst tally)
  /\ (forall t c, In (t, c) tally ->
        c = Z.of_nat (length (records_of_type t inventory)) /\ 0 < c)
  /\ total_count tally = Z.of_nat (length inventory).
Proof.
  intros Hrun.
  destruct (count_file_types_run _ _ _ Hrun) as (Hkeys & Hcount & Htotal & Hnd & Hpos).
  split; [exact Hkeys|].
  split; [apply Hnd; constructor|].
  split; [|exact Htotal].
  intros t c Hin. split.
  - rewrite <- (count_for_In t c tally (Hnd (NoDup_nil_2)) Hin), Hcount. reflexivity.
  - pose proof (Hpos (List.Forall_nil _)) as Hall.
    rewrite List.Forall_forall in Hall. exact (Hall _ Hin).
Qed.

Section SummaryAfterCopies.
Context {FS : Type} {HFS : FileSystem FS} {H : Type} {HH : Hashlib H}.
Variable format_megabytes : Z -> Result string.
Variable EXIF_AVAILABLE : bool.
Variable PLOT_NAMES : gmap string (list (option string)).

Lemma metadata_item_ok (key value : string) (w : Wizard FS) :
  metadata w !! key = Some value -> metadata_item key w = (Ok value, w).
Proof. intros Hkey. unfold metadata_item, getitem. now rewrite Hkey. Qed.

Lemma bind_gets {A B} (f : Wizard FS -> A) (k : A -> M (Wizard FS) B) (w : Wizard FS) :
  bind (gets f) k w = k (f w) w.
Proof. reflexivity. Qed.

Lemma bind_of_result_ok {A B} (a : A) (k : A -> M (Wizard FS) B) (w : Wizard FS) :
  bind (of_result (Ok a)) k w = k a w.
Proof. reflexivity. Qed.

Lemma device_lines_loop (inventory : list FileInfo) (devs : list Device) :
  Forall (fun d => is_Some (DEVICE_TYPES (dev_code d))) devs ->
  Forall (fun f : FileInfo => is_Some (f !! "device_label")) inventory ->
  forall (lines : list string) (w : Wizard FS),
  exists lines',
    for_each devs
      (fun dev lines =>
         do device_files <- of_result (device_files_of inventory (device_label dev));
         do type_name <- of_result (device_type_name (dev_code dev));
         ret (lines ++
              [ "  Plot " +:+ str_of_int (plot_num dev) +:+ " (" +:+ py_str (plot_label dev)
                  +:+ ") - " +:+ type_name +:+ ": "
                  +:+ str_of_int (Z.of_nat (length device_files)) +:+ " files" ]))
      lines w = (Ok lines', w).
Proof.
  intros Hdevs Hinv. induction Hdevs as [|dev devs [name Hname] _ IH]; intros lines w.
  - exists lines. reflexivity.
  - cbn [for_each]. rewrite (device_files_of_ok _ _ Hinv).
    unfold device_type_name. rewrite Hname.
    unfold bind at 1. rewrite !bind_of_result_ok. unfold ret at 1. apply IH.
Qed.

Lemma device_lines_ok (w : Wizard FS) :
  Forall (fun d => is_Some (DEVICE_TYPES (dev_code d))) (devices w) ->
  Forall (fun f : FileInfo => is_Some (f !! "device_label")) (file_inventory w) ->
  exists lines, device_lines w = (Ok lines, w).
Proof.
  intros Hdevs Hinv. unfold device_lines.
  rewrite !bind_gets. apply device_lines_loop; assumption.
Qed.

(** X15. The summary after a set-up and copies: when [self.metadata] and
    [self.devices] are those that [validate_and_next] stored for the form,
    and every record of the inventory was made by [process_sd_card_files],
    [update_review_tab] finds every key it reads (no KeyError, no
    TypeError in the sum of the sizes): provided the float formatting of
    the total size returns, it returns, having set the text of the summary
    once and changed nothing else. *)
Theorem summary_after_copies (upload_checked : bool) (tab : MetadataTab)
    (w : Wizard FS) :
  metadata w = metadata_of tab ->
  devices w = selected_devices PLOT_NAMES tab ->
  Forall (fun info : FileInfo =>
            exists dest_dir pn pl dc dl,
              recorded (FS:=FS) (H:=H) EXIF_AVAILABLE dest_dir pn pl dc dl info)
    (file_inventory w) ->
  (forall total, sum_file_sizes (file_inventory w) 0 = Ok total ->
     exists text, format_megabytes total = Ok text) ->
  exists text,
    update_review_tab format_megabytes upload_checked w
    = (Ok tt, set_events (events w ++ [EvUi "summary_text" text]) w).
Proof.
  intros Hmeta Hdevs Hrec Hfmt.
  assert (Hfields : Forall (fun f : FileInfo =>
            is_Some (f !! "device_label") /\ is_Some (f !! "file_type")
            /\ exists size, f !! "file_size_bytes" = Some (PyInt size)) (file_inventory w)).
  { eapply Forall_impl; [exact Hrec|]. cbv beta.
    intros info (dest_dir & pn & pl & dc & dl & Hinfo).
    apply recorded_fields in Hinfo
      as (_ & Htype & _ & _ & _ & Hlabel & Hsize & _).
    split; [eauto|]. split; [destruct Htype; eauto | exact Hsize]. }
  destruct (device_lines_ok w) as (lines & Hlines).
  { rewrite Hdevs. apply selected_devices_known. }
  { eapply Forall_impl; [exact Hfields|]. cbv beta. tauto. }
  destruct (sum_file_sizes_ok (file_inventory w)) with (total := 0) as (total & Hsum).
  { eapply Forall_impl; [exact Hfields|]. cbv beta. tauto. }
  destruct (Hfmt _ Hsum) as (megabytes & Hmb).
  destruct (count_file_types_ok (file_inventory w)) with (file_types := @nil (pyval * Z))
    as (tally & Htally).
  { eapply Forall_impl; [exact Hfields|]. cbv beta. tauto. }
  destruct (metadata_of_items tab) as (Horg & Hsite & Hend & Hstart & Hres).
  assert (Hobs : exists observer, metadata_of tab !! "observer" = Some observer).
  { unfold metadata_of. eexists.
    repeat (rewrite lookup_insert_ne by discriminate). apply lookup_insert_eq. }
  destruct Hobs as (observer & Hobs).
  rewrite <- Hmeta in Horg, Hsite, Hend, Hstart, Hres, Hobs.
  eexists. unfold update_review_tab. cbv zeta.
  rewrite (bind_ok _ _ _ _ _ (metadata_item_ok _ _ w Horg)).
  rewrite (bind_ok _ _ _ _ _ (metadata_item_ok _ _ w Hres)).
  rewrite (bind_ok _ _ _ _ _ (metadata_item_ok _ _ w Hsite)).
  rewrite (bind_ok _ _ _ _ _ (metadata_item_ok _ _ w Hstart)).
  rewrite (bind_ok _ _ _ _ _ (metadata_item_ok _ _ w Hend)).
  rewrite (bind_ok _ _ _ _ _ (metadata_item_ok _ _ w Hobs)).
  rewrite (bind_ok _ _ _ _ _ Hlines).
  rewrite bind_gets, Hsum, bind_of_result_ok, Hmb, bind_of_result_ok.
  rewrite Htally, bind_of_result_ok, bind_gets.
  reflexivity.
Qed.

End SummaryAfterCopies.

(** *** The site and plot tables *)

(** One row of sites.csv in the loop of [load_reserves_from_csv]. *)
Lemma reserves_row (row : CsvRow) (reserves : list (string * string))
    (out : list string) :
  (exists site,
     site_of_row row = Some site
     /\ (do site_code <- of_result (row_strip row "site_code");
         do site_name <- of_result (row_strip row "site_name");
         if (negb (String.eqb site_code "") && negb (String.eqb site_name ""))%bool
         then ret (reserves ++ [(site_code, site_name)])
         else ret reserves) out
        = (Ok (reserves ++ List.filter named_site [site]), out))
  \/ (site_of_row row = None
      /\ exists e,
           (do site_code <- of_result (row_strip row "site_code");
            do site_name <- of_result (row_strip row "site_name");
            if (negb (String.eqb site_code "") && negb (String.eqb site_name ""))%bool
            then ret (reserves ++ [(site_code, site_name)])
            else ret reserves) out
           = (Raise e, out)).
Proof.
  unfold site_of_row, cell_of, row_strip, bind, of_result, ret, raise.
  destruct (row !! "site_code") as [[site_code|]|];
    destruct (row !! "site_name") as [[site_name|]|]; cbv beta iota;
    try (right; split; [reflexivity | eexists; reflexivity]).
  left. eexists. split; [reflexivity|].
  cbn [List.filter]. unfold named_site. cbn [fst snd].
  destruct (negb (String.eqb (strip site_code) "")
            && negb (String.eqb (strip site_name) ""))%bool;
    [reflexivity | now rewrite app_nil_r].
Qed.

Lemma filter_omap_cons {A B} (f : A -> option B) (p : B -> bool) (x : A) (l : list A)
    (y : B) :
  f x = Some y ->
  List.filter p (omap f (x :: l)) = List.filter p [y] ++ List.filter p (omap f l).
Proof. intros Hx. cbn [omap list_omap]. rewrite Hx. cbn. now destruct (p y). Qed.

Lemma reserves_loop (rows : list CsvRow) :
  forall (reserves : list (string * string)) (out : list string),
  (Forall (fun row => is_Some (site_of_row row)) rows
   /\ for_each rows
        (fun row reserves =>
           do site_code <- of_result (row_strip row "site_code");
           do site_name <- of_result (row_strip row "site_name");
           if (negb (String.eqb site_code "") && negb (String.eqb site_name ""))%bool
           then ret (reserves ++ [(site_code, site_name)])
           else ret reserves)
        reserves out
      = (Ok (reserves ++ List.filter named_site (omap site_of_row rows)), out))
  \/ (~ Forall (fun row => is_Some (site_of_row row)) rows
      /\ exists e,
           for_each rows
             (fun row reserves =>
                do site_code <- of_result (row_strip row "site_code");
                do site_name <- of_result (row_strip row "site_name");
                if (negb (String.eqb site_code "") && negb (String.eqb site_name ""))%bool
                then ret (reserves ++ [(site_code, site_name)])
                else ret reserves)
             reserves out
           = (Raise e, out)).
Proof.
  induction rows as [|row rows IH]; intros reserves out.
  - left. split; [constructor|]. cbn. now rewrite app_nil_r.
  - cbn [for_each]. cbv beta.
    destruct (reserves_row row reserves out) as [(site & Hsite & Hrow)|(Hnone & e & Hrow)].
    + destruct (IH (reserves ++ List.filter named_site [site]) out)
        as [(Hall & Hrun)|(Hnot & e & Hrun)].
      * left. split; [constructor; [rewrite Hsite; eauto | exact Hall]|].
        rewrite (bind_ok _ _ _ _ _ Hrow), Hrun, <- app_assoc.
        now rewrite (filter_omap_cons _ _ _ _ _ Hsite).
      * right. split; [intros Hall'; apply Forall_cons in Hall' as [_ ?]; tauto|].
        exists e. rewrite (bind_ok _ _ _ _ _ Hrow). exact Hrun.
    + right. split.
      * intros Hall. apply Forall_cons in Hall as [[? Hsome] _]. congruence.
      * exists e. unfold bind at 1. now rewrite Hrow.
Qed.


(** **** The plot table *)

Lemma plot_name_in_snoc (plots : list (string * Z * string)) (c : string) (n : Z)
    (name code : string) (m : Z) :
  plot_name_in (plots ++ [(c, n, name)]) code m
  = if bool_decide (c = code /\ n = m /\ name <> "") then Some name
    else plot_name_in plots code m.
Proof.
  unfold plot_name_in. rewrite omap_app. cbn [omap list_omap fst snd].
  destruct (bool_decide (c = code /\ n = m /\ name <> "")).
  - apply last_snoc.
  - now rewrite app_nil_r.
Qed.

Lemma plot_name_in_absent (plots : list (string * Z * string)) (code : string) (m : Z) :
  code ∉ map (fun p : string * Z * string => p.1.1) plots ->
  plot_name_in plots code m = None.
Proof.
  unfold plot_name_in. intros Hout.
  replace (omap _ plots) with (@nil string); [reflexivity|].
  induction plots as [|[[c n] name] plots IH]; [reflexivity|].
  cbn [map fst snd] in Hout. apply not_elem_of_cons in Hout as [Hne Hout].
  cbn [omap list_omap fst snd].
  rewrite bool_decide_eq_false_2 by (intros (? & _); congruence).
  now apply IH.
Qed.

Lemma plot_table_of_snoc_other (plots : list (string * Z * string)) (c : string) (n : Z)
    (name code : string) :
  code <> c ->
  plot_table_of (plots ++ [(c, n, name)]) code = plot_table_of plots code.
Proof.
  intros Hne. unfold plot_table_of. rewrite map_app. cbn [map fst snd].
  destruct (bool_decide_reflect (code ∈ map (fun p : string * Z * string => p.1.1) plots))
    as [Hin|Hout].
  - rewrite bool_decide_eq_true_2 by (apply elem_of_app; now left).
    f_equal. rewrite !plot_name_in_snoc.
    rewrite !bool_decide_eq_false_2 by (intros (? & _); congruence). reflexivity.
  - rewrite bool_decide_eq_false_2; [reflexivity|].
    rewrite elem_of_app, list_elem_of_singleton. tauto.
Qed.

Lemma plot_table_of_snoc_same (plots : list (string * Z * string)) (c : string) (n : Z)
    (name : string) :
  plot_table_of (plots ++ [(c, n, name)]) c
  = Some (map (fun m => if bool_decide (n = m /\ name <> "") then Some name
                        else plot_name_in plots c m) [1; 2; 3; 4]).
Proof.
  unfold plot_table_of. rewrite map_app. cbn [map fst snd].
  rewrite bool_decide_eq_true_2
    by (apply elem_of_app; right; apply list_elem_of_singleton; reflexivity).
  f_equal. cbn [map]. rewrite !plot_name_in_snoc.
  repeat match goal with
         | |- context [bool_decide (c = c /\ ?P)] =>
             replace (bool_decide (c = c /\ P)) with (bool_decide P)
               by (apply bool_decide_ext; tauto)
         end.
  reflexivity.
Qed.

(** The entry of a site in the table, before a row for it is read. *)
Lemma plot_table_of_slots (plots : list (string * Z * string)) (c : string) :
  default [None; None; None; None] (plot_table_of plots c)
  = map (plot_name_in plots c) [1; 2; 3; 4].
Proof.
  unfold plot_table_of.
  destruct (bool_decide_reflect (c ∈ map (fun p : string * Z * string => p.1.1) plots))
    as [Hin|Hout]; [reflexivity|].
  cbn [default map]. now rewrite !plot_name_in_absent.
Qed.

(** One row of plots.csv in the loop of [load_plot_names_from_csv]. *)
Lemma plot_row_step (int : string -> Result Z) (row : CsvRow)
    (done : list (string * Z * string))
    (table : gmap string (list (option string))) (out : list string)
    (c : string) (n : Z) (name : string) :
  (forall code, table !! code = plot_table_of done code) ->
  plot_of_row int row = Some (c, n, name) ->
  exists table',
    (do site_code <- of_result (row_strip row "site_code");
     do plot_number <- of_result (row_int int row "plot_number");
     do plot_name <- of_result (row_strip row "plot_name");
     let plot_names :=
       if bool_decide (is_Some (table !! site_code)) then table
       else <[ site_code := [None; None; None; None] ]> table in
     if ((1 <=? plot_number) && (plot_number <=? 4)
         && negb (String.eqb plot_name ""))%bool
     then of_result
            (set_plot_name site_code (Z.to_nat (plot_number - 1)) plot_name plot_names)
     else ret plot_names) out
    = (Ok table', out)
    /\ forall code, table' !! code = plot_table_of (done ++ [(c, n, name)]) code.
Proof.
  intros Hinv Hrow.
  unfold plot_of_row, cell_of in Hrow. unfold row_strip, row_int.
  destruct (row !! "site_code") as [[site_code|]|]; try discriminate.
  destruct (row !! "plot_number") as [[plot_number|]|]; try discriminate.
  destruct (row !! "plot_name") as [[plot_name|]|]; try discriminate.
  destruct (int plot_number) as [k|e]; [|discriminate].
  inversion Hrow; subst c n name. clear Hrow.
  unfold bind at 1. cbn [of_result]. unfold ret at 1.
  unfold bind at 1. cbn [of_result]. unfold ret at 1.
  unfold bind at 1. cbn [of_result]. unfold ret at 1.
  cbv zeta.
  set (c := strip site_code). set (name := strip plot_name).
  set (table1 := if bool_decide (is_Some (table !! c)) then table
                 else <[ c := [None; None; None; None] ]> table).
  assert (Hslots : table1 !! c = Some (map (plot_name_in done c) [1; 2; 3; 4])).
  { subst table1. rewrite <- plot_table_of_slots, <- Hinv.
    destruct (bool_decide_reflect (is_Some (table !! c))) as [[slots Hs]|Hnone].
    - now rewrite Hs.
    - rewrite lookup_insert_eq. apply eq_None_not_Some in Hnone. now rewrite Hnone. }
  assert (Hother : forall code, code <> c -> table1 !! code = table !! code).
  { intros code Hne. subst table1. destruct (bool_decide (is_Some (table !! c)));
      [reflexivity|]. now rewrite lookup_insert_ne by congruence. }
  destruct ((1 <=? k) && (k <=? 4) && negb (String.eqb name ""))%bool eqn:Hnamed.
  - apply andb_true_iff in Hnamed as [Hrange Hname].
    apply andb_true_iff in Hrange as [Hlo Hhi].
    apply Z.leb_le in Hlo. apply Z.leb_le in Hhi.
    apply negb_true_iff, String.eqb_neq in Hname.
    unfold set_plot_name. rewrite Hslots.
    replace (Nat.ltb (Z.to_nat (k - 1)) (length (map (plot_name_in done c) [1; 2; 3; 4])))
      with true by (symmetry; apply Nat.ltb_lt; cbn; lia).
    cbn [of_result]. unfold ret. eexists. split; [reflexivity|].
    intros code. destruct (decide (code = c)) as [->|Hne].
    + rewrite lookup_insert_eq, plot_table_of_snoc_same. f_equal.
      assert (Hk : k = 1 \/ k = 2 \/ k = 3 \/ k = 4) by lia.
      destruct Hk as [-> | [-> | [-> | ->]]]; cbn;
        repeat (first [ rewrite bool_decide_eq_true_2 by (split; [reflexivity | exact Hname])
                      | rewrite bool_decide_eq_false_2 by (intros (? & _); discriminate) ]);
        reflexivity.
    + rewrite lookup_insert_ne by congruence.
      rewrite Hother, Hinv by exact Hne. symmetry. now apply plot_table_of_snoc_other.
  - unfold ret. eexists. split; [reflexivity|].
    intros code. destruct (decide (code = c)) as [->|Hne].
    + rewrite Hslots, plot_table_of_snoc_same. f_equal.
      apply map_ext_in. intros m Hm.
      rewrite bool_decide_eq_false_2; [reflexivity|].
      intros (-> & Hname).
      apply andb_false_iff in Hnamed as [Hrange|Hblank].
      * cbn in Hm. apply andb_false_iff in Hrange as [Hlo|Hhi];
          [apply Z.leb_gt in Hlo | apply Z.leb_gt in Hhi]; lia.
      * apply negb_false_iff, String.eqb_eq in Hblank. contradiction.
    + rewrite Hother, Hinv by exact Hne. symmetry. now apply plot_table_of_snoc_other.
Qed.

Lemma plot_row_fails (int : string -> Result Z) (row : CsvRow)
    (table : gmap string (list (option string))) (out : list string) :
  plot_of_row int row = None ->
  exists e,
    (do site_code <- of_result (row_strip row "site_code");
     do plot_number <- of_result (row_int int row "plot_number");
     do plot_name <- of_result (row_strip row "plot_name");
     let plot_names :=
       if bool_decide (is_Some (table !! site_code)) then table
       else <[ site_code := [None; None; None; None] ]> table in
     if ((1 <=? plot_number) && (plot_number <=? 4)
         && negb (String.eqb plot_name ""))%bool
     then of_result
            (set_plot_name site_code (Z.to_nat (plot_number - 1)) plot_name plot_names)
     else ret plot_names) out
    = (Raise e, out).
Proof.
  intros Hrow. unfold plot_of_row, cell_of in Hrow.
  unfold row_strip, row_int, bind, of_result, ret, raise.
  destruct (row !! "site_code") as [[site_code|]|]; try (eexists; reflexivity).
  destruct (row !! "plot_number") as [[plot_number|]|]; try (eexists; reflexivity).
  destruct (int plot_number) as [k|e]; [|eexists; reflexivity].
  destruct (row !! "plot_name") as [[plot_name|]|]; try (eexists; reflexivity).
  discriminate.
Qed.

Lemma bind_raise {W A B} (m : M W A) (k : A -> M W B) (w w1 : W) (e : exn) :
  m w = (Raise e, w1) -> bind m k w = (Raise e, w1).
Proof. intros Hm. unfold bind. now rewrite Hm. Qed.

Lemma plot_rows_loop (int : string -> Result Z) (rows : list CsvRow) :
  forall (done : list (string * Z * string))
         (table : gmap string (list (option string))) (out : list string),
  (forall code, table !! code = plot_table_of done code) ->
  (exists plots table',
     map (plot_of_row int) rows = map Some plots
     /\ for_each rows
          (fun row plot_names =>
             do site_code <- of_result (row_strip row "site_code");
             do plot_number <- of_result (row_int int row "plot_number");
             do plot_name <- of_result (row_strip row "plot_name");
             let plot_names :=
               if bool_decide (is_Some (plot_names !! site_code)) then plot_names
               else <[ site_code := [None; None; None; None] ]> plot_names in
             if ((1 <=? plot_number) && (plot_number <=? 4)
                 && negb (String.eqb plot_name ""))%bool
             then of_result
                    (set_plot_name site_code (Z.to_nat (plot_number - 1)) plot_name
                       plot_names)
             else ret plot_names)
          table out
        = (Ok table', out)
     /\ forall code, table' !! code = plot_table_of (done ++ plots) code)
  \/ (~ Forall (fun row => is_Some (plot_of_row int row)) rows
      /\ exists e,
           for_each rows
             (fun row plot_names =>
                do site_code <- of_result (row_strip row "site_code");
                do plot_number <- of_result (row_int int row "plot_number");
                do plot_name <- of_result (row_strip row "plot_name");
                let plot_names :=
                  if bool_decide (is_Some (plot_names !! site_code)) then plot_names
                  else <[ site_code := [None; None; None; None] ]> plot_names in
                if ((1 <=? plot_number) && (plot_number <=? 4)
                    && negb (String.eqb plot_name ""))%bool
                then of_result
                       (set_plot_name site_code (Z.to_nat (plot_number - 1)) plot_name
                          plot_names)
                else ret plot_names)
             table out
           = (Raise e, out)).
Proof.
  induction rows as [|row rows IH]; intros done table out Hinv.
  - left. exists [], table. split; [reflexivity|]. split; [reflexivity|].
    intros code. rewrite app_nil_r. apply Hinv.
  - cbn [for_each]. cbv beta.
    destruct (plot_of_row int row) as [[[c n] name]|] eqn:Hrow.
    + destruct (plot_row_step int row done table out c n name Hinv Hrow)
        as (table1 & Hstep & Hinv1).
      destruct (IH _ _ out Hinv1) as [(plots & table' & Hplots & Hrun & Hspec)
                                     |(Hnot & e & Hrun)].
      * left. exists ((c, n, name) :: plots), table'.
        split; [cbn [map]; now rewrite Hrow, Hplots|].
        split; [rewrite (bind_ok _ _ _ _ _ Hstep); exact Hrun|].
        intros code. rewrite Hspec, <- app_assoc. reflexivity.
      * right. split; [intros Hall; apply Forall_cons in Hall as [_ ?]; tauto|].
        exists e. rewrite (bind_ok _ _ _ _ _ Hstep). exact Hrun.
    + right. split.
      * intros Hall. apply Forall_cons in Hall as [[? Hsome] _]. congruence.
      * destruct (plot_row_fails int row table out Hrow) as (e & Hfail).
        exists e. exact (bind_raise _ _ _ _ _ Hfail).
Qed.

Lemma map_Some_Forall {A B} (f : A -> option B) (l : list A) (l' : list B) :
  map f l = map Some l' -> Forall (fun x => is_Some (f x)) l.
Proof.
  revert l'. induction l as [|x l IH]; intros [|y l'] Heq; try discriminate;
    constructor; inversion Heq; eauto.
Qed.


(** *** The metadata tab *)

Lemma named_plot_slot (plot_names : option (list (option string))) (plot_num : Z) :
  1 <= plot_num -> named_plot plot_names plot_num = Ok (plot_slot plot_names plot_num).
Proof.
  intros Hn. unfold named_plot, plot_slot.
  destruct plot_names as [[|slot slots]|]; [now rewrite lookup_nil | | reflexivity].
  destruct (plot_num <=? Z.of_nat (length (slot :: slots))) eqn:Hle.
  - apply Z.leb_le in Hle. unfold list_getitem.
    destruct ((slot :: slots) !! Z.to_nat (plot_num - 1)) eqn:Hl; [reflexivity|].
    apply lookup_ge_None in Hl. lia.
  - apply Z.leb_gt in Hle. symmetry. f_equal. apply lookup_ge_None. lia.
Qed.

Section MetadataTabProperties.
Variable RESERVES : list (string * string).
Variable PLOT_NAMES : gmap string (list (option string)).

Lemma update_plot_labels_run (reserve_code : string) (tab : MetadataTab) :
  update_plot_labels PLOT_NAMES reserve_code tab
  = (Ok tt,
     set_plot_labels
       (<[ 4 := plot_label_text (PLOT_NAMES !! reserve_code) 4 ]>
        (<[ 3 := plot_label_text (PLOT_NAMES !! reserve_code) 3 ]>
         (<[ 2 := plot_label_text (PLOT_NAMES !! reserve_code) 2 ]>
          (<[ 1 := plot_label_text (PLOT_NAMES !! reserve_code) 1 ]> (plot_labels tab)))))
       tab).
Proof.
  unfold update_plot_labels. rewrite range_1_5. cbn [for_each].
  rewrite !named_plot_slot by lia.
  unfold plot_label_text, bind, of_result, ret, modify.
  destruct (plot_slot (PLOT_NAMES !! reserve_code) 1) as [[?|]|];
    destruct (plot_slot (PLOT_NAMES !! reserve_code) 2) as [[?|]|];
    destruct (plot_slot (PLOT_NAMES !! reserve_code) 3) as [[?|]|];
    destruct (plot_slot (PLOT_NAMES !! reserve_code) 4) as [[?|]|];
    reflexivity.
Qed.

(** The loop of [on_reserve_changed] stops at the first reserve with the
    name [text]. *)
Lemma on_reserve_changed_cases (text : string) (tab : MetadataTab) :
  on_reserve_changed RESERVES PLOT_NAMES text tab
  = match reserve_named RESERVES text with
    | Some reserve =>
        update_plot_labels PLOT_NAMES (fst reserve) (set_site_code_edit (fst reserve) tab)
    | None => (Ok tt, set_site_code_edit "" tab)
    end.
Proof.
  unfold on_reserve_changed, reserve_named.
  induction RESERVES as [|[code name] reserves IH]; [reflexivity|].
  cbn [on_reserve_changed_from List.find snd].
  destruct (String.eqb name text); [reflexivity | exact IH].
Qed.

(** X18. Choosing a reserve: [on_reserve_changed] never raises.  When
    the text is the name of a reserve of the list, the site code becomes
    the code of the first reserve with that name, and the labels of plots 1
    to 4 are set from the entry of that code in the plot table: "Plot n:
    name" for a named plot, "Plot n: None" for a plot that the entry leaves
    unnamed, "Plot n" when the site has no entry or a shorter one.  When no
    reserve has that name, the site code is emptied and the labels stay as
    they were.  No other widget of the tab changes. *)
Theorem on_reserve_changed_first_match (text : string) (tab : MetadataTab) :
  exists tab',
    on_reserve_changed RESERVES PLOT_NAMES text tab = (Ok tt, tab')
    /\ form_entries tab' = form_entries tab
    /\ match reserve_named RESERVES text with
       | Some reserve =>
           site_code_edit tab' = fst reserve
           /\ (forall n, 1 <= n <= 4 ->
                 plot_labels tab' !! n
                 = Some (plot_label_text (PLOT_NAMES !! fst reserve) n))
           /\ (forall n, ~ 1 <= n <= 4 -> plot_labels tab' !! n = plot_labels tab !! n)
       | None => site_code_edit tab' = "" /\ plot_labels tab' = plot_labels tab
       end.
Proof.
  rewrite on_reserve_changed_cases.
  destruct (reserve_named RESERVES text) as [[code name]|].
  - rewrite update_plot_labels_run.
    eexists. split; [reflexivity|]. split; [reflexivity|].
    cbn [site_code_edit plot_labels set_plot_labels set_site_code_edit fst].
    split; [reflexivity|]. split.
    + intros n Hn. assert (Hk : n = 1 \/ n = 2 \/ n = 3 \/ n = 4) by lia.
      destruct Hk as [-> | [-> | [-> | ->]]];
        repeat (rewrite lookup_insert_ne by discriminate); now rewrite lookup_insert_eq.
    + intros n Hn. rewrite !lookup_insert_ne by lia. reflexivity.
  - eexists. split; [reflexivity|]. cbn. auto.
Qed.

(** **** The boxes of the devices *)

Lemma set_checked_loop (plot_num : Z) (checked : bool) (keys : list string) :
  forall tab : MetadataTab,
  exists boxes,
    for_each keys (fun dev_code _ => setChecked plot_num dev_code checked) tt tab
    = (Ok tt, set_device_checkboxes boxes tab)
    /\ forall p c,
         boxes p c
         = if ((p =? plot_num) && existsb (String.eqb c) keys)%bool then checked
           else device_checkboxes tab p c.
Proof.
  induction keys as [|k keys IH]; intros tab.
  - exists (device_checkboxes tab). split; [now destruct tab|].
    intros p c. cbn. now rewrite andb_false_r.
  - cbn [for_each]. unfold bind at 1. unfold setChecked at 1, modify.
    destruct (IH (set_device_checkboxes
                    (fun p c => if ((p =? plot_num) && String.eqb c k)%bool then checked
                                else device_checkboxes tab p c) tab))
      as (boxes & Hrun & Hboxes).
    exists boxes. split; [rewrite Hrun; now destruct tab|].
    intros p c. rewrite Hboxes. cbn [device_checkboxes set_device_checkboxes existsb].
    destruct (p =? plot_num); destruct (String.eqb c k);
      destruct (existsb (String.eqb c) keys); reflexivity.
Qed.

Lemma set_all_loop (checked : bool) (keys : list string) (plots : list Z) :
  forall tab : MetadataTab,
  exists boxes,
    for_each plots
      (fun plot_num _ =>
         for_each keys (fun dev_code _ => setChecked plot_num dev_code checked) tt)
      tt tab
    = (Ok tt, set_device_checkboxes boxes tab)
    /\ forall p c,
         boxes p c
         = if (existsb (Z.eqb p) plots && existsb (String.eqb c) keys)%bool then checked
           else device_checkboxes tab p c.
Proof.
  induction plots as [|n plots IH]; intros tab.
  - exists (device_checkboxes tab). split; [now destruct tab|]. reflexivity.
  - cbn [for_each]. destruct (set_checked_loop n checked keys tab) as (boxes1 & Hrun1 & Hb1).
    rewrite (bind_ok _ _ _ _ _ Hrun1).
    destruct (IH (set_device_checkboxes boxes1 tab)) as (boxes & Hrun & Hboxes).
    exists boxes. split; [rewrite Hrun; now destruct tab|].
    intros p c. rewrite Hboxes. cbn [device_checkboxes set_device_checkboxes existsb].
    rewrite Hb1.
    destruct (p =? n); destruct (existsb (Z.eqb p) plots);
      destruct (existsb (String.eqb c) keys); reflexivity.
Qed.

Lemma existsb_plot (p : Z) : existsb (Z.eqb p) [1; 2; 3; 4] = true <-> 1 <= p <= 4.
Proof.
  cbn. rewrite !orb_true_iff, !Z.eqb_eq. split; [intuition lia|].
  intros Hp. assert (Hk : p = 1 \/ p = 2 \/ p = 3 \/ p = 4) by lia. tauto.
Qed.

Lemma existsb_key (c : string) (keys : list string) :
  existsb (String.eqb c) keys = true <-> In c keys.
Proof.
  rewrite existsb_exists. split.
  - intros (k & Hin & Heq). apply String.eqb_eq in Heq. now subst.
  - intros Hin. exists c. split; [exact Hin | apply String.eqb_refl].
Qed.

Lemma selected_devices_boxes (tab1 tab2 : MetadataTab) :
  site_code_edit tab1 = site_code_edit tab2 ->
  (forall n c, 1 <= n <= 4 -> In c DEVICE_TYPES_keys ->
     device_checkboxes tab1 n c = device_checkboxes tab2 n c) ->
  selected_devices PLOT_NAMES tab1 = selected_devices PLOT_NAMES tab2.
Proof.
  intros Hcode Hboxes. unfold selected_devices. rewrite Hcode, range_1_5. cbn [flat_map].
  assert (Hf : forall n, 1 <= n <= 4 ->
            List.filter (device_checkboxes tab1 n) DEVICE_TYPES_keys
            = List.filter (device_checkboxes tab2 n) DEVICE_TYPES_keys).
  { intros n Hn. apply filter_ext_in. intros c Hc. now apply Hboxes. }
  rewrite !Hf by lia. reflexivity.
Qed.

(** X19. The buttons for all devices: [select_all_devices] checks and
    [clear_all_devices] unchecks the sixteen boxes of plots 1 to 4 and the
    four device types, and nothing else of the tab changes.  The device
    list that [validate_and_next] builds from the form is then, after
    [select_all_devices], the sixteen devices p1_ML, p1_SA, ..., p4_BT in
    this order, and after [clear_all_devices] the empty list. *)
Theorem select_all_and_clear_all (checked : bool) (tab : MetadataTab) :
  exists tab',
    set_all_devices checked tab = (Ok tt, tab')
    /\ tab' = set_device_checkboxes (device_checkboxes tab') tab
    /\ (forall n c, 1 <= n <= 4 -> In c DEVICE_TYPES_keys ->
          device_checkboxes tab' n c = checked)
    /\ (forall n c, ~ (1 <= n <= 4 /\ In c DEVICE_TYPES_keys) ->
          device_checkboxes tab' n c = device_checkboxes tab n c)
    /\ (checked = true ->
        select_all_devices tab = (Ok tt, tab')
        /\ map device_label (selected_devices PLOT_NAMES tab') = all_device_labels
        /\ length (selected_devices PLOT_NAMES tab') = 16%nat)
    /\ (checked = false ->
        clear_all_devices tab = (Ok tt, tab')
        /\ selected_devices PLOT_NAMES tab' = []).
Proof.
  unfold select_all_devices, clear_all_devices, set_all_devices. rewrite range_1_5.
  destruct (set_all_loop checked DEVICE_TYPES_keys [1; 2; 3; 4] tab)
    as (boxes & Hrun & Hboxes).
  exists (set_device_checkboxes boxes tab). split; [exact Hrun|].
  split; [now destruct tab|].
  cbn [device_checkboxes set_device_checkboxes].
  assert (Hin : forall n c, 1 <= n <= 4 -> In c DEVICE_TYPES_keys -> boxes n c = checked).
  { intros n c Hn Hc. rewrite Hboxes.
    rewrite (proj2 (existsb_plot n) Hn), (proj2 (existsb_key c _) Hc). reflexivity. }
  split; [exact Hin|]. split.
  { intros n c Hout. rewrite Hboxes.
    destruct (existsb (Z.eqb n) [1; 2; 3; 4]) eqn:Hn; [|reflexivity].
    destruct (existsb (String.eqb c) DEVICE_TYPES_keys) eqn:Hc; [|reflexivity].
    exfalso. apply Hout. split; [now apply existsb_plot | now apply existsb_key]. }
  split.
  - intros ->. split; [exact Hrun|].
    assert (Hall : selected_devices PLOT_NAMES (set_device_checkboxes boxes tab)
                   = selected_devices PLOT_NAMES
                       (set_device_checkboxes (fun _ _ => true) tab)).
    { apply selected_devices_boxes; [reflexivity|]. intros n c Hn Hc. now apply Hin. }
    rewrite Hall. split; reflexivity.
  - intros ->. split; [exact Hrun|].
    rewrite (selected_devices_boxes _ (set_device_checkboxes (fun _ _ => false) tab));
      [reflexivity | reflexivity|].
    intros n c Hn Hc. now apply Hin.
Qed.

End MetadataTabProperties.

(** **** From the file of the sites to the form *)

Lemma load_reserves_named (sites_csv : Result CsvFile) (out out' : list string)
    (reserves : list (string * string)) :
  load_reserves_from_csv sites_csv out = (Ok reserves, out') ->
  Forall (fun site => named_site site = true) reserves.
Proof.
  unfold load_reserves_from_csv, try_except. intros Hrun.
  assert (Hfallback : Forall (fun site => named_site site = true) fallback_reserves)
    by (repeat constructor).
  destruct sites_csv as [f|e].
  - rewrite bind_ok with (a := f) (w1 := out) in Hrun by reflexivity.
    destruct (reserves_loop (csv_rows f) [] out) as [(_ & Hloop)|(_ & e & Hloop)].
    + rewrite (bind_ok _ _ _ _ _ Hloop) in Hrun. unfold reader_end in Hrun.
      destruct (csv_error f).
      * inversion Hrun; subst. exact Hfallback.
      * inversion Hrun; subst. cbn [app].
        apply List.Forall_forall. intros site Hin. apply filter_In in Hin. tauto.
    + rewrite (bind_raise _ _ _ _ _ Hloop) in Hrun. inversion Hrun; subst.
      exact Hfallback.
  - inversion Hrun; subst. exact Hfallback.
Qed.

Lemma reserve_named_listed (reserves : list (string * string)) (name : string) :
  In name (map snd reserves) ->
  exists code, reserve_named reserves name = Some (code, name)
               /\ In (code, name) reserves.
Proof.
  intros Hin. unfold reserve_named.
  destruct (List.find _ reserves) as [[code name']|] eqn:Hfind.
  - apply find_some in Hfind as [Hin' Heq]. apply String.eqb_eq in Heq.
    cbn [snd] in Heq. subst name'. eauto.
  - apply in_map_iff in Hin as ([code name'] & Heq & Hin). cbn [snd] in Heq. subst name'.
    pose proof (find_none _ _ Hfind _ Hin) as Hno. cbn [snd] in Hno.
    rewrite String.eqb_refl in Hno. discriminate.
Qed.


(** *** The end of an upload *)

Lemma progress_signals_progress (names : list string) :
  forall first total,
  Forall (fun s => exists k t n, s = progress k t n) (progress_signals first total names).
Proof.
  induction names as [|n names IH]; intros first total; cbn [progress_signals];
    constructor; eauto.
Qed.

Lemma progress_signals_length (names : list string) :
  forall first total, length (progress_signals first total names) = length names.
Proof.
  induction names as [|n names IH]; intros first total; cbn [progress_signals length];
    [reflexivity|]. now rewrite IH.
Qed.

Section UploadEnds.
Context {FS : Type} {HFS : FileSystem FS} {BX : Type} {HBX : BoxClient BX}.
Variable BOX_TARGET_FOLDER_ID : string.

(** X21. Every run of the upload thread ends with exactly one
    [finished] signal: [run] never raises, leaves the local files as they
    are, and the signals it emits are progress signals followed by one
    [finished(success, message)], its last signal.  Without a client the
    only thing it does is to emit [finished(False, "Could not authenticate
    with Box")]; [success] is true only when the body completed, with one
    progress signal per regular file under the deployment folder. *)
Theorem run_finishes_exactly_once (folder : Path) (w : Uploader FS BX) r w' :
  run BOX_TARGET_FOLDER_ID folder w = (r, w') ->
  r = Ok tt
  /\ up_fs w' = up_fs w
  /\ exists evs before success message,
       up_events w' = up_events w ++ evs
       /\ omap signal_of evs = before ++ [finished success message]
       /\ Forall (fun s => exists k t n, s = progress k t n) before
       /\ (box_client w = None ->
           evs = [UvSignal (finished false "Could not authenticate with Box")])
       /\ (success = true ->
           is_Some (box_client w)
           /\ length before
              = length (List.filter (fun p => is_file p (up_fs w))
                          (rglob folder (up_fs w)))).
Proof.
  intros Hrun. unfold run, try_except in Hrun.
  destruct (box_client w) as [bx|] eqn:Hbx.
  - destruct (run_body BOX_TARGET_FOLDER_ID folder w) as [[[]|e] w0] eqn:Hbody.
    + inversion Hrun; subst r w'.
      destruct (run_body_cases BOX_TARGET_FOLDER_ID _ _ _ _ _ Hbx Hbody)
        as (Hfs & bx' & evs & _ & Hev & _ & Hcase).
      cbv zeta in Hcase. destruct Hcase as (_ & _ & Hsig).
      split; [reflexivity|]. split; [exact Hfs|].
      eexists evs, _, true, _. split; [exact Hev|]. split; [exact Hsig|].
      split; [apply progress_signals_progress|]. split; [discriminate|].
      intros _. split; [eauto|].
      now rewrite progress_signals_length, length_map.
    + destruct (upload_error_is_reported BOX_TARGET_FOLDER_ID _ _ _ _ Hbody)
        as (w3 & bx1 & bx2 & evs & Hrun' & _ & _ & Hev & _ & _ & Hfs & Hsig & _).
      unfold run, try_except in Hrun'. rewrite Hbody in Hrun'.
      rewrite Hrun' in Hrun. inversion Hrun; subst r w'.
      split; [reflexivity|]. split; [exact Hfs|].
      exists (evs ++ [UvSignal (finished false ("Upload error: " +:+ e))]),
        (omap signal_of evs), false, ("Upload error: " +:+ e).
      split; [exact Hev|].
      split; [now rewrite omap_app|].
      split; [apply List.Forall_forall; exact Hsig|].
      split; discriminate.
  - unfold run_body, bind, gets in Hrun. rewrite Hbx in Hrun.
    unfold up_emit, modify in Hrun. inversion Hrun; subst r w'.
    split; [reflexivity|]. split; [reflexivity|].
    exists [UvSignal (finished false "Could not authenticate with Box")], [], false,
      "Could not authenticate with Box".
    split; [reflexivity|]. split; [reflexivity|]. split; [constructor|].
    split; [reflexivity | discriminate].
Qed.

End UploadEnds.

(** *** The rows of file_metadata.csv *)

Lemma record_keys_are_fields :
  (list_to_set record_keys : gset string) ⊆ list_to_set csv_fields.
Proof.
  intros key. rewrite !elem_of_list_to_set. unfold record_keys, csv_fields.
  rewrite !elem_of_cons, !elem_of_nil. intros Hkey.
  repeat (destruct Hkey as [->|Hkey]; [tauto|]). destruct Hkey.
Qed.

Lemma writerows_of_records (inventory : list FileInfo) :
  Forall (fun info : FileInfo =>
            dom info = list_to_set record_keys
            /\ info !! "latitude" = None /\ info !! "longitude" = None) inventory ->
  exists rows,
    writerows csv_fields inventory = (rows, None)
    /\ Forall2 (fun (info : FileInfo) row =>
                  row = map (fun key => default "" (csv_cell <$> info !! key)) csv_fields)
         inventory rows.
Proof.
  induction 1 as [|info inventory (Hdom & _) _ (rows & Hrows & Hall)].
  - exists []. split; [reflexivity | constructor].
  - cbn [writerows]. unfold dict_to_list.
    rewrite bool_decide_eq_true_2 by (rewrite Hdom; apply record_keys_are_fields).
    rewrite Hrows. eexists. split; [reflexivity|]. constructor; [reflexivity | exact Hall].
Qed.

Section SidecarRows.
Context {FS : Type} {HFS : FileSystem FS} {H : Type} {HH : Hashlib H}.
Variable EXIF_AVAILABLE : bool.


End SidecarRows.

(** *** A second copy for the same device *)

Section SecondCopy.
Context {FS : Type} {HFS : FileSystem FS} {H : Type} {HH : Hashlib H}.
Variable EXIF_AVAILABLE : bool.

(** The destinations of a complete run, from the sequence number and the
    files alone. *)
Lemma processed_destinations dest_dir (f : Z -> string -> string) seq files evs infos c :
  processed dest_dir f seq files evs infos c -> c = true ->
  map snd (copies_of evs)
  = imap (fun k (rf : Path * string) => dest_dir /: f (seq + Z.of_nat k) (snd rf)) files.
Proof.
  unfold copies_of.
  induction 1 as [| | | seq root filename files info logs evs infos c _ _ _ _ Hlogs Hp IH];
    intros Hc; try discriminate; [reflexivity|].
  cbn [omap list_omap copy_of record_of].
  rewrite omap_app, omap_logs by (auto || reflexivity).
  cbn [app map snd]. rewrite imap_cons. cbn [snd]. rewrite Z.add_0_r. f_equal.
  rewrite (IH Hc). apply imap_ext. intros k rf _. cbn. do 2 f_equal. lia.
Qed.

Lemma imap_suffixes dest_dir org site pn dc d (seq : Z) (files : list (Path * string)) :
  imap (fun k (rf : Path * string) =>
          dest_dir /: spec_filename org site pn dc d (seq + Z.of_nat k)
                        (name_suffix (snd rf))) files
  = imap (fun k (ext : string) =>
            dest_dir /: (String.concat "_"
                           [ org; site; "plot" +:+ str_of_int pn; dc;
                             strftime_Ym d; format_05d (seq + Z.of_nat k) ] +:+ ext))
      (map (fun rf : Path * string => lower (name_suffix (snd rf))) files).
Proof.
  change (map (fun rf : Path * string => lower (name_suffix (snd rf))) files)
    with ((fun rf : Path * string => lower (name_suffix (snd rf))) <$> files).
  rewrite imap_fmap. apply imap_ext. intros k rf _. reflexivity.
Qed.

(** X23. A second copy for the same device overwrites the first: two
    calls of [process_sd_card_files] that return, for the same plot and
    device into the same folder and with the same metadata, give the k-th
    eligible file the same destination path whenever the lower-cased
    extensions of the eligible files agree in order, as they do when the
    same card is copied again.  The files of the first call are then
    written over (the names do not depend on the names on the card), while
    each call appends its own records, which name the same files. *)
Theorem second_copy_overwrites_the_first walk1 walk2 dest_dir pn pl dc dl
    (w1 w1' w2 w2' : Wizard FS) (n1 n2 : Z) :
  process_sd_card_files (H:=H) EXIF_AVAILABLE walk1 dest_dir pn pl dc dl w1 = (Ok n1, w1') ->
  process_sd_card_files (H:=H) EXIF_AVAILABLE walk2 dest_dir pn pl dc dl w2 = (Ok n2, w2') ->
  metadata w2 = metadata w1 ->
  map (fun rf : Path * string => lower (name_suffix (snd rf))) (copied_files walk1)
  = map (fun rf : Path * string => lower (name_suffix (snd rf))) (copied_files walk2) ->
  exists evs1 evs2 infos1 infos2,
    events w1' = events w1 ++ evs1
    /\ events w2' = events w2 ++ evs2
    /\ map snd (copies_of evs1) = map snd (copies_of evs2)
    /\ file_inventory w1' = file_inventory w1 ++ infos1
    /\ file_inventory w2' = file_inventory w2 ++ infos2
    /\ map (fun info : FileInfo => info !! "new_filename") infos1
       = map (fun info : FileInfo => info !! "new_filename") infos2
    /\ n1 = n2
    /\ n1 = Z.of_nat (length infos1).
Proof.
  intros Hrun1 Hrun2 Hmeta Hext.
  apply process_sd_card_files_run in Hrun1, Hrun2.
  destruct Hrun1 as [(e & He & _)|Hrun1]; [discriminate|].
  destruct Hrun2 as [(e & He & _)|Hrun2]; [discriminate|].
  destruct Hrun1 as (de1 & d1 & org1 & site1 & evs1 & infos1 & c1 & Hde1 & Hd1 & Ho1 & Hs1
                     & Hp1 & Hev1 & Hinv1 & _ & _ & _ & _ & _ & _ & -> & Hn1).
  destruct Hrun2 as (de2 & d2 & org2 & site2 & evs2 & infos2 & c2 & Hde2 & Hd2 & Ho2 & Hs2
                     & Hp2 & Hev2 & Hinv2 & _ & _ & _ & _ & _ & _ & -> & Hn2).
  rewrite Hmeta in Hde2, Ho2, Hs2.
  assert (de2 = de1) by congruence. subst de2.
  assert (d2 = d1) by congruence. subst d2.
  assert (org2 = org1) by congruence. subst org2.
  assert (site2 = site1) by congruence. subst site2.
  exists evs1, evs2, infos1, infos2.
  split; [exact Hev1|]. split; [exact Hev2|].
  split.
  { rewrite (processed_destinations _ _ _ _ _ _ _ Hp1 eq_refl).
    rewrite (processed_destinations _ _ _ _ _ _ _ Hp2 eq_refl).
    rewrite !imap_suffixes, Hext. reflexivity. }
  split; [exact Hinv1|]. split; [exact Hinv2|].
  assert (Hlen : length (copied_files walk1) = length (copied_files walk2)).
  { rewrite <- (length_map (fun rf : Path * string => lower (name_suffix (snd rf)))), Hext.
    apply length_map. }
  split.
  { rewrite (processed_names _ _ _ _ _ _ _ Hp1 eq_refl).
    rewrite (processed_names _ _ _ _ _ _ _ Hp2 eq_refl).
    assert (Hnames : forall files : list (Path * string),
              imap (fun k (rf : Path * string) =>
                      Some (PyStr (spec_filename org1 site1 pn dc d1 (1 + Z.of_nat k)
                                     (name_suffix (snd rf))))) files
              = imap (fun k (ext : string) =>
                        Some (PyStr (String.concat "_"
                                       [ org1; site1; "plot" +:+ str_of_int pn; dc;
                                         strftime_Ym d1; format_05d (1 + Z.of_nat k) ]
                                     +:+ ext)))
                  ((fun rf : Path * string => lower (name_suffix (snd rf))) <$> files)).
    { intros files. rewrite imap_fmap. apply imap_ext. intros k rf _. reflexivity. }
    rewrite !Hnames.
    change ((fun rf : Path * string => lower (name_suffix (snd rf))) <$> copied_files walk1
            = (fun rf : Path * string => lower (name_suffix (snd rf))) <$> copied_files walk2)
      in Hext.
    now rewrite Hext. }
  rewrite Hn1, Hn2.
  rewrite (processed_complete_length _ _ _ _ _ _ Hp1).
  rewrite (processed_complete_length _ _ _ _ _ _ Hp2).
  split; [now rewrite Hlen | reflexivity].
Qed.

End SecondCopy.

(** *** The review step without a deployment *)

Section WithoutDeployment.
Context {FS : Type} {HFS : FileSystem FS}.
Variable format_megabytes : Z -> Result string.

Lemma generate_metadata_files_without_folder (w : Wizard FS) :
  current_deployment_folder w = None ->
  generate_metadata_files w
  = (Raise "unsupported operand type(s) for /: 'NoneType' and 'str'", w).
Proof.
  intros Hnone. unfold generate_metadata_files. unfold bind at 1.
  unfold deployment_path at 1. now rewrite Hnone.
Qed.

Lemma validate_and_next_collection_without_folder (ui : ReviewDialog) (w : Wizard FS) :
  current_deployment_folder w = None ->
  validate_and_next_collection format_megabytes ui w
  = if existsb (fun item => String.eqb (text2 item) "Pending") (device_tree w)
    then
      if continue_anyway ui
      then (Raise "unsupported operand type(s) for /: 'NoneType' and 'str'",
            set_events (events w ++ [pending_question]) w)
      else (Ok tt, set_events (events w ++ [pending_question]) w)
    else (Raise "unsupported operand type(s) for /: 'NoneType' and 'str'", w).
Proof.
  intros Hnone.
  assert (Hgo : forall w2 : Wizard FS,
            current_deployment_folder w2 = None ->
            (do _ <- generate_metadata_files;
             do _ <- update_review_tab format_megabytes (upload_to_box_cb ui);
             do _ <- emit (EvUi "tabs" "setCurrentIndex(2)");
             if (upload_to_box_cb ui && box_authenticated ui)%bool
             then upload_to_box (box_authenticated ui)
             else ret tt) w2
            = (Raise "unsupported operand type(s) for /: 'NoneType' and 'str'", w2)).
  { intros w2 H2. apply bind_raise. now apply generate_metadata_files_without_folder. }
  unfold validate_and_next_collection.
  unfold bind at 1. unfold gets at 1.
  destruct (existsb _ (device_tree w)); [|now apply Hgo].
  unfold bind at 1. unfold message_box at 1, emit at 1, modify.
  destruct (continue_anyway ui); [|reflexivity].
  now apply Hgo.
Qed.

(** X24. The review step without a deployment: when no deployment folder
    is set (no set-up was completed, or the wizard was reset),
    [validate_and_next_collection] raises the TypeError of [None /
    "file_metadata.csv"] as soon as it goes on, having written nothing, set
    no summary and switched no tab (at most its question about pending
    devices was asked), and [upload_to_box_manual] only shows "No Data".
    This is the state [start_new_deployment] leaves with the answer Yes:
    after it, [validate_and_next_collection] raises without asking
    anything. *)
Theorem nothing_to_review_without_deployment (ui : ReviewDialog) (authenticated : bool)
    (w : Wizard FS) :
  current_deployment_folder w = None ->
  (exists asked,
     (validate_and_next_collection format_megabytes ui w
      = (Raise "unsupported operand type(s) for /: 'NoneType' and 'str'",
         set_events (events w ++ asked) w)
      \/ (validate_and_next_collection format_megabytes ui w
          = (Ok tt, set_events (events w ++ asked) w)
          /\ continue_anyway ui = false /\ some_pending (device_tree w)))
     /\ (some_pending (device_tree w) -> asked = [pending_question])
     /\ (~ some_pending (device_tree w) -> asked = []))
  /\ upload_to_box_manual authenticated w
     = (Ok tt,
        set_events
          (events w ++ [EvMessageBox "information" "No Data" "No deployment data to upload."])
          w)
  /\ forall w0 : Wizard FS,
       exists w1,
         start_new_deployment true w0 = (Ok tt, w1)
         /\ current_deployment_folder w1 = None
         /\ validate_and_next_collection format_megabytes ui w1
            = (Raise "unsupported operand type(s) for /: 'NoneType' and 'str'", w1).
Proof.
  intros Hnone. split; [|split].
  - rewrite (validate_and_next_collection_without_folder ui w Hnone).
    destruct (existsb _ (device_tree w)) eqn:Hpending.
    + apply existsb_pending in Hpending. exists [pending_question].
      split; [|split; [reflexivity | tauto]].
      destruct (continue_anyway ui); [left; reflexivity|].
      right. split; [reflexivity|]. split; [reflexivity | exact Hpending].
    + assert (Hno : ~ some_pending (device_tree w)).
      { intros Hp. apply existsb_pending in Hp. congruence. }
      exists []. split; [|split; [tauto | reflexivity]].
      left. f_equal. destruct w; cbn. now rewrite app_nil_r.
  - unfold upload_to_box_manual. unfold bind, gets. now rewrite Hnone.
  - intros w0. eexists. split; [reflexivity|]. split; [reflexivity|].
    now rewrite validate_and_next_collection_without_folder.
Qed.

End WithoutDeployment.

(** ** The set-up and the collection step at work *)





Lemma copy_after_validate_and_next_witness :
  let r := fst (process walk Setup.ready) in
  let w' := snd (process walk Setup.ready) in
  strptime_Ymd "2024-03-15" = Ok {| year := 2024; month := 3; day := 15 |}
  /\ exists evs,
       events w' = events Setup.ready ++ evs
       /\ forall k src dst,
            copies_of evs !! k = Some (src, dst) ->
            exists root filename,
              copied_files walk !! k = Some (root, filename)
              /\ src = root /: filename
              /\ dst = device_folder /:
                   spec_filename "UC" "Bodega" 1 "ML"
                     {| year := 2024; month := 3; day := 15 |} (1 + Z.of_nat k)
                     (name_suffix filename).
Proof.
  cbv zeta.
  destruct (copy_after_validate_and_next (H:=list Byte.byte) true Setup.form walk
              device_folder 1 (PyStr "Dunes") "ML" "p1_ML" Setup.ready
              (fst (process walk Setup.ready)) (snd (process walk Setup.ready)))
    as (Hparse & _ & Hnames).
  - unfold QDateEdit_date. cbn. lia.
  - reflexivity.
  - apply surjective_pairing.
  - split; [exact Hparse | exact Hnames].
Defined.

Lemma copy_sd_card_data_cancelled_witness :
  copy_sd_card_data (H:=list Byte.byte) true
    {| current_item := Some 0%nat; copy_again := true; sd_path := ""; sd_walk := [] |}
    wizard
  = (Ok tt,
     set_events
       (events wizard
        ++ [EvFileDialog "Select SD Card for Plot 1 - Medium-Large Animal Camera"])
       wizard).
Proof.
  refine (proj2 (proj2 (copy_sd_card_data_cancelled (H:=list Byte.byte) true
                          {| current_item := Some 0%nat; copy_again := true;
                             sd_path := ""; sd_walk := [] |} wizard))
            0%nat
            {| text0 := "Plot 1 (Dunes)"; text1 := "Medium-Large Animal Camera";
               text2 := "Pending"; text3 := "0" |}
            p1_ML "Medium-Large Animal Camera" eq_refl eq_refl eq_refl eq_refl _
            eq_refl).
  discriminate.
Defined.

Lemma copy_sd_card_data_outcome_witness :
  let w' := snd (copy_sd_card_data (H:=list Byte.byte) true dialog wizard) in
  length (device_tree w') = length (device_tree wizard)
  /\ exists n,
       device_tree w' !! 0%nat
       = Some {| text0 := "Plot 1 (Dunes)"; text1 := "Medium-Large Animal Camera";
                 text2 := "Complete"; text3 := str_of_int n |}
       /\ n = Z.of_nat (length (file_inventory w')).
Proof.
  cbv zeta.
  destruct (copy_sd_card_data_outcome (H:=list Byte.byte) true dialog wizard 0%nat
              {| text0 := "Plot 1 (Dunes)"; text1 := "Medium-Large Animal Camera";
                 text2 := "Pending"; text3 := "0" |}
              p1_ML "Medium-Large Animal Camera" staging
              (fst (copy_sd_card_data (H:=list Byte.byte) true dialog wizard))
              (snd (copy_sd_card_data (H:=list Byte.byte) true dialog wizard))
              eq_refl eq_refl eq_refl eq_refl)
    as (Hlen & _ & [(e & fs1 & Hmk & _)|(fs1 & infos & _ & _ & _ & Hinv & _ & Hend)]).
  - discriminate.
  - discriminate.
  - reflexivity.
  - apply surjective_pairing.
  - discriminate Hmk.
  - split; [exact Hlen|].
    destruct Hend as [(n & Hn & _ & Hrow & _)|(e & Htree & _)].
    + exists n. split; [exact Hrow|]. rewrite Hinv, Hn. reflexivity.
    + exfalso. revert Htree. vm_compute. discriminate.
Defined.

Lemma skip_device_marks_row_witness :
  exists w',
    skip_device (Some 0%nat) wizard = (Ok tt, w')
    /\ device_tree w' !! 0%nat
       = Some {| text0 := "Plot 1 (Dunes)"; text1 := "Medium-Large Animal Camera";
                 text2 := "Skipped"; text3 := "0" |}
    /\ file_inventory w' = file_inventory wizard
    /\ fs w' = fs wizard.
Proof.
  destruct (proj2 (skip_device_marks_row (Some 0%nat) wizard) 0%nat
              {| text0 := "Plot 1 (Dunes)"; text1 := "Medium-Large Animal Camera";
                 text2 := "Pending"; text3 := "0" |}
              p1_ML "Medium-Large Animal Camera" eq_refl eq_refl eq_refl eq_refl)
    as (w' & Hrun & Hrow & _ & _ & _ & Hfs & Hinv & _).
  exists w'. auto.
Defined.

(** ** Names, progress lines and records of one copy *)

Lemma copies_have_distinct_destinations_witness :
  exists evs,
    events (snd (process walk Setup.ready)) = events Setup.ready ++ evs
    /\ NoDup (map snd (copies_of evs)).
Proof.
  destruct (copies_have_distinct_destinations (H:=list Byte.byte) true walk device_folder 1
              (PyStr "Dunes") "ML" "p1_ML" Setup.ready
              (fst (process walk Setup.ready)) (snd (process walk Setup.ready))
              (surjective_pairing _))
    as (evs & Hev & Hnd & _).
  exists evs. split; [exact Hev | exact Hnd].
Defined.

Lemma progress_is_logged_every_50_files_witness :
  exists infos evs,
    file_inventory (snd (process walk Setup.ready))
    = file_inventory Setup.ready ++ infos
    /\ events (snd (process walk Setup.ready)) = events Setup.ready ++ evs
    /\ omap log_of evs
       = map (fun j => progress_line (50 * j))
           (range 1 (Z.of_nat (length infos) / 50 + 1)).
Proof.
  destruct (progress_is_logged_every_50_files (H:=list Byte.byte) true walk device_folder 1
              (PyStr "Dunes") "ML" "p1_ML" Setup.ready
              (fst (process walk Setup.ready)) (snd (process walk Setup.ready))
              (surjective_pairing _))
    as (infos & evs & Hinv & Hev & Hlogs & _).
  exists infos, evs. split; [exact Hinv|]. split; [exact Hev | exact Hlogs].
Defined.

Lemma inventory_records_describe_copies_witness :
  exists infos,
    file_inventory (snd (process walk Setup.ready))
    = file_inventory Setup.ready ++ infos
    /\ Forall (fun info : FileInfo =>
         dom info = list_to_set record_keys
         /\ info !! "device_label" = Some (PyStr "p1_ML")
         /\ info !! "latitude" = None) infos.
Proof.
  destruct (inventory_records_describe_copies (H:=list Byte.byte) true walk device_folder 1
              (PyStr "Dunes") "ML" "p1_ML" Setup.ready
              (fst (process walk Setup.ready)) (snd (process walk Setup.ready))
              (surjective_pairing _))
    as (infos & Hinv & Hall).
  exists infos. split; [exact Hinv|].
  eapply Forall_impl; [exact Hall|]. cbv beta. intros info Hinfo. tauto.
Defined.

(** ** The review step at work *)

Lemma pending_devices_are_confirmed_witness :
  let run := validate_and_next_collection Setup.format_megabytes Setup.review_declined
               Setup.ready in
  fst run = Ok tt
  /\ events (snd run) = events Setup.ready ++ [pending_question].
Proof.
  cbv zeta.
  destruct (pending_devices_are_confirmed Setup.format_megabytes Setup.review_declined
              Setup.ready _ _ (surjective_pairing _))
    as (evs & Hev & Hpending & _).
  destruct Hpending as (rest & -> & _ & Hno).
  { vm_compute. constructor. reflexivity. }
  destruct (Hno eq_refl) as (-> & Hr & _). split; [exact Hr | exact Hev].
Defined.

Lemma review_follows_sidecar_files_witness :
  let run := validate_and_next_collection Setup.format_megabytes Setup.review
               Setup.ready in
  exists evs,
    events (snd run) = events Setup.ready ++ [pending_question] ++ evs
    /\ (fst run = Ok tt -> In (EvUi "upload_thread" "start()") evs).
Proof.
  cbv zeta.
  destruct (review_follows_sidecar_files Setup.format_megabytes Setup.review
              Setup.ready _ _ (surjective_pairing _) (fun _ => eq_refl))
    as (asked & evs & Hev & Hasked & _ & Hcase).
  rewrite Hasked in Hev by (vm_compute; constructor; reflexivity).
  exists evs. split; [exact Hev|].
  intros Hok. rewrite Hok in Hcase.
  destruct Hcase as (folder & csv & line & manifest & text & _ & ->).
  apply in_or_app. right. cbn. tauto.
Defined.

Lemma file_types_are_tallied_witness :
  let inventory := file_inventory (snd (process walk Setup.ready)) in
  exists tally,
    count_file_types inventory [] = Ok tally
    /\ total_count tally = Z.of_nat (length inventory)
    /\ NoDup (map fst tally).
Proof.
  cbv zeta.
  destruct (count_file_types (file_inventory (snd (process walk Setup.ready))) [])
    as [tally|e] eqn:Hrun; [|revert Hrun; vm_compute; discriminate].
  exists tally. split; [reflexivity|].
  destruct (file_types_are_tallied _ _ Hrun) as (_ & Hnd & _ & Htotal).
  split; [exact Htotal | exact Hnd].
Defined.

Lemma summary_after_copies_witness :
  exists text,
    update_review_tab Setup.format_megabytes true (snd (process walk Setup.ready))
    = (Ok tt,
       set_events (events (snd (process walk Setup.ready))
                   ++ [EvUi "summary_text" text])
         (snd (process walk Setup.ready))).
Proof.
  apply (summary_after_copies (H:=list Byte.byte) Setup.format_megabytes true
           Setup.plot_table true Setup.form).
  - vm_compute. reflexivity.
  - vm_compute. reflexivity.
  - destruct (process_sd_card_files_records (H:=list Byte.byte) true walk device_folder 1
                (PyStr "Dunes") "ML" "p1_ML" Setup.ready _ _
                (surjective_pairing (process walk Setup.ready)))
      as (infos & evs & Hinv & _ & Hall & _).
    rewrite Hinv. apply Forall_app. split; [constructor|].
    eapply Forall_impl; [exact Hall|]. cbv beta. intros info Hinfo.
    exists device_folder, 1, (PyStr "Dunes"), "ML", "p1_ML". exact Hinfo.
  - intros total _. unfold Setup.format_megabytes. eexists. reflexivity.
Defined.

(** ** The tables at start-up *)



(** ** The form, the thread and the CSV file at work *)

Lemma on_reserve_changed_first_match_witness :
  exists tab',
    on_reserve_changed fallback_reserves Setup.plot_table "Bodega Marine Reserve" Setup.form
    = (Ok tt, tab')
    /\ site_code_edit tab' = "Bodega"
    /\ plot_labels tab' !! 1 = Some "Plot 1: Dunes"
    /\ plot_labels tab' !! 2 = Some "Plot 2: None".
Proof.
  destruct (on_reserve_changed_first_match fallback_reserves Setup.plot_table
              "Bodega Marine Reserve" Setup.form)
    as (tab' & Hrun & _ & Hcase).
  change (reserve_named fallback_reserves "Bodega Marine Reserve")
    with (Some ("Bodega", "Bodega Marine Reserve")) in Hcase.
  cbn [fst] in Hcase. destruct Hcase as (Hcode & Hlabels & _).
  exists tab'. split; [exact Hrun|]. split; [exact Hcode|].
  rewrite !Hlabels by lia. split; vm_compute; reflexivity.
Defined.

Lemma select_all_and_clear_all_witness :
  exists tab',
    select_all_devices Setup.form_without_devices = (Ok tt, tab')
    /\ length (selected_devices Setup.plot_table tab') = 16%nat.
Proof.
  destruct (select_all_and_clear_all Setup.plot_table true Setup.form_without_devices)
    as (tab' & _ & _ & _ & _ & Hall & _).
  destruct (Hall eq_refl) as (Hrun & _ & Hlen). exists tab'. split; assumption.
Defined.


Lemma run_finishes_exactly_once_witness :
  fst (run "0" staging thread_unauthenticated) = Ok tt
  /\ exists evs,
       up_events (snd (run "0" staging thread_unauthenticated))
       = up_events thread_unauthenticated ++ evs
       /\ evs = [UvSignal (finished false "Could not authenticate with Box")].
Proof.
  destruct (run_finishes_exactly_once "0" staging thread_unauthenticated _ _
              (surjective_pairing _))
    as (Hr & _ & evs & before & success & message & Hev & _ & _ & Hnone & _).
  split; [exact Hr|]. exists evs. split; [exact Hev | exact (Hnone eq_refl)].
Defined.


(** ** A card copied twice, and a review with nothing to review *)

Lemma second_copy_overwrites_the_first_witness :
  let first := snd (process walk Setup.ready) in
  let second := snd (process walk first) in
  exists evs1 evs2,
    events first = events Setup.ready ++ evs1
    /\ events second = events first ++ evs2
    /\ map snd (copies_of evs1) = map snd (copies_of evs2)
    /\ length (file_inventory second) = 4%nat.
Proof.
  cbv zeta.
  destruct (second_copy_overwrites_the_first (H:=list Byte.byte) true walk walk device_folder 1
              (PyStr "Dunes") "ML" "p1_ML"
              Setup.ready (snd (process walk Setup.ready))
              (snd (process walk Setup.ready))
              (snd (process walk (snd (process walk Setup.ready)))) 2 2)
    as (evs1 & evs2 & infos1 & infos2 & Hev1 & Hev2 & Hdst & _).
  - apply ran_to. vm_compute. reflexivity.
  - apply ran_to. vm_compute. reflexivity.
  - vm_compute. reflexivity.
  - reflexivity.
  - exists evs1, evs2. split; [exact Hev1|]. split; [exact Hev2|].
    split; [exact Hdst|]. vm_compute. reflexivity.
Defined.

Lemma nothing_to_review_without_deployment_witness :
  validate_and_next_collection Setup.format_megabytes Setup.review Setup.desk
  = (Raise "unsupported operand type(s) for /: 'NoneType' and 'str'", Setup.desk)
  /\ upload_to_box_manual true Setup.desk
     = (Ok tt,
        set_events
          (events Setup.desk
           ++ [EvMessageBox "information" "No Data" "No deployment data to upload."])
          Setup.desk).
Proof.
  destruct (nothing_to_review_without_deployment Setup.format_megabytes Setup.review true
              Setup.desk eq_refl)
    as ((asked & Hrun & _ & Hnone) & Hmanual & _).
  split; [|exact Hmanual].
  rewrite Hnone in Hrun by (intros Hp; inversion Hp).
  destruct Hrun as [Hrun|(_ & Hno & _)]; [exact Hrun | discriminate Hno].
Defined.
